(* ===== verification/_CoqProject ===== *)
-Q . S2P
Prelude.v
Text.v
Paths.v
Except.v
StableSort.v
Dict.v
Taxonomy.v
DateExtractor.v
EntryParser.v
Classifier.v
Enricher.v
Interleaving.v
Dataset.v
Json.v
Summary.v
Log.v
Remote.v
IndexFilter.v
SameView.v
Query.v
Markup.v
IndexDom.v
SummaryDom.v
Pipeline.v
Files.v
Readme.v
PostPage.v
Site.v
