(* ===== verification/Prelude.v ===== *)
(** * newsy: a verification development for the policy-tracker pipeline

    The program (four Python files under [src/]) reads a text file of
    numbered HTML links, turns every well-formed line into a news entry,
    recovers a date from the URL, tags each entry with at most two themes and
    at most three keywords by substring matching against two fixed tables,
    fetches the text of social-media posts and re-tags those entries, writes
    the tagged entries as a JSON dataset, and renders two HTML views of it: a
    thematic summary, built in Python, and a chronological index that a
    script in the page filters in the browser.

    ** How the parts interact

    [DiaryProcessor.process] ([src/process_diary.py]) runs the parser, the
    classifier and the enricher in this order over one list of entries and
    hands the result to [generate_json_data].  The dataset, written as
    [diary_data.json] and its compressed copy, is the only interface to the
    two page generators: [SummaryGenerator] ([src/summary_generator.py])
    reads the file and groups the entries by their first theme; the script
    of the page that [IndexPageGenerator] ([src/html_generator.py]) writes
    fetches the file in the browser and filters the entries by the selected
    themes and keywords.  The summary page links to the index page with a
    theme as the filter.  [src/master_pipeline.py] calls the three programs
    one after the other on one output directory and writes the README.

    ** Files of the development and the code they model

    The shared layer:
    - [Prelude] (this file): the scope [newsy_scope] with the notation for
      fallible steps, the tactics and the hint databases the other files
      share, and generic facts on options and lists.
    - [Text]: Python's [str] as [string], one [ascii] per code point below
      256: [str.lower], [str.strip], [str.rstrip(chars)], [str.join], the
      [in] operator on strings, slicing [s[:n]], [int()] on a run of digits
      and the [{:0wd}] format.  These are built-ins of the language, written
      from their documentation.
    - [Paths]: the names [pathlib] builds: [path_join], [parent].
    - [Except]: the exceptions the programs raise, as values, and the
      outcome [res] of a computation that returns or raises.
    - [StableSort]: [sorted(items, key=...)] with and without
      [reverse=True], as stable insertion sorts, with the specification of
      the descending sort and the uniqueness of that specification.
    - [Dict]: a Python [dict] with string keys as an association list in
      insertion order: [dget], [dset], [dupdate], and the invariant [dict_ok].
    - [Taxonomy]: the tables [THEMES] and [KEYWORD_PATTERNS] of
      [src/process_diary.py], [THEME_INFO] of [src/summary_generator.py] and
      [theme_colors] of [src/html_generator.py], in declaration order, and
      their well-formedness as computable checks.

    The processor ([src/process_diary.py]):
    - [DateExtractor]: [DiaryProcessor.extract_date].  Each of the three
      regular expressions is a matcher that returns the three groups, the
      leftmost match is searched as [re.search] does, and a match whose
      numbers fail the plausibility test falls through to the next pattern,
      as the loop in the code does.
    - [EntryParser]: the [NewsEntry] dataclass and
      [DiaryProcessor.parse_input_file]: the line pattern as a matcher, the
      1-based numbering by [enumerate], the log of skipped lines.
    - [Classifier]: [DiaryProcessor.tag_entry] and [tag_entry_with_content]:
      theme scores, the ranking, the keyword matches, the domain fallback.
      The iteration order of the Python [set] that caps the keywords is a
      parameter, the class [SetOrder]; every theorem holds for every
      instance, and two instances show that the result depends on it.
    - [Enricher]: [fetch_bluesky_content] and [process_bluesky_entries].  The
      network is an oracle, one answer per task of a batch; the content cache
      is a [gmap]; a fetch is a task with the states [Init], [Wait] and
      [Done]; [step] is a move of any task that can move, [run] executes a
      schedule and [gather_schedule] is the schedule of the event loop;
      [apply_contents] is the loop that writes the snippets into the shared
      entries and re-tags them.
    - [Interleaving]: every schedule of a batch: [fair] schedules, and
      [fetch_all], the loop that awaits one fetch after the other, as the
      reference [asyncio.gather] is compared with.
    - [PostPage]: the page of a post as a document of [Markup]: the four
      selectors of [content_selectors] as selectors, [select_one] as the
      first match in document order, [get_text()] and [get('content')];
      the page oracle of [Enricher] that a document is.
    - [Dataset]: [generate_json_data], [print_statistics] (as the record of
      what it prints) and the pipeline [process], from the empty cache.
    - [Json]: the dataset as the value [json.dump] writes and [json.load]
      reads: [asdict], [document], the reads [d[k]] and [d.get(k, default)]
      with their exceptions, the data contract as a type of documents
      ([dataset_schema]) and the way back to the records ([dataset_of]).

    The pages ([src/summary_generator.py], [src/html_generator.py]):
    - [Summary]: [organize_entries_by_theme], [generate_fallback_summary] as
      the string the code builds, [generate_theme_summary_with_claude] with
      the remote generator as an oracle, [generate_summaries], and the
      computed parts of [generate_summary_html]: the order of the sections,
      the table of contents and the counts.
    - [Remote]: the exchange of [generate_theme_summary_with_claude] with
      the text generator: the text of the prompt, the request with its
      headers and body, the read of [data['content'][0]['text']], and the
      oracle of [Summary] that a service on requests is.
    - [IndexFilter]: the script of the index page: the two sets of selected
      names as insertion-ordered lists, the tags of the controls, the query
      of the address, [loadData], [initializeControls], [toggleTag], the
      select and deselect handlers, [renderEntries], [updateURL] and
      [updateFromURL]; a handler that dereferences [null] ends in [Thrown];
      [reachable] is the set of pages a visitor can click to.
    - [SameView]: the equivalence [same_view] of pages whose sets have the
      same members, with the instances that let the operations on sets,
      the test of an entry, the rendering and the handlers be rewritten
      under it; [play] runs a sequence of events.
    - [Query]: the query of an address as text: the serializer and the
      parser of [URLSearchParams] with their percent-encoding, written from
      the URL standard, the search part [updateURL] writes and the query of
      a link written by hand.
    - [Markup]: what the pages ask of a browser, written from the DOM and
      CSS standards: the document tree [node], [getElementById],
      [querySelector] and [querySelectorAll], the selectors the two style
      sheets use, and the cascade by specificity and order of appearance
      with inline styles and [var()].
    - [IndexDom]: the text [generate_index_html] returns, as a document: the
      markup, the elements [createTag] and [createEntryElement] build, the
      message of [loadData], the document [dom_of] of a state of
      [IndexFilter], and the style sheet [index_style], rule by rule.
    - [SummaryDom]: the text [generate_summary_html] returns, as the
      document [summary_dom] of a page of [Summary]: the markup, the table
      of contents, the sections with their summaries inserted as they are,
      and the style sheet [summary_style], rule by rule.

    The programs together ([src/master_pipeline.py] and the [main]s):
    - [Pipeline]: [run_pipeline] as the composition of the processor and the
      summary generator over the dataset, and the index page opened on it.
    - [Files]: the file system as a [world] of directories, files and
      printed lines, the monad [io] of a program that changes the world and
      returns or raises, the calls [mkdir], [write], [read], and every
      constructor, method and [main] of the four files on it
      ([process_io], [generate_io], [run_pipeline_io], ...).
    - [Log]: every record the four files log, as the log of the method
      that writes it, in the order of the code and, for a batch of fetches,
      of the arrival of the answers; the configuration of the root logger
      by the module that is loaded first, and what it shows.
    - [Readme]: the text [create_readme] writes, line by line, and what it
      says of the programs.
    - [Site]: the output directory behind a static server ([serve]), the
      index page opened from it ([open_site]), the document a browser makes
      of a file ([document_of]) and where the links of the pages lead.

    ** What the theorems show

    - DateExtractor: every date returned has the shape YYYY-MM-DD with the
      year in 2024..2026, the month in 1..12 and the day in 1..31; a URL that
      carries such a date after a digit-free prefix yields exactly that date;
      when nothing is returned; the fall-through to later patterns.
    - EntryParser: a rendered line parses back to its URL and title; the
      entries are the accepted lines in input order with the line positions
      as identifiers, so a skipped line leaves a gap; entries and skipped
      lines partition the input.
    - Classifier: one or two themes after [tag_entry], at most three
      keywords, none repeated, all drawn from the tables; the ranking is the
      unique stable descending order of the positive scores; the fallback;
      re-tagging never lowers a score but has no fallback, so it can leave an
      entry without any theme; the keywords depend on the order of the set.
    - PostPage: the content extracted from a document is the text of the
      first element, in document order, of the first selector that has a
      match, cut to 500 characters; the order of the selectors decides
      before the order of the document.
    - Log: the warnings of the parser account for every rejected line; a
      fetch that gives nothing logs one record, except after a status other
      than 200; the log of a batch is the records of its tasks in arrival
      order, and another order permutes it; the generators, run as scripts,
      show no record below a warning.
    - Remote: the request carries the prompt with the titles and URLs of at
      most twenty entries and the key in a header only; the text of the
      answer is taken exactly when the status is 200 and the body has it.
    - Query: parsing what the serializer wrote gives the pairs back, for
      all names and values; the links of the summary page are read as the
      theme of their section.
    - Enricher and Interleaving: every interleaving of a batch terminates
      within two moves per task and keeps cache and results within 500
      characters; when all answers arrive, the results are, task by task,
      the cached value or the outcome of the task's own request, for every
      arrival order; every fair schedule completes the batch; with distinct
      URLs every fair schedule returns what the sequential loop returns,
      and with a URL twice two requests are sent; the loop enriches exactly
      the eligible entries whose fetch gave a non-empty content.
    - Dataset and Json: the contract of the dataset for every input, network
      and schedule ([dataset_ok]); the entries of the dataset as a function
      of the lines and the answers; every document written has the type of
      the contract, every document of that type is read without an
      exception, and reading gives the dataset back.
    - Summary: the groups; the summaries exist for every theme that has
      entries, in the order of [THEME_INFO]; every failure of the remote
      generator gives the local summary; the shape of the local summary; the
      sections of the page, their order and counts, and which entries no
      section counts.
    - IndexFilter: the invariant of the page over all click sequences
      (tags in step with the sets, entries shown are the matching ones, no
      handler stops, the address is written from the sets); reloading the
      address restores the selection; entries without themes are never
      shown; the size test of [updateURL] loses a filter.
    - SameView: two addresses that name the same themes and keywords, in
      any order, open pages that show the same and keep showing the same
      under every sequence of clicks; the order of insertion into a set is
      seen in the address only.
    - IndexDom: the state of [IndexFilter] is an abstraction of the
      document (the containers hold its tags and entries, the queries of
      the script return its tags, [toggleTag] stops exactly when the query
      finds nothing); every identifier the script looks up names one
      element on every document a visitor can have; a tag looks selected
      exactly when its name is in the set of the script; every class of the
      page is styled, and two rules of the style sheet can never apply.
    - SummaryDom: every entry of the table of contents leads to the one
      section of its theme; the link of a section carries the theme as the
      filter, and the cascade gives it the colour of the links of a section,
      not the one its own rule declares; a title of the input reaches the
      page as markup.
    - Pipeline, Files and Site: for every run the summary is generated, the
      index page loads and keeps its invariant, and both pages count the
      same entries; [run_pipeline] on files writes the four files of the
      site and refines the pure pipeline; a missing input file and every
      other exception leave the file system well formed; the index page
      opens from the files behind a server that decompresses and ends in
      its error message behind one that does not; every handler and link of
      the two pages leads to a handler of the script, a file of the site or
      a section of the page.
    - Readme: the README agrees with the classifier on the themes, with
      [run_pipeline] on the output files and with the parser on the input
      format; it leaves out one keyword and names three scripts the
      repository does not have.

    The main theorems carry a claim id (C1, C2, ...) in the comment before
    them; the lemmas around them carry the proofs and are shared.

    ** Bounds and conventions

    - Characters are code points below 256 ([ascii]); the classes of
      whitespace, digits and upper-case letters are Python's on that range.
      Text with code points above 255 is outside the model, and is written
      as its UTF-8 bytes where the pages hold it.
    - Identifiers, scores and counts are [nat]: Python integers do not
      overflow.
    - All recursion is structural and no definition uses fuel: the loops of
      the code run over lists, and the scheduler of the enricher runs over a
      finite schedule.  Termination of a batch under every interleaving is a
      theorem on the step relation, with the measure [moves_left].
    - An exception the code catches is a value: [None] for a fetch or a
      [KeyError], [Thrown] for a handler of the page, [Raises] for a
      program on files.
    - The standard output of the programs is in the world of [Files], the
      log is in [Log], as the records of a run whose file operations
      succeed; the time of a record, the time stamp of the dataset and the
      date of the summary page are inputs, and so is the text of an
      exception of a library.
    - A document is a tree without the white space between its elements.
      The facts about a whole page are proved by walking the tree once with
      an accumulator ([collect_acc], [sweep] of [Markup]), whose result on a
      page with any lists of tags, entries or sections is one conversion;
      the facts about the cascade are computed on the place of an element,
      which holds the element and what the selectors read of its ancestors.
    - The view of a page is its width and whether the pointer is over the
      element; the theorems on the cascade hold for every view.

    ** Not modelled

    - The HTTP exchange of the client and its time-out: an answer is a
      value of type [response].  The parsing of the text of a page into a
      tree: a parsed page is a document of [Markup] ([PostPage]) or, more
      generally, what [select_one] returns for each selector.
    - The remote summarisation service: any function from requests to
      exchanges ([Remote]); every outcome of the call is covered.
    - The serialised text of JSON and the bytes of gzip: a file holds the
      value it parses to, and whether a server decompresses is a parameter.
    - Of the browser: layout, inheritance, shorthand properties, the user
      agent's style sheet, and the parsing of the summaries the summary page
      inserts as markup ([Raw]).  [:last-child] is read on the subject of a
      selector, which is where the style sheets have it.
    - The script of the index page is modelled as its handlers on the state
      of [IndexFilter], not as a JavaScript program; [IndexDom] relates that
      state to the document and [Query] the query to the text of the
      address.
    - The log of a run that an exception of the file system ends: it is a
      prefix of the log [Log] gives. *)

From Stdlib Require Export Ascii String Bool Arith Lia Permutation Sorted List.
Export ListNotations.

Declare Scope newsy_scope.
Delimit Scope newsy_scope with newsy.
#[global] Open Scope newsy_scope.

(** ** Options: the results of fallible steps *)

Definition obind {A B : Type} (o : option A) (k : A -> option B) : option B :=
  match o with
  | Some a => k a
  | None => None
  end.

Notation "'let?' x ':=' e 'in' k" := (obind e (fun x => k))
  (at level 10, x pattern, e at level 100, k at level 200) : newsy_scope.

(** [first_some fs a]: the result of the first function of [fs] that answers
    on [a]; a [for] loop that returns from its body on success. *)
Fixpoint first_some {A B : Type} (fs : list (A -> option B)) (a : A) : option B :=
  match fs with
  | [] => None
  | f :: fs' =>
      match f a with
      | Some b => Some b
      | None => first_some fs' a
      end
  end.

(** ** Tactics *)

Ltac invc H := inversion H; subst; clear H.

(** Case analysis on the scrutinee of the first [match] or [if] of the goal. *)
Ltac break_match :=
  match goal with
  | |- context [match ?x with _ => _ end] =>
      let E := fresh "E" in destruct x eqn:E
  end.

Ltac break_match_hyp :=
  match goal with
  | H : context [match ?x with _ => _ end] |- _ =>
      let E := fresh "E" in destruct x eqn:E
  end.

(** Boolean connectives of the hypotheses and the goal, as propositions. *)
Ltac bool_prop :=
  repeat first
    [ rewrite andb_true_iff in * | rewrite orb_true_iff in *
    | rewrite negb_true_iff in * | rewrite negb_false_iff in *
    | rewrite andb_false_iff in * | rewrite orb_false_iff in *
    | rewrite Nat.leb_le in * | rewrite Nat.ltb_lt in *
    | rewrite Nat.eqb_eq in * ].

Create HintDb newsy.
Create Rewrite HintDb newsy_rw.

(** ** Facts on options *)

Lemma obind_Some {A B : Type} (o : option A) (k : A -> option B) (b : B) :
  obind o k = Some b <-> exists a, o = Some a /\ k a = Some b.
Proof.
  destruct o as [a|]; simpl; split.
  - eauto.
  - now intros (a' & [= <-] & Hk).
  - discriminate.
  - now intros (a' & [=] & _).
Qed.

Lemma first_some_Some {A B : Type} (fs : list (A -> option B)) (a : A) (b : B) :
  first_some fs a = Some b <->
  exists pre f post,
    fs = pre ++ f :: post /\ f a = Some b /\ Forall (fun g => g a = None) pre.
Proof.
  induction fs as [|g fs IH]; simpl.
  - split; [discriminate | intros ([|? ?] & f & post & [=] & _)].
  - destruct (g a) as [b'|] eqn:Eg; split.
    + intros [= <-]. now exists [], g, fs.
    + intros ([|h pre] & f & post & E & Hf & Hpre); invc E; [congruence|].
      invc Hpre. congruence.
    + intros H. apply IH in H as (pre & f & post & -> & Hf & Hpre).
      exists (g :: pre), f, post. auto.
    + intros ([|h pre] & f & post & E & Hf & Hpre); invc E; [congruence|].
      invc Hpre. apply IH. exists pre, f, post. auto.
Qed.

Lemma first_some_None {A B : Type} (fs : list (A -> option B)) (a : A) :
  first_some fs a = None <-> Forall (fun g => g a = None) fs.
Proof.
  induction fs as [|g fs IH]; simpl.
  - split; auto.
  - destruct (g a) eqn:Eg; split; intros H.
    + discriminate.
    + invc H. congruence.
    + constructor; [assumption | now apply IH].
    + invc H. now apply IH.
Qed.

(** ** Facts on lists: slices, duplicates, filters *)

Lemma In_firstn {A : Type} (n : nat) (l : list A) (x : A) :
  In x (firstn n l) -> In x l.
Proof.
  revert l; induction n as [|n IH]; intros [|y l]; simpl; try tauto.
  intros [->|H]; auto.
Qed.

Lemma NoDup_firstn {A : Type} (n : nat) (l : list A) :
  NoDup l -> NoDup (firstn n l).
Proof.
  revert l; induction n as [|n IH]; intros [|y l] H; simpl; try constructor.
  - invc H. intros Hin. now apply In_firstn in Hin.
  - invc H. auto.
Qed.

Lemma firstn_length_le {A : Type} (n : nat) (l : list A) :
  length (firstn n l) <= n.
Proof. rewrite length_firstn. lia. Qed.

Lemma firstn_map_comm {A B : Type} (f : A -> B) (n : nat) (l : list A) :
  map f (firstn n l) = firstn n (map f l).
Proof.
  revert l; induction n as [|n IH]; intros [|y l]; simpl; try reflexivity.
  now rewrite IH.
Qed.

Lemma NoDup_map_filter {A B : Type} (f : A -> B) (p : A -> bool) (l : list A) :
  NoDup (map f l) -> NoDup (map f (filter p l)).
Proof.
  induction l as [|x l IH]; simpl; intros H; [constructor|].
  invc H. destruct (p x); simpl; auto.
  constructor; auto.
  intros Hin. apply in_map_iff in Hin as (y & Hy & Hin).
  apply filter_In in Hin as [Hin _].
  rewrite <- Hy in *. apply H2. now apply in_map.
Qed.

Lemma In_map_filter {A B : Type} (f : A -> B) (p : A -> bool) (l : list A) (b : B) :
  In b (map f (filter p l)) -> In b (map f l).
Proof.
  intros H. apply in_map_iff in H as (x & <- & Hin).
  apply filter_In in Hin as [Hin _]. now apply in_map.
Qed.

Lemma filter_length_le {A : Type} (p : A -> bool) (l : list A) :
  length (filter p l) <= length l.
Proof. induction l as [|x l IH]; simpl; [|destruct (p x); simpl]; lia. Qed.

Lemma filter_ext_le {A : Type} (p q : A -> bool) (l : list A) :
  (forall x, p x = true -> q x = true) ->
  length (filter p l) <= length (filter q l).
Proof.
  intros Hpq. induction l as [|x l IH]; simpl; [lia|].
  destruct (p x) eqn:Ep.
  - rewrite (Hpq x Ep). simpl. lia.
  - destruct (q x); simpl; lia.
Qed.

Lemma existsb_filter_nil {A : Type} (p : A -> bool) (l : list A) :
  existsb p l = false <-> filter p l = [].
Proof.
  induction l as [|x l IH]; simpl; [tauto|].
  destruct (p x); simpl; [split; discriminate | exact IH].
Qed.

#[export] Hint Resolve In_firstn NoDup_firstn firstn_length_le
  filter_length_le In_map_filter NoDup_map_filter : newsy.

Lemma Forall2_transfer {A B : Type} (P : A -> Prop) (Q : B -> Prop)
    (l : list A) (l' : list B) :
  Forall2 (fun x y => P x -> Q y) l l' -> Forall P l -> Forall Q l'.
Proof.
  induction 1 as [|x y l l' Hxy _ IH]; intros HP; constructor; invc HP; auto.
Qed.

Lemma Forall2_map_l_impl {A A' B : Type} (f : A -> A') (R : A' -> B -> Prop)
    (Q : A -> B -> Prop) (l : list A) (l' : list B) :
  (forall x y, R (f x) y -> Q x y) -> Forall2 R (map f l) l' -> Forall2 Q l l'.
Proof.
  intros HRQ. revert l'; induction l as [|x l IH]; intros l' HF; invc HF;
    constructor; auto.
Qed.

Lemma Forall2_Forall {A B : Type} (R : A -> B -> Prop) (P : A -> Prop)
    (Q : B -> Prop) (l : list A) (l' : list B) :
  Forall2 R l l' -> (forall x y, R x y -> P x -> Q y) -> Forall P l -> Forall Q l'.
Proof.
  induction 1 as [|x y l l' Hxy _ IH]; intros HPQ HP; constructor; invc HP; eauto.
Qed.

Lemma fold_left_map {A B C : Type} (f : A -> B -> A) (g : C -> B) (l : list C) (a : A) :
  fold_left f (map g l) a = fold_left (fun a x => f a (g x)) l a.
Proof. revert a; induction l as [|x l IH]; intros a; simpl; [reflexivity | apply IH]. Qed.

Lemma filter_map_comm {A B : Type} (p : B -> bool) (q : A -> bool) (f : A -> B)
    (l : list A) :
  (forall x, p (f x) = q x) -> filter p (map f l) = map f (filter q l).
Proof.
  intros Hpq. induction l as [|x l IH]; simpl; [reflexivity|].
  rewrite Hpq. destruct (q x); simpl; now rewrite IH.
Qed.

Lemma list_sum_map_add {A : Type} (f g : A -> nat) (l : list A) :
  list_sum (map (fun x => f x + g x) l) = list_sum (map f l) + list_sum (map g l).
Proof. induction l as [|x l IH]; simpl; lia. Qed.

Lemma list_sum_filter_pos {A : Type} (f : A -> nat) (p : A -> bool) (l : list A) :
  (forall x, p x = false -> f x = 0) ->
  list_sum (map f (filter p l)) = list_sum (map f l).
Proof.
  intros Hp. induction l as [|x l IH]; simpl; [reflexivity|].
  destruct (p x) eqn:E; simpl; [|rewrite (Hp x E)]; lia.
Qed.

Lemma filter_length_split {A : Type} (p : A -> bool) (l : list A) :
  length (filter p l) + length (filter (fun x => negb (p x)) l) = length l.
Proof. induction l as [|x l IH]; simpl; [|destruct (p x); simpl]; lia. Qed.

Lemma existsb_ext {A : Type} (p q : A -> bool) (l : list A) :
  (forall x, p x = q x) -> existsb p l = existsb q l.
Proof. intros H. induction l as [|x l IH]; simpl; [reflexivity | now rewrite H, IH]. Qed.

Lemma forallb_ext_in {A : Type} (p q : A -> bool) (l : list A) :
  (forall x, In x l -> p x = q x) -> forallb p l = forallb q l.
Proof.
  induction l as [|x l IH]; simpl; intros H; [reflexivity|].
  rewrite H, IH; auto.
Qed.

Lemma existsb_flat_map {A B : Type} (p : B -> bool) (f : A -> list B) (l : list A) :
  existsb p (flat_map f l) = existsb (fun x => existsb p (f x)) l.
Proof.
  induction l as [|x l IH]; simpl; [reflexivity|]. now rewrite existsb_app, IH.
Qed.

Lemma filter_none {A : Type} (p : A -> bool) (l : list A) :
  existsb p l = false -> filter p l = [].
Proof.
  induction l as [|x l IH]; simpl; [reflexivity|].
  destruct (p x); simpl; [discriminate | exact IH].
Qed.

Lemma filter_flat_map {A B : Type} (p : B -> bool) (f : A -> list B) (l : list A) :
  filter p (flat_map f l) = flat_map (fun x => filter p (f x)) l.
Proof.
  induction l as [|x l IH]; simpl; [reflexivity|]. now rewrite filter_app, IH.
Qed.

Lemma flat_map_nil {A B : Type} (f : A -> list B) (l : list A) :
  (forall x, In x l -> f x = []) -> flat_map f l = [].
Proof.
  induction l as [|x l IH]; simpl; intros H; [reflexivity|].
  rewrite H, IH; auto.
Qed.

Lemma flat_map_singleton {A B : Type} (f : A -> B) (l : list A) :
  flat_map (fun x => [f x]) l = map f l.
Proof. induction l as [|x l IH]; simpl; [reflexivity | now rewrite IH]. Qed.

Lemma find_hd_filter {A : Type} (p : A -> bool) (l : list A) :
  find p l = hd_error (filter p l).
Proof.
  induction l as [|x l IH]; simpl; [reflexivity|]. now destruct (p x).
Qed.

Lemma incl_flat_map {A B : Type} (f : A -> list B) (l : list A) (m : list B) :
  (forall x, In x l -> incl (f x) m) -> incl (flat_map f l) m.
Proof.
  intros H y Hy. apply in_flat_map in Hy as (x & Hx & Hy). exact (H x Hx y Hy).
Qed.

Lemma hd_error_map_filter {A B : Type} (f : A -> B) (p : A -> bool) (l : list A) :
  hd_error (map f (filter p l)) = option_map f (find p l).
Proof.
  induction l as [|x l IH]; simpl; [reflexivity|]. now destruct (p x).
Qed.

(** The one member of a list with a key, when the keys are distinct. *)
Lemma filter_unique_key {A : Type} (key : A -> string) (l : list A) (x : A) :
  NoDup (map key l) -> In x l ->
  filter (fun y => String.eqb (key y) (key x)) l = [x].
Proof.
  induction l as [|y l IH]; simpl; intros Hnd Hin; [destruct Hin|].
  apply NoDup_cons_iff in Hnd as [Hy Hnd]. destruct Hin as [->|Hin].
  - rewrite String.eqb_refl. f_equal. apply filter_none.
    destruct (existsb _ l) eqn:E; [|reflexivity].
    apply existsb_exists in E as (z & Hz & Hk%String.eqb_eq).
    exfalso. apply Hy. rewrite <- Hk. now apply in_map.
  - destruct (String.eqb_spec (key y) (key x)) as [E|_]; [|now apply IH].
    exfalso. apply Hy. rewrite E. now apply in_map.
Qed.

(** Counting along a list: when each element gives as many results as the
    difference of two tests, so does the list. *)
Lemma flat_map_count {A B : Type} (f : A -> list B) (p q : A -> bool) (l : list A) :
  (forall x, length (f x) + Nat.b2n (p x) = Nat.b2n (q x)) ->
  length (flat_map f l) + length (filter p l) = length (filter q l).
Proof.
  intros H. induction l as [|x l IH]; [reflexivity|]. cbn [flat_map filter].
  rewrite length_app. specialize (H x).
  destruct (p x), (q x); cbn [Nat.b2n length] in *; lia.
Qed.

Lemma filter_all {A : Type} (p : A -> bool) (l : list A) :
  Forall (fun x => p x = true) l -> filter p l = l.
Proof.
  induction 1 as [|x l Hx _ IH]; [reflexivity|]. simpl. rewrite Hx. now f_equal.
Qed.
