(* ===== verification/Text.v ===== *)
(** * Text: the string built-ins the pipeline relies on

    A Python [str] is a [string] with one [ascii] per code point; the model
    covers code points below 256.  On that range the definitions follow
    CPython: [str.isspace] (also the class [\s] of [re] and the characters
    [str.strip] removes), the decimal digits of [\d], [str.lower], the [in]
    operator on two strings, the slice [s[:n]], [int] on a run of digits and
    the format [{:0wd}].  The lemmas are the ones the components share. *)

From Stdlib Require Import DecimalString DecimalNat Decimal.
From S2P Require Import Prelude.

(** ** Character classes *)

Definition code (c : ascii) : nat := nat_of_ascii c.

(** [\d] and [str.isdigit] below 256: the ten ASCII digits. *)
Definition is_digit (c : ascii) : bool :=
  (48 <=? code c) && (code c <=? 57).

(** [str.isspace] below 256: TAB..CR, FS..US, SPACE, NEL and NBSP. *)
Definition is_space (c : ascii) : bool :=
  ((9 <=? code c) && (code c <=? 13))
  || ((28 <=? code c) && (code c <=? 32))
  || (code c =? 133) || (code c =? 160).

(** Upper-case letters below 256: A..Z and the Latin-1 capitals but the
    multiplication sign. *)
Definition is_upper (c : ascii) : bool :=
  ((65 <=? code c) && (code c <=? 90))
  || ((192 <=? code c) && (code c <=? 222) && negb (code c =? 215)).

Definition lower_char (c : ascii) : ascii :=
  if is_upper c then ascii_of_nat (code c + 32) else c.

(** ** Strings *)

#[local] Open Scope string_scope.

(** [str.lower]. *)
Fixpoint lower (s : string) : string :=
  match s with
  | "" => ""
  | String c s' => String (lower_char c) (lower s')
  end.

(** The longest prefix whose characters satisfy [p], and the rest: what a
    greedy [p*] consumes when the next item of the pattern cannot match a
    character of the class. *)
Fixpoint span (p : ascii -> bool) (s : string) : string * string :=
  match s with
  | "" => ("", "")
  | String c s' =>
      if p c then let (a, b) := span p s' in (String c a, b) else ("", s)
  end.

Definition lstrip (s : string) : string := snd (span is_space s).

Fixpoint rstrip (s : string) : string :=
  match s with
  | "" => ""
  | String c s' =>
      match rstrip s' with
      | "" => if is_space c then "" else String c ""
      | r => String c r
      end
  end.

(** [str.strip()] without argument. *)
Definition strip (s : string) : string := rstrip (lstrip s).

(** [p in s]: [p] occurs in [s] as a substring. *)
Fixpoint contains (p s : string) : bool :=
  prefix p s ||
  match s with
  | "" => false
  | String _ s' => contains p s'
  end.

(** [s[:n]]. *)
Fixpoint slice_to (n : nat) (s : string) : string :=
  match n, s with
  | S n', String c s' => String c (slice_to n' s')
  | _, _ => ""
  end.

(** [s] without the literal [lit] at its head, when it starts with it. *)
Fixpoint drop_prefix (lit s : string) : option string :=
  match lit, s with
  | "", _ => Some s
  | String a lit', String b s' =>
      if Ascii.eqb a b then drop_prefix lit' s' else None
  | _, _ => None
  end.

Fixpoint all_chars (p : ascii -> bool) (s : string) : bool :=
  match s with
  | "" => true
  | String c s' => p c && all_chars p s'
  end.

(** ** Numbers *)

Definition digit_val (c : ascii) : nat := code c - 48.

Fixpoint int_acc (acc : nat) (s : string) : nat :=
  match s with
  | "" => acc
  | String c s' => int_acc (10 * acc + digit_val c) s'
  end.

(** [int(s)] for a string of decimal digits. *)
Definition int_of_digits (s : string) : nat := int_acc 0 s.

(** [str(n)] for a natural number. *)
Definition str_of_nat (n : nat) : string :=
  NilEmpty.string_of_uint (Nat.to_uint n).

Fixpoint zeros (k : nat) : string :=
  match k with
  | 0 => ""
  | S k' => String "0" (zeros k')
  end.

(** [f"{n:0wd}"]: at least [w] characters, padded with zeros on the left. *)
Definition fmt_0d (w n : nat) : string :=
  let s := str_of_nat n in zeros (w - String.length s) ++ s.

(** [x in l] for a list of strings. *)
(** [s.split(c)]. *)
Fixpoint split_on (c : ascii) (s : string) : list string :=
  match s with
  | "" => [""]
  | String x s' =>
      if Ascii.eqb x c then "" :: split_on c s'
      else match split_on c s' with
           | h :: t => String x h :: t
           | [] => [String x ""]
           end
  end.

Definition mem_str (x : string) (l : list string) : bool :=
  existsb (String.eqb x) l.

Fixpoint nodupb (l : list string) : bool :=
  match l with
  | [] => true
  | x :: l' => negb (mem_str x l') && nodupb l'
  end.

Notation "p '<in>' s" := (contains p s = true)
  (at level 70, no associativity) : newsy_scope.

(** ** Append, length, slices *)

Lemma append_nil_r (s : string) : s ++ "" = s.
Proof. induction s; simpl; congruence. Qed.

Lemma append_assoc (a b c : string) : (a ++ b) ++ c = a ++ b ++ c.
Proof. induction a; simpl; congruence. Qed.

Lemma length_append (a b : string) :
  String.length (a ++ b) = String.length a + String.length b.
Proof. induction a; simpl; congruence. Qed.

Lemma length_slice_to (n : nat) (s : string) :
  String.length (slice_to n s) = Nat.min n (String.length s).
Proof.
  revert s; induction n as [|n IH]; intros [|c s]; simpl; auto.
Qed.

Lemma slice_to_all (n : nat) (s : string) :
  String.length s <= n -> slice_to n s = s.
Proof.
  revert s; induction n as [|n IH]; intros [|c s]; simpl; intros H;
    try reflexivity; try lia.
  f_equal. apply IH. lia.
Qed.

Lemma slice_to_prefix (n : nat) (s : string) :
  exists r, s = slice_to n s ++ r.
Proof.
  revert s; induction n as [|n IH]; intros [|c s]; simpl; eauto.
  destruct (IH s) as [r Hr]. exists r. now rewrite <- Hr.
Qed.

#[export] Hint Rewrite append_nil_r append_assoc length_append
  length_slice_to : newsy_rw.

(** ** Case and character classes *)

Lemma lower_char_idem (c : ascii) : lower_char (lower_char c) = lower_char c.
Proof. destruct c as [[] [] [] [] [] [] [] []]; reflexivity. Qed.

Lemma lower_char_not_upper (c : ascii) : is_upper (lower_char c) = false.
Proof. destruct c as [[] [] [] [] [] [] [] []]; reflexivity. Qed.

Lemma digit_not_space (c : ascii) : is_digit c = true -> is_space c = false.
Proof. destruct c as [[] [] [] [] [] [] [] []]; vm_compute; congruence. Qed.

Lemma digit_lower (c : ascii) : is_digit c = true -> lower_char c = c.
Proof. destruct c as [[] [] [] [] [] [] [] []]; vm_compute; congruence. Qed.

Lemma lower_idem (s : string) : lower (lower s) = lower s.
Proof. induction s; simpl; [|rewrite lower_char_idem]; congruence. Qed.

Lemma length_lower (s : string) : String.length (lower s) = String.length s.
Proof. induction s; simpl; congruence. Qed.

Lemma lower_append (a b : string) : lower (a ++ b) = lower a ++ lower b.
Proof. induction a; simpl; congruence. Qed.

(** ** Prefixes and occurrences *)

Lemma prefix_spec (p s : string) :
  prefix p s = true <-> exists r, s = p ++ r.
Proof.
  revert s; induction p as [|a p IH]; intros [|b s]; simpl.
  - split; eauto.
  - split; eauto.
  - split; [discriminate | now intros [r [=]]].
  - destruct (ascii_dec a b) as [->|Hne].
    + rewrite IH. split; intros [r Hr]; exists r; congruence.
    + split; [discriminate | intros [r [=]]; congruence].
Qed.

Lemma drop_prefix_spec (lit s r : string) :
  drop_prefix lit s = Some r <-> s = lit ++ r.
Proof.
  revert s; induction lit as [|a lit IH]; intros [|b s]; simpl.
  - split; congruence.
  - split; congruence.
  - split; discriminate.
  - destruct (Ascii.eqb_spec a b) as [->|Hne].
    + rewrite IH. split; congruence.
    + split; [discriminate | intros [=]; congruence].
Qed.

Lemma contains_empty (p : string) : contains p "" = prefix p "".
Proof. unfold contains. apply orb_false_r. Qed.

Lemma contains_cons (p : string) (c : ascii) (s : string) :
  contains p (String c s) = prefix p (String c s) || contains p s.
Proof. reflexivity. Qed.

Lemma contains_spec (p s : string) :
  p <in> s <-> exists a b, s = a ++ p ++ b.
Proof.
  induction s as [|c s IH].
  - rewrite contains_empty, prefix_spec. split.
    + intros [r Hr]. now exists "", r.
    + intros ([|? ?] & b & H); [eauto | discriminate].
  - rewrite contains_cons, orb_true_iff, prefix_spec, IH. split.
    + intros [[r Hr]|(a & b & ->)]; [now exists "", r|].
      now exists (String c a), b.
    + intros ([|c' a] & b & H); simpl in H; [left; eauto|].
      right. invc H. eauto.
Qed.

Lemma contains_nil (s : string) : "" <in> s.
Proof. destruct s; reflexivity. Qed.

Lemma contains_append_r (p s t : string) : p <in> s -> p <in> (s ++ t).
Proof.
  rewrite !contains_spec. intros (a & b & ->).
  exists a, (b ++ t). now rewrite !append_assoc.
Qed.

Lemma contains_append_l (p s t : string) : p <in> s -> p <in> (t ++ s).
Proof.
  rewrite !contains_spec. intros (a & b & ->).
  exists (t ++ a), b. now rewrite !append_assoc.
Qed.

Lemma contains_refl (s : string) : s <in> s.
Proof. apply contains_spec. exists "", "". simpl. now rewrite append_nil_r. Qed.

Lemma contains_trans (p q s : string) : p <in> q -> q <in> s -> p <in> s.
Proof.
  rewrite !contains_spec. intros (a & b & ->) (a' & b' & ->).
  exists (a' ++ a), (b ++ b'). now rewrite !append_assoc.
Qed.

#[export] Hint Resolve contains_nil contains_refl contains_append_l
  contains_append_r : newsy.

(** ** Greedy runs *)

Lemma span_append (p : ascii -> bool) (s : string) :
  fst (span p s) ++ snd (span p s) = s.
Proof.
  induction s as [|c s IH]; simpl; [reflexivity|].
  destruct (p c); [|reflexivity].
  destruct (span p s); simpl in *. congruence.
Qed.

Lemma span_all (p : ascii -> bool) (s : string) :
  all_chars p (fst (span p s)) = true.
Proof.
  induction s as [|c s IH]; simpl; [reflexivity|].
  destruct (p c) eqn:E; [|reflexivity].
  destruct (span p s); simpl in *. now rewrite E.
Qed.

Lemma span_exact (p : ascii -> bool) (a : string) (c : ascii) (r : string) :
  all_chars p a = true -> p c = false ->
  span p (a ++ String c r) = (a, String c r).
Proof.
  intros Ha Hc. induction a as [|x a IH]; simpl in *.
  - now rewrite Hc.
  - apply andb_true_iff in Ha as [-> Ha]. now rewrite IH.
Qed.

Lemma span_exact_end (p : ascii -> bool) (a : string) :
  all_chars p a = true -> span p a = (a, "").
Proof.
  intros Ha. induction a as [|x a IH]; simpl in *; [reflexivity|].
  apply andb_true_iff in Ha as [-> Ha]. now rewrite IH.
Qed.

Lemma all_chars_append (p : ascii -> bool) (a b : string) :
  all_chars p (a ++ b) = all_chars p a && all_chars p b.
Proof. induction a; simpl; [|rewrite IHa, andb_assoc]; reflexivity. Qed.

Lemma all_chars_impl (p q : ascii -> bool) (s : string) :
  (forall c, p c = true -> q c = true) ->
  all_chars p s = true -> all_chars q s = true.
Proof.
  intros Hpq. induction s as [|c s IH]; simpl; [reflexivity|].
  rewrite !andb_true_iff. intros [Hc Hs]. auto.
Qed.

(** ** Stripping *)

Lemma lstrip_fixed (c : ascii) (s : string) :
  is_space c = false -> lstrip (String c s) = String c s.
Proof. intros H. unfold lstrip. simpl. now rewrite H. Qed.

Lemma rstrip_fixed (s : string) (c : ascii) :
  is_space c = false -> rstrip (s ++ String c "") = s ++ String c "".
Proof.
  intros H. induction s as [|x s IH]; simpl.
  - now rewrite H.
  - rewrite IH. destruct s; reflexivity.
Qed.

Lemma rstrip_space (s : string) (c : ascii) :
  is_space c = true -> rstrip (s ++ String c "") = rstrip s.
Proof.
  intros H. induction s as [|x s IH]; simpl.
  - now rewrite H.
  - now rewrite IH.
Qed.

(** ** Decimal numerals *)

Lemma int_acc_uint (d : Decimal.uint) (acc : nat) :
  int_acc acc (NilEmpty.string_of_uint d) = Nat.of_uint_acc d acc.
Proof.
  revert acc; induction d; intros acc; simpl; try reflexivity;
    rewrite IHd, Nat.tail_mul_spec; f_equal; unfold digit_val, code; simpl; lia.
Qed.

Lemma int_of_str_of_nat (n : nat) : int_of_digits (str_of_nat n) = n.
Proof.
  unfold int_of_digits, str_of_nat. rewrite int_acc_uint.
  apply Unsigned.of_to.
Qed.

Lemma int_acc_zeros (k : nat) (s : string) :
  int_acc 0 (zeros k ++ s) = int_acc 0 s.
Proof. induction k; simpl; auto. Qed.

Lemma int_of_fmt_0d (w n : nat) : int_of_digits (fmt_0d w n) = n.
Proof.
  unfold int_of_digits, fmt_0d. rewrite int_acc_zeros.
  apply int_of_str_of_nat.
Qed.

Lemma digits_string_of_uint (d : Decimal.uint) :
  all_chars is_digit (NilEmpty.string_of_uint d) = true.
Proof. induction d; simpl; auto. Qed.

Lemma digits_zeros (k : nat) : all_chars is_digit (zeros k) = true.
Proof. induction k; simpl; auto. Qed.

Lemma digits_fmt_0d (w n : nat) : all_chars is_digit (fmt_0d w n) = true.
Proof.
  unfold fmt_0d, str_of_nat.
  now rewrite all_chars_append, digits_zeros, digits_string_of_uint.
Qed.

Lemma length_zeros (k : nat) : String.length (zeros k) = k.
Proof. induction k; simpl; congruence. Qed.

Lemma length_fmt_0d (w n : nat) :
  String.length (fmt_0d w n) = Nat.max w (String.length (str_of_nat n)).
Proof. unfold fmt_0d. rewrite length_append, length_zeros. lia. Qed.

#[export] Hint Rewrite int_of_fmt_0d int_of_str_of_nat length_fmt_0d
  length_lower lower_idem : newsy_rw.

(** ** Lists of strings *)

Lemma mem_str_In (x : string) (l : list string) :
  mem_str x l = true <-> In x l.
Proof.
  unfold mem_str. rewrite existsb_exists. split.
  - intros (y & Hy & E). apply String.eqb_eq in E. now subst.
  - intros H. exists x. split; [assumption | apply String.eqb_refl].
Qed.

Lemma mem_str_false (x : string) (l : list string) :
  mem_str x l = false <-> ~ In x l.
Proof.
  rewrite <- mem_str_In. destruct (mem_str x l); split; congruence.
Qed.

Lemma nodupb_NoDup (l : list string) : nodupb l = true <-> NoDup l.
Proof.
  induction l as [|x l IH]; simpl.
  - split; [constructor | reflexivity].
  - rewrite andb_true_iff, negb_true_iff, mem_str_false, IH.
    split; [intros []; now constructor | intros H; now invc H].
Qed.

(** ** More on stripping *)

Lemma rstrip_all_space (sp : string) :
  all_chars is_space sp = true -> rstrip sp = "".
Proof.
  induction sp as [|c sp IH]; simpl; [reflexivity|].
  rewrite andb_true_iff. intros [-> H]. now rewrite IH.
Qed.

Lemma rstrip_head (c : ascii) (t : string) :
  is_space c = false -> exists r, rstrip (String c t) = String c r.
Proof.
  intros H. simpl. destruct (rstrip t); [rewrite H|]; eauto.
Qed.

Lemma rstrip_append (s : string) (c : ascii) (t : string) :
  is_space c = false -> rstrip (s ++ String c t) = s ++ rstrip (String c t).
Proof.
  intros H. destruct (rstrip_head c t H) as [r Hr]. rewrite Hr.
  induction s as [|x s IH]; [exact Hr|].
  cbn [append rstrip]. rewrite IH. now destruct s.
Qed.

Lemma lstrip_spaces (sp : string) (c : ascii) (s : string) :
  all_chars is_space sp = true -> is_space c = false ->
  lstrip (sp ++ String c s) = String c s.
Proof.
  intros Hsp Hc. unfold lstrip. now rewrite span_exact.
Qed.

(** Whitespace around a text that starts and ends with other characters is
    what [strip] removes, and nothing else. *)
Lemma strip_spaces (sp sp' : string) (c : ascii) (s : string) (c' : ascii) :
  all_chars is_space sp = true -> all_chars is_space sp' = true ->
  is_space c = false -> is_space c' = false ->
  strip (sp ++ String c (s ++ String c' sp')) = String c (s ++ String c' "").
Proof.
  intros Hsp Hsp' Hc Hc'. unfold strip. rewrite lstrip_spaces by assumption.
  change (String c (s ++ String c' sp')) with (String c s ++ String c' sp').
  rewrite rstrip_append by assumption. simpl.
  now rewrite rstrip_all_space, Hc'.
Qed.

Lemma span_stop (p : ascii -> bool) (s : string) :
  match snd (span p s) with
  | "" => True
  | String c _ => p c = false
  end.
Proof.
  induction s as [|c s IH]; simpl; [trivial|].
  destruct (p c) eqn:E; [|exact E].
  destruct (span p s); exact IH.
Qed.

Lemma drop_prefix_append (lit r : string) : drop_prefix lit (lit ++ r) = Some r.
Proof. now apply drop_prefix_spec. Qed.

Lemma rstrip_append_spaces (x sp : string) :
  all_chars is_space sp = true -> rstrip (x ++ sp) = rstrip x.
Proof.
  intros H. induction x as [|c x IH]; simpl.
  - now apply rstrip_all_space.
  - now rewrite IH.
Qed.

(** [strip] removes the whitespace around a text that has none at its ends. *)
Lemma strip_middle (sp : string) (c : ascii) (x sp' : string) :
  all_chars is_space sp = true -> all_chars is_space sp' = true ->
  is_space c = false -> rstrip (String c x) = String c x ->
  strip (sp ++ String c x ++ sp') = String c x.
Proof.
  intros Hsp Hsp' Hc Hx. unfold strip. cbn [append].
  rewrite lstrip_spaces by assumption.
  change (String c (x ++ sp')) with (String c x ++ sp').
  now rewrite rstrip_append_spaces.
Qed.

(** ** [str.rstrip(chars)] and [str.join] *)

(** [s.rstrip(chars)], for the set of characters [p]. *)
Fixpoint rstrip_by (p : ascii -> bool) (s : string) : string :=
  match s with
  | "" => ""
  | String c s' =>
      match rstrip_by p s' with
      | "" => if p c then "" else String c ""
      | r => String c r
      end
  end.

(** [sep.join(l)]. *)
Fixpoint join (sep : string) (l : list string) : string :=
  match l with
  | [] => ""
  | x :: l' =>
      match l' with
      | [] => x
      | _ => x ++ sep ++ join sep l'
      end
  end.

Lemma rstrip_by_space (s : string) : rstrip_by is_space s = rstrip s.
Proof. induction s as [|c s IH]; simpl; [reflexivity | now rewrite IH]. Qed.

Lemma rstrip_by_all (p : ascii -> bool) (t : string) :
  all_chars p t = true -> rstrip_by p t = "".
Proof.
  induction t as [|c t IH]; simpl; [reflexivity|].
  intros [Hc Ht]%andb_prop. now rewrite IH, Hc.
Qed.

(** A text that ends with a character outside the set is left as it is, and
    characters of the set after it are removed. *)
Lemma rstrip_by_end (p : ascii -> bool) (s : string) (c : ascii) (t : string) :
  p c = false -> all_chars p t = true ->
  rstrip_by p (s ++ String c t) = s ++ String c "".
Proof.
  intros Hc Ht. induction s as [|x s IH]; cbn [append rstrip_by].
  - now rewrite rstrip_by_all, Hc.
  - rewrite IH. now destruct s.
Qed.

Lemma join_cons (sep x : string) (l : list string) :
  l <> [] -> join sep (x :: l) = x ++ sep ++ join sep l.
Proof. destruct l; [congruence | reflexivity]. Qed.

(** A loop that appends each element followed by the separator. *)
Lemma fold_append_join (sep : string) (l : list string) (init : string) :
  l <> [] ->
  fold_left (fun acc x => acc ++ x ++ sep) l init = init ++ join sep l ++ sep.
Proof.
  revert init; induction l as [|x l IH]; intros init Hl; [congruence|].
  destruct l as [|y l]; [reflexivity|].
  change (fold_left _ (x :: y :: l) init)
    with (fold_left (fun acc x => acc ++ x ++ sep) (y :: l) (init ++ x ++ sep)).
  rewrite IH, (join_cons sep x (y :: l)) by easy. now rewrite !append_assoc.
Qed.

(** Slices with a large bound are not to be unfolded by [simpl]. *)
Arguments slice_to : simpl never.

(** ** Lists of names *)

Definition subset_str (a b : list string) : bool := forallb (fun x => mem_str x b) a.

Lemma subset_str_incl (a b : list string) : subset_str a b = true -> incl a b.
Proof.
  unfold subset_str. rewrite forallb_forall. intros H x Hx. apply mem_str_In. auto.
Qed.

(** A member of a list occurs in the joined text. *)
Lemma contains_join (sep x : string) (l : list string) : In x l -> x <in> join sep l.
Proof.
  induction l as [|y l IH]; [intros []|]. intros Hin.
  destruct l as [|z l]; [destruct Hin as [<-|[]]; apply contains_refl|].
  rewrite join_cons by discriminate. destruct Hin as [<-|Hin].
  - apply contains_append_r, contains_refl.
  - now apply contains_append_l, contains_append_l, IH.
Qed.

(** Splitting at a character that a prefix does not hold. *)
Lemma split_on_none (c : ascii) (x : string) :
  all_chars (fun a => negb (Ascii.eqb a c)) x = true -> split_on c x = [x].
Proof.
  induction x as [|a x IH]; simpl; [reflexivity|].
  intros [Ha Hx]%andb_prop. apply Bool.negb_true_iff in Ha. rewrite Ha.
  now rewrite IH.
Qed.

Lemma split_on_first (c : ascii) (x r : string) :
  all_chars (fun a => negb (Ascii.eqb a c)) x = true ->
  split_on c (x ++ String c r) = x :: split_on c r.
Proof.
  induction x as [|a x IH]; simpl; [now rewrite Ascii.eqb_refl|].
  intros [Ha Hx]%andb_prop. apply Bool.negb_true_iff in Ha. rewrite Ha.
  now rewrite IH.
Qed.

(** Splitting what [join] wrote, when no part holds the separator. *)
Lemma split_on_join (c : ascii) (l : list string) :
  l <> [] -> Forall (fun x => all_chars (fun a => negb (Ascii.eqb a c)) x = true) l ->
  split_on c (join (String c "") l) = l.
Proof.
  intros Hne Hl. induction Hl as [|x l Hx Hl IH]; [congruence|].
  destruct l as [|y l]; [now apply split_on_none|].
  rewrite join_cons by discriminate.
  change (String c "" ++ join (String c "") (y :: l)) with (String c (join (String c "") (y :: l))).
  rewrite split_on_first by assumption. f_equal. apply IH. discriminate.
Qed.
