(* ===== verification/Paths.v ===== *)
(** * Paths: names of files and directories

    The programs build the names of their files with [pathlib] and test one
    of them with [endswith].  A name is a string in the form [pathlib]
    prints; [path_join] is the operator [/] on such names, [parent] the
    directory a name stands in. *)

From S2P Require Import Prelude.
From S2P Require Import Text.

#[local] Open Scope string_scope.

(** ** Definitions *)

(** [dir / name]. *)
Definition path_join (dir name : string) : string := dir ++ "/" ++ name.

(** The directory of a path: what stands before its last slash. *)
Fixpoint parent (p : string) : string :=
  match p with
  | "" => ""
  | String c p' => if contains "/" p' then String c (parent p') else ""
  end.

(** [s.endswith(suffix)]. *)
Fixpoint endswith (suffix s : string) : bool :=
  String.eqb suffix s ||
  match s with
  | "" => false
  | String _ s' => endswith suffix s'
  end.

(** ** Facts *)

Lemma path_join_length (d n : string) :
  String.length (path_join d n) = String.length d + S (String.length n).
Proof. unfold path_join. now rewrite !length_append. Qed.

Lemma path_join_ne_dir (d n : string) : path_join d n <> d.
Proof. intros E. apply (f_equal String.length) in E. rewrite path_join_length in E. lia. Qed.

Lemma path_join_inj (d a b : string) : path_join d a = path_join d b -> a = b.
Proof.
  unfold path_join. induction d as [|c d IH]; simpl; intros E.
  - now inversion E.
  - apply IH. now inversion E.
Qed.

Lemma parent_join (d n : string) : contains "/" n = false -> parent (path_join d n) = d.
Proof.
  intros Hn. unfold path_join. induction d as [|c d IH].
  - simpl. now rewrite Hn.
  - change (String c d ++ "/" ++ n) with (String c (d ++ "/" ++ n)).
    cbn [parent]. rewrite IH.
    assert (contains "/" (d ++ "/" ++ n) = true) as ->; [|reflexivity].
    apply contains_append_l, (contains_append_r "/" "/" n). reflexivity.
Qed.

Lemma endswith_longer (suffix s : string) :
  String.length s < String.length suffix -> endswith suffix s = false.
Proof.
  induction s as [|c s IH]; simpl; intros Hl.
  - destruct suffix; [simpl in Hl; lia | reflexivity].
  - rewrite IH by lia. rewrite orb_false_r. apply String.eqb_neq. intros ->. simpl in Hl. lia.
Qed.

Lemma endswith_append (suffix d s : string) :
  String.length suffix <= String.length s ->
  endswith suffix (d ++ s) = endswith suffix s.
Proof.
  intros Hl. induction d as [|c d IH]; [reflexivity|]. simpl. rewrite IH.
  assert (String.eqb suffix (String c (d ++ s)) = false) as ->; [|reflexivity].
  apply String.eqb_neq. intros ->. simpl in Hl. rewrite length_append in Hl. lia.
Qed.

Lemma endswith_join (suffix d n : string) :
  String.length suffix <= String.length n ->
  endswith suffix (path_join d n) = endswith suffix n.
Proof.
  intros Hl. unfold path_join. rewrite endswith_append; [|simpl; lia].
  apply (endswith_append suffix "/" n Hl).
Qed.

