(* ===== verification/Except.v ===== *)
(** * Except: Python exceptions as values

    The parts of the program that read documents and files fail by raising.
    [exn] lists the exceptions those parts can raise ([OutsideModel] stands
    for an outcome that depends on text the model does not hold), [res] is
    the outcome
    of a computation that returns or raises, and [let!] sequences two of
    them the way two statements are sequenced: the second runs when the
    first returned. *)

From S2P Require Import Prelude.

#[local] Open Scope string_scope.
#[local] Open Scope list_scope.

Inductive exn : Type :=
| KeyError (key : string)
| TypeError
| AttributeError
| FileNotFoundError (path : string)
| FileExistsError (path : string)
| IsADirectoryError (path : string)
| NotADirectoryError (path : string)
| JSONDecodeError
| UnicodeDecodeError
| BadGzipFile
| SystemExit (code : nat)
| OutsideModel.

Inductive res (A : Type) : Type :=
| Returns (a : A)
| Raises (e : exn).

Arguments Returns {A} a.
Arguments Raises {A} e.

Definition rbind {A B : Type} (r : res A) (k : A -> res B) : res B :=
  match r with
  | Returns a => k a
  | Raises e => Raises e
  end.

Declare Scope except_scope.
Delimit Scope except_scope with except.

Notation "'let!' x ':=' e 'in' k" := (rbind e (fun x => k))
  (at level 10, x pattern, e at level 100, k at level 200) : except_scope.

#[global] Open Scope except_scope.

(** [o] when it is there, the exception otherwise. *)
Definition or_raise {A : Type} (o : option A) (e : exn) : res A :=
  match o with
  | Some a => Returns a
  | None => Raises e
  end.

Definition returned_value {A : Type} (r : res A) : option A :=
  match r with
  | Returns a => Some a
  | Raises _ => None
  end.

(** ** Laws *)

Lemma rbind_Returns_l {A B : Type} (a : A) (k : A -> res B) : rbind (Returns a) k = k a.
Proof. reflexivity. Qed.

Lemma rbind_Returns_r {A : Type} (r : res A) : rbind r Returns = r.
Proof. now destruct r. Qed.

Lemma rbind_assoc {A B C : Type} (r : res A) (k : A -> res B) (h : B -> res C) :
  rbind (rbind r k) h = rbind r (fun a => rbind (k a) h).
Proof. now destruct r. Qed.

(** A sequence returns exactly when both parts do. *)
Lemma rbind_inv {A B : Type} (r : res A) (k : A -> res B) (b : B) :
  rbind r k = Returns b <-> exists a, r = Returns a /\ k a = Returns b.
Proof.
  split.
  - destruct r as [a|e]; simpl; [eauto | discriminate].
  - now intros (a & -> & Hk).
Qed.

(** A sequence raises what its first part raises, or what its second part
    raises after the first returned. *)
Lemma rbind_raises {A B : Type} (r : res A) (k : A -> res B) (e : exn) :
  rbind r k = Raises e <->
  r = Raises e \/ exists a, r = Returns a /\ k a = Raises e.
Proof.
  split.
  - destruct r as [a|e']; simpl; [eauto|]. intros [= ->]. auto.
  - intros [-> | (a & -> & Hk)]; auto.
Qed.

Lemma or_raise_inv {A : Type} (o : option A) (e : exn) (a : A) :
  or_raise o e = Returns a <-> o = Some a.
Proof. destruct o; simpl; split; congruence. Qed.

#[export] Hint Rewrite @rbind_Returns_l @rbind_Returns_r @rbind_assoc : newsy_rw.
