(* ===== verification/StableSort.v ===== *)
(** * StableSort: [sorted(items, key=...)], with and without [reverse=True]

    Python's [sorted] is stable, also with [reverse=True]: elements with equal
    keys keep the order they had in the input.  [sort_desc] is an insertion
    sort with that behaviour.  Its specification is [sort_spec]: the result is
    descending and, for every key, lists the elements of that key as the
    input does.  The specification has exactly one solution, so every theorem
    about the ranking of themes can be read off the specification.
    [sort_asc] is the sort without [reverse]; a list that is ascending
    already is left as it is. *)

From Stdlib Require Import Sorted.
From S2P Require Import Prelude.

Section StableSort.

Context {A : Type} (key : A -> nat).

(** [x] goes in front of the first element whose key is not larger: behind
    the larger keys, before the equal ones, which came later in the input. *)
Fixpoint insert_desc (x : A) (l : list A) : list A :=
  match l with
  | [] => [x]
  | y :: l' => if key y <=? key x then x :: y :: l' else y :: insert_desc x l'
  end.

Fixpoint sort_desc (l : list A) : list A :=
  match l with
  | [] => []
  | x :: l' => insert_desc x (sort_desc l')
  end.

Definition desc (a b : A) : Prop := key b <= key a.

(** The elements of key [k], in the order of the list. *)
Definition of_key (k : nat) (l : list A) : list A :=
  filter (fun x => key x =? k) l.

Definition sort_spec (l r : list A) : Prop :=
  StronglySorted desc r /\ forall k, of_key k r = of_key k l.

(** ** Insertion *)

Lemma insert_desc_perm (x : A) (l : list A) :
  Permutation (insert_desc x l) (x :: l).
Proof.
  induction l as [|y l IH]; simpl; [reflexivity|].
  destruct (key y <=? key x); [reflexivity|].
  rewrite IH. apply perm_swap.
Qed.

Lemma insert_desc_sorted (x : A) (l : list A) :
  StronglySorted desc l -> StronglySorted desc (insert_desc x l).
Proof.
  induction 1 as [|y l Hs IH Hy]; simpl.
  - repeat constructor.
  - destruct (Nat.leb_spec (key y) (key x)) as [Hle|Hgt].
    + constructor; [now constructor|].
      constructor; [exact Hle|].
      eapply Forall_impl; [|exact Hy]. unfold desc. intros; lia.
    + constructor; [exact IH|].
      eapply Permutation_Forall; [symmetry; apply insert_desc_perm|].
      constructor; [unfold desc; lia | exact Hy].
Qed.

Lemma of_key_insert (k : nat) (x : A) (l : list A) :
  StronglySorted desc l ->
  of_key k (insert_desc x l) = of_key k (x :: l).
Proof.
  unfold of_key. induction 1 as [|y l Hs IH Hy]; simpl; [reflexivity|].
  destruct (Nat.leb_spec (key y) (key x)) as [Hle|Hgt]; [reflexivity|].
  simpl. rewrite IH. simpl.
  destruct (Nat.eqb_spec (key x) k), (Nat.eqb_spec (key y) k);
    try reflexivity; lia.
Qed.

(** ** The sort *)

Lemma sort_desc_perm (l : list A) : Permutation (sort_desc l) l.
Proof.
  induction l as [|x l IH]; simpl; [reflexivity|].
  rewrite insert_desc_perm. now constructor.
Qed.

Lemma sort_desc_sorted (l : list A) : StronglySorted desc (sort_desc l).
Proof.
  induction l as [|x l IH]; simpl; [constructor|].
  now apply insert_desc_sorted.
Qed.

Lemma sort_desc_stable (k : nat) (l : list A) :
  of_key k (sort_desc l) = of_key k l.
Proof.
  induction l as [|x l IH]; simpl; [reflexivity|].
  rewrite of_key_insert by apply sort_desc_sorted.
  unfold of_key in *. simpl. now rewrite IH.
Qed.

Lemma sort_desc_spec (l : list A) : sort_spec l (sort_desc l).
Proof. split; [apply sort_desc_sorted | intros k; apply sort_desc_stable]. Qed.

Lemma sort_desc_length (l : list A) : length (sort_desc l) = length l.
Proof. apply Permutation_length, sort_desc_perm. Qed.

Lemma sort_desc_In (l : list A) (x : A) : In x (sort_desc l) <-> In x l.
Proof.
  split; apply Permutation_in; [|symmetry]; apply sort_desc_perm.
Qed.

(** ** Uniqueness of the specification *)

Lemma of_key_In (k : nat) (l : list A) (x : A) :
  In x (of_key k l) <-> In x l /\ key x = k.
Proof. unfold of_key. now rewrite filter_In, Nat.eqb_eq. Qed.

Lemma same_keys_In (l r : list A) (x : A) :
  (forall k, of_key k r = of_key k l) -> In x l -> In x r.
Proof.
  intros H Hx. apply (of_key_In (key x)). rewrite H. now apply of_key_In.
Qed.

Lemma sorted_head_eq (x y : A) (l r : list A) :
  StronglySorted desc (x :: l) -> StronglySorted desc (y :: r) ->
  (forall k, of_key k (y :: r) = of_key k (x :: l)) -> x = y.
Proof.
  intros Hl Hr H.
  apply StronglySorted_inv in Hl as [_ Fl], Hr as [_ Fr].
  rewrite Forall_forall in Fl, Fr. unfold desc in Fl, Fr.
  assert (Hxy : key x <= key y).
  { assert (Hin : In x (y :: r)) by (eapply same_keys_In; [exact H | now left]).
    destruct Hin as [->|Hin]; auto. }
  assert (Hyx : key y <= key x).
  { assert (Hin : In y (x :: l)).
    { eapply same_keys_In; [intros k; symmetry; apply H | now left]. }
    destruct Hin as [->|Hin]; auto. }
  specialize (H (key x)). unfold of_key in H. simpl in H.
  rewrite Nat.eqb_refl in H.
  replace (key y =? key x) with true in H by (symmetry; apply Nat.eqb_eq; lia).
  congruence.
Qed.

Lemma sort_spec_unique (l r1 r2 : list A) :
  sort_spec l r1 -> sort_spec l r2 -> r1 = r2.
Proof.
  intros [S1 K1] [S2 K2].
  assert (K : forall k, of_key k r2 = of_key k r1) by (intros; congruence).
  clear K1 K2 l. revert r2 S2 K.
  induction r1 as [|x r1 IH]; intros [|y r2] S2 K.
  - reflexivity.
  - specialize (K (key y)). unfold of_key in K. simpl in K.
    rewrite Nat.eqb_refl in K. discriminate.
  - specialize (K (key x)). unfold of_key in K. simpl in K.
    rewrite Nat.eqb_refl in K. discriminate.
  - assert (x = y) as <- by (eapply sorted_head_eq; eauto).
    f_equal. apply StronglySorted_inv in S1 as [S1 _], S2 as [S2 _].
    apply IH; auto.
    intros k. specialize (K k). unfold of_key in *. simpl in K.
    destruct (key x =? k); congruence.
Qed.

(** The sort is the only function that meets its specification. *)
Lemma sort_desc_unique (l r : list A) : sort_spec l r -> r = sort_desc l.
Proof. intros H. eapply sort_spec_unique; [exact H | apply sort_desc_spec]. Qed.

(** ** The head of the ranking *)

Lemma sorted_firstn_dominates (n : nat) (r : list A) (x y : A) :
  StronglySorted desc r ->
  In x (firstn n r) -> In y (skipn n r) -> key y <= key x.
Proof.
  intros S. revert n. induction S as [|z r S IH Hz]; intros [|n]; simpl;
    try tauto.
  intros [->|Hx] Hy.
  - rewrite Forall_forall in Hz. apply Hz.
    rewrite <- (firstn_skipn n r). apply in_or_app. now right.
  - eauto.
Qed.

End StableSort.

(** ** [sorted(items, key=...)] *)

Section Ascending.

Context {A : Type} (key : A -> nat).

(** [x] comes from before the elements of [l]: it goes in front of the first
    element whose key is not smaller. *)
Fixpoint insert_asc (x : A) (l : list A) : list A :=
  match l with
  | [] => [x]
  | y :: l' => if key x <=? key y then x :: y :: l' else y :: insert_asc x l'
  end.

Fixpoint sort_asc (l : list A) : list A :=
  match l with
  | [] => []
  | x :: l' => insert_asc x (sort_asc l')
  end.

Definition asc (a b : A) : Prop := key a <= key b.

Lemma insert_asc_perm (x : A) (l : list A) :
  Permutation (insert_asc x l) (x :: l).
Proof.
  induction l as [|y l IH]; simpl; [reflexivity|].
  destruct (key x <=? key y); [reflexivity|].
  rewrite IH. apply perm_swap.
Qed.

Lemma insert_asc_sorted (x : A) (l : list A) :
  StronglySorted asc l -> StronglySorted asc (insert_asc x l).
Proof.
  induction 1 as [|y l Hs IH Hy]; simpl.
  - repeat constructor.
  - destruct (Nat.leb_spec (key x) (key y)) as [Hle|Hgt].
    + constructor; [now constructor|].
      constructor; [exact Hle|].
      eapply Forall_impl; [|exact Hy]. unfold asc. intros; lia.
    + constructor; [exact IH|].
      eapply Permutation_Forall; [symmetry; apply insert_asc_perm|].
      constructor; [unfold asc; lia | exact Hy].
Qed.

Lemma of_key_insert_asc (k : nat) (x : A) (l : list A) :
  StronglySorted asc l ->
  of_key key k (insert_asc x l) = of_key key k (x :: l).
Proof.
  unfold of_key. induction 1 as [|y l Hs IH Hy]; simpl; [reflexivity|].
  destruct (Nat.leb_spec (key x) (key y)) as [Hle|Hgt]; [reflexivity|].
  simpl. rewrite IH. simpl.
  destruct (Nat.eqb_spec (key x) k), (Nat.eqb_spec (key y) k);
    try reflexivity; lia.
Qed.

Lemma sort_asc_perm (l : list A) : Permutation (sort_asc l) l.
Proof.
  induction l as [|x l IH]; simpl; [reflexivity|].
  rewrite insert_asc_perm. now constructor.
Qed.

Lemma sort_asc_sorted (l : list A) : StronglySorted asc (sort_asc l).
Proof.
  induction l as [|x l IH]; simpl; [constructor|].
  now apply insert_asc_sorted.
Qed.

Lemma sort_asc_stable (k : nat) (l : list A) :
  of_key key k (sort_asc l) = of_key key k l.
Proof.
  induction l as [|x l IH]; simpl; [reflexivity|].
  rewrite of_key_insert_asc by apply sort_asc_sorted.
  unfold of_key in *. simpl. now rewrite IH.
Qed.

(** Sorting leaves an ascending list as it is. *)
Lemma sort_asc_id (l : list A) : StronglySorted asc l -> sort_asc l = l.
Proof.
  induction 1 as [|x l Hs IH Hx]; simpl; [reflexivity|].
  rewrite IH. destruct l as [|y l]; simpl; [reflexivity|].
  apply Forall_inv in Hx. unfold asc in Hx.
  now apply Nat.leb_le in Hx as ->.
Qed.

Lemma StronglySorted_filter (R : A -> A -> Prop) (p : A -> bool) (l : list A) :
  StronglySorted R l -> StronglySorted R (filter p l).
Proof.
  induction 1 as [|x l Hs IH Hx]; simpl; [constructor|].
  destruct (p x); [|exact IH]. constructor; [exact IH|].
  apply Forall_forall. intros y [Hy _]%filter_In.
  rewrite Forall_forall in Hx. auto.
Qed.

End Ascending.

#[export] Hint Resolve sort_desc_sorted sort_desc_perm sort_desc_spec : newsy.
#[export] Hint Rewrite @sort_desc_length : newsy_rw.
