(* ===== verification/Dict.v ===== *)
(** * Dict: Python dictionaries with string keys

    A [dict] iterates in insertion order, and the pipeline depends on that
    order (ties between themes are broken by it), so a dictionary is an
    association list in insertion order with distinct keys.  [dget] is
    [d.get(k)], [dset] is [d[k] = v] (in place for a present key, at the end
    for a new one), [dkeys] and [ditems] are [d.keys()] and [d.items()]. *)

From S2P Require Import Prelude.
From S2P Require Import Text.

Section Dict.

Context {V : Type}.

Definition dict : Type := list (string * V).

Definition dkeys (d : dict) : list string := map fst d.

Definition ditems (d : dict) : list (string * V) := d.

Fixpoint dget (k : string) (d : dict) : option V :=
  match d with
  | [] => None
  | (k', v) :: d' => if String.eqb k k' then Some v else dget k d'
  end.

Fixpoint dset (k : string) (v : V) (d : dict) : dict :=
  match d with
  | [] => [(k, v)]
  | (k', v') :: d' =>
      if String.eqb k k' then (k, v) :: d' else (k', v') :: dset k v d'
  end.

(** [k in d]. *)
Definition dmem (k : string) (d : dict) : bool :=
  match dget k d with Some _ => true | None => false end.

(** [d[k] = f(d.get(k, v0))]: the update of a counter or of a
    [defaultdict]. *)
Definition dupdate (k : string) (v0 : V) (f : V -> V) (d : dict) : dict :=
  dset k (f (match dget k d with Some v => v | None => v0 end)) d.

(** The invariant of a dictionary: no key occurs twice. *)
Definition dict_ok (d : dict) : Prop := NoDup (dkeys d).

(** ** Lookup *)

Lemma dget_In (k : string) (v : V) (d : dict) :
  dget k d = Some v -> In (k, v) d.
Proof.
  induction d as [|[k' v'] d IH]; simpl; [discriminate|].
  destruct (String.eqb_spec k k') as [->|Hne].
  - intros [= ->]. now left.
  - auto.
Qed.

Lemma In_dget (k : string) (v : V) (d : dict) :
  dict_ok d -> In (k, v) d -> dget k d = Some v.
Proof.
  unfold dict_ok. induction d as [|[k' v'] d IH]; simpl; [tauto|].
  intros Hnd [[= -> ->]|Hin].
  - now rewrite String.eqb_refl.
  - invc Hnd. destruct (String.eqb_spec k k') as [->|Hne]; auto.
    exfalso. apply H1. apply in_map_iff. now exists (k', v).
Qed.

Lemma dget_None (k : string) (d : dict) :
  dget k d = None <-> ~ In k (dkeys d).
Proof.
  induction d as [|[k' v'] d IH]; simpl; [tauto|].
  destruct (String.eqb_spec k k') as [->|Hne].
  - split; [discriminate | tauto].
  - rewrite IH. split; [intros H [E|Hin]; [congruence|tauto] | tauto].
Qed.

Lemma dget_Some_key (k : string) (d : dict) :
  In k (dkeys d) <-> exists v, dget k d = Some v.
Proof.
  destruct (dget k d) as [v|] eqn:E.
  - split; [eauto|]. intros _. apply dget_In in E.
    apply in_map_iff. now exists (k, v).
  - apply dget_None in E. split; [tauto | intros [v [=]]].
Qed.

(** ** Update *)

Lemma dget_dset_eq (k : string) (v : V) (d : dict) :
  dget k (dset k v d) = Some v.
Proof.
  induction d as [|[k' v'] d IH]; simpl.
  - now rewrite String.eqb_refl.
  - destruct (String.eqb_spec k k') as [->|Hne]; simpl.
    + now rewrite String.eqb_refl.
    + destruct (String.eqb_spec k k'); [contradiction | exact IH].
Qed.

Lemma dget_dset_ne (k k' : string) (v : V) (d : dict) :
  k <> k' -> dget k' (dset k v d) = dget k' d.
Proof.
  intros Hne. induction d as [|[k0 v0] d IH]; simpl.
  - destruct (String.eqb_spec k' k); congruence.
  - destruct (String.eqb_spec k k0) as [->|Hne0]; simpl.
    + destruct (String.eqb_spec k' k0); congruence.
    + now rewrite IH.
Qed.

Lemma dkeys_dset_old (k : string) (v : V) (d : dict) :
  In k (dkeys d) -> dkeys (dset k v d) = dkeys d.
Proof.
  unfold dkeys. induction d as [|[k' v'] d IH]; simpl; [tauto|].
  destruct (String.eqb_spec k k') as [->|Hne]; simpl; [reflexivity|].
  intros [E|Hin]; [congruence|]. now rewrite IH.
Qed.

Lemma dset_new (k : string) (v : V) (d : dict) :
  ~ In k (dkeys d) -> dset k v d = d ++ [(k, v)].
Proof.
  unfold dkeys. induction d as [|[k' v'] d IH]; simpl; [reflexivity|].
  intros Hn. destruct (String.eqb_spec k k') as [->|Hne]; [tauto|].
  rewrite IH; tauto.
Qed.

Lemma dset_ok (k : string) (v : V) (d : dict) :
  dict_ok d -> dict_ok (dset k v d).
Proof.
  unfold dict_ok. intros Hd.
  destruct (in_dec string_dec k (dkeys d)) as [Hin|Hn].
  - now rewrite dkeys_dset_old.
  - rewrite dset_new by assumption. unfold dkeys in *.
    rewrite map_app. simpl. apply NoDup_app; auto.
    + repeat constructor. simpl. tauto.
    + intros x Hx [<-|[]]. tauto.
Qed.

Lemma dupdate_ok (k : string) (v0 : V) (f : V -> V) (d : dict) :
  dict_ok d -> dict_ok (dupdate k v0 f d).
Proof. apply dset_ok. Qed.

Lemma dget_dupdate (k k' : string) (v0 : V) (f : V -> V) (d : dict) :
  dget k' (dupdate k v0 f d)
  = if String.eqb k k'
    then Some (f (match dget k d with Some v => v | None => v0 end))
    else dget k' d.
Proof.
  unfold dupdate. destruct (String.eqb_spec k k') as [<-|Hne].
  - apply dget_dset_eq.
  - now apply dget_dset_ne.
Qed.

End Dict.

Arguments dict : clear implicits.

#[export] Hint Resolve dset_ok : newsy.
#[export] Hint Rewrite @dget_dset_eq : newsy_rw.
