(* ===== verification/Taxonomy.v ===== *)
(** * Taxonomy: the fixed tables of themes and keywords

    [THEMES] and [KEYWORD_PATTERNS] of [src/process_diary.py], [THEME_INFO]
    of [src/summary_generator.py] and [theme_colors] of
    [src/html_generator.py], in declaration order.  The theorems check the
    configuration: keys are distinct, patterns are non-empty and lower-case
    (the classifier matches them against lower-cased text), every theme has a
    title, a priority of its own and a colour, and the two fallback themes
    exist.  A theme without an entry in [THEME_INFO] would make the summary
    generator fail with a [KeyError]; [theme_info_total] rules that out. *)

From S2P Require Import Prelude.
From S2P Require Import Text.
From S2P Require Import Dict.

#[local] Open Scope string_scope.

(** ** Tables *)

Definition THEMES : dict (list string) :=
  [ ("science", ["nsf"; "nasa"; "research"; "climate"; "weather"; "scientist"]);
    ("health", ["cdc"; "fda"; "nih"; "vaccine"; "covid"; "pandemic"; "health";
                "medical"; "hospital"]);
    ("education", ["education"; "school"; "university"; "college"; "student";
                   "teacher"; "harvard"; "columbia"]);
    ("environment", ["epa"; "environment"; "pollution"; "clean"; "toxic";
                     "waste"; "water"; "air"]);
    ("civil-society", ["dei"; "diversity"; "equity"; "inclusion";
                       "civil-rights"; "voting"; "democracy"]);
    ("human-rights", ["lgbtq"; "transgender"; "discrimination"; "religious";
                      "freedom"; "abortion"]);
    ("government", ["federal"; "employee"; "workforce"; "doge"; "efficiency";
                    "layoff"; "resign"]);
    ("justice", ["fbi"; "doj"; "court"; "judge"; "attorney"; "prosecutor";
                 "investigation"]);
    ("immigration", ["ice"; "deportation"; "immigrant"; "refugee"; "border";
                     "asylum"; "visa"]);
    ("trade", ["tariff"; "trade"; "import"; "export"; "nafta"; "china"]);
    ("economy", ["tax"; "budget"; "debt"; "inflation"; "crypto"; "bitcoin";
                 "stock"; "economy"]);
    ("foreign-affairs", ["ukraine"; "russia"; "israel"; "palestine"; "nato";
                         "china"; "foreign"]) ].

Definition KEYWORD_PATTERNS : dict (list string) :=
  [ ("doge", ["doge"; "efficiency"]);
    ("fbi", ["fbi"; "federal bureau"]);
    ("ice", ["ice"; "immigration enforcement"]);
    ("epa", ["epa"; "environmental protection"]);
    ("cdc", ["cdc"; "disease control"]);
    ("nasa", ["nasa"; "space"]);
    ("nsf", ["nsf"; "national science foundation"]);
    ("nih", ["nih"; "health institute"]);
    ("supreme-court", ["supreme court"; "scotus"]);
    ("tariffs", ["tariff"]);
    ("ukraine", ["ukraine"; "zelensky"]);
    ("russia", ["russia"; "putin"]);
    ("israel", ["israel"; "gaza"; "palestine"]);
    ("musk", ["musk"; "elon"]);
    ("rfk-jr", ["rfk"; "kennedy jr"]);
    ("hegseth", ["hegseth"]);
    ("harvard", ["harvard"]);
    ("columbia", ["columbia university"]);
    ("voice-of-america", ["voice of america"; "voa"]);
    ("peace-corps", ["peace corps"]);
    ("social-security", ["social security"; "ssa"]);
    ("veterans", ["veteran"; "va "]);
    ("medicare", ["medicare"; "medicaid"]);
    ("lgbt", ["lgbt"; "transgender"; "gay"; "lesbian"]);
    ("dei", ["dei"; "diversity"; "equity"; "inclusion"]);
    ("climate", ["climate"; "carbon"; "emission"]);
    ("covid", ["covid"; "coronavirus"; "pandemic"]);
    ("abortion", ["abortion"; "reproductive"]);
    ("crypto", ["crypto"; "bitcoin"; "digital currency"]) ].

Record theme_info : Type := ThemeInfo {
  ti_title : string;
  ti_priority : nat;
  ti_description : string
}.

Definition THEME_INFO : dict theme_info :=
  [ ("government",
     ThemeInfo "Federal Workforce Restructuring and Government Operations" 1
       "Systematic restructuring of federal agencies, mass layoffs, and the Department of Government Efficiency (DOGE) initiatives");
    ("immigration",
     ThemeInfo "Immigration Enforcement and Deportation Operations" 2
       "Border enforcement, deportation operations, visa policies, and treatment of refugees and asylum seekers");
    ("science",
     ThemeInfo "Scientific Research and Space Programs" 3
       "Changes to NSF, NASA, climate research, and federal research funding");
    ("health",
     ThemeInfo "Healthcare Policy and Public Health" 4
       "CDC policies, vaccine programs, NIH research, and public health infrastructure");
    ("education",
     ThemeInfo "Educational Institutions and Academic Freedom" 5
       "University funding, DEI elimination, student visas, and academic research");
    ("justice",
     ThemeInfo "Justice Department and Law Enforcement" 6
       "DOJ transformation, FBI changes, prosecutorial decisions, and judicial relations");
    ("economy",
     ThemeInfo "Economic Policy and Financial Markets" 7
       "Tax policies, cryptocurrency, stock market regulations, and federal budget");
    ("trade",
     ThemeInfo "Trade Policy and Tariffs" 8
       "Import tariffs, trade agreements, and international commerce");
    ("foreign-affairs",
     ThemeInfo "Foreign Policy and International Relations" 9
       "Relations with allies and adversaries, military aid, and diplomatic initiatives");
    ("environment",
     ThemeInfo "Environmental Deregulation and Resource Extraction" 10
       "EPA changes, climate policy rollbacks, and natural resource exploitation");
    ("human-rights",
     ThemeInfo "Civil Rights and Social Policy" 11
       "LGBTQ+ rights, religious freedom, reproductive rights, and discrimination policies");
    ("civil-society",
     ThemeInfo "Democratic Institutions and Civil Society" 12
       "Voting rights, democratic norms, civil society organizations, and constitutional issues") ].

Definition theme_colors : dict string :=
  [ ("science", "#3498db"); ("health", "#e74c3c"); ("education", "#9b59b6");
    ("environment", "#27ae60"); ("civil-society", "#f39c12");
    ("human-rights", "#e67e22"); ("government", "#34495e");
    ("justice", "#2c3e50"); ("immigration", "#16a085"); ("trade", "#8e44ad");
    ("economy", "#2ecc71"); ("foreign-affairs", "#c0392b") ].

(** [list(THEMES.keys())] and [list(KEYWORD_PATTERNS.keys())]. *)
Definition theme_names : list string := dkeys THEMES.
Definition keyword_names : list string := dkeys KEYWORD_PATTERNS.

(** ** Well-formedness of a pattern table, as a computable check *)

Definition pattern_ok (p : string) : bool :=
  negb (String.eqb p "") && String.eqb (lower p) p.

Definition table_ok (t : dict (list string)) : bool :=
  nodupb (dkeys t) && forallb (fun kv => forallb pattern_ok (snd kv)) t.

Definition covers {V : Type} (ks : list string) (d : dict V) : bool :=
  forallb (fun k => dmem k d) ks.

(** ** The configuration is consistent *)

Lemma THEMES_ok : table_ok THEMES = true.
Proof. vm_compute. reflexivity. Qed.

Lemma KEYWORD_PATTERNS_ok : table_ok KEYWORD_PATTERNS = true.
Proof. vm_compute. reflexivity. Qed.

Lemma table_ok_dict (t : dict (list string)) : table_ok t = true -> dict_ok t.
Proof.
  unfold table_ok, dict_ok. rewrite andb_true_iff.
  intros [H _]. now apply nodupb_NoDup.
Qed.

Lemma table_ok_pattern (t : dict (list string)) (k p : string) (ps : list string) :
  table_ok t = true -> In (k, ps) t -> In p ps ->
  p <> "" /\ lower p = p.
Proof.
  unfold table_ok. rewrite andb_true_iff, forallb_forall.
  intros [_ H] Hk Hp. specialize (H _ Hk). simpl in H.
  rewrite forallb_forall in H. specialize (H _ Hp).
  unfold pattern_ok in H.
  apply andb_true_iff in H as [H1 H2].
  apply negb_true_iff, String.eqb_neq in H1.
  apply String.eqb_eq in H2. auto.
Qed.

Lemma theme_names_NoDup : NoDup theme_names.
Proof. apply (table_ok_dict THEMES), THEMES_ok. Qed.

Lemma keyword_names_NoDup : NoDup keyword_names.
Proof. apply (table_ok_dict KEYWORD_PATTERNS), KEYWORD_PATTERNS_ok. Qed.

Lemma covers_spec {V : Type} (ks : list string) (d : dict V) (k : string) :
  covers ks d = true -> In k ks -> exists v, dget k d = Some v.
Proof.
  unfold covers, dmem. rewrite forallb_forall. intros H Hk.
  specialize (H _ Hk). destruct (dget k d); [eauto | discriminate].
Qed.

(** The three tables of themes name the same themes: every theme of the
    classifier has its title and priority for the summary page and its
    colour for the index page, and the summary page has no theme the
    classifier cannot give. *)
Lemma tables_agree :
  covers theme_names THEME_INFO = true /\
  covers (dkeys THEME_INFO) THEMES = true /\
  dkeys theme_colors = theme_names.
Proof. repeat split; vm_compute; reflexivity. Qed.

#[export] Hint Resolve theme_names_NoDup keyword_names_NoDup : newsy.
