(* ===== verification/DateExtractor.v ===== *)
(** * DateExtractor: [DiaryProcessor.extract_date]

    The code tries three regular expressions with [re.search] and returns the
    first match whose numbers pass a plausibility test.  Each expression is a
    matcher here, a function from the text at a start position to the three
    groups; [re_search] tries the start positions from left to right.  The
    expressions have no alternation and every repetition is followed by a
    character it cannot consume, so the greedy choice is the only one and
    backtracking never finds another match.  A match that fails the test
    does not end the loop: the next expression is tried (the [if] has no
    [else]), and of each expression only the leftmost match is looked at. *)

From S2P Require Import Prelude.
From S2P Require Import Text.

#[local] Open Scope string_scope.

(** ** Pieces of the expressions *)

(** A literal character. *)
Definition expect (c : ascii) (s : string) : option string :=
  match s with
  | String c' r => if Ascii.eqb c c' then Some r else None
  | "" => None
  end.

(** [\d{n}]: exactly [n] digits. *)
Fixpoint take_digits (n : nat) (s : string) : option (string * string) :=
  match n with
  | 0 => Some ("", s)
  | S n' =>
      match s with
      | String c s' =>
          if is_digit c
          then let? (d, r) := take_digits n' s' in Some (String c d, r)
          else None
      | "" => None
      end
  end.

(** [\d{1,2}] in front of a literal that is not a digit: two digits when
    there are two, else one. *)
Definition take_digits_1_2 (s : string) : option (string * string) :=
  match s with
  | String c1 (String c2 r) =>
      if is_digit c1
      then if is_digit c2
           then Some (String c1 (String c2 ""), r)
           else Some (String c1 "", String c2 r)
      else None
  | String c1 "" => if is_digit c1 then Some (String c1 "", "") else None
  | "" => None
  end.

Definition groups : Type := (string * string * string)%type.

(** [/(\d{4})/(\d{1,2})/(\d{1,2})/] at the head of [s]. *)
Definition match_slashes (s : string) : option groups :=
  let? r := expect "/" s in
  let? (y, r) := take_digits 4 r in
  let? r := expect "/" r in
  let? (m, r) := take_digits_1_2 r in
  let? r := expect "/" r in
  let? (d, r) := take_digits_1_2 r in
  let? _ := expect "/" r in
  Some (y, m, d).

(** [/(\d{4})-(\d{2})-(\d{2})] at the head of [s]. *)
Definition match_dashes (s : string) : option groups :=
  let? r := expect "/" s in
  let? (y, r) := take_digits 4 r in
  let? r := expect "-" r in
  let? (m, r) := take_digits 2 r in
  let? r := expect "-" r in
  let? (d, _) := take_digits 2 r in
  Some (y, m, d).

(** [(\d{4})(\d{2})(\d{2})] at the head of [s]. *)
Definition match_compact (s : string) : option groups :=
  let? (y, r) := take_digits 4 s in
  let? (m, r) := take_digits 2 r in
  let? (d, _) := take_digits 2 r in
  Some (y, m, d).

(** [re.search]: the match at the leftmost start position that has one. *)
Fixpoint re_search {G : Type} (m : string -> option G) (s : string) : option G :=
  match m s with
  | Some g => Some g
  | None =>
      match s with
      | "" => None
      | String _ s' => re_search m s'
      end
  end.

Definition date_patterns : list (string -> option groups) :=
  [match_slashes; match_dashes; match_compact].

(** ** The plausibility test and the result *)

Definition plausible (year month day : nat) : bool :=
  ((2024 <=? year) && (year <=? 2026) && (1 <=? month) && (month <=? 12)
   && (1 <=? day) && (day <=? 31))%nat.

(** [f"{year:04d}-{month:02d}-{day:02d}"]. *)
Definition iso_date (year month day : nat) : string :=
  fmt_0d 4 year ++ "-" ++ fmt_0d 2 month ++ "-" ++ fmt_0d 2 day.

(** The body of the loop once a pattern has matched. *)
Definition date_of_groups (g : groups) : option string :=
  let '(y, m, d) := g in
  let year := int_of_digits y in
  let month := int_of_digits m in
  let day := int_of_digits d in
  if plausible year month day then Some (iso_date year month day) else None.

(** One turn of the loop: search, then test. *)
Definition try_pattern (m : string -> option groups) (url : string) : option string :=
  let? g := re_search m url in date_of_groups g.

Definition extract_date (url : string) : option string :=
  first_some (map try_pattern date_patterns) url.

(** ** What the pieces consume *)

Lemma expect_spec (c : ascii) (s r : string) :
  expect c s = Some r <-> s = String c r.
Proof.
  destruct s as [|c' s]; simpl; [split; discriminate|].
  destruct (Ascii.eqb_spec c c') as [->|Hne]; split; congruence.
Qed.

Lemma expect_here (c : ascii) (r : string) : expect c (String c r) = Some r.
Proof. simpl. now rewrite Ascii.eqb_refl. Qed.

Lemma expect_ne (c c' : ascii) (r : string) :
  c <> c' -> expect c (String c' r) = None.
Proof. intros H. simpl. now destruct (Ascii.eqb_spec c c'). Qed.

Lemma take_digits_spec (n : nat) (s d r : string) :
  take_digits n s = Some (d, r) ->
  s = d ++ r /\ String.length d = n /\ all_chars is_digit d = true.
Proof.
  revert s d r; induction n as [|n IH]; intros s d r; simpl.
  - intros [= <- <-]. auto.
  - destruct s as [|c s]; [discriminate|].
    destruct (is_digit c) eqn:Ec; [|discriminate].
    destruct (take_digits n s) as [[d' r']|] eqn:E; simpl; [|discriminate].
    intros [= <- <-]. destruct (IH _ _ _ E) as (-> & <- & Hd).
    simpl. now rewrite Ec.
Qed.

Lemma take_digits_exact (a r : string) :
  all_chars is_digit a = true ->
  take_digits (String.length a) (a ++ r) = Some (a, r).
Proof.
  induction a as [|c a IH]; simpl; [reflexivity|].
  rewrite andb_true_iff. intros [-> Ha]. now rewrite IH.
Qed.

Lemma take_digits_1_2_spec (s d r : string) :
  take_digits_1_2 s = Some (d, r) ->
  s = d ++ r /\ 1 <= String.length d <= 2 /\ all_chars is_digit d = true.
Proof.
  destruct s as [|c1 [|c2 s]]; simpl; [discriminate| |].
  - destruct (is_digit c1) eqn:E1; [|discriminate].
    intros [= <- <-]. simpl. rewrite E1. auto.
  - destruct (is_digit c1) eqn:E1; [|discriminate].
    destruct (is_digit c2) eqn:E2; intros [= <- <-]; simpl;
      rewrite E1, ?E2; auto.
Qed.

Lemma take_digits_1_2_exact (a : string) (c : ascii) (r : string) :
  all_chars is_digit a = true -> 1 <= String.length a <= 2 ->
  is_digit c = false ->
  take_digits_1_2 (a ++ String c r) = Some (a, String c r).
Proof.
  destruct a as [|c1 [|c2 [|c3 a]]]; simpl; try lia.
  - rewrite andb_true_iff. intros [-> _] _ ->. reflexivity.
  - rewrite !andb_true_iff. intros (-> & -> & _) _ _. reflexivity.
Qed.

(** ** Searching *)

(** [m] matches at no start position inside [pre], when [rest] follows. *)
Fixpoint fails_within {G : Type} (m : string -> option G) (pre rest : string) : Prop :=
  match pre with
  | "" => True
  | String c pre' =>
      m (String c pre' ++ rest) = None /\ fails_within m pre' rest
  end.

Lemma re_search_skip {G : Type} (m : string -> option G) (pre rest : string) :
  fails_within m pre rest -> re_search m (pre ++ rest) = re_search m rest.
Proof.
  induction pre as [|c pre IH]; simpl; [reflexivity|].
  intros [H Hpre]. simpl in H. rewrite H. auto.
Qed.

Lemma re_search_here {G : Type} (m : string -> option G) (s : string) (g : G) :
  m s = Some g -> re_search m s = Some g.
Proof. intros H. destruct s; simpl; now rewrite H. Qed.

Lemma re_search_Some {G : Type} (m : string -> option G) (s : string) (g : G) :
  re_search m s = Some g <->
  exists pre rest, s = pre ++ rest /\ m rest = Some g /\ fails_within m pre rest.
Proof.
  split.
  - induction s as [|c s IH]; simpl.
    + destruct (m "") eqn:E; [|discriminate].
      intros [= ->]. now exists "", "".
    + destruct (m (String c s)) eqn:E.
      * intros [= ->]. now exists "", (String c s).
      * intros H. destruct (IH H) as (pre & rest & -> & Hm & Hf).
        exists (String c pre), rest. simpl. auto.
  - intros (pre & rest & -> & Hm & Hf).
    rewrite re_search_skip by assumption. now apply re_search_here.
Qed.

Lemma re_search_None {G : Type} (m : string -> option G) (s : string) :
  re_search m s = None <-> fails_within m s "" /\ m "" = None.
Proof.
  induction s as [|c s IH]; simpl.
  - destruct (m ""); split; try tauto; try discriminate; now intros [_ H].
  - rewrite append_nil_r. destruct (m (String c s)) eqn:E.
    + split; [discriminate | now intros [[H _] _]].
    + rewrite IH. tauto.
Qed.

(** ** The result *)

Lemma length_str_year (y : nat) :
  2024 <= y <= 2026 -> String.length (str_of_nat y) = 4.
Proof.
  intros H. assert (E : y = 2024 \/ y = 2025 \/ y = 2026) by lia.
  destruct E as [-> | [-> | ->]]; reflexivity.
Qed.

Lemma length_str_small (n : nat) :
  n <= 31 -> String.length (str_of_nat n) <= 2.
Proof.
  intros H. do 32 (destruct n as [|n]; [vm_compute; lia|]). lia.
Qed.

Lemma plausible_spec (y m d : nat) :
  plausible y m d = true <->
  2024 <= y <= 2026 /\ 1 <= m <= 12 /\ 1 <= d <= 31.
Proof. unfold plausible. rewrite !andb_true_iff, !Nat.leb_le. lia. Qed.

Lemma iso_date_length (y m d : nat) :
  plausible y m d = true -> String.length (iso_date y m d) = 10.
Proof.
  rewrite plausible_spec. intros (Hy & Hm & Hd). unfold iso_date.
  rewrite !length_append, !length_fmt_0d, length_str_year by assumption.
  pose proof (length_str_small m). pose proof (length_str_small d).
  change (String.length "-") with 1. lia.
Qed.

Lemma date_of_groups_Some (ys ms ds d : string) :
  date_of_groups (ys, ms, ds) = Some d <->
  plausible (int_of_digits ys) (int_of_digits ms) (int_of_digits ds) = true /\
  d = iso_date (int_of_digits ys) (int_of_digits ms) (int_of_digits ds).
Proof.
  unfold date_of_groups. destruct (plausible _ _ _); split.
  - intros [= <-]. auto.
  - now intros [_ ->].
  - discriminate.
  - now intros [[=] _].
Qed.

Lemma try_pattern_Some (m : string -> option groups) (url d : string) :
  try_pattern m url = Some d <->
  exists g, re_search m url = Some g /\ date_of_groups g = Some d.
Proof. apply obind_Some. Qed.

Lemma try_pattern_None (m : string -> option groups) (url : string) :
  try_pattern m url = None <->
  forall g, re_search m url = Some g -> date_of_groups g = None.
Proof.
  unfold try_pattern. destruct (re_search m url) as [g|]; simpl; split.
  - now intros H g' [= <-].
  - auto.
  - discriminate.
  - reflexivity.
Qed.

Lemma extract_date_unfold (url : string) :
  extract_date url =
  match try_pattern match_slashes url with
  | Some d => Some d
  | None =>
      match try_pattern match_dashes url with
      | Some d => Some d
      | None => try_pattern match_compact url
      end
  end.
Proof.
  unfold extract_date. simpl.
  repeat (break_match; try reflexivity).
Qed.

Lemma extract_date_Some_inv (url d : string) :
  extract_date url = Some d ->
  exists m g, In m date_patterns /\ re_search m url = Some g /\
              date_of_groups g = Some d.
Proof.
  rewrite extract_date_unfold. unfold date_patterns.
  destruct (try_pattern match_slashes url) eqn:E1;
    [|destruct (try_pattern match_dashes url) eqn:E2].
  - intros [= ->]. apply try_pattern_Some in E1 as (g & ? & ?).
    exists match_slashes, g. simpl. auto.
  - intros [= ->]. apply try_pattern_Some in E2 as (g & ? & ?).
    exists match_dashes, g. simpl. auto.
  - intros E3. apply try_pattern_Some in E3 as (g & ? & ?).
    exists match_compact, g. simpl. auto.
Qed.

(** What [extract_date] returns is the ISO form of a plausible date. *)
Lemma extract_date_plausible (url d : string) :
  extract_date url = Some d ->
  exists y m dd, plausible y m dd = true /\ d = iso_date y m dd.
Proof.
  intros H. apply extract_date_Some_inv in H as (m & [[ys ms] ds] & _ & _ & H).
  apply date_of_groups_Some in H as [Hp ->]. eauto.
Qed.

(** C18: every date [extract_date] returns is a ten-character string
    YYYY-MM-DD whose year lies in 2024..2026, month in 1..12 and day in
    1..31; the test is a plausibility filter, not a calendar. *)
Theorem extract_date_wellformed (url d : string) :
  extract_date url = Some d ->
  exists y m dd,
    2024 <= y <= 2026 /\ 1 <= m <= 12 /\ 1 <= dd <= 31 /\
    d = iso_date y m dd /\ String.length d = 10.
Proof.
  intros H. apply extract_date_Some_inv in H as (m & [[ys ms] ds] & _ & _ & H).
  apply date_of_groups_Some in H as [Hp ->].
  exists (int_of_digits ys), (int_of_digits ms), (int_of_digits ds).
  pose proof (iso_date_length _ _ _ Hp).
  apply plausible_spec in Hp. tauto.
Qed.

Lemma extract_date_wellformed_witness :
  exists y m dd,
    2024 <= y <= 2026 /\ 1 <= m <= 12 /\ 1 <= dd <= 31 /\
    "2025-02-31"%string = iso_date y m dd /\
    String.length "2025-02-31" = 10.
Proof.
  apply (extract_date_wellformed "https://x.example/2025/2/31/"%string).
  vm_compute. reflexivity.
Defined.

(** [extract_date] returns nothing exactly when, for each of the three
    patterns, the leftmost match (if any) fails the plausibility test. *)
Theorem extract_date_None_iff (url : string) :
  extract_date url = None <->
  forall m, In m date_patterns ->
    forall g, re_search m url = Some g -> date_of_groups g = None.
Proof.
  unfold extract_date. rewrite first_some_None, Forall_forall. split.
  - intros H m Hm. apply try_pattern_None. apply H. now apply in_map.
  - intros H f Hf. apply in_map_iff in Hf as (m & <- & Hm).
    apply try_pattern_None. intros g Hg. now apply (H m).
Qed.

(** ** The first pattern on a URL that carries a date *)

Definition no_digit (s : string) : bool :=
  all_chars (fun c => negb (is_digit c)) s.

Lemma match_slashes_exact (ys ms ds post : string) :
  all_chars is_digit ys = true -> String.length ys = 4 ->
  all_chars is_digit ms = true -> 1 <= String.length ms <= 2 ->
  all_chars is_digit ds = true -> 1 <= String.length ds <= 2 ->
  match_slashes ("/" ++ ys ++ "/" ++ ms ++ "/" ++ ds ++ "/" ++ post)
  = Some (ys, ms, ds).
Proof.
  intros Hy Ly Hm Lm Hd Ld. unfold match_slashes. cbn [append].
  rewrite expect_here. cbn [obind].
  rewrite <- Ly, take_digits_exact by assumption. cbn [obind].
  rewrite expect_here. cbn [obind].
  rewrite take_digits_1_2_exact by auto. cbn [obind].
  rewrite expect_here. cbn [obind].
  rewrite take_digits_1_2_exact by auto. cbn [obind].
  now rewrite expect_here.
Qed.

Lemma take_digits_nondigit (n : nat) (c : ascii) (s : string) :
  is_digit c = false -> take_digits (S n) (String c s) = None.
Proof. intros H. simpl. now rewrite H. Qed.

Lemma fails_within_slashes (pre rest : string) :
  no_digit pre = true -> fails_within match_slashes pre (String "/" rest).
Proof.
  unfold no_digit. induction pre as [|c pre IH]; simpl; [trivial|].
  rewrite andb_true_iff, negb_true_iff. intros [Hc Hpre].
  split; [|auto]. unfold match_slashes.
  destruct (ascii_dec "/" c) as [<-|Hne];
    [rewrite expect_here | now rewrite expect_ne].
  cbn [obind]. destruct pre as [|c' pre]; cbn [append].
  - now rewrite take_digits_nondigit.
  - simpl in Hpre. apply andb_true_iff in Hpre as [Hc' _].
    apply negb_true_iff in Hc'. now rewrite take_digits_nondigit.
Qed.

(** A URL made of a digit-free prefix, then [/YYYY/M/D/] with a
    four-digit year and one- or two-digit month and day that pass the
    plausibility test, yields that date in ISO form, whatever follows. *)
Theorem extract_date_slashes (pre ys ms ds post : string) :
  no_digit pre = true ->
  all_chars is_digit ys = true -> String.length ys = 4 ->
  all_chars is_digit ms = true -> 1 <= String.length ms <= 2 ->
  all_chars is_digit ds = true -> 1 <= String.length ds <= 2 ->
  plausible (int_of_digits ys) (int_of_digits ms) (int_of_digits ds) = true ->
  extract_date (pre ++ "/" ++ ys ++ "/" ++ ms ++ "/" ++ ds ++ "/" ++ post)
  = Some (iso_date (int_of_digits ys) (int_of_digits ms) (int_of_digits ds)).
Proof.
  intros Hpre Hy Ly Hm Lm Hd Ld Hp. rewrite extract_date_unfold.
  replace (try_pattern match_slashes _) with
    (Some (iso_date (int_of_digits ys) (int_of_digits ms) (int_of_digits ds)));
    [reflexivity|].
  symmetry. apply try_pattern_Some. exists (ys, ms, ds). split.
  - change ("/" ++ ys ++ "/" ++ ms ++ "/" ++ ds ++ "/" ++ post)
      with (String "/" (ys ++ "/" ++ ms ++ "/" ++ ds ++ "/" ++ post)).
    rewrite re_search_skip by now apply fails_within_slashes.
    apply re_search_here. now apply match_slashes_exact.
  - now apply date_of_groups_Some.
Qed.

Lemma extract_date_slashes_witness :
  extract_date "https://site.example/2025/03/07/x" = Some "2025-03-07".
Proof.
  apply (extract_date_slashes "https://site.example" "2025" "03" "07" "x");
    vm_compute; auto.
Defined.

(** When the leftmost match of the first pattern fails the plausibility
    test the search goes on with the second and third pattern; the first
    pattern that matches does not decide the result. *)
Theorem extract_date_falls_through (url : string) (g : groups) :
  re_search match_slashes url = Some g -> date_of_groups g = None ->
  extract_date url =
  match try_pattern match_dashes url with
  | Some d => Some d
  | None => try_pattern match_compact url
  end.
Proof.
  intros Hs Hg. rewrite extract_date_unfold.
  replace (try_pattern match_slashes url) with (@None string); [reflexivity|].
  symmetry. apply try_pattern_None. intros g' Hg'. congruence.
Qed.

Lemma extract_date_falls_through_witness :
  extract_date "https://x.example/1999/01/01/a-20250102" = Some "2025-01-02".
Proof.
  apply (extract_date_falls_through
           "https://x.example/1999/01/01/a-20250102" ("1999", "01", "01"));
    vm_compute; reflexivity.
Defined.
