(* ===== verification/EntryParser.v ===== *)
(** * EntryParser: [NewsEntry] and [DiaryProcessor.parse_input_file]

    A line is accepted when, after [strip], it starts with a match of
    [^\d+\.\s*<a href=Q([^Q]+)Q>([^<]+)</a>], where Q stands for the double
    quote; the two groups are the URL and the title.  As in [DateExtractor] every repetition of the expression is
    followed by a literal outside its class, so [span] (the greedy run) is
    the only way to match and [match_line] is the expression.  The entries
    are numbered by [enumerate(lines, 1)], that is by line position whether
    or not earlier lines were accepted; a rejected line is logged with its
    number and its first hundred characters, and the model returns that log
    beside the entries. *)

From S2P Require Import Prelude.
From S2P Require Import Text.
From S2P Require Import DateExtractor.

#[local] Open Scope string_scope.

(** ** Entries *)

Record NewsEntry : Type := mkNewsEntry {
  id : nat;
  url : string;
  title : string;
  date : option string;
  themes : list string;
  keywords : list string;
  content_snippet : option string
}.

(** [NewsEntry(id=i, url=url, title=title, date=date)]: [__post_init__]
    replaces the missing lists by empty ones. *)
Definition new_entry (i : nat) (u t : string) (d : option string) : NewsEntry :=
  mkNewsEntry i u t d [] [] None.

(** ** The line pattern *)

Definition dquote : ascii := "034"%char.

Definition a_open : string := Eval cbv in ("<a href=" ++ String dquote "").
Definition a_mid : string := Eval cbv in (String dquote ">").
Definition a_close : string := "</a>".

Definition not_char (c x : ascii) : bool := negb (Ascii.eqb x c).

(** [[^c]+]: a non-empty run of characters other than [c]. *)
Definition take_until (c : ascii) (s : string) : option (string * string) :=
  let (a, r) := span (not_char c) s in
  if String.eqb a "" then None else Some (a, r).

(** [\d+]. *)
Definition take_number (s : string) : option (string * string) :=
  let (a, r) := span is_digit s in
  if String.eqb a "" then None else Some (a, r).

Definition match_line (s : string) : option (string * string) :=
  let? (_, r) := take_number s in
  let? r := expect "." r in
  let? r := drop_prefix a_open (snd (span is_space r)) in
  let? (u, r) := take_until dquote r in
  let? r := drop_prefix a_mid r in
  let? (t, r) := take_until "<" r in
  let? _ := drop_prefix a_close r in
  Some (u, t).

(** [re.match(pattern, line.strip())] with its two groups. *)
Definition parse_line (line : string) : option (string * string) :=
  match_line (strip line).

(** ** The file *)

(** The log record of a rejected line: its number and [line[:100]]. *)
Definition warning : Type := (nat * string)%type.

(** The loop over [enumerate(lines, i)]. *)
Fixpoint parse_lines (i : nat) (lines : list string) : list NewsEntry * list warning :=
  match lines with
  | [] => ([], [])
  | line :: rest =>
      let (es, ws) := parse_lines (S i) rest in
      match parse_line line with
      | Some (u, t) => (new_entry i u t (extract_date u) :: es, ws)
      | None => (es, (i, slice_to 100 line) :: ws)
      end
  end.

Definition parse_input_file (lines : list string) : list NewsEntry * list warning :=
  parse_lines 1 lines.

(** [f.readlines()] on the decoded text: every line keeps its newline, the
    last line may lack one. *)
Fixpoint readlines (s : string) : list string :=
  match s with
  | "" => []
  | String c s' =>
      if Ascii.eqb c "010"
      then String c "" :: readlines s'
      else match readlines s' with
           | [] => [String c ""]
           | l :: ls => String c l :: ls
           end
  end.

(** The line the input format asks for: a number, a dot, a space and an
    anchor element whose [href] is the URL and whose text is the title. *)
Definition render_line (num u t : string) : string :=
  num ++ ". " ++ a_open ++ u ++ a_mid ++ t ++ a_close.

(** ** The accepted lines *)

Lemma not_char_same (c : ascii) : not_char c c = false.
Proof. unfold not_char. now rewrite Ascii.eqb_refl. Qed.

Lemma a_mid_app (x : string) : a_mid ++ x = String dquote (String ">" x).
Proof. reflexivity. Qed.

Lemma a_close_app (x : string) : a_close ++ x = String "<" ("/a>" ++ x).
Proof. reflexivity. Qed.

Lemma take_until_exact (c : ascii) (a r : string) :
  a <> "" -> all_chars (not_char c) a = true ->
  take_until c (a ++ String c r) = Some (a, String c r).
Proof.
  intros Ha Hall. unfold take_until.
  rewrite span_exact by auto using not_char_same.
  now destruct (String.eqb_spec a "").
Qed.

Lemma take_until_spec (c : ascii) (s a r : string) :
  take_until c s = Some (a, r) ->
  s = a ++ r /\ a <> "" /\ all_chars (not_char c) a = true.
Proof.
  unfold take_until. pose proof (span_append (not_char c) s) as Happ.
  pose proof (span_all (not_char c) s) as Hall.
  destruct (span (not_char c) s) as [a' r']; simpl in *.
  destruct (String.eqb_spec a' ""); [discriminate|].
  intros [= <- <-]. auto.
Qed.

Lemma take_number_exact (a : string) (c : ascii) (r : string) :
  a <> "" -> all_chars is_digit a = true -> is_digit c = false ->
  take_number (a ++ String c r) = Some (a, String c r).
Proof.
  intros Ha Hall Hc. unfold take_number. rewrite span_exact by assumption.
  now destruct (String.eqb_spec a "").
Qed.

Lemma take_number_spec (s a r : string) :
  take_number s = Some (a, r) ->
  s = a ++ r /\ a <> "" /\ all_chars is_digit a = true.
Proof.
  unfold take_number. pose proof (span_append is_digit s) as Happ.
  pose proof (span_all is_digit s) as Hall.
  destruct (span is_digit s) as [a' r']; simpl in *.
  destruct (String.eqb_spec a' ""); [discriminate|].
  intros [= <- <-]. auto.
Qed.

(** Every line of the input format is accepted, with its URL and title. *)
Lemma match_line_complete (num ws u t rest : string) :
  num <> "" -> all_chars is_digit num = true ->
  all_chars is_space ws = true ->
  u <> "" -> all_chars (not_char dquote) u = true ->
  t <> "" -> all_chars (not_char "<") t = true ->
  match_line (num ++ "." ++ ws ++ a_open ++ u ++ a_mid ++ t ++ a_close ++ rest)
  = Some (u, t).
Proof.
  intros Hn Dn Hws Hu Du Ht Dt. unfold match_line.
  change ("." ++ ?x) with (String "." x).
  rewrite take_number_exact by auto. cbn [obind].
  rewrite expect_here. cbn [obind].
  replace (snd (span is_space (ws ++ a_open ++ u ++ a_mid ++ t ++ a_close ++ rest)))
    with (a_open ++ u ++ a_mid ++ t ++ a_close ++ rest)
    by (unfold a_open; cbn [append]; now rewrite span_exact).
  rewrite drop_prefix_append. cbn [obind].
  rewrite a_mid_app, take_until_exact by assumption. cbn [obind].
  rewrite <- a_mid_app, drop_prefix_append. cbn [obind].
  rewrite a_close_app, take_until_exact by assumption. cbn [obind].
  now rewrite <- a_close_app, drop_prefix_append.
Qed.

(** Only such lines are accepted. *)
Lemma match_line_sound (s u t : string) :
  match_line s = Some (u, t) ->
  exists num ws rest,
    s = num ++ "." ++ ws ++ a_open ++ u ++ a_mid ++ t ++ a_close ++ rest /\
    num <> "" /\ all_chars is_digit num = true /\
    all_chars is_space ws = true /\
    u <> "" /\ all_chars (not_char dquote) u = true /\
    t <> "" /\ all_chars (not_char "<") t = true.
Proof.
  unfold match_line. intros H.
  apply obind_Some in H as ([num r1] & H1 & H).
  apply obind_Some in H as (r2 & H2 & H).
  apply obind_Some in H as (r3 & H3 & H).
  apply obind_Some in H as ([u' r4] & H4 & H).
  apply obind_Some in H as (r5 & H5 & H).
  apply obind_Some in H as ([t' r6] & H6 & H).
  apply obind_Some in H as (r7 & H7 & [= <- <-]).
  apply take_number_spec in H1 as (E1 & Hn & Dn).
  apply expect_spec in H2. apply drop_prefix_spec in H3, H5, H7.
  apply take_until_spec in H4 as (E4 & Hu & Du).
  apply take_until_spec in H6 as (E6 & Ht & Dt).
  exists num, (fst (span is_space r2)), r7.
  repeat split; auto using span_all.
  rewrite E1, H2. change ("." ++ ?x) with (String "." x). do 2 f_equal.
  rewrite <- H7, <- E6, <- H5, <- E4, <- H3. symmetry. apply span_append.
Qed.

(** ** Lines of the input format, with whitespace around them *)

Lemma render_line_rstrip (num u t : string) :
  rstrip (render_line num u t) = render_line num u t.
Proof.
  unfold render_line.
  replace (num ++ ". " ++ a_open ++ u ++ a_mid ++ t ++ a_close)
    with ((num ++ ". " ++ a_open ++ u ++ a_mid ++ t) ++ String "<" "/a>")
    by (now rewrite !append_assoc).
  now rewrite rstrip_append.
Qed.

(** C19: a line of the input format, with any whitespace before and after it,
    parses to its URL and its title; the number in front plays no part. *)
Theorem parse_line_render (sp num u t sp' : string) :
  all_chars is_space sp = true -> all_chars is_space sp' = true ->
  num <> "" -> all_chars is_digit num = true ->
  u <> "" -> all_chars (not_char dquote) u = true ->
  t <> "" -> all_chars (not_char "<") t = true ->
  parse_line (sp ++ render_line num u t ++ sp') = Some (u, t).
Proof.
  intros Hsp Hsp' Hn Dn Hu Du Ht Dt. unfold parse_line.
  pose proof (render_line_rstrip num u t) as Hr.
  destruct num as [|c num]; [congruence|].
  simpl in Dn. apply andb_true_iff in Dn as [Dc Dn].
  change (render_line (String c num) u t)
    with (String c (num ++ ". " ++ a_open ++ u ++ a_mid ++ t ++ a_close)) in *.
  rewrite strip_middle by auto using digit_not_space.
  apply (match_line_complete (String c num) " " u t ""); auto.
  simpl. now rewrite Dc.
Qed.

Lemma parse_line_render_witness :
  parse_line
    ("  " ++ render_line "1" "https://example.gov/2025/01/15/nsf-budget-cuts"
                         "NSF budget cuts announced" ++ String "010" "")
  = Some ("https://example.gov/2025/01/15/nsf-budget-cuts",
          "NSF budget cuts announced").
Proof.
  apply (parse_line_render "  " "1"); try discriminate; reflexivity.
Defined.

(** ** The loop over the lines *)

Lemma parse_lines_cons (i : nat) (line : string) (rest : list string) :
  parse_lines i (line :: rest) =
  match parse_line line with
  | Some (u, t) =>
      (new_entry i u t (extract_date u) :: fst (parse_lines (S i) rest),
       snd (parse_lines (S i) rest))
  | None =>
      (fst (parse_lines (S i) rest),
       (i, slice_to 100 line) :: snd (parse_lines (S i) rest))
  end.
Proof.
  simpl. destruct (parse_lines (S i) rest) as [es ws].
  now destruct (parse_line line) as [[u t]|].
Qed.

Lemma parse_lines_In (i : nat) (lines : list string) (e : NewsEntry) :
  In e (fst (parse_lines i lines)) <->
  exists k line u t,
    nth_error lines k = Some line /\ parse_line line = Some (u, t) /\
    e = new_entry (i + k) u t (extract_date u).
Proof.
  revert i e; induction lines as [|l lines IH]; intros i e.
  - simpl. split; [tauto | intros ([|k] & ? & ? & ? & [=] & _)].
  - rewrite parse_lines_cons. split.
    + destruct (parse_line l) as [[u t]|] eqn:E; simpl.
      * intros [<-|H].
        -- exists 0, l, u, t. now rewrite Nat.add_0_r.
        -- apply IH in H as (k & line & u' & t' & ? & ? & ->).
           exists (S k), line, u', t'. now rewrite Nat.add_succ_r.
      * intros H. apply IH in H as (k & line & u' & t' & ? & ? & ->).
        exists (S k), line, u', t'. now rewrite Nat.add_succ_r.
    + intros ([|k] & line & u & t & Hn & Hp & ->); simpl in Hn.
      * invc Hn. rewrite Hp. left. now rewrite Nat.add_0_r.
      * assert (In (new_entry (S i + k) u t (extract_date u))
                   (fst (parse_lines (S i) lines))) as Hin
          by (apply IH; exists k, line, u, t; auto).
        rewrite Nat.add_succ_r.
        destruct (parse_line l) as [[? ?]|]; simpl; auto.
Qed.

Lemma parse_lines_ids (i : nat) (lines : list string) :
  Forall (fun e => i <= id e < i + length lines) (fst (parse_lines i lines)).
Proof.
  apply Forall_forall. intros e H.
  apply parse_lines_In in H as (k & line & u & t & Hn & _ & ->).
  assert (k < length lines) by (apply nth_error_Some; congruence).
  simpl. lia.
Qed.

Lemma parse_lines_sorted (i : nat) (lines : list string) :
  StronglySorted lt (map id (fst (parse_lines i lines))).
Proof.
  revert i; induction lines as [|l lines IH]; intros i; [constructor|].
  rewrite parse_lines_cons.
  destruct (parse_line l) as [[u t]|]; simpl; [|apply IH].
  constructor; [apply IH|].
  apply Forall_map. eapply Forall_impl; [|apply parse_lines_ids].
  simpl. intros; lia.
Qed.

Lemma parse_lines_partition (i : nat) (lines : list string) :
  length (fst (parse_lines i lines)) + length (snd (parse_lines i lines))
  = length lines.
Proof.
  revert i; induction lines as [|l lines IH]; intros i; [reflexivity|].
  rewrite parse_lines_cons. specialize (IH (S i)).
  destruct (parse_line l) as [[u t]|]; simpl; lia.
Qed.

(** C20: the entries [parse_input_file] returns are exactly the accepted
    lines: an entry for the line at position [k] (from 0) has identifier
    [k + 1], the URL and title the line pattern extracts and the date of the
    URL, with no themes, keywords or snippet yet. *)
Theorem parse_input_file_entries (lines : list string) (e : NewsEntry) :
  In e (fst (parse_input_file lines)) <->
  exists k line u t,
    nth_error lines k = Some line /\ parse_line line = Some (u, t) /\
    e = new_entry (S k) u t (extract_date u).
Proof. apply (parse_lines_In 1). Qed.

(** The identifiers of the entries increase strictly along the output, so
    the entries keep the order of the input and no identifier repeats; and
    every line is either an entry or a logged warning. *)
Theorem parse_input_file_ordered (lines : list string) :
  StronglySorted lt (map id (fst (parse_input_file lines))) /\
  length (fst (parse_input_file lines)) + length (snd (parse_input_file lines))
  = length lines.
Proof. split; [apply parse_lines_sorted | apply parse_lines_partition]. Qed.

(** Identifiers are line positions, so a rejected line leaves a gap in
    the numbering of the entries that follow it. *)
Theorem parse_input_file_gap (bad good u t : string) :
  parse_line bad = None -> parse_line good = Some (u, t) ->
  map id (fst (parse_input_file [bad; good])) = [2].
Proof.
  intros Hb Hg. unfold parse_input_file.
  rewrite !parse_lines_cons, Hb, Hg. reflexivity.
Qed.

Lemma parse_input_file_gap_witness :
  map id (fst (parse_input_file
                 ["not an entry";
                  render_line "1" "https://example.gov/a" "A title"])) = [2].
Proof.
  apply (parse_input_file_gap _ _ "https://example.gov/a" "A title");
    reflexivity.
Defined.
