(* ===== verification/Classifier.v ===== *)
(** * Classifier: [DiaryProcessor.tag_entry] and [tag_entry_with_content]

    The text of an entry is its URL, a space and its title, lower-cased.  A
    theme scores one point per pattern of the theme that occurs in the text;
    the themes with a positive score are collected in a dictionary in the
    order of [THEMES], sorted by descending score with a stable sort, and the
    first two are assigned.  A keyword matches when one of its patterns
    occurs in the text; the matches go through a Python [set] and the first
    three of its iteration are assigned.  When no theme scores, [tag_entry]
    assigns one theme chosen from the domain of the URL.

    [tag_entry_with_content] repeats this on the text extended with the
    fetched content, a pattern that occurs in the content counting double.
    It has no fallback.

    The iteration order of a set of strings depends on the hash seed of the
    process.  The class [SetOrder] stands for any such order: a function that
    lists the members of a list once each.  The definitions and theorems of
    section [Tagging] hold for every instance. *)

From S2P Require Import Prelude.
From S2P Require Import Text.
From S2P Require Import StableSort.
From S2P Require Import Dict.
From S2P Require Import Taxonomy.
From S2P Require Import EntryParser.

#[local] Open Scope string_scope.
#[local] Open Scope list_scope.
#[local] Open Scope nat_scope.

(** ** The order of a set *)

(** [list(set(l))]: the members of [l], each once, in some order. *)
Class SetOrder : Type := {
  set_list : list string -> list string;
  set_list_NoDup : forall l, NoDup (set_list l);
  set_list_In : forall l x, In x (set_list l) <-> In x l
}.

(** The members in the order of their first occurrence. *)
Fixpoint uniq (l : list string) : list string :=
  match l with
  | [] => []
  | x :: l' => x :: filter (fun y => negb (String.eqb y x)) (uniq l')
  end.

(** ** Scores *)

(** The patterns that occur in the text. *)
Definition pattern_hits (text : string) (patterns : list string) : list string :=
  filter (fun p => contains p text) patterns.

(** [sum(1 for pattern in patterns if pattern in text)]. *)
Definition theme_score (text : string) (patterns : list string) : nat :=
  length (pattern_hits text patterns).

(** [sum(2 if pattern in content.lower() else 1
        for pattern in patterns if pattern in combined_text)]. *)
Definition content_score (combined content : string) (patterns : list string) : nat :=
  list_sum (map (fun p => if contains p (lower content) then 2 else 1)
                (pattern_hits combined patterns)).

(** The loop that fills [theme_scores]: one assignment per theme with a
    positive score, in the order of the table. *)
Definition theme_scores_by (score : list string -> nat) (table : dict (list string)) : dict nat :=
  fold_left
    (fun acc kv => if 0 <? score (snd kv) then dset (fst kv) (score (snd kv)) acc else acc)
    table [].

(** [sorted(theme_scores.items(), key=lambda x: x[1], reverse=True)]. *)
Definition sorted_themes (scores : dict nat) : list (string * nat) :=
  sort_desc snd (ditems scores).

(** [[theme for theme, _ in sorted_themes[:2]]]. *)
Definition top_themes (scores : dict nat) : list string :=
  map fst (firstn 2 (sorted_themes scores)).

(** The loop that fills [keyword_matches]: a keyword is appended when one of
    its patterns occurs in the text. *)
Definition keyword_matches (text : string) (table : dict (list string)) : list string :=
  fold_left
    (fun acc kv =>
       if existsb (fun p => contains p text) (snd kv) then acc ++ [fst kv] else acc)
    table [].

(** ** The domain of a URL *)

Definition is_ascii_alpha (c : ascii) : bool :=
  (65 <=? code c) && (code c <=? 90) || (97 <=? code c) && (code c <=? 122).

Definition is_scheme_char (c : ascii) : bool :=
  is_ascii_alpha c || is_digit c
  || Ascii.eqb c "+" || Ascii.eqb c "-" || Ascii.eqb c ".".

(** The part of a URL after its scheme and colon, or the URL when it has no
    scheme. *)
Definition after_scheme (u : string) : string :=
  let (a, r) := span (not_char ":") u in
  match a, r with
  | String c _, String _ r' =>
      if is_ascii_alpha c && all_chars is_scheme_char a then r' else u
  | _, _ => u
  end.

Definition is_netloc_end (c : ascii) : bool :=
  Ascii.eqb c "/" || Ascii.eqb c "?" || Ascii.eqb c "#".

(** [urlparse(u).netloc]: what follows [//] after the scheme, up to the next
    slash, question mark or hash. *)
Definition netloc (u : string) : string :=
  match after_scheme u with
  | String "/" (String "/" r) => fst (span (fun c => negb (is_netloc_end c)) r)
  | _ => ""
  end.

(** The theme of an entry no pattern matches. *)
Definition fallback_theme (u : string) : string :=
  let domain := netloc u in
  if contains "supreme" domain || contains "scotus" domain then "justice"
  else if existsb (fun gov => contains gov domain) [".gov"; "whitehouse"]
       then "government"
       else "government".

(** ** Tagging *)

Section Tagging.

Context `{SetOrder}.

(** [f"{entry.url} {entry.title}".lower()]. *)
Definition entry_text (e : NewsEntry) : string :=
  lower (url e ++ " " ++ title e)%string.

(** [f"{entry.url} {entry.title} {content}".lower()]. *)
Definition combined_text (e : NewsEntry) (content : string) : string :=
  lower (url e ++ " " ++ title e ++ " " ++ content)%string.

(** [list(set(keyword_matches))[:3]]. *)
Definition cap_keywords (matches : list string) : list string :=
  firstn 3 (set_list matches).

Definition tag_entry (e : NewsEntry) : NewsEntry :=
  let text := entry_text e in
  let ths := top_themes (theme_scores_by (theme_score text) THEMES) in
  let kws := cap_keywords (keyword_matches text KEYWORD_PATTERNS) in
  mkNewsEntry (id e) (url e) (title e) (date e)
    (match ths with
     | [] => [fallback_theme (url e)]
     | _ => ths
     end)
    kws (content_snippet e).

Definition tag_entry_with_content (e : NewsEntry) (content : string) : NewsEntry :=
  let combined := combined_text e content in
  let ths := top_themes (theme_scores_by (content_score combined content) THEMES) in
  let kws := cap_keywords (keyword_matches combined KEYWORD_PATTERNS) in
  mkNewsEntry (id e) (url e) (title e) (date e) ths kws (content_snippet e).

End Tagging.

(** ** Two orders of a set *)

Lemma uniq_In (l : list string) (x : string) : In x (uniq l) <-> In x l.
Proof.
  induction l as [|y l IH]; simpl; [tauto|].
  rewrite filter_In, IH, negb_true_iff, String.eqb_neq.
  destruct (string_dec y x); intuition congruence.
Qed.

Lemma uniq_NoDup (l : list string) : NoDup (uniq l).
Proof.
  induction l as [|y l IH]; simpl; constructor.
  - rewrite filter_In, negb_true_iff, String.eqb_neq. tauto.
  - now apply NoDup_filter.
Qed.

Lemma uniq_id (l : list string) : NoDup l -> uniq l = l.
Proof.
  induction 1 as [|x l Hx Hl IH]; simpl; [reflexivity|].
  rewrite IH. f_equal. apply forallb_filter_id, forallb_forall.
  intros y Hy. apply negb_true_iff, String.eqb_neq. congruence.
Qed.

(** The set iterates in the order of first insertion. *)
#[export] Instance first_seen_order : SetOrder :=
  {| set_list := uniq; set_list_NoDup := uniq_NoDup; set_list_In := uniq_In |}.

Lemma rev_uniq_NoDup (l : list string) : NoDup (rev (uniq l)).
Proof. apply NoDup_rev, uniq_NoDup. Qed.

Lemma rev_uniq_In (l : list string) (x : string) :
  In x (rev (uniq l)) <-> In x l.
Proof. now rewrite <- in_rev, uniq_In. Qed.

(** The set iterates in the opposite order. *)
Definition last_seen_order : SetOrder :=
  {| set_list := fun l => rev (uniq l);
     set_list_NoDup := rev_uniq_NoDup; set_list_In := rev_uniq_In |}.

(** ** The loops as comprehensions *)

(** The themes of the table with their scores, the positive ones. *)
Definition scored (score : list string -> nat) (table : dict (list string)) : dict nat :=
  filter (fun kv => 0 <? snd kv) (map (fun kv => (fst kv, score (snd kv))) table).

Lemma dkeys_scored (score : list string -> nat) (table : dict (list string)) (k : string) :
  In k (dkeys (scored score table)) -> In k (dkeys table).
Proof.
  unfold dkeys, scored. intros H. apply In_map_filter in H.
  now rewrite map_map in H.
Qed.

Lemma scored_ok (score : list string -> nat) (table : dict (list string)) :
  dict_ok table -> dict_ok (scored score table).
Proof.
  unfold dict_ok, dkeys, scored. intros H.
  apply NoDup_map_filter. now rewrite map_map.
Qed.

Lemma theme_scores_loop (score : list string -> nat) (table : dict (list string))
      (done : dict nat) :
  NoDup (dkeys done ++ dkeys table) ->
  fold_left
    (fun acc kv => if 0 <? score (snd kv) then dset (fst kv) (score (snd kv)) acc else acc)
    table done
  = done ++ scored score table.
Proof.
  revert done; induction table as [|[k ps] table IH]; intros done Hnd; simpl.
  - now rewrite app_nil_r.
  - unfold scored in *. simpl.
    assert (Hk : ~ In k (dkeys done)).
    { intros Hin. apply NoDup_remove_2 in Hnd. apply Hnd, in_or_app. auto. }
    destruct (0 <? score ps) eqn:E.
    + rewrite dset_new by assumption. rewrite IH.
      * now rewrite <- app_assoc.
      * unfold dkeys in *. rewrite map_app. simpl. rewrite <- app_assoc. exact Hnd.
    + apply IH. now apply NoDup_remove_1 in Hnd.
Qed.

(** The dictionary of scores holds the positive scores in table order. *)
Lemma theme_scores_by_scored (score : list string -> nat) (table : dict (list string)) :
  dict_ok table -> theme_scores_by score table = scored score table.
Proof.
  intros H. unfold theme_scores_by.
  now rewrite (theme_scores_loop score table []).
Qed.

(** The keywords that match, in table order. *)
Definition matching (text : string) (table : dict (list string)) : list string :=
  map fst (filter (fun kv => existsb (fun p => contains p text) (snd kv)) table).

Lemma keyword_matches_loop (text : string) (table : dict (list string))
      (done : list string) :
  fold_left
    (fun acc kv =>
       if existsb (fun p => contains p text) (snd kv) then acc ++ [fst kv] else acc)
    table done
  = done ++ matching text table.
Proof.
  revert done; induction table as [|[k ps] table IH]; intros done; simpl.
  - now rewrite app_nil_r.
  - unfold matching in *. simpl. rewrite IH.
    destruct (existsb _ ps); simpl; [now rewrite <- app_assoc | reflexivity].
Qed.

Lemma keyword_matches_matching (text : string) (table : dict (list string)) :
  keyword_matches text table = matching text table.
Proof. apply (keyword_matches_loop text table []). Qed.

Lemma matching_NoDup (text : string) (table : dict (list string)) :
  dict_ok table -> NoDup (matching text table).
Proof. apply NoDup_map_filter. Qed.

Lemma matching_In (text : string) (table : dict (list string)) (k : string) :
  In k (matching text table) -> In k (dkeys table).
Proof. apply In_map_filter. Qed.

(** ** The ranking *)

Lemma sorted_themes_keys (scores : dict nat) :
  Permutation (map fst (sorted_themes scores)) (dkeys scores).
Proof. apply Permutation_map, sort_desc_perm. Qed.

Lemma top_themes_length (scores : dict nat) : length (top_themes scores) <= 2.
Proof. unfold top_themes. rewrite length_map. apply firstn_length_le. Qed.

Lemma top_themes_In (scores : dict nat) (t : string) :
  In t (top_themes scores) -> In t (dkeys scores).
Proof.
  unfold top_themes. rewrite firstn_map_comm. intros H%In_firstn.
  eapply Permutation_in; [apply sorted_themes_keys | exact H].
Qed.

Lemma top_themes_NoDup (scores : dict nat) :
  dict_ok scores -> NoDup (top_themes scores).
Proof.
  intros H. unfold top_themes. rewrite firstn_map_comm. apply NoDup_firstn.
  eapply Permutation_NoDup; [symmetry; apply sorted_themes_keys | exact H].
Qed.

Lemma top_themes_nil (scores : dict nat) :
  top_themes scores = [] <-> scores = [].
Proof.
  unfold top_themes, sorted_themes, ditems. split; [|now intros ->].
  intros E. destruct (sort_desc snd scores) as [|x r] eqn:Es; [|discriminate].
  apply length_zero_iff_nil. rewrite <- (sort_desc_length snd), Es. reflexivity.
Qed.

Lemma scored_nil (score : list string -> nat) (table : dict (list string)) :
  scored score table = [] <-> forall k ps, In (k, ps) table -> score ps = 0.
Proof.
  unfold scored. induction table as [|[k ps] table IH]; simpl.
  - split; [intros _ ? ? [] | reflexivity].
  - destruct (Nat.ltb_spec 0 (score ps)) as [Hpos|Hz]; split.
    + discriminate.
    + intros Hall. specialize (Hall k ps (or_introl eq_refl)). lia.
    + intros E k' ps' [[= <- <-]|Hin]; [lia | now apply (proj1 IH E k')].
    + intros Hall. apply IH. intros k' ps' Hin. apply (Hall k'). now right.
Qed.

(** ** The invariant of an entry *)

(** At most two themes and three keywords, without repetition, all from the
    tables. *)
Definition tags_ok (e : NewsEntry) : Prop :=
  length (themes e) <= 2 /\ NoDup (themes e) /\
  Forall (fun t => In t theme_names) (themes e) /\
  length (keywords e) <= 3 /\ NoDup (keywords e) /\
  Forall (fun k => In k keyword_names) (keywords e).

Lemma fallback_theme_cases (u : string) :
  fallback_theme u = "justice"%string \/ fallback_theme u = "government"%string.
Proof. unfold fallback_theme. repeat break_match; auto. Qed.

Lemma fallback_theme_valid (u : string) : In (fallback_theme u) theme_names.
Proof.
  destruct (fallback_theme_cases u) as [-> | ->];
    apply mem_str_In; reflexivity.
Qed.

Section TaggingFacts.

Context `{SetOrder}.

Lemma cap_keywords_ok (text : string) :
  let kws := cap_keywords (keyword_matches text KEYWORD_PATTERNS) in
  length kws <= 3 /\ NoDup kws /\ Forall (fun k => In k keyword_names) kws.
Proof.
  unfold cap_keywords. repeat split.
  - apply firstn_length_le.
  - apply NoDup_firstn, set_list_NoDup.
  - apply Forall_forall. intros k Hk%In_firstn.
    rewrite set_list_In, keyword_matches_matching in Hk.
    now apply matching_In in Hk.
Qed.

Lemma top_themes_ok (score : list string -> nat) :
  let ths := top_themes (theme_scores_by score THEMES) in
  length ths <= 2 /\ NoDup ths /\ Forall (fun t => In t theme_names) ths.
Proof.
  pose proof (table_ok_dict _ THEMES_ok) as Hok.
  rewrite theme_scores_by_scored by assumption. repeat split.
  - apply top_themes_length.
  - now apply top_themes_NoDup, scored_ok.
  - apply Forall_forall. intros t Ht%top_themes_In.
    now apply dkeys_scored in Ht.
Qed.

End TaggingFacts.

(** ** Scores before and after enrichment *)

Lemma weights_sum (w : string -> nat) (l : list string) :
  (forall p, 1 <= w p <= 2) ->
  length l <= list_sum (map w l) <= 2 * length l.
Proof.
  intros Hw. induction l as [|p l IH]; simpl; [lia|].
  specialize (Hw p). lia.
Qed.

Lemma content_weight_range (content p : string) :
  1 <= (if contains p (lower content) then 2 else 1) <= 2.
Proof. destruct (contains p (lower content)); lia. Qed.

Lemma content_score_hits (combined content : string) (patterns : list string) :
  length (pattern_hits combined patterns)
  <= content_score combined content patterns
  <= 2 * length (pattern_hits combined patterns).
Proof. apply weights_sum. intros p. apply content_weight_range. Qed.

Lemma content_score_zero (combined content : string) (patterns : list string) :
  content_score combined content patterns = 0 <->
  pattern_hits combined patterns = [].
Proof.
  pose proof (content_score_hits combined content patterns) as Hs. split.
  - intros E. apply length_zero_iff_nil. lia.
  - intros E. unfold content_score. now rewrite E.
Qed.

Lemma theme_score_zero (text : string) (patterns : list string) :
  theme_score text patterns = 0 <-> pattern_hits text patterns = [].
Proof. apply length_zero_iff_nil. Qed.

Lemma pattern_hits_mono (text text' : string) (patterns : list string) :
  (forall p, p <in> text -> p <in> text') ->
  length (pattern_hits text patterns) <= length (pattern_hits text' patterns).
Proof. apply filter_ext_le. Qed.

Section TaggingTheorems.

Context `{SetOrder}.

(** The text before enrichment is the head of the text after it. *)
Lemma combined_text_extends (e : NewsEntry) (content : string) :
  exists r, combined_text e content = (entry_text e ++ r)%string.
Proof.
  unfold combined_text, entry_text. exists (lower (" " ++ content)%string).
  rewrite <- lower_append. f_equal. now rewrite !append_assoc.
Qed.

Lemma contains_combined (e : NewsEntry) (content p : string) :
  p <in> entry_text e -> p <in> combined_text e content.
Proof.
  destruct (combined_text_extends e content) as [r ->].
  apply contains_append_r.
Qed.

Lemma tags_ok_intro (e : NewsEntry) :
  (length (themes e) <= 2 /\ NoDup (themes e) /\
   Forall (fun t => In t theme_names) (themes e)) ->
  (length (keywords e) <= 3 /\ NoDup (keywords e) /\
   Forall (fun k => In k keyword_names) (keywords e)) ->
  tags_ok e.
Proof. unfold tags_ok. tauto. Qed.

Lemma fallback_themes_ok (u : string) :
  length [fallback_theme u] <= 2 /\ NoDup [fallback_theme u] /\
  Forall (fun t => In t theme_names) [fallback_theme u].
Proof.
  repeat split; [simpl; lia | |].
  - apply NoDup_cons; [simpl; tauto | constructor].
  - constructor; [apply fallback_theme_valid | constructor].
Qed.

Lemma tag_entry_ok (e : NewsEntry) : tags_ok (tag_entry e).
Proof.
  apply tags_ok_intro; unfold tag_entry; cbn [themes keywords].
  - pose proof (top_themes_ok (theme_score (entry_text e))) as Ht.
    destruct (top_themes _); [apply fallback_themes_ok | exact Ht].
  - apply cap_keywords_ok.
Qed.

Lemma tag_entry_themes (e : NewsEntry) : themes (tag_entry e) <> [].
Proof. unfold tag_entry. cbn [themes]. now destruct (top_themes _). Qed.

(** C6: after [tag_entry] an entry has one or two themes and at most three
    keywords, none repeated, all taken from the two tables. *)
Theorem tag_entry_tags_ok (e : NewsEntry) :
  tags_ok (tag_entry e) /\ 1 <= length (themes (tag_entry e)).
Proof.
  split; [apply tag_entry_ok|].
  pose proof (tag_entry_themes e). destruct (themes (tag_entry e)); simpl; [congruence | lia].
Qed.

(** After [tag_entry_with_content] an entry has at most two themes and
    at most three keywords, none repeated, all taken from the two tables. *)
Theorem retag_tags_ok (e : NewsEntry) (content : string) :
  tags_ok (tag_entry_with_content e content).
Proof.
  apply tags_ok_intro; unfold tag_entry_with_content; cbn [themes keywords].
  - apply top_themes_ok.
  - apply cap_keywords_ok.
Qed.

(** C5: the themes [tag_entry] assigns are the first two of the ranking, and
    the ranking is determined by its specification: descending score, themes
    of equal score in the order of the table. *)
Theorem tag_entry_ranking (e : NewsEntry) (r : list (string * nat)) :
  sort_spec snd (scored (theme_score (entry_text e)) THEMES) r -> r <> [] ->
  themes (tag_entry e) = map fst (firstn 2 r).
Proof.
  intros Hr Hne. apply sort_desc_unique in Hr. unfold tag_entry. cbn [themes].
  rewrite theme_scores_by_scored by exact (table_ok_dict _ THEMES_ok).
  unfold top_themes, sorted_themes, ditems. rewrite <- Hr.
  destruct r as [|x r]; [congruence | reflexivity].
Qed.

(** C30: when no pattern of any theme occurs in the text, [tag_entry] assigns
    exactly one theme, [justice] or [government], chosen from the domain. *)
Theorem tag_entry_fallback (e : NewsEntry) :
  (forall t ps, In (t, ps) THEMES -> theme_score (entry_text e) ps = 0) ->
  themes (tag_entry e) = [fallback_theme (url e)] /\
  (fallback_theme (url e) = "justice"%string \/
   fallback_theme (url e) = "government"%string).
Proof.
  intros Hz. split; [|apply fallback_theme_cases].
  unfold tag_entry. cbn [themes].
  rewrite theme_scores_by_scored by exact (table_ok_dict _ THEMES_ok).
  apply scored_nil in Hz. now rewrite Hz.
Qed.

(** Tagging twice is tagging once: the tags depend on the URL and the
    title only, which tagging leaves alone. *)
Theorem tag_entry_idempotent (e : NewsEntry) :
  tag_entry (tag_entry e) = tag_entry e.
Proof. reflexivity. Qed.

(** Re-tagging replaces the tags: the result does not depend on the
    themes and keywords the entry carried. *)
Theorem retag_replaces (e : NewsEntry) (ths kws : list string) (content : string) :
  tag_entry_with_content
    (mkNewsEntry (id e) (url e) (title e) (date e) ths kws (content_snippet e))
    content
  = tag_entry_with_content e content.
Proof. reflexivity. Qed.

(** Enrichment never lowers the score of a theme, and a theme scores at
    most two points per pattern. *)
Theorem content_score_bounds (e : NewsEntry) (content : string) (ps : list string) :
  theme_score (entry_text e) ps
  <= content_score (combined_text e content) content ps
  <= 2 * length ps.
Proof.
  pose proof (content_score_hits (combined_text e content) content ps) as Hs.
  pose proof (pattern_hits_mono (entry_text e) (combined_text e content) ps
                (contains_combined e content)) as Hm.
  pose proof (filter_length_le (fun p => contains p (combined_text e content)) ps).
  unfold theme_score, pattern_hits in *. lia.
Qed.

(** C40: [tag_entry_with_content] has no fallback: it leaves an entry without
    any theme exactly when no pattern of any theme occurs in the combined
    text, also when [tag_entry] had assigned the fallback theme before. *)
Theorem retag_no_fallback (e : NewsEntry) (content : string) :
  themes (tag_entry_with_content (tag_entry e) content) = [] <->
  forall t ps, In (t, ps) THEMES ->
    pattern_hits (combined_text e content) ps = [].
Proof.
  unfold tag_entry_with_content. cbn [themes].
  rewrite top_themes_nil.
  rewrite theme_scores_by_scored by exact (table_ok_dict _ THEMES_ok).
  rewrite scored_nil. split; intros Hz t ps Hin.
  - eapply content_score_zero, Hz, Hin.
  - eapply content_score_zero, Hz, Hin.
Qed.

End TaggingTheorems.

(** ** Witnesses and the order of the set *)

Definition tie_entry : NewsEntry :=
  new_entry 1 "https://news.example/a" "NSF and FBI on tax" None.

Lemma tag_entry_ranking_witness :
  themes (tag_entry tie_entry) = ["science"; "justice"]%string.
Proof.
  apply (tag_entry_ranking tie_entry
           [("science", 1); ("justice", 1); ("economy", 1)]%string).
  - replace [("science", 1); ("justice", 1); ("economy", 1)]%string
      with (sort_desc snd (scored (theme_score (entry_text tie_entry)) THEMES))
      by (vm_compute; reflexivity).
    apply sort_desc_spec.
  - discriminate.
Defined.

Definition plain_post : NewsEntry :=
  new_entry 2 "https://bsky.app/profile/x/post/1" "A post" None.

Lemma tag_entry_fallback_witness :
  themes (tag_entry plain_post) = [fallback_theme (url plain_post)] /\
  (fallback_theme (url plain_post) = "justice"%string \/
   fallback_theme (url plain_post) = "government"%string).
Proof.
  apply (tag_entry_fallback plain_post).
  apply scored_nil. vm_compute. reflexivity.
Defined.

Lemma firstn_rev_differ (l : list string) :
  NoDup l -> 1 < length l -> forall n, 0 < n -> firstn n l <> firstn n (rev l).
Proof.
  intros Hnd Hlen [|n] Hn; [lia|].
  destruct l as [|x l]; simpl in *; [lia|].
  destruct (rev l) as [|y r] eqn:Er.
  - apply (f_equal (@length _)) in Er. rewrite length_rev in Er. simpl in Er. lia.
  - simpl. intros [= <- _]. invc Hnd. apply H1. apply in_rev. rewrite Er. now left.
Qed.

(** With the set iterating in insertion order the keywords are the first
    three matches of the table. *)
Theorem keywords_first_seen (e : NewsEntry) :
  keywords (@tag_entry first_seen_order e)
  = firstn 3 (matching (entry_text e) KEYWORD_PATTERNS).
Proof.
  unfold tag_entry, cap_keywords. cbn [keywords set_list first_seen_order].
  rewrite keyword_matches_matching, uniq_id; [reflexivity|].
  apply matching_NoDup, (table_ok_dict _ KEYWORD_PATTERNS_ok).
Qed.

(** The keywords depend on the iteration order of the set: as soon as
    two keywords match, the insertion order and its reverse assign different
    keyword lists to the same entry. *)
Theorem keywords_depend_on_order (e : NewsEntry) :
  1 < length (matching (entry_text e) KEYWORD_PATTERNS) ->
  keywords (@tag_entry first_seen_order e)
  <> keywords (@tag_entry last_seen_order e).
Proof.
  intros Hlen. unfold tag_entry, cap_keywords.
  cbn [keywords set_list first_seen_order last_seen_order].
  rewrite keyword_matches_matching, uniq_id
    by apply matching_NoDup, (table_ok_dict _ KEYWORD_PATTERNS_ok).
  apply firstn_rev_differ; [|assumption|lia].
  apply matching_NoDup, (table_ok_dict _ KEYWORD_PATTERNS_ok).
Qed.

Definition busy_entry : NewsEntry :=
  new_entry 3 "https://news.example/b" "Musk, DOGE and the FBI at NASA" None.

Lemma keywords_depend_on_order_witness :
  keywords (@tag_entry first_seen_order busy_entry)
  <> keywords (@tag_entry last_seen_order busy_entry).
Proof.
  apply (keywords_depend_on_order busy_entry). vm_compute. lia.
Defined.
