(* ===== verification/Enricher.v ===== *)
(** * Enricher: [fetch_bluesky_content] and [process_bluesky_entries]

    The network is an input of the model: [net i] is the answer to the
    request of the [i]-th fetch of a batch, either a failure of the request
    or a status with a body, and a body is seen through [select_one], as a
    function from selectors to elements.

    One call of [fetch_bluesky_content] looks the URL up in the cache, and on
    a miss sends the request, suspends, and on resumption extracts the
    content, stores it and returns it.  Between the lookup and the request
    there is no suspension point, and none between the answer and the store,
    so a call is a task with three states: [Init], [Wait] and [Done].

    [asyncio.gather] runs the tasks of a batch interleaved.  [step] is one
    move of one task, over the shared cache; [run] executes a schedule.  The
    event loop starts every task before it delivers any answer, which is
    [gather_schedule]; the theorems on [step] hold for every interleaving.

    [process_bluesky_entries] then writes the contents into the eligible
    entries.  The list of eligible entries holds the same objects as the list
    of all entries, so the model updates the entries in place, consuming one
    content per eligible entry. *)

From stdpp Require Import gmap strings list.
#[local] Set Warnings "-clear-no-such-hyp".

From S2P Require Import Prelude.
From S2P Require Import Text.
From S2P Require Import EntryParser.
From S2P Require Import Classifier.

#[local] Open Scope string_scope.
#[local] Open Scope list_scope.
#[local] Open Scope nat_scope.

(** ** Pages and answers *)

(** An element [select_one] returns: [get_text()] of an ordinary element, or
    the [content] attribute of a [meta] element, which may be absent. *)
Inductive element : Type :=
| Tag (text : string)
| MetaTag (content : option string).

(** A parsed page, as [soup.select_one] shows it. *)
Definition page : Type := string -> option element.

Inductive response : Type :=
| NetError
| Answered (status : nat) (body : option page).

Definition content_selectors : list string :=
  Eval cbv in
    [ ("div[data-testid=" ++ String dquote "postText" ++ String dquote "]")%string;
      "div.post-content";
      ("div[class*=" ++ String dquote "post" ++ String dquote "]")%string;
      ("meta[property=" ++ String dquote "og:description" ++ String dquote "]")%string ].

(** [element.get('content') if element.name == 'meta' else element.get_text()]. *)
Definition element_content (el : element) : option string :=
  match el with
  | Tag t => Some t
  | MetaTag c => c
  end.

(** The loop over the selectors stops at the first selector that finds an
    element (an element is always true, whatever its text). *)
Definition first_element (p : page) : option element :=
  first_some (map (fun sel (pg : page) => pg sel) content_selectors) p.

(** What the loop returns: the content cut to 500 characters; nothing when
    no selector finds an element, or when the element is a [meta] without
    [content] (slicing [None] raises, and the handler returns [None]). *)
Definition extract_content (p : page) : option string :=
  match first_element p with
  | Some el =>
      match element_content el with
      | Some c => Some (slice_to 500 c)
      | None => None
      end
  | None => None
  end.

(** The value a fetch stores and returns for an answer, if any. *)
Definition outcome_of (r : response) : option string :=
  match r with
  | Answered status (Some p) =>
      if status =? 200 then extract_content p else None
  | _ => None
  end.

(** ** One call, run to its end *)

Definition fetch (c : gmap string string) (u : string) (r : response)
  : gmap string string * option string :=
  match c !! u with
  | Some v => (c, Some v)
  | None =>
      match outcome_of r with
      | Some v => (<[u := v]> c, Some v)
      | None => (c, None)
      end
  end.

(** ** A batch of calls *)

Inductive task : Type :=
| Init (u : string)
| Wait (u : string)
| Done (r : option string).

Record sys : Type := Sys {
  cache : gmap string string;
  tasks : list task
}.

(** From the call to the first suspension point. *)
Definition start (c : gmap string string) (u : string) : task :=
  match c !! u with
  | Some v => Done (Some v)
  | None => Wait u
  end.

(** From the answer to the return, for task [i]. *)
Definition settle (u : string) (r : response) (i : nat) (s : sys) : sys :=
  match outcome_of r with
  | Some v => Sys (<[u := v]> (cache s)) (<[i := Done (Some v)]> (tasks s))
  | None => Sys (cache s) (<[i := Done None]> (tasks s))
  end.

Section Batch.

(** The answer to the request of task [i]. *)
Variable net : nat -> response.

(** One move of task [i]. *)
Definition step_task (i : nat) (s : sys) : sys :=
  match tasks s !! i with
  | Some (Init u) => Sys (cache s) (<[i := start (cache s) u]> (tasks s))
  | Some (Wait u) => settle u (net i) i s
  | _ => s
  end.

Definition can_move (t : task) : bool :=
  match t with
  | Done _ => false
  | _ => true
  end.

(** The interleavings: some task that can move makes its move. *)
Inductive step : sys -> sys -> Prop :=
| step_of (s : sys) (i : nat) (t : task) :
    tasks s !! i = Some t -> can_move t = true -> step s (step_task i s).

Definition run (sched : list nat) (s : sys) : sys :=
  fold_left (fun s i => step_task i s) sched s.

(** The event loop starts the tasks in order, then delivers the answers in
    the order [order] in which they arrive. *)
Definition gather_schedule (n : nat) (order : list nat) : list nat :=
  seq 0 n ++ order.

Definition result_of (t : task) : option string :=
  match t with
  | Done r => r
  | _ => None
  end.

(** [await asyncio.gather] on the tasks: the final cache and the results, in
    the order of the tasks. *)
Definition gather (c : gmap string string) (urls : list string) (order : list nat)
  : gmap string string * list (option string) :=
  let s := run (gather_schedule (length urls) order) (Sys c (map Init urls)) in
  (cache s, map result_of (tasks s)).

End Batch.

(** ** Writing the contents back *)

(** ['bsky.app' in e.url]. *)
Definition eligible (e : NewsEntry) : bool := contains "bsky.app" (url e).

(** The body of the loop over [zip(bluesky_entries, contents)]. *)
Definition enrich `{SetOrder} (e : NewsEntry) (content : option string) : NewsEntry :=
  match content with
  | Some c =>
      if String.eqb c "" then e
      else tag_entry_with_content
             (mkNewsEntry (id e) (url e) (title e) (date e) (themes e)
                          (keywords e) (Some c)) c
  | None => e
  end.

(** The loop, on the list of all entries: an eligible entry takes the next
    content; when the contents run out the loop has ended. *)
Fixpoint apply_contents `{SetOrder} (es : list NewsEntry) (contents : list (option string))
  : list NewsEntry :=
  match es with
  | [] => []
  | e :: es' =>
      if eligible e
      then match contents with
           | c :: cs => enrich e c :: apply_contents es' cs
           | [] => e :: es'
           end
      else e :: apply_contents es' contents
  end.

Definition process_bluesky_entries `{SetOrder} (net : nat -> response) (order : list nat)
    (c : gmap string string) (es : list NewsEntry)
  : gmap string string * list NewsEntry :=
  match filter eligible es with
  | [] => (c, es)
  | bs =>
      let (c', contents) := gather net c (map url bs) order in
      (c', apply_contents es contents)
  end.

(** ** Contents are bounded *)

Lemma length_slice_to_le (n : nat) (s : string) : String.length (slice_to n s) <= n.
Proof. rewrite length_slice_to. lia. Qed.

Lemma extract_content_bounded (p : page) (v : string) :
  extract_content p = Some v -> String.length v <= 500.
Proof.
  unfold extract_content. destruct (first_element p) as [el|]; [|done].
  destruct (element_content el); [|done].
  intros [= <-]. apply length_slice_to_le.
Qed.

Lemma outcome_bounded (r : response) (v : string) :
  outcome_of r = Some v -> String.length v <= 500.
Proof.
  destruct r as [|st [p|]]; simpl; try done.
  destruct (st =? 200); [apply extract_content_bounded | done].
Qed.

(** ** One call *)

Lemma fetch_hit (c : gmap string string) (u v : string) (r : response) :
  c !! u = Some v -> fetch c u r = (c, Some v).
Proof. intros E. unfold fetch. now rewrite E. Qed.

Lemma fetch_miss (c : gmap string string) (u : string) (r : response) :
  c !! u = None ->
  fetch c u r =
  match outcome_of r with
  | Some v => (<[u := v]> c, Some v)
  | None => (c, None)
  end.
Proof. intros E. unfold fetch. now rewrite E. Qed.

Lemma fetch_Some_cached (c c' : gmap string string) (u v : string) (r : response) :
  fetch c u r = (c', Some v) -> c' !! u = Some v.
Proof.
  unfold fetch. destruct (c !! u) as [w|] eqn:E.
  - now intros [= <- <-].
  - destruct (outcome_of r); intros [= <- <-]. apply lookup_insert_eq.
Qed.

(** ** The invariant of a batch *)

Definition cache_ok (c : gmap string string) : Prop :=
  map_Forall (fun _ v => String.length v <= 500) c.

Definition task_ok (t : task) : Prop :=
  match t with
  | Done (Some v) => String.length v <= 500
  | _ => True
  end.

Definition sys_ok (s : sys) : Prop :=
  cache_ok (cache s) /\ Forall task_ok (tasks s).

Lemma cache_ok_insert (c : gmap string string) (u v : string) :
  cache_ok c -> String.length v <= 500 -> cache_ok (<[u := v]> c).
Proof. intros Hc Hv. now apply map_Forall_insert_2. Qed.

Lemma Forall_list_insert {A : Type} (P : A -> Prop) (l : list A) (i : nat) (x : A) :
  Forall P l -> P x -> Forall P (<[i := x]> l).
Proof. intros Hl Hx. now apply Forall_insert. Qed.

Lemma start_ok (c : gmap string string) (u : string) :
  cache_ok c -> task_ok (start c u).
Proof.
  intros Hc. unfold start. destruct (c !! u) as [v|] eqn:E; simpl; [|done].
  exact (Hc u v E).
Qed.

Section BatchFacts.

Variable net : nat -> response.

Lemma step_task_ok (i : nat) (s : sys) : sys_ok s -> sys_ok (step_task net i s).
Proof.
  intros [Hc Ht]. unfold step_task.
  destruct (tasks s !! i) as [[u|u|r]|] eqn:E; try done.
  - split; [done|]. simpl. apply Forall_list_insert; [done | now apply start_ok].
  - unfold settle. destruct (outcome_of (net i)) as [v|] eqn:Eo.
    + apply outcome_bounded in Eo. split; simpl.
      * now apply cache_ok_insert.
      * now apply Forall_list_insert.
    + split; [done|]. simpl. now apply Forall_list_insert.
Qed.

Lemma step_ok (s s' : sys) : step net s s' -> sys_ok s -> sys_ok s'.
Proof. intros [s0 i t _ _]. apply step_task_ok. Qed.

Lemma run_ok (sched : list nat) (s : sys) : sys_ok s -> sys_ok (run net sched s).
Proof.
  revert s; induction sched as [|i sched IH]; intros s Hs; [done|].
  simpl. apply IH. now apply step_task_ok.
Qed.

End BatchFacts.

(** ** Every batch terminates *)

Definition weight (t : task) : nat :=
  match t with
  | Init _ => 2
  | Wait _ => 1
  | Done _ => 0
  end.

(** The moves the tasks of a state can still make. *)
Definition moves_left (s : sys) : nat := list_sum (map weight (tasks s)).

Definition all_done (s : sys) : Prop := Forall (fun t => can_move t = false) (tasks s).

Lemma list_sum_insert (l : list task) (i : nat) (t t' : task) :
  l !! i = Some t ->
  list_sum (map weight (<[i := t']> l)) + weight t
  = list_sum (map weight l) + weight t'.
Proof.
  revert i; induction l as [|x l IH]; intros [|i] E; simplify_eq/=; [lia|].
  specialize (IH i E). lia.
Qed.

Lemma weight_start (c : gmap string string) (u : string) : weight (start c u) <= 1.
Proof. unfold start. destruct (c !! u); simpl; lia. Qed.

Section Termination.

Variable net : nat -> response.

Lemma step_task_moves (i : nat) (s : sys) (t : task) :
  tasks s !! i = Some t -> can_move t = true ->
  moves_left (step_task net i s) < moves_left s.
Proof.
  intros E Hm. unfold step_task, moves_left. rewrite E.
  destruct t as [u|u|r]; [| |done]; simpl.
  - pose proof (list_sum_insert _ _ _ (start (cache s) u) E) as Hs.
    pose proof (weight_start (cache s) u). simpl in Hs. lia.
  - unfold settle. destruct (outcome_of (net i)); simpl.
    + pose proof (list_sum_insert _ _ _ (Done (Some s0)) E) as Hs.
      simpl in Hs. lia.
    + pose proof (list_sum_insert _ _ _ (Done None) E) as Hs.
      simpl in Hs. lia.
Qed.

Lemma step_moves (s s' : sys) : step net s s' -> moves_left s' < moves_left s.
Proof. intros [s0 i t E Hm]. eapply step_task_moves; eauto. Qed.

Lemma moves_left_bound (s : sys) : moves_left s <= 2 * length (tasks s).
Proof.
  unfold moves_left. induction (tasks s) as [|t l IH]; simpl; [lia|].
  destruct t; simpl; lia.
Qed.

Lemma nsteps_moves (n : nat) (s s' : sys) :
  nsteps (step net) n s s' -> n + moves_left s' <= moves_left s.
Proof.
  induction 1 as [|n s1 s2 s3 Hs _ IH]; [lia|].
  apply step_moves in Hs. lia.
Qed.

Lemma stuck_all_done (s : sys) :
  (forall s', ~ step net s s') -> all_done s.
Proof.
  intros Hstuck. apply Forall_lookup_2. intros i t E.
  destruct (can_move t) eqn:Hm; [|done].
  exfalso. eapply Hstuck. econstructor; eauto.
Qed.

(** C31: a batch of fetches terminates under every interleaving: a run of
    [n] moves from a state leaves at most the moves that state had minus
    [n], a state has at most two moves per task, and a state from which no
    task can move has every task done. *)
Theorem batch_terminates (n : nat) (s s' : sys) :
  nsteps (step net) n s s' ->
  n + moves_left s' <= 2 * length (tasks s) /\
  ((forall s'', ~ step net s' s'') -> all_done s').
Proof.
  intros Hn. split; [|apply stuck_all_done].
  apply nsteps_moves in Hn. pose proof (moves_left_bound s). lia.
Qed.

(** Every move of every task keeps the cache and the results within
    500 characters, so this holds in every state a batch can reach. *)
Theorem batch_bounded (s s' : sys) :
  rtc (step net) s s' -> sys_ok s -> sys_ok s'.
Proof. induction 1; eauto using step_ok. Qed.

End Termination.


(** ** The schedule of the event loop *)

Section Gather.

Variable net : nat -> response.

(** The cache when the batch begins. *)
Variable c0 : gmap string string.

(** What task [i], a fetch of [u], returns: the cached value when the batch
    began with one, the outcome of its own request otherwise. *)
Definition answer (i : nat) (u : string) : option string :=
  match c0 !! u with
  | Some v => Some v
  | None => outcome_of (net i)
  end.

(** The tasks of a batch whose tasks have all started, in which exactly the
    tasks of [D] have been resumed. *)
Definition tasks_after (us : list string) (D : gset nat) : list task :=
  imap (fun i u => if decide (i ∈ D) then Done (answer i u) else start c0 u) us.

Lemma run_app (a b : list nat) (s : sys) :
  run net (a ++ b) s = run net b (run net a s).
Proof. apply fold_left_app. Qed.

Lemma step_task_start (c : gmap string string) (done : list task) (u : string)
    (rest : list task) :
  step_task net (length done) (Sys c (done ++ Init u :: rest))
  = Sys c ((done ++ [start c u]) ++ rest).
Proof.
  unfold step_task. cbn [tasks cache].
  rewrite list_lookup_middle by done.
  rewrite insert_app_r_alt by lia. rewrite Nat.sub_diag.
  now rewrite <- app_assoc.
Qed.

(** The tasks start in order; none of them changes the cache. *)
Lemma run_starts (c : gmap string string) (done : list task) (us : list string) :
  run net (seq (length done) (length us)) (Sys c (done ++ map Init us))
  = Sys c (done ++ map (start c) us).
Proof.
  revert done; induction us as [|u us IH]; intros done; [done|].
  cbn [length seq run fold_left map]. rewrite step_task_start.
  specialize (IH (done ++ [start c u])).
  rewrite length_app in IH. simpl in IH. rewrite Nat.add_1_r in IH.
  unfold run in IH. rewrite IH. now rewrite <- app_assoc.
Qed.

Lemma start_done (u : string) (i : nat) :
  can_move (start c0 u) = false -> start c0 u = Done (answer i u).
Proof. unfold start, answer. now destruct (c0 !! u). Qed.

Lemma start_wait (u : string) (i : nat) :
  can_move (start c0 u) = true ->
  start c0 u = Wait u /\ answer i u = outcome_of (net i).
Proof. unfold start, answer. now destruct (c0 !! u). Qed.

Lemma tasks_after_lookup (us : list string) (D : gset nat) (i : nat) :
  tasks_after us D !! i
  = (fun u => if decide (i ∈ D) then Done (answer i u) else start c0 u) <$> us !! i.
Proof. apply list_lookup_imap. Qed.

Lemma tasks_after_length (us : list string) (D : gset nat) :
  length (tasks_after us D) = length us.
Proof. apply length_imap. Qed.

Lemma tasks_after_empty (us : list string) : tasks_after us ∅ = map (start c0) us.
Proof.
  apply list_eq. intros i. rewrite tasks_after_lookup.
  change (map ?f us) with (f <$> us). rewrite list_lookup_fmap.
  destruct (us !! i); simpl; [|done]. now rewrite decide_False by set_solver.
Qed.

Lemma settle_tasks (u : string) (i : nat) (s : sys) :
  tasks (settle u (net i) i s) = <[i := Done (outcome_of (net i))]> (tasks s).
Proof. unfold settle. now destruct (outcome_of (net i)). Qed.

(** Resuming task [j] writes its answer at [j] and nowhere else. *)
Lemma tasks_after_insert (us : list string) (D : gset nat) (j : nat) (u : string) :
  us !! j = Some u ->
  <[j := Done (answer j u)]> (tasks_after us D) = tasks_after us ({[j]} ∪ D).
Proof.
  intros Ej. apply list_eq. intros i.
  rewrite list_lookup_insert, !tasks_after_lookup, tasks_after_length.
  destruct (decide (j = i)) as [<-|Hne].
  - apply lookup_lt_Some in Ej as Hlt. rewrite Ej. simpl.
    rewrite decide_True by done. now rewrite decide_True by set_solver.
  - rewrite decide_False by tauto. destruct (us !! i) as [w|]; simpl; [|done].
    destruct (decide (i ∈ D)); [rewrite decide_True | rewrite decide_False];
      set_solver.
Qed.

(** A task that is done, or that does not exist, absorbs its moves. *)
Lemma tasks_after_absorb (us : list string) (D : gset nat) (j : nat) :
  (forall u, us !! j = Some u -> j ∈ D \/ can_move (start c0 u) = false) ->
  tasks_after us ({[j]} ∪ D) = tasks_after us D.
Proof.
  intros Hj. destruct (us !! j) as [u|] eqn:Ej.
  - rewrite <- (tasks_after_insert us D j u Ej). apply list_insert_id.
    rewrite tasks_after_lookup, Ej. simpl.
    destruct (Hj u eq_refl) as [Hin|Hd]; [now rewrite decide_True|].
    destruct (decide (j ∈ D)); [done|]. f_equal. now apply start_done.
  - apply list_eq. intros i. rewrite !tasks_after_lookup.
    destruct (us !! i) as [w|] eqn:Ei; simpl; [|done].
    assert (i <> j) by congruence.
    destruct (decide (i ∈ D)); [rewrite decide_True | rewrite decide_False];
      set_solver.
Qed.

(** A move of task [j] leads from the tasks after [D] to the tasks after
    [D] and [j], whatever the cache has become. *)
Lemma step_task_after (us : list string) (D : gset nat) (j : nat) (s : sys) :
  tasks s = tasks_after us D ->
  tasks (step_task net j s) = tasks_after us ({[j]} ∪ D).
Proof.
  intros Ht. unfold step_task. rewrite Ht, tasks_after_lookup.
  destruct (us !! j) as [u|] eqn:E; simpl.
  - destruct (decide (j ∈ D)).
    { rewrite Ht. symmetry. apply tasks_after_absorb. auto. }
    destruct (can_move (start c0 u)) eqn:Hm.
    + destruct (start_wait u j Hm) as [-> Ha].
      rewrite settle_tasks, Ht, <- Ha. now apply tasks_after_insert.
    + rewrite (start_done u j Hm), Ht. symmetry. apply tasks_after_absorb.
      intros w. rewrite E. intros [= <-]. auto.
  - rewrite Ht. symmetry. apply tasks_after_absorb. congruence.
Qed.

Lemma run_after (us : list string) (order : list nat) (D : gset nat) (s : sys) :
  tasks s = tasks_after us D ->
  tasks (run net order s) = tasks_after us (list_to_set order ∪ D).
Proof.
  revert D s; induction order as [|j order IH]; intros D s Ht; simpl.
  - rewrite Ht. f_equal. set_solver.
  - rewrite (IH ({[j]} ∪ D)) by now apply step_task_after.
    f_equal. set_solver.
Qed.

Lemma tasks_after_full (us : list string) (D : gset nat) :
  (forall i, i < length us -> i ∈ D) ->
  tasks_after us D = imap (fun i u => Done (answer i u)) us.
Proof.
  intros HD. apply list_eq. intros i.
  rewrite tasks_after_lookup, list_lookup_imap.
  destruct (us !! i) as [u|] eqn:E; simpl; [|done].
  apply lookup_lt_Some in E. now rewrite decide_True by auto.
Qed.

(** The tasks of a batch when [gather] returns. *)
Lemma gather_tasks (urls : list string) (order : list nat) :
  tasks (run net (gather_schedule (length urls) order) (Sys c0 (map Init urls)))
  = tasks_after urls (list_to_set order).
Proof.
  unfold gather_schedule. rewrite run_app.
  pose proof (run_starts c0 [] urls) as Hs. simpl in Hs. rewrite Hs.
  rewrite (run_after urls order ∅) by (simpl; now rewrite tasks_after_empty).
  f_equal. set_solver.
Qed.

(** The results of a batch all of whose answers arrive. *)
Lemma gather_snd (urls : list string) (order : list nat) :
  (forall i, i < length urls -> In i order) ->
  snd (gather net c0 urls order) = imap answer urls.
Proof.
  intros Hall. unfold gather. cbn [snd]. rewrite gather_tasks.
  rewrite tasks_after_full.
  - apply list_eq. intros i. change (map ?f ?l) with (f <$> l).
    rewrite list_lookup_fmap, !list_lookup_imap. now destruct (urls !! i).
  - intros i Hi. apply elem_of_list_to_set, list_elem_of_In. auto.
Qed.

(** The cache of a batch: it extends the cache the batch began with, and
    every other value is the outcome of a request for its URL. *)
Definition cache_from (us : list string) (c : gmap string string) : Prop :=
  c0 ⊆ c /\
  forall u v, c !! u = Some v ->
    c0 !! u = Some v \/ exists i, us !! i = Some u /\ outcome_of (net i) = Some v.

Lemma cache_from_start (us : list string) : cache_from us c0.
Proof. split; [done | auto]. Qed.

Lemma cache_from_settle (us : list string) (i : nat) (u : string) (s : sys) :
  us !! i = Some u -> c0 !! u = None ->
  cache_from us (cache s) -> cache_from us (cache (settle u (net i) i s)).
Proof.
  intros Ei Hu [Hsub Hval]. unfold settle.
  destruct (outcome_of (net i)) as [v|] eqn:Eo; [|done]. split; simpl.
  - now apply insert_subseteq_r.
  - intros u' v'. destruct (decide (u = u')) as [<-|Hne].
    + rewrite lookup_insert_eq. intros [= <-]. eauto.
    + rewrite lookup_insert_ne by done. apply Hval.
Qed.

Lemma step_task_cache (us : list string) (D : gset nat) (j : nat) (s : sys) :
  tasks s = tasks_after us D ->
  cache_from us (cache s) -> cache_from us (cache (step_task net j s)).
Proof.
  intros Ht Hc. unfold step_task. rewrite Ht, tasks_after_lookup.
  destruct (us !! j) as [u|] eqn:E; simpl; [|done].
  destruct (decide (j ∈ D)); [done|]. unfold start.
  destruct (c0 !! u) eqn:Hu; [done|]. now apply cache_from_settle.
Qed.

Lemma run_cache (us : list string) (order : list nat) (D : gset nat) (s : sys) :
  tasks s = tasks_after us D ->
  cache_from us (cache s) -> cache_from us (cache (run net order s)).
Proof.
  revert D s; induction order as [|j order IH]; intros D s Ht Hc; [done|].
  simpl. apply (IH ({[j]} ∪ D)); [now apply step_task_after|].
  now apply (step_task_cache us D).
Qed.

Lemma gather_fst (urls : list string) (order : list nat) :
  cache_from urls (fst (gather net c0 urls order)).
Proof.
  unfold gather, gather_schedule. cbn [fst]. rewrite run_app.
  pose proof (run_starts c0 [] urls) as Hs. simpl in Hs. rewrite Hs.
  apply (run_cache urls order ∅); [simpl; now rewrite tasks_after_empty|].
  apply cache_from_start.
Qed.

(** C7: when the answer of every task arrives, [gather] returns, for each
    task in the order of the tasks, the value the cache held for its URL
    when the batch began and otherwise the outcome of the task's own
    request, in whatever order the answers arrive; the cache it leaves
    extends the one it began with by outcomes of requests for the URLs. *)
Theorem gather_results (urls : list string) (order : list nat) :
  (forall i, i < length urls -> In i order) ->
  snd (gather net c0 urls order) = imap answer urls /\
  cache_from urls (fst (gather net c0 urls order)).
Proof. intros Hall. split; [now apply gather_snd | apply gather_fst]. Qed.

End Gather.

(** ** Answers without content *)

Lemma outcome_of_status (st : nat) (b : option page) :
  st <> 200 -> outcome_of (Answered st b) = None.
Proof.
  intros Hst. destruct b as [p|]; simpl; [|done].
  now apply Nat.eqb_neq in Hst as ->.
Qed.

(** ** The loop over the entries *)

(** The number of eligible entries before position [i]: the position, among
    the contents, of the content of the entry at [i]. *)
Definition rank (es : list NewsEntry) (i : nat) : nat :=
  length (filter eligible (firstn i es)).

(** What the loop makes of the entry at position [i]. *)
Definition enriched `{SetOrder} (es : list NewsEntry) (contents : list (option string))
    (i : nat) (e : NewsEntry) : NewsEntry :=
  if eligible e
  then match contents !! rank es i with
       | Some c => enrich e c
       | None => e
       end
  else e.

(** [if content:]. *)
Definition truthy (content : option string) : bool :=
  match content with
  | Some c => negb (String.eqb c "")
  | None => false
  end.

Definition has_snippet (e : NewsEntry) : bool :=
  match content_snippet e with
  | Some _ => true
  | None => false
  end.

(** The data of an entry that tagging and enrichment never touch. *)
Definition same_source (e e' : NewsEntry) : Prop :=
  id e' = id e /\ url e' = url e /\ title e' = title e /\ date e' = date e.

Definition snippet_ok (e : NewsEntry) : Prop :=
  match content_snippet e with
  | Some c => String.length c <= 500
  | None => True
  end.

Section Loop.

Context `{SetOrder}.

Lemma rank_S (e : NewsEntry) (es : list NewsEntry) (i : nat) :
  rank (e :: es) (S i) = (if eligible e then 1 else 0) + rank es i.
Proof. unfold rank. simpl. now destruct (eligible e). Qed.

Lemma rank_lookup (es : list NewsEntry) (i : nat) (e : NewsEntry) :
  es !! i = Some e -> eligible e = true ->
  filter eligible es !! rank es i = Some e.
Proof.
  revert i; induction es as [|x es IH]; intros [|i] E He; simplify_eq/=.
  - now rewrite He.
  - rewrite rank_S. destruct (eligible x); simpl; auto.
Qed.

Lemma enrich_truthy (e : NewsEntry) (c : option string) :
  truthy c = false -> enrich e c = e.
Proof.
  destruct c as [c|]; simpl; [|done].
  now destruct (String.eqb c "").
Qed.

Lemma enrich_snippet (e : NewsEntry) (c : string) :
  truthy (Some c) = true -> content_snippet (enrich e (Some c)) = Some c.
Proof. simpl. now destruct (String.eqb c ""). Qed.

Lemma enrich_same_source (e : NewsEntry) (c : option string) :
  same_source e (enrich e c).
Proof.
  destruct c as [c|]; simpl; [|done].
  now destruct (String.eqb c "").
Qed.

Lemma has_snippet_enrich (e : NewsEntry) (c : option string) :
  content_snippet e = None -> has_snippet (enrich e c) = truthy c.
Proof.
  intros Hn. unfold has_snippet. destruct (truthy c) eqn:Ht.
  - destruct c as [c|]; [|done]. now rewrite enrich_snippet.
  - now rewrite enrich_truthy, Hn.
Qed.

Lemma enrich_tags_ok (e : NewsEntry) (c : option string) :
  tags_ok e -> tags_ok (enrich e c).
Proof.
  intros He. destruct c as [c|]; simpl; [|done].
  destruct (String.eqb c ""); [done|].
  set (e' := mkNewsEntry _ _ _ _ _ _ _).
  unfold tags_ok, tag_entry_with_content. cbn [themes keywords].
  destruct (cap_keywords_ok (combined_text e' c)) as (K1 & K2 & K3).
  destruct (top_themes_ok (content_score (combined_text e' c) c)) as (T1 & T2 & T3).
  repeat split; assumption.
Qed.

Lemma enrich_snippet_ok (e : NewsEntry) (c : option string) :
  snippet_ok e -> (forall v, c = Some v -> String.length v <= 500) ->
  snippet_ok (enrich e c).
Proof.
  intros He Hc. destruct (truthy c) eqn:Ht.
  - destruct c as [c|]; [|done]. unfold snippet_ok.
    rewrite enrich_snippet by done. auto.
  - now rewrite enrich_truthy.
Qed.

Lemma apply_contents_nil (es : list NewsEntry) : apply_contents es [] = es.
Proof.
  induction es as [|e es IH]; simpl; [done|].
  destruct (eligible e); [done | now rewrite IH].
Qed.

Lemma apply_contents_length (es : list NewsEntry) (cs : list (option string)) :
  length (apply_contents es cs) = length es.
Proof.
  revert cs; induction es as [|e es IH]; intros cs; simpl; [done|].
  destruct (eligible e); [destruct cs|]; simpl; auto.
Qed.

(** The loop, entry by entry. *)
Lemma apply_contents_lookup (es : list NewsEntry) (cs : list (option string))
    (i : nat) (e : NewsEntry) :
  es !! i = Some e ->
  apply_contents es cs !! i = Some (enriched es cs i e).
Proof.
  unfold enriched.
  revert cs i; induction es as [|x es IH]; intros cs [|i] E; simplify_eq/=.
  - destruct (eligible e); [|done]. now destruct cs.
  - rewrite rank_S. destruct (eligible x) eqn:Hx.
    + destruct cs as [|c cs]; simpl.
      * rewrite E. now destruct (eligible e).
      * now apply IH.
    + simpl. now apply IH.
Qed.

Lemma apply_contents_Forall2 (R : NewsEntry -> NewsEntry -> Prop)
    (es : list NewsEntry) (cs : list (option string)) :
  (forall e, R e e) -> (forall e c, In c cs -> R e (enrich e c)) ->
  Forall2 R es (apply_contents es cs).
Proof.
  intros Hrefl. revert cs; induction es as [|e es IH]; intros cs Hc; simpl.
  - constructor.
  - destruct (eligible e); [destruct cs as [|c cs]|].
    + apply Forall2_same_length_lookup_2; [done|]. intros; simplify_eq. auto.
    + constructor; [apply Hc; now left | apply IH; intros; apply Hc; now right].
    + constructor; auto.
Qed.

Lemma apply_contents_count (es : list NewsEntry) (cs : list (option string)) :
  Forall (fun e => content_snippet e = None) es ->
  length cs = length (filter eligible es) ->
  length (filter has_snippet (apply_contents es cs)) = length (filter truthy cs).
Proof.
  intros Hes. revert cs; induction Hes as [|e es He Hes IH]; intros cs Hlen; simpl in *.
  - now destruct cs.
  - destruct (eligible e); [destruct cs as [|c cs]; [done|]|]; simpl in *.
    + rewrite has_snippet_enrich by done.
      destruct (truthy c); simpl; rewrite IH by lia; done.
    + unfold has_snippet at 1. rewrite He. auto.
Qed.

End Loop.

(** ** The selector that wins *)

Lemma first_element_at (p : page) (pre post : list string) (sel : string) (el : element) :
  content_selectors = pre ++ sel :: post ->
  Forall (fun s => p s = None) pre -> p sel = Some el ->
  first_element p = Some el.
Proof.
  intros Hs Hpre Hsel. apply first_some_Some.
  exists (map (fun s (pg : page) => pg s) pre), (fun pg : page => pg sel),
         (map (fun s (pg : page) => pg s) post).
  rewrite Hs, map_app. repeat split; [done|]. now apply Forall_map.
Qed.

(** The first selector that finds an element decides the content,
    whatever the element holds: its text or [content] attribute cut to 500
    characters, and nothing when a [meta] element has no [content]; later
    selectors are not tried, also when the element is empty. *)
Theorem extract_content_first_element (p : page) (pre post : list string)
    (sel : string) (el : element) :
  content_selectors = pre ++ sel :: post ->
  Forall (fun s => p s = None) pre -> p sel = Some el ->
  extract_content p = slice_to 500 <$> element_content el.
Proof.
  intros Hs Hpre Hsel. unfold extract_content.
  rewrite (first_element_at p pre post sel el) by done.
  now destruct (element_content el).
Qed.

(** A page none of whose selectors finds an element, an answer with a
    status other than 200, an answer whose body cannot be read and a failed
    request all give no content, and a call that gives no content leaves the
    cache as it was. *)
Theorem fetch_failure (c : gmap string string) (u : string) (r : response) :
  c !! u = None ->
  (r = NetError \/ (exists st b, r = Answered st b /\ (st <> 200 \/ b = None)) \/
   exists st p, r = Answered st (Some p) /\ Forall (fun s => p s = None) content_selectors) ->
  fetch c u r = (c, None).
Proof.
  intros Hc Hr. rewrite fetch_miss by done.
  enough (outcome_of r = None) as -> by done.
  destruct Hr as [-> | [(st & b & -> & [Hst | ->]) | (st & p & -> & Hp)]]; try done.
  - now apply outcome_of_status.
  - simpl. destruct (st =? 200); [|done]. unfold extract_content, first_element.
    rewrite (proj2 (first_some_None _ p)); [done|]. now apply Forall_map.
Qed.

(** Calls made one after the other are idempotent: once a call for a
    URL has returned a content, every later call for it returns the same
    content and leaves the cache unchanged, whatever the network answers. *)
Theorem fetch_idempotent (c c' : gmap string string) (u v : string) (r r' : response) :
  fetch c u r = (c', Some v) -> fetch c' u r' = (c', Some v).
Proof. intros Hf. apply fetch_hit. eapply fetch_Some_cached, Hf. Qed.

(** ** The batch of [process_bluesky_entries] *)

Section Process.

Context `{SetOrder}.

Variable net : nat -> response.

Lemma run_no_tasks (order : list nat) (c : gmap string string) :
  run net order (Sys c []) = Sys c [].
Proof. induction order as [|i order IH]; [done | exact IH]. Qed.

Lemma process_snd (order : list nat) (c : gmap string string) (es : list NewsEntry) :
  snd (process_bluesky_entries net order c es)
  = apply_contents es (snd (gather net c (map url (filter eligible es)) order)).
Proof.
  unfold process_bluesky_entries. destruct (filter eligible es) as [|b bs] eqn:Ef.
  - unfold gather, gather_schedule. simpl. rewrite run_no_tasks. simpl.
    now rewrite apply_contents_nil.
  - now destruct (gather net c (map url (b :: bs)) order).
Qed.

Lemma process_fst (order : list nat) (c : gmap string string) (es : list NewsEntry) :
  fst (process_bluesky_entries net order c es)
  = fst (gather net c (map url (filter eligible es)) order).
Proof.
  unfold process_bluesky_entries. destruct (filter eligible es) as [|b bs] eqn:Ef.
  - unfold gather, gather_schedule. simpl. now rewrite run_no_tasks.
  - now destruct (gather net c (map url (b :: bs)) order).
Qed.

Lemma gather_ok (order : list nat) (c : gmap string string) (urls : list string) :
  cache_ok c ->
  cache_ok (fst (gather net c urls order)) /\
  forall r v, In r (snd (gather net c urls order)) -> r = Some v ->
    String.length v <= 500.
Proof.
  intros Hc. unfold gather. cbn [fst snd].
  destruct (run_ok net (gather_schedule (length urls) order) (Sys c (map Init urls)))
    as [Hc' Ht].
  { split; [done|]. apply Forall_forall. intros t (u & <- & _)%in_map_iff. done. }
  split; [done|]. intros r v (t & <- & Hin)%in_map_iff Hr.
  eapply Forall_forall in Ht; [|exact Hin].
  destruct t as [| |[w|]]; simplify_eq/=. done.
Qed.

Lemma process_same_source (order : list nat) (c : gmap string string)
    (es : list NewsEntry) :
  Forall2 same_source es (snd (process_bluesky_entries net order c es)).
Proof.
  rewrite process_snd. apply apply_contents_Forall2; [done|].
  intros. apply enrich_same_source.
Qed.

Lemma process_tags_ok (order : list nat) (c : gmap string string)
    (es : list NewsEntry) :
  Forall tags_ok es -> Forall tags_ok (snd (process_bluesky_entries net order c es)).
Proof.
  intros Ht. rewrite process_snd.
  apply (Forall2_transfer tags_ok tags_ok es); [|done].
  apply apply_contents_Forall2; [tauto|]. intros e r _. apply enrich_tags_ok.
Qed.

Lemma process_snippet_ok (order : list nat) (c : gmap string string)
    (es : list NewsEntry) :
  cache_ok c -> Forall snippet_ok es ->
  Forall snippet_ok (snd (process_bluesky_entries net order c es)).
Proof.
  intros Hc Hs. rewrite process_snd.
  destruct (gather_ok order c (map url (filter eligible es)) Hc) as [_ Hb].
  apply (Forall2_transfer snippet_ok snippet_ok es); [|done].
  apply apply_contents_Forall2; [tauto|]. intros e r Hr He.
  apply enrich_snippet_ok; [done|]. intros v Hv. exact (Hb r v Hr Hv).
Qed.

Lemma process_cache_ok (order : list nat) (c : gmap string string)
    (es : list NewsEntry) :
  cache_ok c -> cache_ok (fst (process_bluesky_entries net order c es)).
Proof. intros Hc. rewrite process_fst. now apply gather_ok. Qed.

(** [process_bluesky_entries] keeps the invariants of the dataset: the
    entries keep their number, order, ids, URLs, titles and dates; tags stay
    within the tables and their limits; a snippet, and every value of the
    cache, has at most 500 characters - under every order of the answers,
    also when some never arrive. *)
Theorem process_preserves (order : list nat) (c : gmap string string)
    (es : list NewsEntry) :
  cache_ok c -> Forall tags_ok es -> Forall snippet_ok es ->
  let (c', es') := process_bluesky_entries net order c es in
  cache_ok c' /\ Forall2 same_source es es' /\
  Forall tags_ok es' /\ Forall snippet_ok es'.
Proof.
  intros Hc Ht Hs.
  pose proof (process_cache_ok order c es Hc).
  pose proof (process_same_source order c es).
  pose proof (process_tags_ok order c es Ht).
  pose proof (process_snippet_ok order c es Hc Hs).
  now destruct (process_bluesky_entries net order c es).
Qed.

(** The entry at position [i] after a batch all of whose answers arrive. *)
Lemma process_lookup (order : list nat) (c : gmap string string)
    (es : list NewsEntry) (i : nat) (e : NewsEntry) :
  (forall k, k < length (filter eligible es) -> In k order) ->
  es !! i = Some e ->
  snd (process_bluesky_entries net order c es) !! i
  = Some (if eligible e then enrich e (answer net c (rank es i) (url e)) else e).
Proof.
  intros Hall E. rewrite process_snd, gather_snd
    by (now rewrite length_map).
  rewrite (apply_contents_lookup _ _ _ _ E). unfold enriched.
  destruct (eligible e) eqn:He; [|done].
  rewrite list_lookup_imap. change (map url ?l) with (url <$> l).
  now rewrite list_lookup_fmap, (rank_lookup es i e E He).
Qed.

(** C15: when every answer arrives, [process_bluesky_entries] leaves an
    entry that is not eligible as it is, and enriches an eligible entry with
    the answer to its own request (or with the content the cache held for
    its URL), in whatever order the answers arrive. *)
Theorem process_entries (order : list nat) (c : gmap string string)
    (es : list NewsEntry) :
  (forall k, k < length (filter eligible es) -> In k order) ->
  snd (process_bluesky_entries net order c es)
  = imap (fun i e => if eligible e
                     then enrich e (answer net c (rank es i) (url e)) else e) es.
Proof.
  intros Hall. apply list_eq. intros i. rewrite list_lookup_imap.
  destruct (es !! i) as [e|] eqn:E; simpl.
  - now apply process_lookup.
  - apply lookup_ge_None. apply lookup_ge_None in E.
    rewrite process_snd, apply_contents_length. done.
Qed.

(** Of the N eligible entries of a freshly parsed dataset, exactly
    those whose fetch returned a non-empty content have a snippet after
    [process_bluesky_entries]: N minus the number of fetches that failed or
    returned the empty string. *)
Theorem enrichment_count (order : list nat) (c : gmap string string)
    (es : list NewsEntry) :
  (forall k, k < length (filter eligible es) -> In k order) ->
  Forall (fun e => content_snippet e = None) es ->
  length (filter has_snippet (snd (process_bluesky_entries net order c es)))
  = length (filter truthy (imap (answer net c) (map url (filter eligible es)))).
Proof.
  intros Hall Hes. rewrite process_snd, gather_snd by (now rewrite length_map).
  apply apply_contents_count; [done|]. now rewrite length_imap, length_map.
Qed.

End Process.

(** ** Two tasks for one URL *)

(** The cache does not keep a batch from requesting a URL twice: two
    tasks for the same URL both miss the cache, both send their request,
    each returns the outcome of its own request, and the later answer
    overwrites the earlier one in the cache. *)
Theorem gather_duplicates (net : nat -> response) (c0 : gmap string string)
    (u v0 v1 : string) :
  c0 !! u = None -> outcome_of (net 0) = Some v0 -> outcome_of (net 1) = Some v1 ->
  gather net c0 [u; u] [0; 1]
  = (<[u := v1]> (<[u := v0]> c0), [Some v0; Some v1]).
Proof.
  intros Hc H0 H1. unfold gather, gather_schedule, run, step_task, settle, start.
  simpl. rewrite Hc. simpl. rewrite H0. simpl. now rewrite H1.
Qed.

(** ** Witnesses *)

(** A page on which only the first selector finds an element. *)
Definition post_page (t : string) : page :=
  fun sel => if String.eqb sel (hd "" content_selectors) then Some (Tag t) else None.

(** A page whose post element is empty and whose description is not. *)
Definition empty_post_page : page :=
  fun sel =>
    if String.eqb sel (hd "" content_selectors) then Some (Tag "")
    else if String.eqb sel (last content_selectors "")
         then Some (MetaTag (Some "Tariffs on steel")) else None.

Definition net_demo (i : nat) : response :=
  match i with
  | 0 => Answered 200 (Some (post_page "The court blocks the tariff order"))
  | 1 => NetError
  | 2 => Answered 200 (Some (post_page "Tariffs on steel"))
  | _ => Answered 404 None
  end.

Definition post_a : NewsEntry := new_entry 1 "https://bsky.app/profile/a/post/1" "A post" None.
Definition post_b : NewsEntry := new_entry 3 "https://bsky.app/profile/b/post/2" "B post" None.
Definition article : NewsEntry := new_entry 2 "https://news.example/a" "An article" None.

Lemma new_entry_tags_ok (i : nat) (u t : string) (d : option string) :
  tags_ok (new_entry i u t d).
Proof. unfold tags_ok. simpl. repeat split; try lia; constructor. Qed.

Lemma batch_terminates_witness :
  1 + moves_left (step_task net_demo 0 (Sys ∅ [Init "u"])) <= 2 * 1 /\
  ((forall s'', ~ step net_demo (step_task net_demo 0 (Sys ∅ [Init "u"])) s'') ->
   all_done (step_task net_demo 0 (Sys ∅ [Init "u"]))).
Proof.
  apply (batch_terminates net_demo 1 (Sys ∅ [Init "u"])).
  apply nsteps_once. now apply (step_of net_demo _ 0 (Init "u")).
Defined.

Lemma batch_bounded_witness :
  sys_ok (step_task net_demo 0 (Sys ∅ [Wait "u"])).
Proof.
  apply (batch_bounded net_demo (Sys ∅ [Wait "u"])).
  - apply rtc_once. now apply (step_of net_demo _ 0 (Wait "u")).
  - split; [apply map_Forall_empty | repeat constructor].
Defined.

Lemma gather_results_witness :
  snd (gather net_demo ∅ ["u"; "v"; "u"] [2; 0; 1])
  = imap (answer net_demo ∅) ["u"; "v"; "u"] /\
  cache_from net_demo ∅ ["u"; "v"; "u"]
    (fst (gather net_demo ∅ ["u"; "v"; "u"] [2; 0; 1])).
Proof. apply gather_results. simpl. intros i Hi. lia. Defined.

Lemma extract_content_first_element_witness :
  extract_content empty_post_page = Some "".
Proof.
  apply (extract_content_first_element empty_post_page []
           (tl content_selectors) (hd "" content_selectors) (Tag ""));
    [reflexivity | constructor | reflexivity].
Defined.

Lemma fetch_failure_witness : fetch ∅ "u" (net_demo 3) = (∅, None).
Proof.
  apply fetch_failure; [apply lookup_empty|].
  right. left. exists 404, None. split; [reflexivity | left; discriminate].
Defined.

Lemma process_preserves_witness :
  let (c', es') :=
    process_bluesky_entries net_demo [1; 0] ∅ [post_a; article; post_b] in
  cache_ok c' /\ Forall2 same_source [post_a; article; post_b] es' /\
  Forall tags_ok es' /\ Forall snippet_ok es'.
Proof.
  apply (process_preserves net_demo [1; 0] ∅ [post_a; article; post_b]).
  - apply map_Forall_empty.
  - repeat constructor; apply new_entry_tags_ok.
  - repeat constructor.
Defined.

Lemma process_entries_witness :
  snd (process_bluesky_entries net_demo [1; 0] ∅ [post_a; article; post_b])
  = imap (fun i e => if eligible e
                     then enrich e (answer net_demo ∅
                                      (rank [post_a; article; post_b] i) (url e))
                     else e) [post_a; article; post_b].
Proof.
  apply process_entries.
  intros k Hk. change (k < 2) in Hk. simpl. lia.
Defined.

Lemma enrichment_count_witness :
  length (filter has_snippet
            (snd (process_bluesky_entries net_demo [1; 0] ∅ [post_a; article; post_b])))
  = length (filter truthy (imap (answer net_demo ∅)
                             (map url (filter eligible [post_a; article; post_b])))).
Proof.
  apply enrichment_count.
  - intros k Hk. change (k < 2) in Hk. simpl. lia.
  - repeat constructor.
Defined.

Definition net_twice (i : nat) : response :=
  match i with
  | 0 => Answered 200 (Some (post_page "first answer"))
  | _ => Answered 200 (Some (post_page "second answer"))
  end.

Lemma gather_duplicates_witness :
  gather net_twice ∅ ["u"; "u"] [0; 1]
  = (<["u" := "second answer"]> (<["u" := "first answer"]> ∅),
     [Some "first answer"; Some "second answer"]).
Proof. apply gather_duplicates; [apply lookup_empty | reflexivity | reflexivity]. Defined.
