(* ===== verification/Interleaving.v ===== *)
(** * Interleaving: fair schedules and the sequential loop

    [Enricher] gives the moves of the tasks of a batch and proves what
    [asyncio.gather] returns under the schedule of the event loop.  This
    file is about every schedule.

    - Liveness.  A task needs two moves at most, and the moves of the other
      tasks do not undo its own, so a schedule that gives a task its two
      moves brings it to [Done]; a schedule that is [fair] brings the batch
      to [all_done].
    - Equivalence.  [fetch_all] is the loop that awaits one call of
      [fetch_bluesky_content] after the other, which is the reference the
      cache is written for.  That loop is the schedule [one_by_one].  When
      the URLs of the batch are pairwise distinct, every fair schedule ends
      in one and the same state, so [gather] returns what the loop returns.
      With a URL twice in the batch they differ, which [Enricher] shows. *)

From stdpp Require Import gmap strings list.
#[local] Set Warnings "-clear-no-such-hyp".
#[local] Set Warnings "-notation-for-abbreviation".

From S2P Require Import Prelude.
From S2P Require Import Text.
From S2P Require Import Enricher.

#[local] Open Scope string_scope.
#[local] Open Scope list_scope.
#[local] Open Scope nat_scope.

(** ** Definitions *)

(** The moves a schedule gives to task [i]. *)
Definition turns (sched : list nat) (i : nat) : nat := count_occ Nat.eq_dec sched i.

(** A schedule is fair to a batch of [n] tasks when every task gets the two
    moves it may need. *)
Definition fair (n : nat) (sched : list nat) : Prop :=
  forall i, i < n -> 2 <= turns sched i.

Definition fairb (n : nat) (sched : list nat) : bool :=
  forallb (fun i => 2 <=? turns sched i) (seq 0 n).

(** The loop [for url in urls: results.append(await fetch(url))], the
    request of the [k]-th call being request [i + k] of the network. *)
Fixpoint fetch_all (net : nat -> response) (c : gmap string string) (i : nat)
    (us : list string) : gmap string string * list (option string) :=
  match us with
  | [] => (c, [])
  | u :: us' =>
      let (c1, r) := fetch c u (net i) in
      let (c2, rs) := fetch_all net c1 (S i) us' in
      (c2, r :: rs)
  end.

(** The schedule of that loop: each task runs to its end before the next
    one starts. *)
Definition one_by_one (first n : nat) : list nat :=
  flat_map (fun i => [i; i]) (seq first n).

(** What [gather] returns from a state. *)
Definition returned (s : sys) : gmap string string * list (option string) :=
  (cache s, map result_of (tasks s)).

(** The states of a batch for the URLs [us] that began with the cache [c0]:
    task [i] is a call for [us !! i]; before its request is answered the
    cache holds for its URL what it held when the batch began, and nothing
    if the task waits; after its return the cache holds for its URL what
    the task returned, which is [answer]; and the cache holds for any other
    URL what it held when the batch began. *)
Definition task_at (net : nat -> response) (c0 : gmap string string)
    (s : sys) (i : nat) (u : string) : Prop :=
  match tasks s !! i with
  | Some (Init u') => u' = u /\ cache s !! u = c0 !! u
  | Some (Wait u') => u' = u /\ cache s !! u = None /\ c0 !! u = None
  | Some (Done r) => r = answer net c0 i u /\ cache s !! u = r
  | None => False
  end.

Record agrees (net : nat -> response) (c0 : gmap string string)
    (us : list string) (s : sys) : Prop := {
  agrees_length : length (tasks s) = length us;
  agrees_task : forall i u, us !! i = Some u -> task_at net c0 s i u;
  agrees_rest : forall u, ~ In u us -> cache s !! u = c0 !! u
}.

(** ** Counting moves *)

Lemma turns_cons (j : nat) (sched : list nat) (i : nat) :
  turns (j :: sched) i = (if Nat.eq_dec j i then 1 else 0) + turns sched i.
Proof. unfold turns. simpl. now destruct (Nat.eq_dec j i). Qed.

Lemma turns_app (a b : list nat) (i : nat) : turns (a ++ b) i = turns a i + turns b i.
Proof. apply count_occ_app. Qed.

Lemma turns_In (sched : list nat) (i : nat) : In i sched -> 1 <= turns sched i.
Proof. intros Hi. now apply count_occ_In. Qed.

Lemma fairb_fair (n : nat) (sched : list nat) : fairb n sched = true <-> fair n sched.
Proof.
  unfold fairb, fair. rewrite forallb_forall. split; intros Hf i Hi.
  - apply Nat.leb_le, Hf, in_seq. lia.
  - apply Nat.leb_le, Hf. apply in_seq in Hi. lia.
Qed.

(** The schedule of the event loop is fair when every answer arrives. *)
Lemma gather_schedule_fair (n : nat) (order : list nat) :
  (forall i, i < n -> In i order) -> fair n (gather_schedule n order).
Proof.
  intros Hall i Hi. unfold gather_schedule. rewrite turns_app.
  assert (In i (seq 0 n)) as H0 by (apply in_seq; lia).
  apply turns_In in H0. specialize (turns_In _ _ (Hall i Hi)). lia.
Qed.

Lemma one_by_one_turns (first n i : nat) :
  first <= i < first + n -> turns (one_by_one first n) i = 2.
Proof.
  unfold one_by_one. revert first; induction n as [|n IH]; intros first Hi; [lia|].
  cbn [seq flat_map app]. rewrite !turns_cons.
  destruct (Nat.eq_dec first i) as [<-|Hne].
  - assert (turns (flat_map (fun i => [i; i]) (seq (S first) n)) first = 0) as ->; [|lia].
    apply count_occ_not_In. rewrite in_flat_map. intros (k & Hk & Hin).
    apply in_seq in Hk. simpl in Hin. lia.
  - rewrite IH by lia. lia.
Qed.

Lemma one_by_one_fair (n : nat) : fair n (one_by_one 0 n).
Proof. intros i Hi. rewrite one_by_one_turns; lia. Qed.

(** ** Liveness *)

Section Liveness.

Variable net : nat -> response.

Lemma run_cons (j : nat) (sched : list nat) (s : sys) :
  run net (j :: sched) s = run net sched (step_task net j s).
Proof. reflexivity. Qed.

(** The move of another task leaves a task as it is. *)
Lemma step_task_other (i j : nat) (s : sys) :
  i <> j -> tasks (step_task net j s) !! i = tasks s !! i.
Proof.
  intros Hne. unfold step_task, settle.
  destruct (tasks s !! j) as [[u|u|r]|]; [| |done..]; simpl.
  - now rewrite list_lookup_insert_ne.
  - destruct (outcome_of (net j)); simpl; now rewrite list_lookup_insert_ne.
Qed.

(** Its own move takes a task one move closer to its end. *)
Lemma step_task_self (i : nat) (s : sys) (t : task) :
  tasks s !! i = Some t ->
  exists t', tasks (step_task net i s) !! i = Some t' /\ weight t' <= weight t - 1.
Proof.
  intros E. pose proof (lookup_lt_Some _ _ _ E) as Hi.
  unfold step_task, settle. rewrite E. destruct t as [u|u|r]; simpl.
  - rewrite list_lookup_insert_eq by done. eexists; split; [done|].
    pose proof (weight_start (cache s) u). lia.
  - destruct (outcome_of (net i)); simpl; rewrite list_lookup_insert_eq by done;
      eexists; split; try done; simpl; lia.
  - eauto.
Qed.

Lemma step_task_weight (i j : nat) (s : sys) (t : task) :
  tasks s !! i = Some t ->
  exists t', tasks (step_task net j s) !! i = Some t' /\
             weight t' <= weight t - (if Nat.eq_dec j i then 1 else 0).
Proof.
  intros E. destruct (Nat.eq_dec j i) as [->|Hne].
  - now apply step_task_self.
  - rewrite step_task_other by done. exists t. split; [done | lia].
Qed.

(** Every move a schedule gives to a task brings the task closer to its
    end, whatever the other tasks do in between. *)
Lemma run_weight (sched : list nat) (s : sys) (i : nat) (t : task) :
  tasks s !! i = Some t ->
  exists t', tasks (run net sched s) !! i = Some t' /\
             weight t' <= weight t - turns sched i.
Proof.
  revert s t; induction sched as [|j sched IH]; intros s t E.
  - exists t. split; [done | unfold turns; simpl; lia].
  - destruct (step_task_weight i j s t E) as (t1 & E1 & H1).
    rewrite run_cons.
    destruct (IH _ _ E1) as (t' & E' & H'). exists t'. split; [exact E'|].
    rewrite turns_cons. lia.
Qed.

Lemma weight_le_2 (t : task) : weight t <= 2.
Proof. destruct t; simpl; lia. Qed.

Lemma weight_0_done (t : task) : weight t = 0 -> exists r, t = Done r.
Proof. destruct t; simpl; try lia. eauto. Qed.

Lemma run_task_done (sched : list nat) (s : sys) (i : nat) (t : task) :
  tasks s !! i = Some t -> weight t <= turns sched i ->
  exists r, tasks (run net sched s) !! i = Some (Done r).
Proof.
  intros E Hw. destruct (run_weight sched s i t E) as (t' & E' & H').
  assert (weight t' = 0) as H0 by lia.
  apply weight_0_done in H0 as [r ->]. eauto.
Qed.

Lemma run_length (sched : list nat) (s : sys) :
  length (tasks (run net sched s)) = length (tasks s).
Proof.
  revert s; induction sched as [|j sched IH]; intros s; [done|].
  rewrite run_cons, IH. unfold step_task, settle.
  destruct (tasks s !! j) as [[u|u|r]|]; [| |done..]; simpl.
  - apply length_insert.
  - destruct (outcome_of (net j)); simpl; apply length_insert.
Qed.

Lemma run_fair_done (sched : list nat) (s : sys) :
  fair (length (tasks s)) sched -> all_done (run net sched s).
Proof.
  intros Hf. apply Forall_lookup_2. intros i t' E'.
  assert (i < length (tasks s)) as Hi
    by (rewrite <- (run_length sched); eapply lookup_lt_Some; eauto).
  destruct (lookup_lt_is_Some_2 _ _ Hi) as [t E].
  assert (weight t <= turns sched i) as Hw
    by (pose proof (weight_le_2 t); specialize (Hf i Hi); lia).
  destruct (run_task_done sched s i t E Hw) as [r Er].
  rewrite Er in E'. now inversion E'.
Qed.

End Liveness.

(** ** Distinct URLs: the state a fair schedule ends in *)

Section Independent.

Variable net : nat -> response.
Variable c0 : gmap string string.
Variable us : list string.
Hypothesis us_distinct : List.NoDup us.

Notation agrees_with := (agrees net c0 us).

Lemma distinct_lookup (i j : nat) (u : string) :
  us !! i = Some u -> us !! j = Some u -> i = j.
Proof.
  intros Ei Ej. apply NoDup_ListNoDup in us_distinct.
  eapply NoDup_lookup; eauto.
Qed.

Lemma lookup_In (i : nat) (u : string) : us !! i = Some u -> In u us.
Proof. intros E. apply list_elem_of_In. eapply list_elem_of_lookup_2; eauto. Qed.

Lemma agrees_init : agrees_with (Sys c0 (map Init us)).
Proof.
  split; simpl.
  - apply length_map.
  - intros i u E. unfold task_at. simpl.
    change (map Init us) with (Init <$> us). rewrite list_lookup_fmap, E. now simpl.
  - done.
Qed.

(** A move that changes the cache at no URL of another task and leaves the
    other tasks alone keeps the agreement, when the task that moved agrees. *)
Lemma agrees_move (s : sys) (j : nat) (uj : string) (c : gmap string string) (t : task) :
  agrees_with s -> us !! j = Some uj ->
  (forall u, u <> uj -> c !! u = cache s !! u) ->
  task_at net c0 (Sys c (<[j := t]> (tasks s))) j uj ->
  agrees_with (Sys c (<[j := t]> (tasks s))).
Proof.
  intros [Hl Ht Hr] Ej Hc Hj. split; simpl.
  - now rewrite length_insert.
  - intros i u E. destruct (decide (i = j)) as [->|Hne]; [congruence|].
    assert (u <> uj) as Hu by (intros ->; apply Hne; eapply distinct_lookup; eauto).
    specialize (Ht i u E). unfold task_at in *. simpl.
    rewrite list_lookup_insert_ne by done. rewrite (Hc u Hu).
    destruct (tasks s !! i) as [[u'|u'|r]|]; exact Ht.
  - intros u Hu. rewrite Hc; [now apply Hr|].
    intros ->. apply Hu. eapply lookup_In; eauto.
Qed.

Lemma task_at_insert (s : sys) (j : nat) (c : gmap string string) (t : task) (u : string) :
  j < length (tasks s) ->
  task_at net c0 (Sys c (<[j := t]> (tasks s))) j u
  <-> match t with
      | Init u' => u' = u /\ c !! u = c0 !! u
      | Wait u' => u' = u /\ c !! u = None /\ c0 !! u = None
      | Done r => r = answer net c0 j u /\ c !! u = r
      end.
Proof. intros Hj. unfold task_at. simpl. now rewrite list_lookup_insert_eq. Qed.

Lemma agrees_step (j : nat) (s : sys) : agrees_with s -> agrees_with (step_task net j s).
Proof.
  intros Hs. pose proof Hs as [Hl Ht Hr]. unfold step_task.
  destruct (tasks s !! j) as [t|] eqn:E; [|done].
  pose proof (lookup_lt_Some _ _ _ E) as Hj.
  assert (j < length us) as Hju by lia.
  destruct (lookup_lt_is_Some_2 us j Hju) as [uj Ej].
  specialize (Ht j uj Ej). unfold task_at in Ht. rewrite E in Ht.
  destruct t as [u|u|r]; [| |done].
  - destruct Ht as [-> Hc]. apply (agrees_move s j uj); auto.
    apply task_at_insert; [done|]. unfold start, answer. rewrite Hc.
    destruct (c0 !! uj) eqn:E0; rewrite ?Hc; auto.
  - destruct Ht as (-> & Hc & H0). unfold settle.
    destruct (outcome_of (net j)) as [v|] eqn:Eo; simpl.
    + apply (agrees_move s j uj); auto.
      * intros u Hu. now rewrite lookup_insert_ne.
      * apply task_at_insert; [done|]. unfold answer.
        rewrite H0, Eo, lookup_insert_eq. auto.
    + apply (agrees_move s j uj); auto.
      apply task_at_insert; [done|]. unfold answer. rewrite H0, Eo. auto.
Qed.

Lemma agrees_run (sched : list nat) (s : sys) :
  agrees_with s -> agrees_with (run net sched s).
Proof.
  revert s; induction sched as [|j sched IH]; intros s Hs; [done|].
  rewrite run_cons. apply IH. now apply agrees_step.
Qed.

(** Two states of the batch in which every task is done are one state. *)
Lemma agrees_done_unique (s1 s2 : sys) :
  agrees_with s1 -> agrees_with s2 -> all_done s1 -> all_done s2 -> s1 = s2.
Proof.
  intros [Hl1 Ht1 Hr1] [Hl2 Ht2 Hr2] Hd1 Hd2.
  assert (forall i u, us !! i = Some u ->
            tasks s1 !! i = tasks s2 !! i /\ cache s1 !! u = cache s2 !! u) as Hsame.
  { intros i u E. specialize (Ht1 i u E). specialize (Ht2 i u E).
    unfold task_at in Ht1, Ht2.
    destruct (tasks s1 !! i) as [t1|] eqn:E1; [|done].
    destruct (tasks s2 !! i) as [t2|] eqn:E2; [|done].
    pose proof (Forall_lookup_1 _ _ _ _ Hd1 E1) as M1.
    pose proof (Forall_lookup_1 _ _ _ _ Hd2 E2) as M2.
    destruct t1; try discriminate M1. destruct t2; try discriminate M2.
    destruct Ht1 as [-> ->], Ht2 as [-> ->]. auto. }
  destruct s1 as [c1 t1], s2 as [c2 t2]. simpl in *. f_equal.
  - apply map_eq. intros u. destruct (in_dec string_dec u us) as [Hin|Hout].
    + apply list_elem_of_In, list_elem_of_lookup_1 in Hin as [i E].
      now apply (Hsame i u).
    + now rewrite Hr1, Hr2.
  - apply list_eq. intros i. destruct (us !! i) as [u|] eqn:E.
    + now apply (Hsame i u).
    + apply lookup_ge_None in E.
      rewrite !(proj2 (lookup_ge_None _ _)); [done | lia | lia].
Qed.

Lemma run_fair_unique (sched1 sched2 : list nat) :
  fair (length us) sched1 -> fair (length us) sched2 ->
  run net sched1 (Sys c0 (map Init us)) = run net sched2 (Sys c0 (map Init us)).
Proof.
  intros F1 F2.
  apply agrees_done_unique; try (apply agrees_run, agrees_init);
    apply run_fair_done; simpl; now rewrite length_map.
Qed.

End Independent.

(** ** The sequential loop is a schedule *)

Section Sequential.

Variable net : nat -> response.

(** The two moves of a task are one call of [fetch]. *)
Lemma step_task_twice (c : gmap string string) (done : list task) (u : string)
    (rest : list task) :
  run net [length done; length done] (Sys c (done ++ Init u :: rest))
  = Sys (fst (fetch c u (net (length done))))
        ((done ++ [Done (snd (fetch c u (net (length done))))]) ++ rest).
Proof.
  cbn [run fold_left]. rewrite step_task_start.
  unfold step_task, start, fetch, settle. cbn [tasks cache].
  rewrite <- !app_assoc. cbn [app]. rewrite list_lookup_middle by done.
  destruct (c !! u) as [v|] eqn:E; [done|].
  destruct (outcome_of (net (length done))); cbn [tasks cache fst snd];
    rewrite insert_app_r_alt by lia; now rewrite Nat.sub_diag.
Qed.

Lemma run_one_by_one (c : gmap string string) (done : list task) (us : list string) :
  run net (one_by_one (length done) (length us)) (Sys c (done ++ map Init us))
  = Sys (fst (fetch_all net c (length done) us))
        (done ++ map Done (snd (fetch_all net c (length done) us))).
Proof.
  revert c done; induction us as [|u us IH]; intros c done.
  - simpl. now rewrite app_nil_r.
  - unfold one_by_one. cbn [length seq flat_map map].
    change ([length done; length done] ++ ?l) with (length done :: length done :: l).
    change (length done :: length done :: ?l) with ([length done; length done] ++ l).
    rewrite run_app, step_task_twice. fold (one_by_one (S (length done)) (length us)).
    specialize (IH (fst (fetch c u (net (length done))))
                   (done ++ [Done (snd (fetch c u (net (length done))))])).
    rewrite length_app, Nat.add_1_r in IH. cbn [length] in IH. rewrite IH.
    cbn [fetch_all]. destruct (fetch c u (net (length done))) as [c1 r].
    cbn [fst snd]. destruct (fetch_all net c1 (S (length done)) us) as [c2 rs].
    cbn [fst snd map]. now rewrite <- app_assoc.
Qed.

Lemma result_of_Done (rs : list (option string)) : map result_of (map Done rs) = rs.
Proof. induction rs as [|r rs IH]; simpl; congruence. Qed.

(** The loop returns what its schedule leaves. *)
Lemma fetch_all_run (c : gmap string string) (us : list string) :
  fetch_all net c 0 us
  = returned (run net (one_by_one 0 (length us)) (Sys c (map Init us))).
Proof.
  pose proof (run_one_by_one c [] us) as Hr. simpl in Hr. rewrite Hr.
  unfold returned. cbn [cache tasks]. rewrite result_of_Done.
  now destruct (fetch_all net c 0 us).
Qed.

Lemma gather_sequential_eq (c0 : gmap string string) (urls : list string)
    (order : list nat) :
  List.NoDup urls -> (forall i, i < length urls -> In i order) ->
  gather net c0 urls order = fetch_all net c0 0 urls.
Proof.
  intros Hnd Hall. rewrite fetch_all_run. unfold gather, returned.
  now rewrite (run_fair_unique net c0 urls Hnd _ (one_by_one 0 (length urls))
                 (gather_schedule_fair _ _ Hall) (one_by_one_fair _)).
Qed.

End Sequential.

(** ** Theorems *)

(** C9: liveness of a batch under every fair interleaving.  A task that is
    given as many moves as it has left is done at the end of the schedule,
    whatever the other tasks do in between and whatever the network
    answers; two moves are always enough, so a schedule that is fair to the
    tasks of a state ends with every task done. *)
Theorem batch_fair_completes (net : nat -> response) (sched : list nat) (s : sys) :
  (forall i t, tasks s !! i = Some t -> weight t <= turns sched i ->
     exists r, tasks (run net sched s) !! i = Some (Done r)) /\
  (fair (length (tasks s)) sched -> all_done (run net sched s)).
Proof.
  split; [intros i t; apply run_task_done | apply run_fair_done].
Qed.

(** C8: the concurrent batch is equivalent to the sequential loop when the
    URLs are pairwise distinct: every fair schedule of the batch ends in
    the state the schedule of the loop ends in, and [gather], when every
    answer arrives, returns the cache and the results that awaiting the
    calls one after the other returns. *)
Theorem gather_sequential (net : nat -> response) (c0 : gmap string string)
    (urls : list string) (order sched : list nat) :
  List.NoDup urls ->
  (forall i, i < length urls -> In i order) ->
  fair (length urls) sched ->
  gather net c0 urls order = fetch_all net c0 0 urls /\
  returned (run net sched (Sys c0 (map Init urls))) = fetch_all net c0 0 urls.
Proof.
  intros Hnd Hall Hf. split; [now apply gather_sequential_eq|].
  rewrite fetch_all_run. f_equal.
  apply run_fair_unique; [done | done | apply one_by_one_fair].
Qed.

(** The loop on a batch with one URL twice: the second call is served from
    the cache, where [gather] sends a second request. *)
Lemma fetch_all_duplicates (net : nat -> response) (c0 : gmap string string)
    (u v0 : string) :
  c0 !! u = None -> outcome_of (net 0) = Some v0 ->
  fetch_all net c0 0 [u; u] = (<[u := v0]> c0, [Some v0; Some v0]).
Proof.
  intros Hc H0. unfold fetch_all, fetch. rewrite Hc, H0.
  now rewrite lookup_insert_eq.
Qed.

(** ** Witnesses *)

Lemma batch_fair_completes_witness :
  all_done (run net_demo [1; 0; 1; 0] (Sys ∅ [Init "a"; Init "b"])).
Proof.
  apply (batch_fair_completes net_demo [1; 0; 1; 0] (Sys ∅ [Init "a"; Init "b"])).
  apply fairb_fair. reflexivity.
Defined.

Lemma gather_sequential_witness :
  gather net_demo ∅ ["a"; "b"; "c"] [2; 0; 1] = fetch_all net_demo ∅ 0 ["a"; "b"; "c"] /\
  returned (run net_demo [2; 1; 0; 1; 2; 0] (Sys ∅ (map Init ["a"; "b"; "c"])))
  = fetch_all net_demo ∅ 0 ["a"; "b"; "c"].
Proof.
  apply (gather_sequential net_demo ∅ ["a"; "b"; "c"] [2; 0; 1] [2; 1; 0; 1; 2; 0]).
  - repeat constructor; simpl; intuition discriminate.
  - intros i Hi. simpl in Hi. simpl.
    destruct i as [|[|[|i]]]; [auto | auto | auto | lia].
  - apply fairb_fair. reflexivity.
Defined.
