(* ===== verification/Dataset.v ===== *)
(** * Dataset: [generate_json_data], [print_statistics] and [process]

    The dataset is the value the pipeline hands to the page generators: the
    metadata and the entries.  [asdict] copies an entry field by field, so
    the entries of the dataset are the entries of the processor.  The time
    stamp is an input.  [print_statistics] prints what [statistics] holds.
    [process] is the pipeline of [DiaryProcessor.process]: parse, tag every
    entry, enrich, assemble; it starts from the empty cache of [__init__]. *)

From stdpp Require Import gmap.
From S2P Require Import Prelude.
From S2P Require Import Text.
From S2P Require Import StableSort.
From S2P Require Import Dict.
From S2P Require Import Taxonomy.
From S2P Require Import DateExtractor.
From S2P Require Import EntryParser.
From S2P Require Import Classifier.
From S2P Require Import Enricher.

#[local] Open Scope string_scope.
#[local] Open Scope list_scope.
#[local] Open Scope nat_scope.

(** ** The dataset *)

Record metadata : Type := mkMetadata {
  generated : string;
  total_entries : nat;
  meta_themes : list string;
  meta_keywords : list string
}.

Record dataset : Type := mkDataset {
  meta : metadata;
  entries : list NewsEntry
}.

Definition generate_json_data (now : string) (es : list NewsEntry) : dataset :=
  mkDataset (mkMetadata now (length es) (dkeys THEMES) (dkeys KEYWORD_PATTERNS)) es.

(** ** Statistics *)

(** [counts[k] = counts.get(k, 0) + 1]. *)
Definition bump (counts : dict nat) (k : string) : dict nat :=
  dset k (match dget k counts with Some n => n | None => 0 end + 1) counts.

(** The loop over the entries, which fills both histograms. *)
Definition count_tags (es : list NewsEntry) : dict nat * dict nat :=
  fold_left
    (fun '(theme_counts, keyword_counts) e =>
       (fold_left bump (themes e) theme_counts,
        fold_left bump (keywords e) keyword_counts))
    es ([], []).

(** [if e.date]. *)
Definition has_date (e : NewsEntry) : bool :=
  match date e with
  | Some d => negb (String.eqb d "")
  | None => false
  end.

(** [sorted(counts.items(), key=lambda x: x[1], reverse=True)]. *)
Definition by_count (counts : dict nat) : list (string * nat) :=
  sort_desc snd (ditems counts).

Record statistics : Type := mkStatistics {
  stat_total : nat;
  stat_dated : nat;
  stat_bluesky : nat;
  stat_themes : list (string * nat);
  stat_keywords : list (string * nat)
}.

Definition print_statistics (es : list NewsEntry) : statistics :=
  let (theme_counts, keyword_counts) := count_tags es in
  mkStatistics (length es)
    (length (filter has_date es))
    (length (filter eligible es))
    (by_count theme_counts)
    (firstn 15 (by_count keyword_counts)).

(** ** The pipeline *)

Record outcome : Type := mkOutcome {
  data : dataset;
  stats : statistics;
  warnings : list warning
}.

Definition process `{SetOrder} (net : nat -> response) (order : list nat)
    (now : string) (lines : list string) : outcome :=
  let (parsed, skipped) := parse_input_file lines in
  let tagged := map tag_entry parsed in
  let (_, final) := process_bluesky_entries net order ∅ tagged in
  mkOutcome (generate_json_data now final) (print_statistics final) skipped.

(** ** Counting *)

Definition count_of (counts : dict nat) (k : string) : nat :=
  match dget k counts with
  | Some n => n
  | None => 0
  end.

(** The histogram of a list of tags, one [bump] per occurrence. *)
Definition histogram (tags : list string) : dict nat := fold_left bump tags [].

(** A histogram holds no zero. *)
Definition positive (counts : dict nat) : Prop :=
  Forall (fun kv => 1 <= snd kv) counts.

Lemma bump_ok (counts : dict nat) (k : string) : dict_ok counts -> dict_ok (bump counts k).
Proof. apply dset_ok. Qed.

Lemma count_of_bump (counts : dict nat) (k k' : string) :
  count_of (bump counts k) k'
  = count_of counts k' + (if string_dec k k' then 1 else 0).
Proof.
  unfold count_of, bump. destruct (string_dec k k') as [<-|Hne].
  - now rewrite dget_dset_eq.
  - rewrite dget_dset_ne by done. lia.
Qed.

Lemma Forall_dset {V : Type} (P : string * V -> Prop) (d : dict V) (k : string) (v : V) :
  Forall P d -> P (k, v) -> Forall P (dset k v d).
Proof.
  intros Hd Hk. induction Hd as [|[k' v'] d Hx Hd IH]; simpl.
  - now constructor.
  - destruct (String.eqb k k'); constructor; auto.
Qed.

Lemma bump_positive (counts : dict nat) (k : string) :
  positive counts -> positive (bump counts k).
Proof. intros Hc. apply Forall_dset; [done | simpl; lia]. Qed.

Lemma sum_dset (d : dict nat) (k : string) (n : nat) :
  list_sum (map snd (dset k n d)) + count_of d k = list_sum (map snd d) + n.
Proof.
  unfold count_of. induction d as [|[k' v'] d IH]; simpl; [lia|].
  destruct (String.eqb k k'); simpl; lia.
Qed.

Lemma sum_bump (counts : dict nat) (k : string) :
  list_sum (map snd (bump counts k)) = S (list_sum (map snd counts)).
Proof.
  unfold bump. pose proof (sum_dset counts k (count_of counts k + 1)) as Hs.
  unfold count_of in *. lia.
Qed.

(** What a run of [bump]s leaves, from any dictionary. *)
Lemma fold_bump (tags : list string) (counts : dict nat) :
  dict_ok counts -> positive counts ->
  let r := fold_left bump tags counts in
  dict_ok r /\ positive r /\
  (forall k, count_of r k = count_of counts k + count_occ string_dec tags k) /\
  list_sum (map snd r) = list_sum (map snd counts) + length tags.
Proof.
  revert counts; induction tags as [|t tags IH]; intros counts Hok Hpos; simpl.
  - repeat split; auto.
  - destruct (IH (bump counts t) (bump_ok _ _ Hok) (bump_positive _ _ Hpos))
      as (H1 & H2 & H3 & H4).
    repeat split; auto.
    + intros k. rewrite H3, count_of_bump. destruct (string_dec t k); lia.
    + rewrite H4, sum_bump. lia.
Qed.

Lemma count_tags_histograms (es : list NewsEntry) :
  count_tags es = (histogram (flat_map themes es), histogram (flat_map keywords es)).
Proof.
  unfold count_tags, histogram. generalize (@nil (string * nat)) at 1 3.
  generalize (@nil (string * nat)).
  induction es as [|e es IH]; intros kc tc; simpl; [done|].
  now rewrite IH, !fold_left_app.
Qed.

Lemma positive_dget (counts : dict nat) (k : string) (n : nat) :
  positive counts -> dget k counts = Some n -> 1 <= n.
Proof.
  intros Hp Hk. apply dget_In in Hk.
  eapply Forall_forall in Hp; [|exact Hk]. exact Hp.
Qed.

Lemma histogram_facts (tags : list string) :
  dict_ok (histogram tags) /\ positive (histogram tags) /\
  (forall k, count_of (histogram tags) k = count_occ string_dec tags k) /\
  list_sum (map snd (histogram tags)) = length tags.
Proof.
  destruct (fold_bump tags []) as (H1 & H2 & H3 & H4);
    [constructor | constructor |].
  repeat split; auto.
Qed.

Lemma histogram_dget (tags : list string) (k : string) (n : nat) :
  dget k (histogram tags) = Some n <->
  n = count_occ string_dec tags k /\ 1 <= n.
Proof.
  destruct (histogram_facts tags) as (_ & Hp & Hc & _).
  specialize (Hc k). unfold count_of in Hc. split.
  - intros Hk. split; [rewrite Hk in Hc; lia | eapply positive_dget; eauto].
  - intros [-> Hn]. destruct (dget k (histogram tags)) as [m|]; [congruence | lia].
Qed.

(** ** The contract of the dataset *)

Definition date_ok (e : NewsEntry) : Prop :=
  match date e with
  | Some d => exists y m dd, plausible y m dd = true /\ d = iso_date y m dd
  | None => True
  end.

(** What parsing fixes of an entry. *)
Definition source_ok (e : NewsEntry) : Prop :=
  1 <= id e /\ url e <> "" /\ title e <> "" /\ date_ok e.

Definition entry_ok (e : NewsEntry) : Prop :=
  source_ok e /\ tags_ok e /\ snippet_ok e.

Definition dataset_ok (ds : dataset) : Prop :=
  total_entries (meta ds) = length (entries ds) /\
  meta_themes (meta ds) = theme_names /\
  meta_keywords (meta ds) = keyword_names /\
  Forall entry_ok (entries ds) /\
  StronglySorted lt (map id (entries ds)).

Lemma same_source_ok (e e' : NewsEntry) :
  same_source e e' -> source_ok e -> source_ok e'.
Proof.
  unfold source_ok, date_ok. intros (-> & -> & -> & ->). tauto.
Qed.

Lemma same_source_ids (es es' : list NewsEntry) :
  Forall2 same_source es es' -> map id es' = map id es.
Proof.
  induction 1 as [|e e' es es' (Hid & _) _ IH]; simpl; [done|].
  now rewrite Hid, IH.
Qed.

Lemma extract_date_ok (i : nat) (u t : string) :
  date_ok (new_entry i u t (extract_date u)).
Proof.
  unfold date_ok. simpl. destruct (extract_date u) as [d|] eqn:E; [|done].
  now apply extract_date_plausible in E.
Qed.

Lemma parsed_source_ok (lines : list string) :
  Forall source_ok (fst (parse_input_file lines)).
Proof.
  apply Forall_forall. intros e He.
  apply (parse_lines_In 1) in He as (k & line & u & t & _ & Hp & ->).
  apply match_line_sound in Hp as (? & ? & ? & _ & _ & _ & _ & Hu & _ & Ht & _).
  repeat split; simpl; [lia | done | done | apply extract_date_ok].
Qed.

Lemma parsed_fresh (lines : list string) :
  Forall (fun e => themes e = [] /\ keywords e = [] /\ content_snippet e = None)
    (fst (parse_input_file lines)).
Proof.
  apply Forall_forall. intros e He.
  apply (parse_lines_In 1) in He as (k & line & u & t & _ & _ & ->).
  repeat split.
Qed.

Section Pipeline.

Context `{SetOrder}.

Variable net : nat -> response.

(** The entries after tagging and enrichment, for the parsed entries. *)
Definition finish (order : list nat) (parsed : list NewsEntry) : list NewsEntry :=
  snd (process_bluesky_entries net order ∅ (map tag_entry parsed)).

Lemma process_unfold (order : list nat) (now : string) (lines : list string) :
  process net order now lines
  = let final := finish order (fst (parse_input_file lines)) in
    mkOutcome (generate_json_data now final) (print_statistics final)
      (snd (parse_input_file lines)).
Proof.
  unfold process, finish. destruct (parse_input_file lines) as [parsed skipped].
  cbn [fst snd]. destruct (process_bluesky_entries net order ∅ (map tag_entry parsed)).
  reflexivity.
Qed.

Lemma finish_same_source (order : list nat) (parsed : list NewsEntry) :
  Forall2 same_source parsed (finish order parsed).
Proof.
  eapply Forall2_map_l_impl; [|apply process_same_source].
  intros e e' Hs. exact Hs.
Qed.

Lemma finish_tags_ok (order : list nat) (parsed : list NewsEntry) :
  Forall tags_ok (finish order parsed).
Proof.
  apply process_tags_ok, Forall_map, Forall_forall. intros e _. apply tag_entry_ok.
Qed.

Lemma finish_snippet_ok (order : list nat) (parsed : list NewsEntry) :
  Forall (fun e => content_snippet e = None) parsed ->
  Forall snippet_ok (finish order parsed).
Proof.
  intros Hp. apply process_snippet_ok; [apply map_Forall_empty|].
  apply Forall_map. eapply Forall_impl; [|exact Hp].
  intros e He. unfold snippet_ok. simpl. now rewrite He.
Qed.

End Pipeline.

(** ** Tagging and eligibility *)

Section PipelineTheorems.

Context `{SetOrder}.

Variable net : nat -> response.

Lemma eligible_tagged (es : list NewsEntry) :
  filter eligible (map tag_entry es) = map tag_entry (filter eligible es).
Proof. now apply filter_map_comm. Qed.

Lemma rank_tagged (es : list NewsEntry) (i : nat) :
  rank (map tag_entry es) i = rank es i.
Proof.
  unfold rank. now rewrite <- firstn_map_comm, eligible_tagged, length_map.
Qed.

(** The entry of the dataset at position [i]. *)
Lemma finish_lookup (order : list nat) (parsed : list NewsEntry) (i : nat)
    (e : NewsEntry) :
  (forall k, k < length (filter eligible parsed) -> In k order) ->
  parsed !! i = Some e ->
  finish net order parsed !! i
  = Some (if eligible e
          then enrich (tag_entry e) (outcome_of (net (rank parsed i)))
          else tag_entry e).
Proof.
  intros Hall E. unfold finish.
  rewrite (process_lookup net order ∅ _ i (tag_entry e)).
  - rewrite rank_tagged. unfold answer. now rewrite lookup_empty.
  - now rewrite eligible_tagged, length_map.
  - change (map tag_entry parsed) with (tag_entry <$> parsed).
    now rewrite list_lookup_fmap, E.
Qed.

Lemma finish_length (order : list nat) (parsed : list NewsEntry) :
  length (finish net order parsed) = length parsed.
Proof.
  pose proof (finish_same_source net order parsed) as Hs.
  symmetry. eapply Forall2_length, Hs.
Qed.

Lemma process_contract (order : list nat) (now : string) (lines : list string) :
  dataset_ok (data (process net order now lines)).
Proof.
  rewrite process_unfold. cbn [data entries meta generate_json_data].
  set (parsed := fst (parse_input_file lines)).
  pose proof (finish_same_source net order parsed) as Hs.
  repeat split; cbn.
  - apply Forall_forall. intros e He.
    split; [|split]; revert e He; apply Forall_forall.
    + eapply Forall2_Forall; [exact Hs | apply same_source_ok | apply parsed_source_ok].
    + apply finish_tags_ok.
    + apply finish_snippet_ok.
      eapply Forall_impl; [|apply parsed_fresh]. simpl. tauto.
  - rewrite (same_source_ids _ _ Hs). apply parse_lines_sorted.
Qed.

Lemma process_accounts (order : list nat) (now : string) (lines : list string) :
  length (entries (data (process net order now lines)))
  + length (warnings (process net order now lines)) = length lines.
Proof.
  rewrite process_unfold. cbn [data warnings entries generate_json_data].
  rewrite finish_length. apply parse_lines_partition.
Qed.

(** C1: the dataset [process] returns honours the data contract, whatever
    the input lines, the answers of the network and their order: the count
    of the metadata is the number of entries, the taxonomy lists are the
    keys of the tables, identifiers are positive and increase strictly, the
    URL and the title are not empty, a date is the ISO form of a plausible
    date, tags stay within the tables and their limits, a snippet has at
    most 500 characters; and every input line is an entry or a warning. *)
Theorem process_dataset_ok (order : list nat) (now : string) (lines : list string) :
  dataset_ok (data (process net order now lines)) /\
  length (entries (data (process net order now lines)))
  + length (warnings (process net order now lines)) = length lines.
Proof. split; [apply process_contract | apply process_accounts]. Qed.

(** C2: when every answer arrives, the entries of the dataset are the
    accepted lines in order, each tagged from its URL and title, and each
    eligible one then enriched with the outcome of its own request. *)
Theorem process_entries_of_lines (order : list nat) (now : string)
    (lines : list string) :
  let parsed := fst (parse_input_file lines) in
  (forall k, k < length (filter eligible parsed) -> In k order) ->
  entries (data (process net order now lines))
  = imap (fun i e => if eligible e
                     then enrich (tag_entry e) (outcome_of (net (rank parsed i)))
                     else tag_entry e) parsed.
Proof.
  intros parsed Hall. rewrite process_unfold. cbn [data entries generate_json_data].
  apply list_eq. intros i. rewrite list_lookup_imap.
  destruct (parsed !! i) as [e|] eqn:E; simpl.
  - now apply finish_lookup.
  - apply lookup_ge_None. apply lookup_ge_None in E. now rewrite finish_length.
Qed.

End PipelineTheorems.

(** ** The statistics *)

Lemma list_sum_perm (l l' : list nat) : Permutation l l' -> list_sum l = list_sum l'.
Proof. induction 1; simpl; lia. Qed.

Lemma by_count_In (tags : list string) (k : string) (n : nat) :
  In (k, n) (by_count (histogram tags)) <->
  n = count_occ string_dec tags k /\ 1 <= n.
Proof.
  unfold by_count, ditems. rewrite sort_desc_In, <- histogram_dget.
  destruct (histogram_facts tags) as (Hok & _). split.
  - now apply In_dget.
  - apply dget_In.
Qed.

(** The theme distribution [print_statistics] reports lists every theme
    that some entry carries, once, with the number of entries that carry it;
    it is ordered by descending count, themes of equal count in the order of
    their first occurrence; and the counts add up to the number of theme
    assignments. *)
Theorem theme_distribution_spec (es : list NewsEntry) :
  let dist := stat_themes (print_statistics es) in
  let tags := flat_map themes es in
  (forall k n, In (k, n) dist <-> n = count_occ string_dec tags k /\ 1 <= n) /\
  NoDup (map fst dist) /\
  sort_spec snd (histogram tags) dist /\
  list_sum (map snd dist) = length tags.
Proof.
  unfold print_statistics. rewrite count_tags_histograms. cbn.
  destruct (histogram_facts (flat_map themes es)) as (Hok & _ & _ & Hsum).
  split; [apply by_count_In|]. split; [|split].
  - eapply Permutation_NoDup; [|exact Hok].
    apply Permutation_map. symmetry. apply sort_desc_perm.
  - apply sort_desc_spec.
  - rewrite <- Hsum. apply list_sum_perm, Permutation_map, sort_desc_perm.
Qed.

(** The keyword report holds at most fifteen keywords, each with the
    number of entries that carry it, and no keyword left out of the report
    is carried by more entries than one that is in it; the counts of dated
    and eligible entries do not exceed the number of entries. *)
Theorem keyword_report_spec (es : list NewsEntry) :
  let st := print_statistics es in
  let tags := flat_map keywords es in
  length (stat_keywords st) <= 15 /\
  (forall k n, In (k, n) (stat_keywords st) -> n = count_occ string_dec tags k) /\
  (forall k n k', In (k, n) (stat_keywords st) -> ~ In k' (map fst (stat_keywords st)) ->
     count_occ string_dec tags k' <= n) /\
  stat_dated st <= stat_total st /\ stat_bluesky st <= stat_total st.
Proof.
  unfold print_statistics. rewrite count_tags_histograms. cbn.
  repeat split; try apply filter_length_le.
  - apply firstn_length_le.
  - intros k n Hin%In_firstn. now apply by_count_In in Hin.
  - intros k n k' Hin Hout.
    destruct (count_occ string_dec (flat_map keywords es) k') as [|m] eqn:Ek; [lia|].
    assert (In (k', S m) (by_count (histogram (flat_map keywords es)))) as Hk'
      by (apply by_count_In; split; [done | lia]).
    rewrite <- (firstn_skipn 15 (by_count _)) in Hk'.
    apply in_app_or in Hk' as [Hk'|Hk'].
    + destruct Hout. apply in_map_iff. now exists (k', S m).
    + apply (sorted_firstn_dominates snd 15 _ (k, n) (k', S m)
               (sort_desc_sorted snd _) Hin Hk').
Qed.

(** ** A run *)

Definition spec_line : string :=
  render_line "1" "https://example.gov/2025/01/15/nsf-budget-cuts"
    "NSF budget cuts announced".

Definition post_line : string :=
  render_line "2" "https://bsky.app/profile/a/post/1" "A post".

(** The pipeline on three lines, an article, a line that is not an
    entry and a post whose page is fetched: the article has the identifier
    1, the date of its URL, the theme [science] and the keyword [nsf]; the
    post has the identifier 3, its snippet, and the tags of its content in
    place of the fallback theme; the rejected line appears as a warning, and
    in no count. *)
Example process_scenario :
  process net_demo [0] "2025-08-09T10:00:00" [spec_line; "junk"; post_line]
  = mkOutcome
      (mkDataset
         (mkMetadata "2025-08-09T10:00:00" 2 theme_names keyword_names)
         [ mkNewsEntry 1 "https://example.gov/2025/01/15/nsf-budget-cuts"
             "NSF budget cuts announced" (Some "2025-01-15")
             ["science"; "economy"] ["nsf"] None;
           mkNewsEntry 3 "https://bsky.app/profile/a/post/1" "A post" None
             ["justice"; "trade"] ["tariffs"]
             (Some "The court blocks the tariff order") ])
      (mkStatistics 2 1 1
         [("science", 1); ("economy", 1); ("justice", 1); ("trade", 1)]
         [("nsf", 1); ("tariffs", 1)])
      [(2, "junk")].
Proof. vm_compute. reflexivity. Qed.

Lemma process_entries_of_lines_witness :
  entries (data (process net_demo [0] "now" [spec_line; "junk"; post_line]))
  = imap (fun i e =>
            if eligible e
            then enrich (tag_entry e)
                   (outcome_of (net_demo
                      (rank (fst (parse_input_file [spec_line; "junk"; post_line])) i)))
            else tag_entry e)
      (fst (parse_input_file [spec_line; "junk"; post_line])).
Proof.
  apply (process_entries_of_lines net_demo [0] "now" [spec_line; "junk"; post_line]).
  intros k Hk. change (k < 1) in Hk. simpl. lia.
Defined.
