(* ===== verification/Json.v ===== *)
(** * Json: the dataset document

    [generate_json_data] builds the dataset as nested dictionaries and lists
    ([asdict] turns an entry into a dictionary, field by field in the order
    of the dataclass), [json.dump] writes that value and the page generators
    read it back with [json.load] and with [response.json()].  The
    serialised text is the library's affair; what the program depends on is
    the value on both sides, which is [json] here: an object is the list of
    its members in the order [json.dump] writes and [json.load] keeps.

    - [asdict] and [document] are the value the processor writes.
    - [subscript] and [get] are the reads [d[k]] and [d.get(k, default)] of
      the generators, with the exceptions they raise.
    - [schema] and [has_type] state the data contract of the dataset
      (sections 3 and 6 of the specification) as a type of documents:
      [dataset_schema].
    - [entry_of] and [dataset_of] read a document back into the records the
      models of the generators work on.

    The theorems: every document the processor writes has the type
    [dataset_schema]; every document of that type is the document of a
    dataset, so each read of the generators succeeds on it; and reading a
    written document gives the dataset back. *)

From S2P Require Import Prelude.
From S2P Require Import Text.
From S2P Require Import Dict.
From S2P Require Import Taxonomy.
From S2P Require Import EntryParser.
From S2P Require Import Classifier.
From S2P Require Import Enricher.
From S2P Require Import Dataset.
From S2P Require Import Except.

#[local] Set Warnings "-register-all".

#[local] Open Scope string_scope.
#[local] Open Scope list_scope.
#[local] Open Scope nat_scope.
#[local] Open Scope newsy_scope.

(** ** Values *)

Inductive json : Type :=
| JNull
| JBool (b : bool)
| JNum (n : nat)
| JStr (s : string)
| JArr (items : list json)
| JObj (members : list (string * json)).

(** [None] is written as [null]. *)
Definition joption (o : option string) : json :=
  match o with
  | Some s => JStr s
  | None => JNull
  end.

Definition jstrings (l : list string) : json := JArr (map JStr l).

(** [asdict(entry)]. *)
Definition asdict (e : NewsEntry) : json :=
  JObj [ ("id", JNum (id e));
         ("url", JStr (url e));
         ("title", JStr (title e));
         ("date", joption (date e));
         ("themes", jstrings (themes e));
         ("keywords", jstrings (keywords e));
         ("content_snippet", joption (content_snippet e)) ].

(** The dictionary [generate_json_data] returns. *)
Definition document (d : dataset) : json :=
  JObj [ ("metadata",
          JObj [ ("generated", JStr (generated (meta d)));
                 ("total_entries", JNum (total_entries (meta d)));
                 ("themes", jstrings (meta_themes (meta d)));
                 ("keywords", jstrings (meta_keywords (meta d))) ]);
         ("entries", JArr (map asdict (entries d))) ].

(** ** Reads *)

(** [j[k]] for a string [k]. *)
Definition subscript (k : string) (j : json) : res json :=
  match j with
  | JObj members => or_raise (dget k members) (KeyError k)
  | _ => Raises TypeError
  end.

(** [j.get(k, default)]. *)
Definition get (k : string) (default : json) (j : json) : res json :=
  match j with
  | JObj members =>
      Returns (match dget k members with Some v => v | None => default end)
  | _ => Raises AttributeError
  end.

(** ** The data contract as a type *)

Inductive schema : Type :=
| TNum (least : nat)
| TStr (least : nat) (cap : option nat)
| TName (names : list string)
| TOpt (t : schema)
| TList (cap : option nat) (t : schema)
| TObj (fields : list (string * schema)).

Definition within (cap : option nat) (n : nat) : bool :=
  match cap with
  | Some m => n <=? m
  | None => true
  end.

Fixpoint has_type (t : schema) (j : json) {struct t} : bool :=
  match t, j with
  | TNum least, JNum n => least <=? n
  | TStr least cap, JStr s => (least <=? String.length s) && within cap (String.length s)
  | TName names, JStr s => mem_str s names
  | TOpt t', JNull => true
  | TOpt t', _ => has_type t' j
  | TList cap t', JArr items => within cap (length items) && forallb (has_type t') items
  | TObj fields, JObj members =>
      (fix members_typed (fs : list (string * schema)) (ms : list (string * json)) : bool :=
         match fs, ms with
         | [], [] => true
         | (k, t') :: fs', (k', v) :: ms' =>
             String.eqb k k' && has_type t' v && members_typed fs' ms'
         | _, _ => false
         end) fields members
  | _, _ => false
  end.

(** An entry (section 3): a positive identifier, a URL that is not empty, a
    title, a date or none, at most two themes and at most three keywords
    from the taxonomies, a snippet of at most 500 characters or none. *)
Definition entry_schema : schema :=
  TObj [ ("id", TNum 1);
         ("url", TStr 1 None);
         ("title", TStr 0 None);
         ("date", TOpt (TStr 0 None));
         ("themes", TList (Some 2) (TName theme_names));
         ("keywords", TList (Some 3) (TName keyword_names));
         ("content_snippet", TOpt (TStr 0 (Some 500))) ].

(** The dataset (section 6). *)
Definition dataset_schema : schema :=
  TObj [ ("metadata",
          TObj [ ("generated", TStr 0 None);
                 ("total_entries", TNum 0);
                 ("themes", TList None (TName theme_names));
                 ("keywords", TList None (TName keyword_names)) ]);
         ("entries", TList None entry_schema) ].

(** ** Reading a document back *)

Definition as_nat (j : json) : option nat :=
  match j with JNum n => Some n | _ => None end.

Definition as_str (j : json) : option string :=
  match j with JStr s => Some s | _ => None end.

Definition as_opt (j : json) : option (option string) :=
  match j with
  | JNull => Some None
  | JStr s => Some (Some s)
  | _ => None
  end.

Fixpoint all_some {A B : Type} (f : A -> option B) (l : list A) : option (list B) :=
  match l with
  | [] => Some []
  | a :: l' =>
      let? b := f a in
      let? bs := all_some f l' in
      Some (b :: bs)
  end.

Definition as_list {B : Type} (f : json -> option B) (j : json) : option (list B) :=
  match j with JArr items => all_some f items | _ => None end.

Definition field (k : string) (j : json) : option json :=
  match j with JObj members => dget k members | _ => None end.

Definition entry_of (j : json) : option NewsEntry :=
  let? i := obind (field "id" j) as_nat in
  let? u := obind (field "url" j) as_str in
  let? t := obind (field "title" j) as_str in
  let? d := obind (field "date" j) as_opt in
  let? ths := obind (field "themes" j) (as_list as_str) in
  let? kws := obind (field "keywords" j) (as_list as_str) in
  let? c := obind (field "content_snippet" j) as_opt in
  Some (mkNewsEntry i u t d ths kws c).

Definition dataset_of (j : json) : option dataset :=
  let? m := field "metadata" j in
  let? g := obind (field "generated" m) as_str in
  let? n := obind (field "total_entries" m) as_nat in
  let? ths := obind (field "themes" m) (as_list as_str) in
  let? kws := obind (field "keywords" m) (as_list as_str) in
  let? es := obind (field "entries" j) (as_list entry_of) in
  Some (mkDataset (mkMetadata g n ths kws) es).

(** What the type says of an entry, on the record. *)
Definition entry_typed (e : NewsEntry) : bool :=
  (1 <=? id e) && (1 <=? String.length (url e)) &&
  (length (themes e) <=? 2) && forallb (fun t => mem_str t theme_names) (themes e) &&
  (length (keywords e) <=? 3) && forallb (fun k => mem_str k keyword_names) (keywords e) &&
  match content_snippet e with Some c => String.length c <=? 500 | None => true end.

Definition dataset_typed (d : dataset) : bool :=
  forallb (fun t => mem_str t theme_names) (meta_themes (meta d)) &&
  forallb (fun k => mem_str k keyword_names) (meta_keywords (meta d)) &&
  forallb entry_typed (entries d).

(** ** Inversion of the typing *)

Lemma has_type_num (least : nat) (j : json) :
  has_type (TNum least) j = true <-> exists n, j = JNum n /\ least <= n.
Proof.
  split.
  - destruct j; simpl; try discriminate. intros Hn. apply Nat.leb_le in Hn. eauto.
  - intros (n & -> & Hn). now apply Nat.leb_le.
Qed.

Lemma within_None (n : nat) : within None n = true.
Proof. reflexivity. Qed.

Lemma within_Some (m n : nat) : within (Some m) n = (n <=? m).
Proof. reflexivity. Qed.

Lemma has_type_str (least : nat) (cap : option nat) (j : json) :
  has_type (TStr least cap) j = true
  <-> exists s, j = JStr s /\ least <= String.length s /\ within cap (String.length s) = true.
Proof.
  split.
  - destruct j; simpl; try discriminate. intros Hs.
    apply andb_true_iff in Hs as [Hl Hc]. apply Nat.leb_le in Hl. eauto.
  - intros (s & -> & Hl & Hc). simpl. apply andb_true_iff. split; [now apply Nat.leb_le | exact Hc].
Qed.

Lemma has_type_name (names : list string) (j : json) :
  has_type (TName names) j = true <-> exists s, j = JStr s /\ mem_str s names = true.
Proof.
  split.
  - destruct j; simpl; try discriminate. eauto.
  - now intros (s & -> & Hs).
Qed.

Lemma has_type_opt (t : schema) (j : json) :
  has_type (TOpt t) j = true <-> j = JNull \/ has_type t j = true.
Proof.
  split.
  - destruct j; simpl; auto.
  - intros [-> | Ht]; [reflexivity|]. destruct j; simpl; auto.
Qed.

Lemma has_type_list (cap : option nat) (t : schema) (j : json) :
  has_type (TList cap t) j = true
  <-> exists items, j = JArr items /\ within cap (length items) = true /\
                    forallb (has_type t) items = true.
Proof.
  split.
  - destruct j; simpl; try discriminate. intros H.
    apply andb_true_iff in H as [Hc Hi]. eauto.
  - intros (items & -> & Hc & Hi). simpl. now rewrite Hc, Hi.
Qed.

Lemma has_type_obj (fs : list (string * schema)) (j : json) :
  has_type (TObj fs) j = true -> exists ms, j = JObj ms.
Proof. destruct j; simpl; try discriminate. eauto. Qed.

Lemma has_type_obj_nil (ms : list (string * json)) :
  has_type (TObj []) (JObj ms) = true <-> ms = [].
Proof.
  split.
  - destruct ms; simpl; [reflexivity | discriminate].
  - now intros ->.
Qed.

Lemma has_type_obj_cons (k : string) (t : schema) (fs : list (string * schema))
    (ms : list (string * json)) :
  has_type (TObj ((k, t) :: fs)) (JObj ms) = true
  <-> exists v ms', ms = (k, v) :: ms' /\ has_type t v = true /\
                    has_type (TObj fs) (JObj ms') = true.
Proof.
  split.
  - destruct ms as [|[k' v] ms]; simpl; try discriminate. intros H.
    apply andb_true_iff in H as [H Hms]. apply andb_true_iff in H as [Hk Hv].
    apply String.eqb_eq in Hk as <-. eauto.
  - intros (v & ms' & -> & Hv & Hms). simpl. rewrite String.eqb_refl, Hv. exact Hms.
Qed.

(** The first member of a typed object: its value [v] and the typing [Hv]
    of the value; [H] becomes the typing of the other members. *)
Ltac member H v Hv :=
  let ms := fresh "ms" in
  apply has_type_obj_cons in H as (v & ms & -> & Hv & H).

(** ** Lists of strings *)

Lemma all_some_map {A B : Type} (f : A -> option B) (g : B -> A) (l : list B) :
  (forall b, f (g b) = Some b) -> all_some f (map g l) = Some l.
Proof.
  intros Hfg. induction l as [|b l IH]; simpl; [reflexivity|].
  now rewrite Hfg, IH.
Qed.

Lemma all_some_inv {A B : Type} (f : A -> option B) (g : B -> A) (l : list A) (bs : list B) :
  (forall a b, f a = Some b -> g b = a) -> all_some f l = Some bs -> map g bs = l.
Proof.
  intros Hfg. revert bs; induction l as [|a l IH]; simpl; intros bs H.
  - now inversion H.
  - destruct (f a) as [b|] eqn:Ea; [|discriminate]. simpl in H.
    destruct (all_some f l) as [bs'|]; [|discriminate]. simpl in H.
    inversion H; subst. simpl. now rewrite (Hfg a b Ea), (IH bs').
Qed.

Lemma names_typed (names l : list string) :
  forallb (has_type (TName names)) (map JStr l) = forallb (fun s => mem_str s names) l.
Proof.
  induction l as [|s l IH]; [reflexivity|]. cbn [map forallb]. now rewrite IH.
Qed.

Lemma typed_names (names : list string) (items : list json) :
  forallb (has_type (TName names)) items = true ->
  exists l, items = map JStr l /\ forallb (fun s => mem_str s names) l = true.
Proof.
  induction items as [|j items IH]; cbn [forallb]; intros H.
  - now exists [].
  - apply andb_true_iff in H as [Hj Hi]. apply has_type_name in Hj as (s & -> & Hs).
    destruct (IH Hi) as (l & -> & Hl). exists (s :: l). simpl. now rewrite Hs, Hl.
Qed.

Lemma has_type_names (cap : option nat) (names : list string) (j : json) :
  has_type (TList cap (TName names)) j = true
  <-> exists l, j = jstrings l /\ within cap (length l) = true /\
                forallb (fun s => mem_str s names) l = true.
Proof.
  rewrite has_type_list. split.
  - intros (items & -> & Hc & Hi). destruct (typed_names names items Hi) as (l & -> & Hl).
    rewrite length_map in Hc. now exists l.
  - intros (l & -> & Hc & Hl). exists (map JStr l).
    now rewrite length_map, names_typed.
Qed.

Lemma has_type_joption (least : nat) (cap : option nat) (j : json) :
  has_type (TOpt (TStr least cap)) j = true
  <-> exists o, j = joption o /\
        match o with
        | Some s => least <= String.length s /\ within cap (String.length s) = true
        | None => True
        end.
Proof.
  rewrite has_type_opt, has_type_str. split.
  - intros [-> | (s & -> & Hs)]; [now exists None | now exists (Some s)].
  - intros ([s|] & -> & Ho); [right; eauto | now left].
Qed.

(** ** Writing and reading back *)

Lemma as_strs_jstrings (l : list string) : as_list as_str (jstrings l) = Some l.
Proof. apply all_some_map. reflexivity. Qed.

Lemma as_opt_joption (o : option string) : as_opt (joption o) = Some o.
Proof. now destruct o. Qed.

Lemma entry_of_asdict (e : NewsEntry) : entry_of (asdict e) = Some e.
Proof.
  destruct e as [i u t d ths kws c]. unfold entry_of, asdict.
  cbn [field dget String.eqb Ascii.eqb Bool.eqb obind as_nat as_str id url title date
       themes keywords content_snippet].
  now rewrite !as_opt_joption, !as_strs_jstrings.
Qed.

Lemma dataset_of_document_eq (d : dataset) : dataset_of (document d) = Some d.
Proof.
  destruct d as [[g n ths kws] es]. unfold dataset_of, document.
  cbn [field dget String.eqb Ascii.eqb Bool.eqb obind as_nat as_str meta entries
       generated total_entries meta_themes meta_keywords].
  rewrite !as_strs_jstrings. cbn [obind as_list].
  now rewrite (all_some_map entry_of asdict es entry_of_asdict).
Qed.

(** The reads of the generators on a written entry. *)
Lemma asdict_reads (e : NewsEntry) :
  subscript "url" (asdict e) = Returns (JStr (url e)) /\
  subscript "title" (asdict e) = Returns (JStr (title e)) /\
  subscript "themes" (asdict e) = Returns (jstrings (themes e)) /\
  get "keywords" (JArr []) (asdict e) = Returns (jstrings (keywords e)).
Proof. repeat split. Qed.

(** ** Written documents are typed *)

Lemma has_type_members (k k' : string) (t : schema) (fs : list (string * schema))
    (v : json) (ms : list (string * json)) :
  has_type (TObj ((k, t) :: fs)) (JObj ((k', v) :: ms))
  = String.eqb k k' && has_type t v && has_type (TObj fs) (JObj ms).
Proof. reflexivity. Qed.

Lemma has_type_no_members : has_type (TObj []) (JObj []) = true.
Proof. reflexivity. Qed.

Lemma has_type_jstrings (cap : option nat) (names l : list string) :
  has_type (TList cap (TName names)) (jstrings l)
  = within cap (length l) && forallb (fun s => mem_str s names) l.
Proof.
  unfold jstrings. cbn [has_type]. change (forallb _ (map JStr l))
    with (forallb (has_type (TName names)) (map JStr l)).
  now rewrite length_map, names_typed.
Qed.

Lemma has_type_joption_eq (least : nat) (cap : option nat) (o : option string) :
  has_type (TOpt (TStr least cap)) (joption o)
  = match o with
    | Some s => (least <=? String.length s) && within cap (String.length s)
    | None => true
    end.
Proof. now destruct o. Qed.

Lemma has_type_JStr (least : nat) (cap : option nat) (s : string) :
  has_type (TStr least cap) (JStr s)
  = (least <=? String.length s) && within cap (String.length s).
Proof. reflexivity. Qed.

Lemma has_type_JNum (least n : nat) : has_type (TNum least) (JNum n) = (least <=? n).
Proof. reflexivity. Qed.

Lemma has_type_entries (t : schema) (items : list json) :
  has_type (TList None t) (JArr items) = forallb (has_type t) items.
Proof. reflexivity. Qed.

Create Rewrite HintDb json_rw.
#[local] Hint Rewrite has_type_members has_type_no_members has_type_jstrings
  has_type_joption_eq has_type_JStr has_type_JNum has_type_entries
  String.eqb_refl andb_true_r andb_true_l : json_rw.

Lemma asdict_typed (e : NewsEntry) : has_type entry_schema (asdict e) = entry_typed e.
Proof.
  destruct e as [i u t d ths kws c]. unfold entry_schema, asdict, entry_typed.
  autorewrite with json_rw.
  cbn [within Nat.leb andb id url title date themes keywords content_snippet].
  autorewrite with json_rw. destruct d; cbn [andb]; now rewrite ?andb_assoc.
Qed.

Lemma document_typed (d : dataset) : has_type dataset_schema (document d) = dataset_typed d.
Proof.
  destruct d as [[g n ths kws] es]. unfold dataset_schema, document, dataset_typed.
  autorewrite with json_rw. cbn [within Nat.leb andb meta entries meta_themes meta_keywords].
  autorewrite with json_rw. rewrite ?andb_assoc. f_equal.
  induction es as [|e es IH]; [reflexivity|].
  cbn [map forallb]. now rewrite IH, asdict_typed.
Qed.

Lemma nonempty_length (s : string) : s <> "" -> 1 <= String.length s.
Proof. destruct s; simpl; [congruence | lia]. Qed.

Lemma forallb_mem (names l : list string) :
  Forall (fun s => In s names) l -> forallb (fun s => mem_str s names) l = true.
Proof.
  intros Hl. apply forallb_forall. intros s Hs. apply mem_str_In.
  rewrite Forall_forall in Hl. auto.
Qed.

Lemma entry_ok_typed (e : NewsEntry) : entry_ok e -> entry_typed e = true.
Proof.
  intros ((Hid & Hu & _) & (Ht & _ & Hth & Hk & _ & Hkw) & Hs). unfold entry_typed.
  rewrite !andb_true_iff, !Nat.leb_le. repeat split; auto using forallb_mem, nonempty_length.
  unfold snippet_ok in Hs. destruct (content_snippet e); [now apply Nat.leb_le | reflexivity].
Qed.

Lemma dataset_ok_typed (d : dataset) : dataset_ok d -> dataset_typed d = true.
Proof.
  intros (_ & Hth & Hkw & He & _). unfold dataset_typed.
  rewrite Hth, Hkw, !andb_true_iff. split; [split|].
  - apply forallb_mem, Forall_forall. auto.
  - apply forallb_mem, Forall_forall. auto.
  - apply forallb_forall. intros e Hin. rewrite Forall_forall in He.
    now apply entry_ok_typed, He.
Qed.

(** ** Typed documents are documents of datasets *)

Lemma typed_entry (j : json) :
  has_type entry_schema j = true -> exists e, j = asdict e /\ entry_typed e = true.
Proof.
  intros H. pose proof H as Ht. destruct (has_type_obj _ _ H) as [ms ->].
  unfold entry_schema in H.
  member H j1 H1. member H j2 H2. member H j3 H3. member H j4 H4.
  member H j5 H5. member H j6 H6. member H j7 H7. apply has_type_obj_nil in H as ->.
  apply has_type_num in H1 as (i & -> & _).
  apply has_type_str in H2 as (u & -> & _).
  apply has_type_str in H3 as (t & -> & _).
  apply has_type_joption in H4 as (d & -> & _).
  apply has_type_names in H5 as (ths & -> & _).
  apply has_type_names in H6 as (kws & -> & _).
  apply has_type_joption in H7 as (c & -> & _).
  exists (mkNewsEntry i u t d ths kws c). split; [reflexivity|].
  now rewrite <- asdict_typed.
Qed.

Lemma typed_entries (items : list json) :
  forallb (has_type entry_schema) items = true -> exists es, items = map asdict es.
Proof.
  induction items as [|j items IH]; cbn [forallb]; intros H.
  - now exists [].
  - apply andb_true_iff in H as [Hj Hi]. destruct (typed_entry j Hj) as (e & -> & _).
    destruct (IH Hi) as (es & ->). now exists (e :: es).
Qed.

Lemma typed_document_eq (j : json) :
  has_type dataset_schema j = true -> exists d, j = document d.
Proof.
  intros H. destruct (has_type_obj _ _ H) as [ms ->]. unfold dataset_schema in H.
  member H m Hm. member H es Hes. apply has_type_obj_nil in H as ->.
  destruct (has_type_obj _ _ Hm) as [ms ->].
  member Hm j1 H1. member Hm j2 H2. member Hm j3 H3. member Hm j4 H4.
  apply has_type_obj_nil in Hm as ->.
  apply has_type_str in H1 as (g & -> & _).
  apply has_type_num in H2 as (n & -> & _).
  apply has_type_names in H3 as (ths & -> & _).
  apply has_type_names in H4 as (kws & -> & _).
  apply has_type_list in Hes as (items & -> & _ & Hi).
  destruct (typed_entries items Hi) as (l & ->).
  now exists (mkDataset (mkMetadata g n ths kws) l).
Qed.

(** ** Theorems *)

(** C13: the document the processor writes has the type of the data contract,
    for every input, every answer of the network and every schedule: the
    members are the ones the contract names, in its order, every entry has a
    positive identifier, a URL that is not empty, at most two themes and
    three keywords of the taxonomies, and a snippet of at most 500
    characters when it has one. *)
Theorem process_document_typed `{SetOrder} (net : nat -> response) (order : list nat)
    (now : string) (lines : list string) :
  has_type dataset_schema (document (data (process net order now lines))) = true.
Proof. rewrite document_typed. apply dataset_ok_typed, process_contract. Qed.

(** C14: a document of the type of the data contract is the document of a
    dataset whose fields are within the bounds of the contract; reading it
    gives that dataset, and the reads of the generators return on it: the
    list of entries, and for every entry the URL, the title, the themes and
    the keywords. *)
Theorem typed_document (j : json) :
  has_type dataset_schema j = true ->
  exists d,
    j = document d /\ dataset_typed d = true /\ dataset_of j = Some d /\
    subscript "entries" j = Returns (JArr (map asdict (entries d))) /\
    Forall (fun e =>
              subscript "url" (asdict e) = Returns (JStr (url e)) /\
              subscript "title" (asdict e) = Returns (JStr (title e)) /\
              subscript "themes" (asdict e) = Returns (jstrings (themes e)) /\
              get "keywords" (JArr []) (asdict e) = Returns (jstrings (keywords e)))
           (entries d).
Proof.
  intros H. destruct (typed_document_eq j H) as (d & ->). exists d.
  split; [reflexivity|]. split; [now rewrite <- document_typed|].
  split; [apply dataset_of_document_eq|]. split; [reflexivity|].
  apply Forall_forall. intros e _. apply asdict_reads.
Qed.

(** Reading a written document gives the dataset that was written, and
    two datasets with one document are one dataset. *)
Theorem dataset_of_document (d d' : dataset) :
  dataset_of (document d) = Some d /\ (document d = document d' -> d = d').
Proof.
  split; [apply dataset_of_document_eq|]. intros E.
  pose proof (dataset_of_document_eq d) as H1. rewrite E, dataset_of_document_eq in H1.
  congruence.
Qed.

(** A document that lacks a member of the contract has not its type, and the
    read of that member raises. *)
Lemma missing_entries_raises :
  let j := JObj [("metadata", JObj [])] in
  has_type dataset_schema j = false /\ subscript "entries" j = Raises (KeyError "entries").
Proof. split; reflexivity. Qed.

(** ** Witness *)

Definition nsf_demo : NewsEntry :=
  mkNewsEntry 1 "https://example.gov/2025/01/15/nsf-budget-cuts" "NSF budget cuts announced"
    (Some "2025-01-15") ["science"] ["nsf"] None.

Lemma typed_document_witness :
  exists d,
    document (generate_json_data "now" [nsf_demo]) = document d /\
    dataset_typed d = true /\
    dataset_of (document (generate_json_data "now" [nsf_demo])) = Some d /\
    subscript "entries" (document (generate_json_data "now" [nsf_demo]))
    = Returns (JArr (map asdict (entries d))) /\
    Forall (fun e =>
              subscript "url" (asdict e) = Returns (JStr (url e)) /\
              subscript "title" (asdict e) = Returns (JStr (title e)) /\
              subscript "themes" (asdict e) = Returns (jstrings (themes e)) /\
              get "keywords" (JArr []) (asdict e) = Returns (jstrings (keywords e)))
           (entries d).
Proof.
  apply (typed_document (document (generate_json_data "now" [nsf_demo]))).
  vm_compute. reflexivity.
Defined.
