(* ===== verification/Summary.v ===== *)
(** * Summary: the thematic summary of [summary_generator.py]

    [SummaryGenerator] reads the dataset and groups its entries by their
    first theme ([organize_entries_by_theme]), writes one summary per theme
    of [THEME_INFO] that has entries ([generate_summaries]), by the remote
    text generator or by [generate_fallback_summary], and lays the sections
    out in the order of the priorities ([generate_summary_html]).

    The remote generator is an input of the model: a function from the
    request to its answer.  Of the page, the model keeps what is computed:
    the number of entries, the table of contents and the sections with their
    counts; the markup around them is fixed text.  A [KeyError] is the value
    [None]. *)

From S2P Require Import Prelude.
From S2P Require Import Text.
From S2P Require Import StableSort.
From S2P Require Import Dict.
From S2P Require Import Taxonomy.
From S2P Require Import EntryParser.

#[local] Open Scope string_scope.
#[local] Open Scope list_scope.
#[local] Open Scope nat_scope.

(** ** Grouping by the first theme *)

(** [themed_entries[k].append(e)] on a [defaultdict(list)]. *)
Definition append_to (k : string) (e : NewsEntry) (d : dict (list NewsEntry))
  : dict (list NewsEntry) :=
  dupdate k [] (fun l => l ++ [e]) d.

(** One turn of the loop of [organize_entries_by_theme]. *)
Definition file_entry (themed : dict (list NewsEntry)) (e : NewsEntry)
  : dict (list NewsEntry) :=
  match themes e with
  | primary_theme :: _ => append_to primary_theme e themed
  | [] => themed
  end.

Definition organize_entries_by_theme (es : list NewsEntry) : dict (list NewsEntry) :=
  fold_left file_entry es [].

(** ** The local summary *)

Definition nl : string := String "010" "".

(** The loop that groups the entries of a theme by keyword. *)
Definition keyword_groups (es : list NewsEntry) : dict (list NewsEntry) :=
  fold_left (fun groups e => fold_left (fun g k => append_to k e g) (keywords e) groups)
    es [].

(** [sorted(keyword_groups.items(), key=lambda x: len(x[1]), reverse=True)[:3]]. *)
Definition top_keywords (groups : dict (list NewsEntry)) : list (string * list NewsEntry) :=
  firstn 3 (sort_desc (fun kv => length (snd kv)) (ditems groups)).

Definition focus (kv : string * list NewsEntry) : string :=
  (fst kv ++ " (" ++ str_of_nat (length (snd kv)) ++ " articles)")%string.

Definition link (e : NewsEntry) : string :=
  (a_open ++ url e ++ a_mid ++ title e ++ a_close)%string.

(** The characters of [rstrip('; ')]. *)
Definition is_sep (c : ascii) : bool := Ascii.eqb c ";" || Ascii.eqb c " ".

Definition generate_fallback_summary (theme : string) (es : list NewsEntry)
  : option string :=
  let? info := dget theme THEME_INFO in
  let groups := keyword_groups es in
  let summary :=
    ("<p>The administration implemented significant changes in "
     ++ lower (ti_description info) ++ ". ")%string in
  let summary :=
    (summary ++ "This section documents " ++ str_of_nat (length es)
     ++ " articles tracking these developments.</p>" ++ nl ++ nl)%string in
  let summary :=
    match groups with
    | [] => summary
    | _ => (summary ++ "<p>Key areas of focus included "
            ++ join ", " (map focus (top_keywords groups))
            ++ ".</p>" ++ nl ++ nl)%string
    end in
  let summary := (summary ++ "<p>Notable developments included: ")%string in
  let summary :=
    fold_left (fun s e => (s ++ link e ++ "; ")%string) (firstn 5 es) summary in
  Some (rstrip_by is_sep summary ++ ".</p>")%string.

(** ** The remote summary *)

(** What the request carries of the theme and its entries. *)
Record prompt : Type := mkPrompt {
  prompt_title : string;
  prompt_description : string;
  prompt_articles : list string
}.

(** The answer to the request: a failure of the call, or a status and, when
    the body has it, the text at [content[0].text]. *)
Inductive api_answer : Type :=
| ApiError
| ApiAnswer (status : nat) (text : option string).

Definition entry_text_line (e : NewsEntry) : string :=
  ("- " ++ title e ++ " (" ++ url e ++ ")")%string.

(** [not self.claude_api_key]. *)
Definition no_key (api_key : option string) : bool :=
  match api_key with
  | Some k => String.eqb k ""
  | None => true
  end.

Definition generate_theme_summary_with_claude (api_key : option string)
    (claude : prompt -> api_answer) (theme : string) (es : list NewsEntry)
  : option string :=
  if no_key api_key then generate_fallback_summary theme es
  else
    let entry_texts := map entry_text_line (firstn 20 es) in
    let? info := dget theme THEME_INFO in
    match claude (mkPrompt (ti_title info) (ti_description info) entry_texts) with
    | ApiAnswer status (Some text) =>
        if status =? 200 then Some text else generate_fallback_summary theme es
    | _ => generate_fallback_summary theme es
    end.

(** ** All summaries *)

Section Generator.

Variable use_claude_api : bool.
Variable api_key : option string.
Variable claude : prompt -> api_answer.

Definition summarize (theme : string) (es : list NewsEntry) : option string :=
  if use_claude_api
  then generate_theme_summary_with_claude api_key claude theme es
  else generate_fallback_summary theme es.

(** One turn of the loop over the themes of [THEME_INFO]. *)
Definition add_summary (themed : dict (list NewsEntry)) (summaries : option (dict string))
    (theme : string) : option (dict string) :=
  let? done := summaries in
  match dget theme themed with
  | Some es =>
      let? summary := summarize theme es in
      Some (dset theme summary done)
  | None => Some done
  end.

Definition generate_summaries (es : list NewsEntry) : option (dict string) :=
  let themed := organize_entries_by_theme es in
  fold_left (add_summary themed) (dkeys THEME_INFO) (Some []).

(** ** The page *)

Record section : Type := mkSection {
  sec_theme : string;
  sec_title : string;
  sec_summary : string;
  sec_count : nat
}.

Record summary_page : Type := mkPage {
  page_total : nat;
  page_toc : list (string * string);
  page_sections : list section
}.

(** [sorted([(k, v) for k, v in THEME_INFO.items() if k in summaries],
    key=lambda x: x[1]['priority'])]. *)
Definition sorted_by_priority (summaries : dict string) : list (string * theme_info) :=
  sort_asc (fun kv => ti_priority (snd kv))
    (filter (fun kv => dmem (fst kv) summaries) (ditems THEME_INFO)).

Definition section_of (themed : dict (list NewsEntry)) (summaries : dict string)
    (kv : string * theme_info) : section :=
  let entries := match dget (fst kv) themed with Some l => l | None => [] end in
  let summary := match dget (fst kv) summaries with Some s => s | None => "" end in
  mkSection (fst kv) (ti_title (snd kv)) summary (length entries).

Definition generate_summary_html (es : list NewsEntry) (summaries : dict string)
  : summary_page :=
  let sorted := sorted_by_priority summaries in
  let themed := organize_entries_by_theme es in
  mkPage (length es)
    (map (fun kv => (fst kv, ti_title (snd kv))) sorted)
    (map (section_of themed summaries) sorted).

(** [generate]: the summaries, then the page. *)
Definition generate (es : list NewsEntry) : option (summary_page * dict string) :=
  let? summaries := generate_summaries es in
  Some (generate_summary_html es summaries, summaries).

End Generator.

(** ** Grouping *)

Definition primary (e : NewsEntry) : option string := hd_error (themes e).

(** [e] has the primary theme [k]. *)
Definition filed_under (k : string) (e : NewsEntry) : bool :=
  match primary e with
  | Some k' => String.eqb k' k
  | None => false
  end.

Definition group (k : string) (d : dict (list NewsEntry)) : list NewsEntry :=
  match dget k d with
  | Some l => l
  | None => []
  end.

(** No key of a [defaultdict] that is only appended to holds an empty list. *)
Definition no_empty (d : dict (list NewsEntry)) : Prop :=
  forall k l, dget k d = Some l -> l <> [].

Lemma append_to_ok (k : string) (e : NewsEntry) (d : dict (list NewsEntry)) :
  dict_ok d -> dict_ok (append_to k e d).
Proof. apply dupdate_ok. Qed.

Lemma group_append_to (k k' : string) (e : NewsEntry) (d : dict (list NewsEntry)) :
  group k' (append_to k e d)
  = group k' d ++ (if String.eqb k k' then [e] else []).
Proof.
  unfold group, append_to. rewrite dget_dupdate.
  destruct (String.eqb k k') eqn:E.
  - apply String.eqb_eq in E as ->. reflexivity.
  - now rewrite app_nil_r.
Qed.

Lemma append_to_no_empty (k : string) (e : NewsEntry) (d : dict (list NewsEntry)) :
  no_empty d -> no_empty (append_to k e d).
Proof.
  intros Hd k' l. unfold append_to. rewrite dget_dupdate.
  destruct (String.eqb k k'); [|apply Hd].
  intros [= <-]. now destruct (match dget k d with Some v => v | None => [] end).
Qed.

Lemma group_file_entry (k : string) (e : NewsEntry) (d : dict (list NewsEntry)) :
  group k (file_entry d e) = group k d ++ (if filed_under k e then [e] else []).
Proof.
  unfold file_entry, filed_under, primary.
  destruct (themes e) as [|t ts]; simpl; [now rewrite app_nil_r|].
  apply group_append_to.
Qed.

(** The loop of [organize_entries_by_theme], from any dictionary. *)
Lemma organize_fold (es : list NewsEntry) (d : dict (list NewsEntry)) :
  dict_ok d -> no_empty d ->
  let r := fold_left file_entry es d in
  dict_ok r /\ no_empty r /\
  forall k, group k r = group k d ++ filter (filed_under k) es.
Proof.
  revert d; induction es as [|e es IH]; intros d Hok Hne; simpl.
  - repeat split; auto. intros k. now rewrite app_nil_r.
  - destruct (IH (file_entry d e)) as (H1 & H2 & H3).
    + unfold file_entry. destruct (themes e); [easy | now apply append_to_ok].
    + unfold file_entry. destruct (themes e); [easy | now apply append_to_no_empty].
    + repeat split; auto. intros k. rewrite H3, group_file_entry, <- app_assoc.
      now destruct (filed_under k e).
Qed.

Lemma organize_facts (es : list NewsEntry) :
  dict_ok (organize_entries_by_theme es) /\
  no_empty (organize_entries_by_theme es) /\
  forall k, group k (organize_entries_by_theme es) = filter (filed_under k) es.
Proof.
  destruct (organize_fold es []) as (H1 & H2 & H3);
    [constructor | intros k l [=] | auto].
Qed.

Lemma organize_dget (es : list NewsEntry) (k : string) (l : list NewsEntry) :
  dget k (organize_entries_by_theme es) = Some l <->
  l = filter (filed_under k) es /\ l <> [].
Proof.
  destruct (organize_facts es) as (_ & Hne & Hg). specialize (Hg k).
  unfold group in Hg. split.
  - intros Hk. rewrite Hk in Hg. split; [easy | eapply Hne, Hk].
  - intros [-> Hl]. destruct (dget k (organize_entries_by_theme es)); congruence.
Qed.

Lemma organize_entries_by_theme_facts (es : list NewsEntry) (k : string) :
  dget k (organize_entries_by_theme es)
  = match filter (filed_under k) es with
    | [] => None
    | l => Some l
    end /\
  group k (organize_entries_by_theme es) = filter (filed_under k) es.
Proof.
  split; [|apply organize_facts].
  destruct (dget k (organize_entries_by_theme es)) as [l|] eqn:E.
  - apply organize_dget in E as [<- Hl]. now destruct l.
  - destruct (filter (filed_under k) es) as [|e l] eqn:Ef; [easy|].
    assert (dget k (organize_entries_by_theme es) = Some (e :: l)) as E'
      by (apply organize_dget; rewrite Ef; split; [easy | discriminate]).
    congruence.
Qed.

(** [organize_entries_by_theme] files every entry under its first
    theme, in the order of the dataset: the group of a theme is the list of
    the entries whose first theme it is, a theme without such entries has no
    group, and an entry without themes is in no group. *)
Theorem organize_entries_by_theme_spec (es : list NewsEntry) (k : string) :
  dget k (organize_entries_by_theme es)
  = match filter (filed_under k) es with
    | [] => None
    | l => Some l
    end /\
  (forall e, themes e = [] -> ~ In e (group k (organize_entries_by_theme es))).
Proof.
  destruct (organize_entries_by_theme_facts es k) as [Hd Hg]. split; [exact Hd|].
  intros e He. rewrite Hg. intros [_ Hf]%filter_In.
  unfold filed_under, primary in Hf. now rewrite He in Hf.
Qed.

(** ** The local summary is total and has a fixed shape *)

Definition summary_head (info : theme_info) (es : list NewsEntry) : string :=
  ("<p>The administration implemented significant changes in "
   ++ lower (ti_description info) ++ ". "
   ++ "This section documents " ++ str_of_nat (length es)
   ++ " articles tracking these developments.</p>" ++ nl ++ nl)%string.

Definition summary_focus (es : list NewsEntry) : string :=
  match keyword_groups es with
  | [] => ""
  | groups => ("<p>Key areas of focus included "
               ++ join ", " (map focus (top_keywords groups))
               ++ ".</p>" ++ nl ++ nl)%string
  end.

Lemma generate_fallback_summary_Some (theme : string) (es : list NewsEntry) :
  In theme (dkeys THEME_INFO) -> generate_fallback_summary theme es <> None.
Proof.
  intros [info Hi]%dget_Some_key. unfold generate_fallback_summary.
  rewrite Hi. discriminate.
Qed.

Lemma link_end (e : NewsEntry) :
  exists x, link e = (x ++ String ">" "")%string.
Proof.
  exists (a_open ++ url e ++ a_mid ++ title e ++ "</a")%string.
  unfold link, a_close. now rewrite !append_assoc.
Qed.

Lemma join_link_end (es : list NewsEntry) :
  es <> [] -> exists x, join "; " (map link es) = (x ++ String ">" "")%string.
Proof.
  induction es as [|e es IH]; [congruence|]. intros _.
  destruct es as [|e' es].
  - apply link_end.
  - destruct IH as [x Hx]; [discriminate|].
    exists (link e ++ "; " ++ x)%string.
    change (map link (e :: e' :: es)) with (link e :: map link (e' :: es)).
    rewrite join_cons by discriminate. rewrite Hx. now rewrite !append_assoc.
Qed.

(** The loop over the first entries and the [rstrip] after it leave the
    links separated by semicolons. *)
Lemma links_rstrip (es : list NewsEntry) (init : string) :
  es <> [] ->
  rstrip_by is_sep (fold_left (fun s e => (s ++ link e ++ "; ")%string) es init)
  = (init ++ join "; " (map link es))%string.
Proof.
  intros Hes.
  replace (fold_left (fun s e => (s ++ link e ++ "; ")%string) es init)
    with (fold_left (fun acc x => (acc ++ x ++ "; ")%string) (map link es) init)
    by (rewrite fold_left_map; reflexivity).
  rewrite fold_append_join by (destruct es; [congruence | discriminate]).
  destruct (join_link_end es Hes) as [x ->].
  replace (init ++ (x ++ String ">" "") ++ "; ")%string
    with ((init ++ x) ++ String ">" "; ")%string by (now rewrite !append_assoc).
  rewrite rstrip_by_end by reflexivity. now rewrite append_assoc.
Qed.

(** For a theme of [THEME_INFO] and at least one entry, the local
    summary is the opening paragraph with the number of entries, the
    paragraph of the most frequent keywords when the entries have keywords,
    and the links to the first five entries, separated by semicolons and
    closed by a full stop: the [rstrip] removes the last separator and
    nothing of the last link. *)
Theorem generate_fallback_summary_shape (theme : string) (info : theme_info)
    (es : list NewsEntry) :
  dget theme THEME_INFO = Some info -> es <> [] ->
  generate_fallback_summary theme es
  = Some (summary_head info es ++ summary_focus es
          ++ "<p>Notable developments included: "
          ++ join "; " (map link (firstn 5 es)) ++ ".</p>")%string.
Proof.
  intros Hi Hes. unfold generate_fallback_summary, summary_head, summary_focus.
  rewrite Hi. cbn [obind]. f_equal.
  rewrite links_rstrip by (destruct es; [congruence | discriminate]).
  destruct (keyword_groups es); rewrite ?append_assoc; cbn [append];
    rewrite ?append_assoc; reflexivity.
Qed.

(** ** The remote summary and its fallback *)

Lemma no_key_spec (api_key : option string) :
  no_key api_key = false <-> exists k, api_key = Some k /\ k <> "".
Proof.
  destruct api_key as [k|]; simpl.
  - rewrite String.eqb_neq. split; [eauto | now intros (? & [= <-] & ?)].
  - split; [discriminate | now intros (? & [=] & _)].
Qed.

(** The remote generator is asked about at most twenty entries, and its
    text is taken when a key is set, the call succeeds with status 200 and
    the body has the text; without a key, on a failed call, on another
    status and on a body without the text the summary is the local one,
    which exists for every theme of [THEME_INFO]. *)
Theorem generate_theme_summary_with_claude_spec (api_key : option string)
    (claude : prompt -> api_answer) (theme : string) (info : theme_info)
    (es : list NewsEntry) :
  dget theme THEME_INFO = Some info ->
  let p := mkPrompt (ti_title info) (ti_description info)
             (map entry_text_line (firstn 20 es)) in
  let r := generate_theme_summary_with_claude api_key claude theme es in
  length (prompt_articles p) <= 20 /\
  (forall text, no_key api_key = false -> claude p = ApiAnswer 200 (Some text) ->
     r = Some text) /\
  (no_key api_key = true \/ claude p = ApiError \/
   (exists st text, claude p = ApiAnswer st text /\ (st <> 200 \/ text = None)) ->
   r = generate_fallback_summary theme es /\ r <> None).
Proof.
  intros Hi p r. assert (In theme (dkeys THEME_INFO)) as Hin
    by (apply dget_Some_key; eauto).
  pose proof (generate_fallback_summary_Some theme es Hin) as Hf.
  subst r. unfold generate_theme_summary_with_claude. rewrite Hi. cbn [obind]. fold p.
  split; [|split].
  - unfold p. cbn [prompt_articles]. rewrite length_map. apply firstn_length_le.
  - intros text -> ->. reflexivity.
  - destruct (no_key api_key); [easy|].
    intros [[=] | [-> | (st & text & -> & Hst)]]; [easy|].
    destruct text as [text|]; [|easy].
    destruct Hst as [Hst|[=]]. now apply Nat.eqb_neq in Hst as ->.
Qed.

(** ** All summaries *)

Lemma THEME_INFO_ok : dict_ok THEME_INFO.
Proof. apply nodupb_NoDup. reflexivity. Qed.

(** ** Priorities and counts *)

Definition priority_of (kv : string * theme_info) : nat := ti_priority (snd kv).

Lemma THEME_INFO_sorted : StronglySorted (asc priority_of) THEME_INFO.
Proof.
  apply Sorted_StronglySorted; [intros x y z; unfold asc; lia|].
  unfold THEME_INFO. repeat constructor; unfold asc; simpl; lia.
Qed.

Lemma sorted_by_priority_eq (summaries : dict string) :
  sorted_by_priority summaries
  = filter (fun kv => dmem (fst kv) summaries) THEME_INFO.
Proof.
  unfold sorted_by_priority, ditems. apply (sort_asc_id priority_of).
  apply StronglySorted_filter, THEME_INFO_sorted.
Qed.

(** The entries the page counts: those filed under a theme of [ks]. *)
Definition filed_in (ks : list string) (e : NewsEntry) : bool :=
  match primary e with
  | Some t => mem_str t ks
  | None => false
  end.

Lemma filed_under_count (ks : list string) (e : NewsEntry) :
  NoDup ks ->
  list_sum (map (fun t => if filed_under t e then 1 else 0) ks)
  = if filed_in ks e then 1 else 0.
Proof.
  unfold filed_under, filed_in. destruct (primary e) as [t|].
  - induction 1 as [|k ks Hk Hnd IH]; simpl; [reflexivity|].
    rewrite IH. destruct (String.eqb_spec t k) as [->|Hne]; simpl.
    + now rewrite (proj2 (mem_str_false k ks) Hk).
    + reflexivity.
  - intros _. induction ks; simpl; auto.
Qed.

(** Counting by theme and then adding up counts every filed entry once. *)
Lemma group_sizes_sum (ks : list string) (es : list NewsEntry) :
  NoDup ks ->
  list_sum (map (fun t => length (filter (filed_under t) es)) ks)
  = length (filter (filed_in ks) es).
Proof.
  intros Hnd. induction es as [|e es IH]; simpl.
  - clear Hnd. induction ks as [|k ks IHk]; simpl in *; [reflexivity | exact IHk].
  - transitivity (list_sum (map (fun t => (if filed_under t e then 1 else 0)
                                          + length (filter (filed_under t) es)) ks)).
    + f_equal. apply map_ext. intros t. now destruct (filed_under t e).
    + rewrite list_sum_map_add, IH, filed_under_count by assumption.
      now destruct (filed_in ks e).
Qed.

Section GeneratorFacts.

#[local] Set Warnings "-notation-for-abbreviation".

Variable use_claude_api : bool.
Variable api_key : option string.
Variable claude : prompt -> api_answer.

Notation summarize := (summarize use_claude_api api_key claude).
Notation generate_summaries := (generate_summaries use_claude_api api_key claude).
Notation generate := (generate use_claude_api api_key claude).

Lemma summarize_Some (theme : string) (es : list NewsEntry) :
  In theme (dkeys THEME_INFO) -> summarize theme es <> None.
Proof.
  intros Hin. pose proof (generate_fallback_summary_Some theme es Hin) as Hf.
  apply dget_Some_key in Hin as [info Hi].
  unfold Summary.summarize, generate_theme_summary_with_claude.
  destruct use_claude_api; [|exact Hf].
  destruct (no_key api_key); [exact Hf|]. rewrite Hi. cbn [obind].
  destruct (claude _) as [|st [text|]]; try exact Hf.
  destruct (st =? 200); [discriminate | exact Hf].
Qed.

(** The summaries of the themes [ks] that have a group. *)
Definition summaries_of (themed : dict (list NewsEntry)) (ks : list string)
  : dict string :=
  flat_map
    (fun t => match dget t themed with
              | Some es => match summarize t es with
                           | Some s => [(t, s)]
                           | None => []
                           end
              | None => []
              end) ks.

Lemma dkeys_summaries_of (themed : dict (list NewsEntry)) (ks : list string) :
  (forall t, In t ks -> In t (dkeys THEME_INFO)) ->
  dkeys (summaries_of themed ks) = filter (fun t => dmem t themed) ks.
Proof.
  unfold dkeys, summaries_of, dmem. induction ks as [|t ks IH]; intros Hks; simpl.
  - reflexivity.
  - rewrite map_app, IH by (intros; apply Hks; now right).
    destruct (dget t themed) as [es|]; [|reflexivity].
    pose proof (summarize_Some t es (Hks t (or_introl eq_refl))).
    now destruct (summarize t es).
Qed.

Lemma summaries_of_keys (themed : dict (list NewsEntry)) (ks : list string)
    (t : string) :
  In t (dkeys (summaries_of themed ks)) -> In t ks.
Proof.
  unfold dkeys, summaries_of. induction ks as [|k ks IH]; simpl; [easy|].
  rewrite map_app, in_app_iff. intros [Hk|Hin]; [left | right; auto].
  destruct (dget k themed) as [es|]; [|easy].
  destruct (summarize k es); [|easy]. now destruct Hk.
Qed.

Lemma dget_summaries_of (themed : dict (list NewsEntry)) (ks : list string)
    (t : string) :
  NoDup ks -> In t ks ->
  dget t (summaries_of themed ks)
  = let? es := dget t themed in summarize t es.
Proof.
  intros Hnd Hin. induction Hnd as [|k ks Hk Hnd IH]; [easy|].
  assert (dget k (summaries_of themed ks) = None) as Hnone
    by (apply dget_None; intros Hc; now apply summaries_of_keys in Hc).
  unfold summaries_of. cbn [flat_map]. fold (summaries_of themed ks).
  destruct (String.eqb_spec t k) as [->|Hne].
  - destruct (dget k themed) as [es|]; cbn [obind]; [|exact Hnone].
    destruct (summarize k es) as [s|]; simpl; [now rewrite String.eqb_refl|].
    exact Hnone.
  - destruct Hin as [->|Hin]; [congruence|]. rewrite <- IH by assumption.
    destruct (dget k themed) as [es|]; [|reflexivity].
    destruct (summarize k es) as [s|]; [|reflexivity].
    simpl. now destruct (String.eqb_spec t k).
Qed.

(** The loop of [generate_summaries], from any dictionary. *)
Lemma generate_fold (themed : dict (list NewsEntry)) (ks : list string)
    (d : dict string) :
  NoDup ks -> (forall t, In t ks -> In t (dkeys THEME_INFO)) ->
  (forall t, In t ks -> ~ In t (dkeys d)) ->
  fold_left (add_summary use_claude_api api_key claude themed) ks (Some d)
  = Some (d ++ summaries_of themed ks).
Proof.
  intros Hnd. revert d; induction Hnd as [|k ks Hk Hnd IH]; intros d Hks Hd.
  - simpl. now rewrite app_nil_r.
  - cbn [fold_left]. unfold summaries_of. cbn [flat_map]. fold (summaries_of themed ks).
    unfold add_summary at 2. cbn [obind].
    destruct (dget k themed) as [es|].
    + pose proof (summarize_Some k es (Hks k (or_introl eq_refl))) as Hs.
      destruct (summarize k es) as [s|]; [|congruence]. cbn [obind].
      rewrite dset_new by (apply Hd; now left).
      rewrite IH, <- app_assoc; [reflexivity | intros; apply Hks; now right |].
      intros t Ht. unfold dkeys. rewrite map_app, in_app_iff.
      intros [Hin|[<-|[]]]; [|easy]. eapply Hd; [right; exact Ht | exact Hin].
    + apply IH; [intros; apply Hks; now right | intros; apply Hd; now right].
Qed.

Lemma generate_summaries_eq (es : list NewsEntry) :
  generate_summaries es
  = Some (summaries_of (organize_entries_by_theme es) (dkeys THEME_INFO)).
Proof.
  unfold Summary.generate_summaries.
  rewrite generate_fold; [reflexivity | apply THEME_INFO_ok | auto | easy].
Qed.

Lemma dmem_organize (es : list NewsEntry) (t : string) :
  dmem t (organize_entries_by_theme es) = existsb (filed_under t) es.
Proof.
  unfold dmem. rewrite (proj1 (organize_entries_by_theme_facts es t)).
  destruct (filter (filed_under t) es) eqn:E.
  - symmetry. now apply existsb_filter_nil.
  - destruct (existsb (filed_under t) es) eqn:Ex; [reflexivity|].
    apply existsb_filter_nil in Ex. congruence.
Qed.

(** The summaries [generate_summaries] returns. *)
Definition summaries_for (es : list NewsEntry) : dict string :=
  summaries_of (organize_entries_by_theme es) (dkeys THEME_INFO).

Lemma summaries_for_keys (es : list NewsEntry) :
  dkeys (summaries_for es)
  = filter (fun t => existsb (filed_under t) es) (dkeys THEME_INFO).
Proof.
  unfold summaries_for. rewrite dkeys_summaries_of by auto.
  apply filter_ext. apply dmem_organize.
Qed.

Lemma summaries_for_dget (es : list NewsEntry) (t : string) :
  In t (dkeys (summaries_for es)) ->
  dget t (summaries_for es) = summarize t (filter (filed_under t) es).
Proof.
  intros Ht. pose proof (summaries_of_keys _ _ _ Ht) as Hin.
  rewrite summaries_for_keys in Ht. apply filter_In in Ht as [_ Hd].
  unfold summaries_for. rewrite dget_summaries_of; [|apply THEME_INFO_ok | exact Hin].
  rewrite (proj1 (organize_entries_by_theme_facts es t)).
  apply Bool.not_false_iff_true in Hd. rewrite existsb_filter_nil in Hd.
  now destruct (filter (filed_under t) es).
Qed.

(** C37: [generate_summaries] never fails; it returns one summary for each
    theme of [THEME_INFO] under which an entry is filed, in the order of
    [THEME_INFO], and that summary is the summary of the entries filed under
    the theme; without the remote generator it is the local summary. *)
Theorem generate_summaries_spec (es : list NewsEntry) :
  exists summaries,
    generate_summaries es = Some summaries /\
    dkeys summaries
    = filter (fun t => existsb (filed_under t) es) (dkeys THEME_INFO) /\
    (forall t, In t (dkeys summaries) ->
       dget t summaries = summarize t (filter (filed_under t) es)) /\
    (use_claude_api = false -> forall t, In t (dkeys summaries) ->
       dget t summaries = generate_fallback_summary t (filter (filed_under t) es)).
Proof.
  exists (summaries_for es). split; [apply generate_summaries_eq|].
  split; [apply summaries_for_keys|]. split; [apply summaries_for_dget|].
  intros Hu t Ht. rewrite summaries_for_dget by assumption.
  unfold Summary.summarize. now rewrite Hu.
Qed.

(** ** The sections of the page *)

Lemma generate_eq (es : list NewsEntry) :
  generate es
  = Some (generate_summary_html es (summaries_for es), summaries_for es).
Proof. unfold Summary.generate. now rewrite generate_summaries_eq. Qed.

(** The themes that get a section. *)
Definition shown (es : list NewsEntry) : list (string * theme_info) :=
  filter (fun kv => existsb (filed_under (fst kv)) es) THEME_INFO.

Lemma dmem_summaries_for (es : list NewsEntry) (kv : string * theme_info) :
  In kv THEME_INFO ->
  dmem (fst kv) (summaries_for es) = existsb (filed_under (fst kv)) es.
Proof.
  intros Hin. assert (In (fst kv) (dkeys THEME_INFO)) as Hk by now apply in_map.
  unfold dmem. destruct (dget (fst kv) (summaries_for es)) as [s|] eqn:E.
  - assert (In (fst kv) (dkeys (summaries_for es))) as Hs
      by (apply dget_Some_key; eauto).
    rewrite summaries_for_keys in Hs. now apply filter_In in Hs as [_ ->].
  - apply dget_None in E. rewrite summaries_for_keys, filter_In in E.
    destruct (existsb (filed_under (fst kv)) es); [tauto | reflexivity].
Qed.

Lemma sorted_by_priority_shown (es : list NewsEntry) :
  sorted_by_priority (summaries_for es) = shown es.
Proof.
  rewrite sorted_by_priority_eq. apply filter_ext_in. apply dmem_summaries_for.
Qed.

Lemma page_sections_eq (es : list NewsEntry) :
  page_sections (generate_summary_html es (summaries_for es))
  = map (section_of (organize_entries_by_theme es) (summaries_for es)) (shown es).
Proof.
  unfold generate_summary_html. cbn [page_sections].
  now rewrite sorted_by_priority_shown.
Qed.

Lemma section_count (es : list NewsEntry) (summaries : dict string)
    (kv : string * theme_info) :
  sec_count (section_of (organize_entries_by_theme es) summaries kv)
  = length (filter (filed_under (fst kv)) es).
Proof.
  unfold section_of. cbn.
  now rewrite <- (proj2 (organize_entries_by_theme_facts es (fst kv))).
Qed.

(** The page has one section for each theme of [THEME_INFO] under which
    an entry is filed, in the order of the priorities, which is the order of
    [THEME_INFO]; the table of contents lists the same themes in the same
    order; a section shows the title of its theme, its summary and the
    number of entries filed under it, which is not zero. *)
Theorem summary_page_sections (es : list NewsEntry) :
  exists page summaries,
    generate es = Some (page, summaries) /\
    page_total page = length es /\
    map sec_theme (page_sections page)
    = filter (fun t => existsb (filed_under t) es) (dkeys THEME_INFO) /\
    page_toc page = map (fun s => (sec_theme s, sec_title s)) (page_sections page) /\
    Forall (fun s =>
              sec_count s = length (filter (filed_under (sec_theme s)) es) /\
              1 <= sec_count s /\
              dget (sec_theme s) summaries = Some (sec_summary s) /\
              exists info, dget (sec_theme s) THEME_INFO = Some info /\
                           sec_title s = ti_title info)
      (page_sections page).
Proof.
  eexists _, _. split; [apply generate_eq|]. rewrite page_sections_eq.
  split; [reflexivity|]. split; [|split].
  - rewrite map_map. cbn [sec_theme section_of]. unfold shown, dkeys.
    symmetry. now apply filter_map_comm.
  - unfold generate_summary_html. cbn [page_toc].
    rewrite sorted_by_priority_shown, map_map. reflexivity.
  - apply Forall_map, Forall_forall. intros kv [Hin Hex]%filter_In.
    rewrite section_count. cbn [sec_theme sec_title sec_summary section_of].
    pose proof Hex as Hmem.
    rewrite <- (dmem_summaries_for es kv Hin) in Hmem. unfold dmem in Hmem.
    apply Bool.not_false_iff_true in Hex. rewrite existsb_filter_nil in Hex.
    repeat split.
    + destruct (filter (filed_under (fst kv)) es); [congruence | simpl; lia].
    + now destruct (dget (fst kv) (summaries_for es)).
    + exists (snd kv). split; [|reflexivity].
      apply In_dget; [apply THEME_INFO_ok | now destruct kv].
Qed.

Lemma section_counts_sum (es : list NewsEntry) :
  list_sum (map sec_count
              (page_sections (generate_summary_html es (summaries_for es))))
  = length (filter (filed_in (dkeys THEME_INFO)) es).
Proof.
  rewrite page_sections_eq, map_map.
  rewrite (map_ext _ (fun kv => length (filter (filed_under (fst kv)) es)))
    by (intros; apply section_count).
  unfold shown. rewrite list_sum_filter_pos.
  - rewrite <- group_sizes_sum by apply THEME_INFO_ok.
    unfold dkeys. now rewrite map_map.
  - intros kv Hx. apply existsb_filter_nil in Hx. now rewrite Hx.
Qed.

(** The counts of the sections add up to the number of entries whose
    first theme is a theme of [THEME_INFO]; an entry without themes is on no
    count, so the sections can account for fewer entries than the page
    announces. *)
Theorem summary_page_counts (es : list NewsEntry) :
  exists page summaries,
    generate es = Some (page, summaries) /\
    list_sum (map sec_count (page_sections page))
    = length (filter (filed_in (dkeys THEME_INFO)) es) /\
    list_sum (map sec_count (page_sections page))
    + length (filter (fun e => negb (filed_in (dkeys THEME_INFO) e)) es)
    = page_total page.
Proof.
  eexists _, _. split; [apply generate_eq|]. rewrite section_counts_sum.
  split; [reflexivity|]. cbn [page_total generate_summary_html].
  apply filter_length_split.
Qed.

End GeneratorFacts.

(** ** Witnesses *)

Definition science_info : theme_info :=
  ThemeInfo "Scientific Research and Space Programs" 3
    "Changes to NSF, NASA, climate research, and federal research funding".

Definition nsf_entry : NewsEntry :=
  mkNewsEntry 1 "https://example.gov/2025/01/15/nsf-budget-cuts"
    "NSF budget cuts announced" (Some "2025-01-15") ["science"; "economy"] ["nsf"] None.

Definition nasa_entry : NewsEntry :=
  mkNewsEntry 4 "https://news.example/nasa" "NASA layoffs" None ["science"] ["nasa"; "nsf"] None.

Lemma generate_fallback_summary_shape_witness :
  generate_fallback_summary "science" [nsf_entry; nasa_entry]
  = Some (summary_head science_info [nsf_entry; nasa_entry]
          ++ summary_focus [nsf_entry; nasa_entry]
          ++ "<p>Notable developments included: "
          ++ join "; " (map link (firstn 5 [nsf_entry; nasa_entry])) ++ ".</p>")%string.
Proof.
  apply generate_fallback_summary_shape; [reflexivity | discriminate].
Defined.

Lemma generate_theme_summary_with_claude_spec_witness :
  let claude := fun _ : prompt => ApiAnswer 503 None in
  let p := mkPrompt (ti_title science_info) (ti_description science_info)
             (map entry_text_line (firstn 20 [nsf_entry; nasa_entry])) in
  let r := generate_theme_summary_with_claude (Some "key") claude "science"
             [nsf_entry; nasa_entry] in
  length (prompt_articles p) <= 20 /\
  (forall text, no_key (Some "key") = false -> claude p = ApiAnswer 200 (Some text) ->
     r = Some text) /\
  (no_key (Some "key") = true \/ claude p = ApiError \/
   (exists st text, claude p = ApiAnswer st text /\ (st <> 200 \/ text = None)) ->
   r = generate_fallback_summary "science" [nsf_entry; nasa_entry] /\ r <> None).
Proof.
  intros claude.
  apply (generate_theme_summary_with_claude_spec (Some "key") claude "science"
           science_info [nsf_entry; nasa_entry]).
  reflexivity.
Defined.
