(* ===== verification/Log.v ===== *)
(** * Log: what the programs log, and what of it is shown

    Every module has a logger, [logging.getLogger(__name__)], and the
    programs report their progress and their failures through it: a
    warning for each line the parser skips, a record for a fetch that gives
    nothing, the steps of the pipeline.  The standard output of the
    programs is in [Files]; this file is about the log.

    - [level], [log_record]: a record is the module of its logger, its
      level and its message.
    - [basicConfig], [import_module], [logging_of]: which module configures
      the root logger.  [process_diary.py] and [master_pipeline.py] call
      [logging.basicConfig] when they are loaded, the two generators do not;
      the first call wins, and without any call the library shows warnings
      and errors only, as bare messages.  [emitted] is what reaches the
      stream, [format_record] is the line.
    - Then the log of each method that logs, under the name of the method
      with [_log]: the records of a run in which no exception leaves the
      method, in the order the code writes them.  The records of a batch of
      fetches come in the order in which the answers arrive ([run_log], on
      the tasks of [Enricher]).  The text of an exception the model does
      not hold is a parameter ([why]).

    The theorems: the log of the parser accounts for every line; a fetch
    that gives nothing logs one record, except after a status other than
    200, which is silent; the log of a batch is the records of its tasks in
    arrival order; what each entry point shows of its log. *)

From stdpp Require Import gmap.
#[local] Set Warnings "-clear-no-such-hyp".

From S2P Require Import Prelude.
From S2P Require Import Text.
From S2P Require Import Paths.
From S2P Require Import Dict.
From S2P Require Import Taxonomy.
From S2P Require Import EntryParser.
From S2P Require Import Classifier.
From S2P Require Import Enricher.
From S2P Require Import Dataset.
From S2P Require Import Summary.

#[local] Open Scope string_scope.
#[local] Open Scope list_scope.
#[local] Open Scope nat_scope.

(** ** Records *)

Inductive level : Type := INFO | WARNING | ERROR.

(** [logging.INFO], [logging.WARNING], [logging.ERROR]. *)
Definition levelno (l : level) : nat :=
  match l with
  | INFO => 20
  | WARNING => 30
  | ERROR => 40
  end.

Definition levelname (l : level) : string :=
  match l with
  | INFO => "INFO"
  | WARNING => "WARNING"
  | ERROR => "ERROR"
  end.

(** The four modules of the program. *)
Inductive py_module : Type :=
| process_diary
| html_generator
| summary_generator
| master_pipeline.

Definition same_module (a b : py_module) : bool :=
  match a, b with
  | process_diary, process_diary
  | html_generator, html_generator
  | summary_generator, summary_generator
  | master_pipeline, master_pipeline => true
  | _, _ => false
  end.

Record log_record : Type := mkRecord {
  rec_module : py_module;
  rec_level : level;
  rec_message : string
}.

(** [logger.info], [logger.warning] and [logger.error] of a module. *)
Definition log_info (m : py_module) (msg : string) : log_record := mkRecord m INFO msg.
Definition log_warning (m : py_module) (msg : string) : log_record := mkRecord m WARNING msg.
Definition log_error (m : py_module) (msg : string) : log_record := mkRecord m ERROR msg.

Definition is_level (l : level) (r : log_record) : bool :=
  levelno (rec_level r) =? levelno l.

(** ** The configuration *)

(** The fields the formats of the program use. *)
Inductive log_field : Type := Asctime | Name | Levelname | Message.

Record root_config : Type := mkRoot {
  root_level : level;
  root_format : list log_field
}.

(** [logging.basicConfig(level=..., format=...)]: it configures the root
    logger when the root logger has no handler, and does nothing
    otherwise. *)
Definition basicConfig (lvl : level) (fmt : list log_field) (root : option root_config)
  : option root_config :=
  match root with
  | Some _ => root
  | None => Some (mkRoot lvl fmt)
  end.

(** Without a handler the library writes records from [WARNING] on, as the
    bare message. *)
Definition last_resort : root_config := mkRoot WARNING [Message].

(** How a run begins: a module run as a script, or a module that a caller
    imports (the caller is taken not to configure the log itself). *)
Inductive run_mode : Type :=
| Script (m : py_module)
| Imported (m : py_module).

Definition first_module (r : run_mode) : py_module :=
  match r with
  | Script m => m
  | Imported m => m
  end.

(** [logging.basicConfig(level=logging.INFO,
    format='%(asctime)s - %(levelname)s - %(message)s')] of
    [process_diary.py]. *)
Definition process_diary_config : option root_config -> option root_config :=
  basicConfig INFO [Asctime; Levelname; Message].

(** [logging.basicConfig(level=logging.INFO,
    format='%(asctime)s - %(name)s - %(levelname)s - %(message)s')] of
    [master_pipeline.py]. *)
Definition master_pipeline_config : option root_config -> option root_config :=
  basicConfig INFO [Asctime; Name; Levelname; Message].

(** The statements a module runs when it is loaded, as far as they touch
    the log: its own [basicConfig], then its imports.  [master_pipeline]
    imports [process_diary] after it has configured the log. *)
Definition import_module (m : py_module) (root : option root_config) : option root_config :=
  match m with
  | process_diary => process_diary_config root
  | master_pipeline => process_diary_config (master_pipeline_config root)
  | html_generator | summary_generator => root
  end.

Definition logging_of (r : run_mode) : root_config :=
  match import_module (first_module r) None with
  | Some c => c
  | None => last_resort
  end.

(** The name under which a module is imported; [master_pipeline] imports
    the generators as [generate_html] and [generate_summary]. *)
Definition import_name (m : py_module) : string :=
  match m with
  | process_diary => "process_diary"
  | html_generator => "generate_html"
  | summary_generator => "generate_summary"
  | master_pipeline => "master_pipeline"
  end.

(** [__name__]. *)
Definition logger_name (r : run_mode) (m : py_module) : string :=
  match r with
  | Script s => if same_module s m then "__main__" else import_name m
  | Imported _ => import_name m
  end.

(** The records that reach the stream. *)
Definition emitted (r : run_mode) (log : list log_record) : list log_record :=
  filter (fun x => levelno (root_level (logging_of r)) <=? levelno (rec_level x)) log.

Definition field_value (r : run_mode) (asctime : string) (x : log_record) (f : log_field)
  : string :=
  match f with
  | Asctime => asctime
  | Name => logger_name r (rec_module x)
  | Levelname => levelname (rec_level x)
  | Message => rec_message x
  end.

(** The line of a record, written at the time [asctime]. *)
Definition format_record (r : run_mode) (asctime : string) (x : log_record) : string :=
  join " - " (map (field_value r asctime x) (root_format (logging_of r))).

(** ** process_diary.py *)

(** [logger.warning(f"Could not parse line {i}: {line[:100]}")]. *)
Definition parse_warning (w : warning) : log_record :=
  log_warning process_diary
    ("Could not parse line " ++ str_of_nat (fst w) ++ ": " ++ snd w).

(** [parse_input_file]: the warnings in the order of the lines, then the
    number of entries. *)
Definition parse_input_file_log (lines : list string) : list log_record :=
  let (es, ws) := parse_input_file lines in
  map parse_warning ws
  ++ [log_info process_diary
        ("Parsed " ++ str_of_nat (length es) ++ " entries from input file")].

Definition no_content (u : string) : log_record :=
  log_warning process_diary ("Could not extract content from Bluesky URL: " ++ u).

Definition fetch_error (u e : string) : log_record :=
  log_error process_diary ("Error fetching Bluesky content from " ++ u ++ ": " ++ e).

(** The text of the [TypeError] of [content[:500]] on [None]. *)
Definition not_subscriptable : string := "'NoneType' object is not subscriptable".

(** What [fetch_bluesky_content] logs after the answer [r] to its request:
    an error when the request or the reading of the body raised ([why] is
    the text of the exception) and when the element is a [meta] without
    [content]; a warning when no selector finds an element; nothing when
    the status is not 200, and nothing when there is a content. *)
Definition fetch_log (why u : string) (r : response) : list log_record :=
  match r with
  | NetError => [fetch_error u why]
  | Answered status body =>
      if status =? 200
      then match body with
           | None => [fetch_error u why]
           | Some p =>
               match first_element p with
               | None => [no_content u]
               | Some el =>
                   match element_content el with
                   | None => [fetch_error u not_subscriptable]
                   | Some _ => []
                   end
               end
           end
      else []
  end.

Section BatchLog.

Variable net : nat -> response.

(** The text of the exception that ends the request of task [i], when one
    does. *)
Variable why : nat -> string.

(** What a move of task [i] logs: a task logs when it is resumed with its
    answer. *)
Definition step_log (i : nat) (s : sys) : list log_record :=
  match tasks s !! i with
  | Some (Wait u) => fetch_log (why i) u (net i)
  | _ => []
  end.

(** The log of a schedule. *)
Fixpoint run_log (sched : list nat) (s : sys) : list log_record :=
  match sched with
  | [] => []
  | i :: rest => step_log i s ++ run_log rest (step_task net i s)
  end.

(** The log of [await asyncio.gather] on the tasks. *)
Definition gather_log (c : gmap string string) (urls : list string) (order : list nat)
  : list log_record :=
  run_log (gather_schedule (length urls) order) (Sys c (map Init urls)).

(** [process_bluesky_entries]: nothing without an eligible entry. *)
Definition process_bluesky_entries_log (order : list nat) (c : gmap string string)
    (es : list NewsEntry) : list log_record :=
  match filter eligible es with
  | [] => []
  | bs =>
      log_info process_diary
        ("Fetching content for " ++ str_of_nat (length bs) ++ " Bluesky posts...")
      :: gather_log c (map url bs) order
  end.

(** [save_compressed_json]. *)
Definition save_compressed_json_log (output_dir filename : string) : list log_record :=
  [log_info process_diary
     ("Saved data to " ++ path_join output_dir filename ++ " and "
      ++ path_join output_dir (filename ++ ".gz"))].

(** [DiaryProcessor.process]. *)
Definition process_log `{SetOrder} (order : list nat) (output_dir : string)
    (lines : list string) : list log_record :=
  [log_info process_diary "Starting diary processing..."]
  ++ parse_input_file_log lines
  ++ [log_info process_diary "Tagging entries..."]
  ++ process_bluesky_entries_log order ∅ (map tag_entry (fst (parse_input_file lines)))
  ++ save_compressed_json_log output_dir "diary_data.json"
  ++ [log_info process_diary "Processing complete!"].

End BatchLog.

(** ** html_generator.py *)

Definition save_index_page_log (output_dir : string) : list log_record :=
  [log_info html_generator ("Saved index.html to " ++ path_join output_dir "index.html")].

Definition generate_html_files_log (output_dir : string) : list log_record :=
  save_index_page_log output_dir ++ [log_info html_generator "HTML generation complete!"].

(** ** summary_generator.py *)

Section SummaryLog.

Variable use_claude_api : bool.
Variable api_key : option string.
Variable claude : prompt -> api_answer.

(** The text of the exception of the request for a theme, when it raises. *)
Variable claude_why : string -> string.

Definition claude_error (e : string) : log_record :=
  log_error summary_generator ("Error calling Claude API: " ++ e).

(** [generate_theme_summary_with_claude]: every way to the local summary
    logs one record. *)
Definition generate_theme_summary_with_claude_log (theme : string) (es : list NewsEntry)
  : list log_record :=
  if no_key api_key
  then [log_warning summary_generator "Claude API key not found, using fallback summary"]
  else
    match dget theme THEME_INFO with
    | None => []
    | Some info =>
        match claude (mkPrompt (ti_title info) (ti_description info)
                        (map entry_text_line (firstn 20 es))) with
        | ApiError => [claude_error (claude_why theme)]
        | ApiAnswer status text =>
            if status =? 200
            then match text with
                 | Some _ => []
                 | None => [claude_error (claude_why theme)]
                 end
            else [log_error summary_generator ("Claude API error: " ++ str_of_nat status)]
        end
    end.

(** One turn of the loop of [generate_summaries]. *)
Definition add_summary_log (themed : dict (list NewsEntry)) (theme : string)
  : list log_record :=
  match dget theme themed with
  | Some es =>
      log_info summary_generator
        ("Generating summary for " ++ theme ++ " (" ++ str_of_nat (length es)
         ++ " entries)...")
      :: (if use_claude_api then generate_theme_summary_with_claude_log theme es else [])
  | None => []
  end.

Definition generate_summaries_log (es : list NewsEntry) : list log_record :=
  flat_map (add_summary_log (organize_entries_by_theme es)) (dkeys THEME_INFO).

(** [SummaryGenerator.generate]. *)
Definition generate_log (output_dir : string) (es : list NewsEntry) : list log_record :=
  [log_info summary_generator "Generating thematic summaries..."]
  ++ generate_summaries_log es
  ++ [log_info summary_generator
        ("Saved summary.html to " ++ path_join output_dir "summary.html")].

End SummaryLog.

(** ** master_pipeline.py *)

(** [c * n]. *)
Fixpoint times (n : nat) (c : ascii) : string :=
  match n with
  | 0 => ""
  | S n' => String c (times n' c)
  end.

(** The three records that open a step. *)
Definition banner (first : bool) (title : string) : list log_record :=
  [ log_info master_pipeline ((if first then "" else nl) ++ times 60 "=")%string;
    log_info master_pipeline title;
    log_info master_pipeline (times 60 "=") ].

Definition final_report (output_dir : string) : list log_record :=
  banner false "PIPELINE COMPLETE!"
  ++ map (log_info master_pipeline)
       [ (nl ++ "Generated files in '" ++ output_dir ++ "/':")%string;
         "  - diary_data.json (and .json.gz) - Tagged entry data";
         "  - index.html - Interactive chronological view";
         "  - summary.html - Thematic summary page";
         (nl ++ "To view the site, open index.html or summary.html in a web browser.")%string ].

(** [run_pipeline]. *)
Definition run_pipeline_log `{SetOrder} (net : nat -> response) (why : nat -> string)
    (order : list nat) (api_key : option string) (claude : prompt -> api_answer)
    (claude_why : string -> string) (now : string)
    (output_dir : string) (use_claude : bool) (lines : list string) : list log_record :=
  banner true "STEP 1: Processing diary entries and tagging..."
  ++ process_log net why order output_dir lines
  ++ banner false "STEP 2: Generating interactive index page..."
  ++ save_index_page_log output_dir
  ++ banner false "STEP 3: Generating thematic summary page..."
  ++ generate_log use_claude api_key claude claude_why output_dir
       (entries (data (process net order now lines)))
  ++ final_report output_dir.

Definition create_requirements_file_log : list log_record :=
  [log_info master_pipeline "Created requirements.txt"].

Definition create_readme_log : list log_record :=
  [log_info master_pipeline "Created README.md"].

(** ** Reading a log *)

(** The records that report a problem. *)
Definition is_problem (x : log_record) : bool := negb (is_level INFO x).

(** [enumerate(lines, i)]. *)
Fixpoint enumerate (i : nat) (lines : list string) : list (nat * string) :=
  match lines with
  | [] => []
  | l :: rest => (i, l) :: enumerate (S i) rest
  end.

(** The lines the pattern rejects. *)
Definition rejected (kl : nat * string) : bool :=
  match parse_line (snd kl) with
  | Some _ => false
  | None => true
  end.

(** The warning for a rejected line: its position and its first hundred
    characters. *)
Definition warning_of (kl : nat * string) : warning := (fst kl, slice_to 100 (snd kl)).

(** A fetch that returns [None]. *)
Definition gave_nothing (o : option string) : bool :=
  match o with
  | Some _ => false
  | None => true
  end.

(** ** The log of the parser *)

Lemma parse_lines_skipped (i : nat) (lines : list string) :
  snd (parse_lines i lines) = map warning_of (filter rejected (enumerate i lines)).
Proof.
  revert i; induction lines as [|l lines IH]; intros i; [reflexivity|].
  rewrite parse_lines_cons. cbn [enumerate filter]. unfold rejected at 1. cbn [snd].
  destruct (parse_line l) as [[u t]|]; cbn [snd map]; now rewrite IH.
Qed.

Lemma length_enumerate (i : nat) (lines : list string) :
  length (enumerate i lines) = length lines.
Proof. revert i; induction lines; intros i; simpl; auto. Qed.

Lemma parse_lines_accepted (i : nat) (lines : list string) :
  length (fst (parse_lines i lines))
  = length lines - length (filter rejected (enumerate i lines)).
Proof.
  pose proof (parse_lines_partition i lines) as Hp.
  rewrite parse_lines_skipped, length_map in Hp. lia.
Qed.

Lemma parse_input_file_log_eq (lines : list string) :
  parse_input_file_log lines
  = map parse_warning (snd (parse_input_file lines))
    ++ [log_info process_diary
          ("Parsed " ++ str_of_nat (length (fst (parse_input_file lines)))
           ++ " entries from input file")].
Proof. unfold parse_input_file_log. now destruct (parse_input_file lines). Qed.

Lemma problems_app (a b : list log_record) :
  filter is_problem (a ++ b) = filter is_problem a ++ filter is_problem b.
Proof. apply filter_app. Qed.

Lemma problems_none (l : list log_record) :
  Forall (fun x => rec_level x = INFO) l -> filter is_problem l = [].
Proof.
  induction 1 as [|x l Hx _ IH]; [reflexivity|]. simpl.
  unfold is_problem at 1, is_level. now rewrite Hx.
Qed.

Lemma parse_warnings_problems (ws : list warning) :
  filter is_problem (map parse_warning ws) = map parse_warning ws.
Proof. apply filter_all, Forall_map, Forall_forall. reflexivity. Qed.

(** ** The log of a fetch *)

(** The answers after which a fetch gives nothing and says nothing. *)
Definition silent (r : response) : bool :=
  match r with
  | Answered status _ => negb (status =? 200)
  | NetError => false
  end.

Lemma fetch_log_content (why u v : string) (r : response) :
  outcome_of r = Some v -> fetch_log why u r = [].
Proof.
  destruct r as [|st [p|]]; simpl; try discriminate.
  destruct (st =? 200); [|discriminate].
  unfold extract_content. destruct (first_element p) as [el|]; [|discriminate].
  now destruct (element_content el).
Qed.

Lemma fetch_log_silent (why u : string) (r : response) :
  silent r = true -> fetch_log why u r = [] /\ outcome_of r = None.
Proof.
  destruct r as [|st b]; simpl; [discriminate|].
  destruct (st =? 200); [discriminate|]. now destruct b.
Qed.

Lemma contains_message (pre u post : string) : contains u (pre ++ u ++ post) = true.
Proof. apply contains_append_l, contains_append_r, contains_refl. Qed.

Lemma no_content_problem (u : string) :
  is_problem (no_content u) = true /\ rec_module (no_content u) = process_diary /\
  contains u (rec_message (no_content u)) = true.
Proof.
  repeat split. unfold no_content, log_warning. cbn [rec_message].
  rewrite <- (append_nil_r u) at 2. apply contains_message.
Qed.

Lemma fetch_error_problem (u e : string) :
  is_problem (fetch_error u e) = true /\ rec_module (fetch_error u e) = process_diary /\
  contains u (rec_message (fetch_error u e)) = true.
Proof. repeat split. apply contains_message. Qed.

(** A fetch that gives nothing and is not silent logs one record, a warning
    or an error of [process_diary] that names the URL. *)
Lemma fetch_log_problem (why u : string) (r : response) :
  outcome_of r = None -> silent r = false ->
  exists x, fetch_log why u r = [x] /\ is_problem x = true /\
            rec_module x = process_diary /\ contains u (rec_message x) = true.
Proof.
  destruct r as [|st [p|]]; simpl.
  - intros _ _. eexists. split; [reflexivity | apply fetch_error_problem].
  - destruct (st =? 200); [|discriminate]. unfold extract_content. intros Ho _.
    destruct (first_element p) as [el|].
    + destruct (element_content el); [discriminate|].
      eexists. split; [reflexivity | apply fetch_error_problem].
    + eexists. split; [reflexivity | apply no_content_problem].
  - destruct (st =? 200); [|discriminate]. intros _ _.
    eexists. split; [reflexivity | apply fetch_error_problem].
Qed.

(** The records of a fetch and its silence add up to its failure. *)
Lemma fetch_log_count (why u : string) (r : response) :
  length (filter is_problem (fetch_log why u r)) + Nat.b2n (silent r)
  = Nat.b2n (gave_nothing (outcome_of r)).
Proof.
  destruct (outcome_of r) as [v|] eqn:Ho.
  - rewrite (fetch_log_content why u v r Ho).
    destruct (silent r) eqn:Hs; [|reflexivity].
    apply (fetch_log_silent why u) in Hs as [_ Hn]. congruence.
  - destruct (silent r) eqn:Hs.
    + now apply (fetch_log_silent why u) in Hs as [-> _].
    + destruct (fetch_log_problem why u r Ho Hs) as (x & -> & Hx & _).
      simpl. now rewrite Hx.
Qed.

Lemma fetch_log_problems (why u : string) (r : response) :
  filter is_problem (fetch_log why u r) = fetch_log why u r.
Proof.
  destruct r as [|st [p|]]; simpl; try reflexivity;
    destruct (st =? 200); try reflexivity.
  destruct (first_element p) as [el|]; [|reflexivity].
  now destruct (element_content el).
Qed.

(** ** The log of a batch *)

Section BatchLogFacts.

Variable net : nat -> response.
Variable why : nat -> string.

(** The cache when the batch begins. *)
Variable c0 : gmap string string.

(** What task [i] of a batch for [us] logs: nothing when the cache had its
    URL, the log of its own fetch otherwise. *)
Definition own_log (us : list string) (i : nat) : list log_record :=
  match us !! i with
  | Some u =>
      match c0 !! u with
      | Some _ => []
      | None => fetch_log (why i) u (net i)
      end
  | None => []
  end.

(** The tasks that return nothing without a record, and the tasks that
    return nothing. *)
Definition silent_task (us : list string) (i : nat) : bool :=
  match us !! i with
  | Some u =>
      match c0 !! u with
      | Some _ => false
      | None => silent (net i)
      end
  | None => false
  end.

Definition failed_task (us : list string) (i : nat) : bool :=
  match us !! i with
  | Some u => gave_nothing (answer net c0 i u)
  | None => false
  end.

Lemma run_log_app (a b : list nat) (s : sys) :
  run_log net why (a ++ b) s = run_log net why a s ++ run_log net why b (run net a s).
Proof.
  revert s; induction a as [|i a IH]; intros s; [reflexivity|].
  cbn [app run_log run fold_left]. rewrite IH. now rewrite <- app_assoc.
Qed.

(** Starting the tasks logs nothing. *)
Lemma run_log_starts (c : gmap string string) (done : list task) (us : list string) :
  run_log net why (seq (length done) (length us)) (Sys c (done ++ map Init us)) = [].
Proof.
  revert done; induction us as [|u us IH]; intros done; [reflexivity|].
  cbn [length seq run_log map]. unfold step_log at 1. cbn [tasks].
  rewrite list_lookup_middle by done. cbn [app].
  rewrite step_task_start. specialize (IH (done ++ [start c u])).
  rewrite length_app, Nat.add_1_r in IH. exact IH.
Qed.

Lemma step_log_after (us : list string) (D : gset nat) (i : nat) (s : sys) :
  tasks s = tasks_after net c0 us D -> i ∉ D ->
  step_log net why i s = own_log us i.
Proof.
  intros Ht Hi. unfold step_log, own_log. rewrite Ht, tasks_after_lookup.
  destruct (us !! i) as [u|]; simpl; [|reflexivity].
  rewrite decide_False by done. unfold start. now destruct (c0 !! u).
Qed.

(** When every answer arrives once, the records come task by task in the
    order of arrival. *)
Lemma run_log_after (us : list string) (order : list nat) (D : gset nat) (s : sys) :
  tasks s = tasks_after net c0 us D -> NoDup order ->
  (forall i, In i order -> i ∉ D) ->
  run_log net why order s = flat_map (own_log us) order.
Proof.
  revert D s; induction order as [|j order IH]; intros D s Ht Hnd HD; [reflexivity|].
  inversion Hnd as [|? ? Hj Hnd']; subst. cbn [run_log flat_map].
  rewrite (step_log_after us D) by (auto using in_eq). f_equal.
  apply (IH ({[j]} ∪ D)); [now apply step_task_after | exact Hnd' |].
  intros i Hi. apply not_elem_of_union. split; [|auto using in_cons].
  apply not_elem_of_singleton. intros ->. contradiction.
Qed.

Lemma gather_log_eq (urls : list string) (order : list nat) :
  NoDup order -> gather_log net why c0 urls order = flat_map (own_log urls) order.
Proof.
  intros Hnd. unfold gather_log, gather_schedule. rewrite run_log_app.
  pose proof (run_log_starts c0 [] urls) as Hl. cbn [length app] in Hl. rewrite Hl.
  pose proof (run_starts net c0 [] urls) as Hs. cbn [length app] in Hs. rewrite Hs.
  cbn [app]. apply (run_log_after urls order ∅); [|exact Hnd | set_solver].
  cbn [tasks]. now rewrite tasks_after_empty.
Qed.

Lemma own_log_count (us : list string) (i : nat) :
  length (own_log us i) + Nat.b2n (silent_task us i) = Nat.b2n (failed_task us i).
Proof.
  unfold own_log, silent_task, failed_task, answer.
  destruct (us !! i) as [u|]; [|reflexivity]. destruct (c0 !! u); [reflexivity|].
  rewrite <- (fetch_log_count (why i) u). now rewrite fetch_log_problems.
Qed.

Lemma own_log_problems (us : list string) (i : nat) :
  filter is_problem (own_log us i) = own_log us i.
Proof.
  unfold own_log. destruct (us !! i) as [u|]; [|reflexivity].
  destruct (c0 !! u); [reflexivity | apply fetch_log_problems].
Qed.

Lemma gather_log_problems (urls : list string) (order : list nat) :
  NoDup order ->
  filter is_problem (gather_log net why c0 urls order) = gather_log net why c0 urls order.
Proof.
  intros Hnd. rewrite gather_log_eq by exact Hnd.
  induction order as [|j order IH]; [reflexivity|]. inversion Hnd; subst.
  cbn [flat_map]. rewrite problems_app, own_log_problems. f_equal. auto.
Qed.

Lemma gather_log_count (urls : list string) (order : list nat) :
  NoDup order ->
  length (gather_log net why c0 urls order) + length (filter (silent_task urls) order)
  = length (filter (failed_task urls) order).
Proof.
  intros Hnd. rewrite gather_log_eq by exact Hnd.
  apply flat_map_count, own_log_count.
Qed.

End BatchLogFacts.

(** ** The log of the processor *)

Section ProcessLogFacts.

Context `{SetOrder}.

Variable net : nat -> response.
Variable why : nat -> string.

(** The URLs of the batch of a run: those of the eligible entries. *)
Definition batch_urls (lines : list string) : list string :=
  map url (filter eligible (map tag_entry (fst (parse_input_file lines)))).

Lemma gather_log_nil (c : gmap string string) (order : list nat) :
  NoDup order -> gather_log net why c [] order = [].
Proof.
  intros Hnd. rewrite gather_log_eq by exact Hnd. apply flat_map_nil.
  intros i _. unfold own_log. now rewrite lookup_nil.
Qed.

Lemma process_bluesky_entries_problems (order : list nat) (c : gmap string string)
    (es : list NewsEntry) :
  NoDup order ->
  filter is_problem (process_bluesky_entries_log net why order c es)
  = gather_log net why c (map url (filter eligible es)) order.
Proof.
  intros Hnd. unfold process_bluesky_entries_log.
  destruct (filter eligible es) as [|b bs]; [now rewrite gather_log_nil|].
  cbn [filter is_problem is_level log_info rec_level levelno Nat.eqb negb].
  now apply gather_log_problems.
Qed.

(** The records of a run that report a problem: the warnings of the
    parser, then the records of the batch. *)
Lemma process_log_problems (order : list nat) (output_dir : string) (lines : list string) :
  NoDup order ->
  filter is_problem (process_log net why order output_dir lines)
  = map parse_warning (map warning_of (filter rejected (enumerate 1 lines)))
    ++ flat_map (own_log net why ∅ (batch_urls lines)) order.
Proof.
  intros Hnd. unfold process_log. rewrite parse_input_file_log_eq.
  rewrite !problems_app, parse_warnings_problems, process_bluesky_entries_problems
    by exact Hnd.
  unfold parse_input_file at 1. rewrite parse_lines_skipped.
  rewrite gather_log_eq by exact Hnd. cbn. now rewrite !app_nil_r.
Qed.

End ProcessLogFacts.

(** ** The log of the summary generator *)

Section SummaryLogFacts.

Variable api_key : option string.
Variable claude : prompt -> api_answer.
Variable claude_why : string -> string.

(** Every way to the local summary is logged: the call logs nothing
    exactly when it returns the text of the service. *)
Lemma claude_log_cases (theme : string) (info : theme_info) (es : list NewsEntry) :
  dget theme THEME_INFO = Some info ->
  let log := generate_theme_summary_with_claude_log api_key claude claude_why theme es in
  let summary := generate_theme_summary_with_claude api_key claude theme es in
  (exists x, log = [x] /\ is_problem x = true /\
             summary = generate_fallback_summary theme es) \/
  (exists text, log = [] /\ summary = Some text /\ no_key api_key = false /\
                claude (mkPrompt (ti_title info) (ti_description info)
                          (map entry_text_line (firstn 20 es)))
                = ApiAnswer 200 (Some text)).
Proof.
  intros Hi. unfold generate_theme_summary_with_claude_log,
    generate_theme_summary_with_claude.
  destruct (no_key api_key); [left; eauto|]. rewrite Hi. cbn [obind].
  destruct (claude _) as [|st [text|]]; [left; eauto | |].
  - destruct (st =? 200) eqn:Est; [|left; eauto].
    apply Nat.eqb_eq in Est as ->. right. eauto.
  - destruct (st =? 200); left; eauto.
Qed.

Lemma claude_log_problems (theme : string) (es : list NewsEntry) :
  filter is_problem (generate_theme_summary_with_claude_log api_key claude claude_why theme es)
  = generate_theme_summary_with_claude_log api_key claude claude_why theme es.
Proof.
  unfold generate_theme_summary_with_claude_log.
  destruct (no_key api_key); [reflexivity|].
  destruct (dget theme THEME_INFO); [|reflexivity].
  destruct (claude _) as [|st [text|]]; try reflexivity; now destruct (st =? 200).
Qed.

(** The records of [generate] that report a problem: those of the calls of
    the service, theme by theme. *)
Lemma generate_log_problems (use_claude : bool) (output_dir : string)
    (es : list NewsEntry) :
  filter is_problem (generate_log use_claude api_key claude claude_why output_dir es)
  = if use_claude
    then flat_map
           (fun theme =>
              match dget theme (organize_entries_by_theme es) with
              | Some l =>
                  generate_theme_summary_with_claude_log api_key claude claude_why theme l
              | None => []
              end)
           (dkeys THEME_INFO)
    else [].
Proof.
  unfold generate_log. rewrite !problems_app. cbn [filter is_problem is_level
    log_info rec_level levelno Nat.eqb negb app]. rewrite app_nil_r.
  unfold generate_summaries_log. rewrite filter_flat_map.
  destruct use_claude.
  - apply flat_map_ext. intros theme. unfold add_summary_log.
    destruct (dget theme _); [|reflexivity]. apply claude_log_problems.
  - apply flat_map_nil. intros theme _. unfold add_summary_log.
    now destruct (dget theme _).
Qed.

End SummaryLogFacts.

(** ** The log of the pipeline *)

Lemma banner_problems (first : bool) (title : string) :
  filter is_problem (banner first title) = [].
Proof. reflexivity. Qed.

(** The steps of the pipeline are reported at [INFO]: the problems of a
    run of [run_pipeline] are those of the processor, then those of the
    summary generator. *)
Lemma run_pipeline_log_problems `{SetOrder} (net : nat -> response) (why : nat -> string)
    (order : list nat) (api_key : option string) (claude : prompt -> api_answer)
    (claude_why : string -> string) (now output_dir : string) (use_claude : bool)
    (lines : list string) :
  filter is_problem
    (run_pipeline_log net why order api_key claude claude_why now output_dir use_claude lines)
  = filter is_problem (process_log net why order output_dir lines)
    ++ filter is_problem
         (generate_log use_claude api_key claude claude_why output_dir
            (entries (data (process net order now lines)))).
Proof.
  unfold run_pipeline_log, final_report. rewrite !problems_app, !banner_problems.
  cbn [app]. f_equal. rewrite (problems_none (map _ _)), app_nil_r.
  - rewrite (problems_none (save_index_page_log output_dir)); [reflexivity|].
    repeat constructor.
  - apply Forall_map, Forall_forall. reflexivity.
Qed.

(** ** What is shown *)

Lemma emitted_all (r : run_mode) (log : list log_record) :
  root_level (logging_of r) = INFO -> emitted r log = log.
Proof.
  intros Hr. unfold emitted. rewrite Hr. induction log as [|x log IH]; [reflexivity|].
  cbn [filter]. rewrite IH. now destruct x as [m [] msg].
Qed.

Lemma emitted_problems (r : run_mode) (log : list log_record) :
  root_level (logging_of r) = WARNING -> emitted r log = filter is_problem log.
Proof.
  intros Hr. unfold emitted. rewrite Hr. apply filter_ext.
  now intros [m [] msg].
Qed.

(** ** Theorems *)

(** C23: What a fetch logs.  A fetch that returns a content logs nothing.  A
    fetch that returns nothing logs exactly one record, a warning or an
    error of [process_diary] that names the URL, unless the answer has a
    status other than 200: then it returns nothing and logs nothing. *)
Theorem fetch_log_cases (why u : string) (r : response) :
  (forall v, outcome_of r = Some v -> fetch_log why u r = []) /\
  (silent r = true <-> exists st b, r = Answered st b /\ st <> 200) /\
  (silent r = true -> outcome_of r = None /\ fetch_log why u r = []) /\
  (outcome_of r = None -> silent r = false ->
   exists x, fetch_log why u r = [x] /\ is_problem x = true /\
             rec_module x = process_diary /\ contains u (rec_message x) = true).
Proof.
  split; [intros v; apply fetch_log_content|]. split; [|split].
  - destruct r as [|st b]; simpl.
    + split; [discriminate | intros (? & ? & [=] & _)].
    + rewrite negb_true_iff, Nat.eqb_neq. split; [eauto|].
      now intros (? & ? & [= -> _] & ?).
  - intros Hs. apply (fetch_log_silent why u) in Hs. tauto.
  - apply fetch_log_problem.
Qed.

Section LogTheorems.

Context `{SetOrder}.

Variable net : nat -> response.
Variable why : nat -> string.

Lemma gather_result (c0 : gmap string string) (urls : list string) (order : list nat)
    (i : nat) (u : string) :
  urls !! i = Some u -> In i order ->
  snd (gather net c0 urls order) !! i = Some (answer net c0 i u).
Proof.
  intros Eu Hi. unfold gather. cbn [snd]. rewrite gather_tasks.
  change (map ?f ?l) with (f <$> l). rewrite list_lookup_fmap, tasks_after_lookup, Eu.
  cbn. rewrite decide_True; [reflexivity|].
  now apply elem_of_list_to_set, list_elem_of_In.
Qed.

(** C22: The log of a batch.  When every answer arrives once, the records of
    the batch are the records of its tasks in the order in which the
    answers arrive: another order of arrival permutes the log and changes
    nothing else.  A task whose URL was in the cache logs nothing; the
    tasks that return nothing are those with a record and those that are
    silent. *)
Theorem gather_log_arrival (c0 : gmap string string) (urls : list string)
    (order order' : list nat) :
  NoDup order -> Permutation order order' ->
  gather_log net why c0 urls order = flat_map (own_log net why c0 urls) order /\
  Permutation (gather_log net why c0 urls order) (gather_log net why c0 urls order') /\
  length (gather_log net why c0 urls order)
  + length (filter (silent_task net c0 urls) order)
  = length (filter (failed_task net c0 urls) order) /\
  (forall i u, urls !! i = Some u -> In i order ->
     (failed_task net c0 urls i = true
      <-> snd (gather net c0 urls order) !! i = Some None)).
Proof.
  intros Hnd Hp. split; [now apply gather_log_eq|]. split; [|split].
  - rewrite !gather_log_eq by eauto using Permutation_NoDup.
    now apply Permutation_flat_map.
  - now apply gather_log_count.
  - intros i u Eu Hi. rewrite (gather_result c0 urls order i u Eu Hi).
    unfold failed_task. rewrite Eu.
    destruct (answer net c0 i u); simpl; split; congruence.
Qed.

(** C17: The log of a run accounts for what the run lost.  The records
    that report a problem are the warnings of the parser, one for each
    rejected line in the order of the input, with the position of the line
    and its first hundred characters, followed by the records of the batch
    in the order of arrival; the warnings are the skipped lines [process]
    returns, so their number and the number of entries of the dataset add
    up to the number of lines; and the records and the silent fetches add
    up to the rejected lines and the fetches that gave nothing. *)
Theorem process_log_accounts (order : list nat) (now output_dir : string)
    (lines : list string) :
  NoDup order ->
  let log := process_log net why order output_dir lines in
  let skipped := filter rejected (enumerate 1 lines) in
  filter is_problem log
  = map parse_warning (map warning_of skipped)
    ++ flat_map (own_log net why ∅ (batch_urls lines)) order /\
  warnings (process net order now lines) = map warning_of skipped /\
  length skipped + length (entries (data (process net order now lines))) = length lines /\
  length (filter is_problem log)
  + length (filter (silent_task net ∅ (batch_urls lines)) order)
  = length skipped + length (filter (failed_task net ∅ (batch_urls lines)) order).
Proof.
  intros Hnd log skipped.
  assert (warnings (process net order now lines) = map warning_of skipped) as Hw
    by (rewrite process_unfold; apply parse_lines_skipped).
  split; [now apply process_log_problems|]. split; [exact Hw|]. split.
  - pose proof (process_accounts net order now lines) as Ha.
    rewrite Hw, length_map in Ha. lia.
  - unfold log. rewrite process_log_problems by exact Hnd.
    rewrite length_app, !length_map, <- Nat.add_assoc. f_equal.
    apply flat_map_count, own_log_count.
Qed.

End LogTheorems.

(** C38: What each entry point shows.  [process_diary.py] run as a script and
    a caller of [master_pipeline] show every record, the first without and
    the second with the name of the logger.  The two generators do not
    configure the log: run as scripts, [html_generator.py] shows nothing of
    what it logs, and [summary_generator.py] shows only the records of the
    failed calls of the service, as bare messages, and nothing without
    [--use-claude]. *)
Theorem entry_point_shows :
  (forall log, emitted (Script process_diary) log = log) /\
  (forall log, emitted (Imported master_pipeline) log = log) /\
  (forall t x, format_record (Script process_diary) t x
               = (t ++ " - " ++ levelname (rec_level x) ++ " - " ++ rec_message x)%string) /\
  (forall t x, format_record (Imported master_pipeline) t x
               = (t ++ " - " ++ import_name (rec_module x) ++ " - "
                  ++ levelname (rec_level x) ++ " - " ++ rec_message x)%string) /\
  (forall d, emitted (Script html_generator) (generate_html_files_log d) = []) /\
  (forall use key claude cwhy d es,
     emitted (Script summary_generator) (generate_log use key claude cwhy d es)
     = filter is_problem (generate_log use key claude cwhy d es)) /\
  (forall key claude cwhy d es,
     emitted (Script summary_generator) (generate_log false key claude cwhy d es) = []) /\
  (forall t x, format_record (Script summary_generator) t x = rec_message x).
Proof.
  split; [intros; now apply emitted_all|]. split; [intros; now apply emitted_all|].
  split; [reflexivity|]. split; [reflexivity|]. split; [reflexivity|].
  split; [intros; now apply emitted_problems|]. split; [|reflexivity].
  intros. rewrite emitted_problems by reflexivity. apply generate_log_problems.
Qed.

(** ** Witnesses *)

Definition why_demo (i : nat) : string := "Connection timeout".

Definition post_url (n : string) : string := "https://bsky.app/profile/a/post/" ++ n.

(** An article, a line that is not an entry, and four posts: the first and
    the third are fetched, the request for the second fails, the fourth is
    answered with status 404. *)
Definition log_lines : list string :=
  [ spec_line; "junk";
    render_line "3" (post_url "1") "First post";
    render_line "4" (post_url "2") "Second post";
    render_line "5" (post_url "3") "Third post";
    render_line "6" (post_url "4") "Fourth post" ].

Definition arrival : list nat := [3; 1; 0; 2].

Lemma arrival_NoDup : NoDup arrival.
Proof. repeat (constructor; [simpl; lia|]). constructor. Qed.

Lemma arrival_Permutation : Permutation arrival (seq 0 4).
Proof.
  apply NoDup_Permutation; [apply arrival_NoDup | apply seq_NoDup|].
  intros x. simpl. lia.
Qed.

(** The run logs the skipped line and the failed request, and nothing for
    the post that was answered with 404. *)
Example process_log_demo :
  filter is_problem (process_log net_demo why_demo arrival "output" log_lines)
  = [ log_warning process_diary "Could not parse line 2: junk";
      log_error process_diary
        "Error fetching Bluesky content from https://bsky.app/profile/a/post/2: Connection timeout" ] /\
  map rec_message (process_log net_demo why_demo arrival "output" log_lines)
  = [ "Starting diary processing...";
      "Could not parse line 2: junk";
      "Parsed 5 entries from input file";
      "Tagging entries...";
      "Fetching content for 4 Bluesky posts...";
      "Error fetching Bluesky content from https://bsky.app/profile/a/post/2: Connection timeout";
      "Saved data to output/diary_data.json and output/diary_data.json.gz";
      "Processing complete!" ].
Proof. split; vm_compute; reflexivity. Qed.

Lemma gather_log_arrival_witness :
  gather_log net_demo why_demo ∅ (map post_url ["1"; "2"; "3"; "4"]) arrival
  = flat_map (own_log net_demo why_demo ∅ (map post_url ["1"; "2"; "3"; "4"])) arrival /\
  Permutation
    (gather_log net_demo why_demo ∅ (map post_url ["1"; "2"; "3"; "4"]) arrival)
    (gather_log net_demo why_demo ∅ (map post_url ["1"; "2"; "3"; "4"]) (seq 0 4)) /\
  length (gather_log net_demo why_demo ∅ (map post_url ["1"; "2"; "3"; "4"]) arrival)
  + length (filter (silent_task net_demo ∅ (map post_url ["1"; "2"; "3"; "4"])) arrival)
  = length (filter (failed_task net_demo ∅ (map post_url ["1"; "2"; "3"; "4"])) arrival) /\
  (forall i u, map post_url ["1"; "2"; "3"; "4"] !! i = Some u -> In i arrival ->
     (failed_task net_demo ∅ (map post_url ["1"; "2"; "3"; "4"]) i = true
      <-> snd (gather net_demo ∅ (map post_url ["1"; "2"; "3"; "4"]) arrival) !! i
          = Some None)).
Proof.
  apply (gather_log_arrival net_demo why_demo ∅ (map post_url ["1"; "2"; "3"; "4"])
           arrival (seq 0 4) arrival_NoDup arrival_Permutation).
Defined.

Lemma process_log_accounts_witness :
  let log := process_log net_demo why_demo arrival "output" log_lines in
  let skipped := filter rejected (enumerate 1 log_lines) in
  filter is_problem log
  = map parse_warning (map warning_of skipped)
    ++ flat_map (own_log net_demo why_demo ∅ (batch_urls log_lines)) arrival /\
  warnings (process net_demo arrival "now" log_lines) = map warning_of skipped /\
  length skipped + length (entries (data (process net_demo arrival "now" log_lines)))
  = length log_lines /\
  length (filter is_problem log)
  + length (filter (silent_task net_demo ∅ (batch_urls log_lines)) arrival)
  = length skipped + length (filter (failed_task net_demo ∅ (batch_urls log_lines)) arrival).
Proof.
  apply (process_log_accounts net_demo why_demo arrival "now" "output" log_lines
           arrival_NoDup).
Defined.
