(* ===== verification/Remote.v ===== *)
(** * Remote: the request to the text generator and its answer

    [generate_theme_summary_with_claude] sends one request for a theme: a
    POST to the service with the key in a header and, as the body, a JSON
    document that holds the name of the model, the limit of the answer and
    one message, the prompt.  It reads the text of the summary from the
    JSON body of the answer at [data['content'][0]['text']].  [Summary]
    takes the service as a function from what the prompt carries to an
    answer; this file gives the text of the prompt, the request, and the
    reading of the answer, and builds that function from a service on
    requests.

    - [prompt_text]: the text of the prompt, line by line.
    - [claude_request]: the address, the headers and the body.
    - [answer_text]: [data['content'][0]['text']]; every exception of the
      read ends in the local summary, so the read is an option.  A text
      that is not a string is outside the model.
    - [exchange], [read_answer], [claude_of]: the oracle of [Summary] that a
      service on requests is.

    The service itself is not modelled: it is any function from requests
    to exchanges. *)

From S2P Require Import Prelude.
From S2P Require Import Text.
From S2P Require Import Dict.
From S2P Require Import Taxonomy.
From S2P Require Import EntryParser.
From S2P Require Import Except.
From S2P Require Import Json.
From S2P Require Import Summary.

#[local] Open Scope string_scope.
#[local] Open Scope list_scope.
#[local] Open Scope nat_scope.

(** ** The request *)

(** The lines of the prompt. *)
Definition prompt_lines (p : prompt) : list string :=
    [ "You are creating a summary for a historical archive of the Trump administration's policies.";
      "";
      ("Theme: " ++ prompt_title p)%string;
      ("Description: " ++ prompt_description p)%string;
      "";
      "Based on these news articles about this theme, write 2-3 paragraphs summarizing the key developments and their significance. Be factual, precise, and cite specific examples from the articles. Each paragraph should be 3-4 sentences.";
      "";
      "Articles:";
      join nl (prompt_articles p);
      "";
      "IMPORTANT: ";
      "- Be completely factual and accurate";
      "- Reference specific articles when making claims";
      "- Avoid speculation or editorializing";
      "- Focus on documenting what happened according to the sources";
      "- Write in past tense as this is a historical record" ].

Definition prompt_text (p : prompt) : string := join nl (prompt_lines p).

Record request : Type := mkRequest {
  req_url : string;
  req_headers : dict string;
  req_json : json
}.

(** [session.post(url, headers=..., json=...)]. *)
Definition claude_request (api_key : string) (p : prompt) : request :=
  mkRequest "https://api.anthropic.com/v1/messages"
    [ ("x-api-key", api_key);
      ("anthropic-version", "2023-06-01");
      ("content-type", "application/json") ]
    (JObj [ ("model", JStr "claude-3-haiku-20240307");
            ("max_tokens", JNum 500);
            ("messages",
             JArr [JObj [("role", JStr "user"); ("content", JStr (prompt_text p))]]) ]).

(** ** The answer *)

(** [data['content'][0]['text']]: the member [content] of an object, the
    first item of a list, the member [text] of an object; anything else
    raises. *)
Definition answer_text (data : json) : option string :=
  match subscript "content" data with
  | Returns (JArr (first :: _)) =>
      match subscript "text" first with
      | Returns (JStr text) => Some text
      | _ => None
      end
  | _ => None
  end.

(** What comes back: the request raised, or a status and the body, when the
    body is JSON. *)
Inductive exchange : Type :=
| Refused
| Replied (status : nat) (body : option json).

Definition read_answer (x : exchange) : api_answer :=
  match x with
  | Refused => ApiError
  | Replied status body =>
      ApiAnswer status (match body with Some data => answer_text data | None => None end)
  end.

(** The oracle of [Summary] for a key and a service. *)
Definition claude_of (api_key : string) (service : request -> exchange) (p : prompt)
  : api_answer :=
  read_answer (service (claude_request api_key p)).

(** ** The prompt *)

Lemma prompt_line_occurs (p : prompt) (l : string) :
  In l (prompt_lines p) -> l <in> prompt_text p.
Proof. apply contains_join. Qed.

Lemma prompt_field_occurs (p : prompt) (label x : string) :
  In (label ++ x)%string (prompt_lines p) -> x <in> prompt_text p.
Proof.
  intros Hin%prompt_line_occurs. eapply contains_trans; [|exact Hin].
  apply contains_append_l, contains_refl.
Qed.

(** The prompt names the theme and shows every article it was given. *)
Lemma prompt_text_shows (p : prompt) :
  prompt_title p <in> prompt_text p /\
  prompt_description p <in> prompt_text p /\
  forall a, In a (prompt_articles p) -> a <in> prompt_text p.
Proof.
  split; [|split].
  - apply (prompt_field_occurs p "Theme: "). simpl. auto.
  - apply (prompt_field_occurs p "Description: "). simpl. auto 6.
  - intros a Ha. apply (contains_trans a (join nl (prompt_articles p))).
    + now apply contains_join.
    + apply prompt_line_occurs. simpl. auto 12.
Qed.

(** ** The answer *)

Lemma answer_text_spec (data : json) (text : string) :
  answer_text data = Some text <->
  exists members first rest fields,
    data = JObj members /\ dget "content" members = Some (JArr (JObj fields :: rest)) /\
    first = JObj fields /\ dget "text" fields = Some (JStr text).
Proof.
  unfold answer_text, subscript, or_raise. split.
  - destruct data as [| | | | |members]; try discriminate.
    destruct (dget "content" members) as [[| | | |[|first rest]|]|] eqn:Ec;
      try discriminate.
    destruct first as [| | | | |fields]; try discriminate.
    destruct (dget "text" fields) as [[| | |s| |]|] eqn:Et; try discriminate.
    intros [= <-]. now exists members, (JObj fields), rest, fields.
  - intros (members & first & rest & fields & -> & Hc & -> & Ht).
    now rewrite Hc, Ht.
Qed.

(** What the call returns, by the exchange with the service. *)
Lemma remote_summary (key : string) (service : request -> exchange) (theme : string)
    (info : theme_info) (es : list NewsEntry) :
  dget theme THEME_INFO = Some info -> key <> "" ->
  generate_theme_summary_with_claude (Some key) (claude_of key service) theme es
  = match service (claude_request key
                     (mkPrompt (ti_title info) (ti_description info)
                        (map entry_text_line (firstn 20 es)))) with
    | Replied status (Some data) =>
        if status =? 200
        then match answer_text data with
             | Some text => Some text
             | None => generate_fallback_summary theme es
             end
        else generate_fallback_summary theme es
    | _ => generate_fallback_summary theme es
    end.
Proof.
  intros Hi Hk. unfold generate_theme_summary_with_claude, claude_of, no_key.
  apply String.eqb_neq in Hk as ->. rewrite Hi. cbn [obind].
  destruct (service _) as [|st [data|]]; cbn [read_answer]; try reflexivity.
  now destruct (answer_text data), (st =? 200).
Qed.

(** ** Theorems *)

(** C24: The exchange with the text generator.  With a key, the call for a
    theme sends one request whose body holds the model, the limit of 500
    tokens and the prompt, and whose prompt names the theme and shows the
    title and the URL of each of the first twenty entries; the key is in
    the header [x-api-key] and not in the body.  The call returns the text
    at [content[0].text] of the body when the status is 200 and the body
    has it, and the local summary after every other exchange. *)
Theorem remote_exchange (key : string) (service : request -> exchange) (theme : string)
    (info : theme_info) (es : list NewsEntry) :
  dget theme THEME_INFO = Some info -> key <> "" ->
  let p := mkPrompt (ti_title info) (ti_description info)
             (map entry_text_line (firstn 20 es)) in
  let req := claude_request key p in
  generate_theme_summary_with_claude (Some key) (claude_of key service) theme es
  = match service req with
    | Replied status (Some data) =>
        if status =? 200
        then match answer_text data with
             | Some text => Some text
             | None => generate_fallback_summary theme es
             end
        else generate_fallback_summary theme es
    | _ => generate_fallback_summary theme es
    end /\
  (ti_title info <in> prompt_text p /\ ti_description info <in> prompt_text p /\
   forall e, In e (firstn 20 es) -> entry_text_line e <in> prompt_text p) /\
  (dget "x-api-key" (req_headers req) = Some key /\
   forall key', req_json (claude_request key' p) = req_json req) /\
  (subscript "model" (req_json req) = Returns (JStr "claude-3-haiku-20240307") /\
   subscript "max_tokens" (req_json req) = Returns (JNum 500) /\
   subscript "messages" (req_json req)
   = Returns (JArr [JObj [("role", JStr "user"); ("content", JStr (prompt_text p))]])).
Proof.
  intros Hi Hk p req. split; [now apply remote_summary|]. split; [|now repeat split].
  destruct (prompt_text_shows p) as (Ht & Hd & Ha). repeat split; try assumption.
  intros e He. apply Ha. now apply in_map.
Qed.

(** ** Witness *)

(** A service that answers with a summary. *)
Definition summary_service (r : request) : exchange :=
  Replied 200
    (Some (JObj [ ("id", JStr "msg_1");
                  ("content", JArr [JObj [("type", JStr "text");
                                          ("text", JStr "<p>Science funding was cut.</p>")]]) ])).

Example remote_summary_demo :
  generate_theme_summary_with_claude (Some "k") (claude_of "k" summary_service) "science"
    [nsf_entry; nasa_entry]
  = Some "<p>Science funding was cut.</p>" /\
  generate_theme_summary_with_claude (Some "k")
    (claude_of "k" (fun _ => Replied 200 (Some (JObj [("error", JStr "overloaded")]))))
    "science" [nsf_entry; nasa_entry]
  = generate_fallback_summary "science" [nsf_entry; nasa_entry].
Proof. split; reflexivity. Qed.

Lemma remote_exchange_witness :
  let p := mkPrompt (ti_title science_info) (ti_description science_info)
             (map entry_text_line (firstn 20 [nsf_entry; nasa_entry])) in
  let req := claude_request "k" p in
  generate_theme_summary_with_claude (Some "k") (claude_of "k" summary_service) "science"
    [nsf_entry; nasa_entry]
  = match summary_service req with
    | Replied status (Some data) =>
        if status =? 200
        then match answer_text data with
             | Some text => Some text
             | None => generate_fallback_summary "science" [nsf_entry; nasa_entry]
             end
        else generate_fallback_summary "science" [nsf_entry; nasa_entry]
    | _ => generate_fallback_summary "science" [nsf_entry; nasa_entry]
    end /\
  (ti_title science_info <in> prompt_text p /\
   ti_description science_info <in> prompt_text p /\
   forall e, In e (firstn 20 [nsf_entry; nasa_entry]) ->
             entry_text_line e <in> prompt_text p) /\
  (dget "x-api-key" (req_headers req) = Some "k" /\
   forall key', req_json (claude_request key' p) = req_json req) /\
  (subscript "model" (req_json req) = Returns (JStr "claude-3-haiku-20240307") /\
   subscript "max_tokens" (req_json req) = Returns (JNum 500) /\
   subscript "messages" (req_json req)
   = Returns (JArr [JObj [("role", JStr "user"); ("content", JStr (prompt_text p))]])).
Proof.
  apply (remote_exchange "k" summary_service "science" science_info
           [nsf_entry; nasa_entry]); [reflexivity | discriminate].
Defined.
