(* ===== verification/IndexFilter.v ===== *)
(** * IndexFilter: the filter of the index page

    The script that [generate_index_html] embeds in [index.html] keeps two
    sets of selected names, shows them as tags that carry the class
    [selected], mirrors them in the query of the address, and shows the
    entries that match them.

    A JavaScript [Set] iterates in insertion order, and the address is
    written from that order, so a set is a list without repetition.  The
    document is the part of the DOM the script writes: the tags of the two
    controls, the entries container and the two counts.  The query is the
    list of parameters that [URLSearchParams] reads and writes.

    A handler that dereferences [null] stops where it is; what it did up to
    there stays done.  [Thrown] carries that state.  The handlers are
    modelled for a loaded page: before [loadData] has run there is no tag to
    click, and the four buttons stop at once on the missing data. *)

From S2P Require Import Prelude.
From S2P Require Import Text.
From S2P Require Import Dict.
From S2P Require Import Taxonomy.
From S2P Require Import EntryParser.
From S2P Require Import Classifier.
From S2P Require Import Dataset.

#[local] Open Scope string_scope.
#[local] Open Scope list_scope.
#[local] Open Scope nat_scope.

(** ** Sets of names *)

(** [set.has(x)], [set.add(x)], [set.delete(x)], [new Set(l)]. *)
Definition set_has (x : string) (s : list string) : bool := mem_str x s.

Definition set_add (x : string) (s : list string) : list string :=
  if set_has x s then s else s ++ [x].

Definition set_delete (x : string) (s : list string) : list string :=
  filter (fun y => negb (String.eqb y x)) s.

Definition set_of (l : list string) : list string := uniq l.

(** ** The query of the address *)

(** [params.get(name).split(',').filter(t => t)]. *)
Definition names_of (value : string) : list string :=
  filter (fun t => negb (String.eqb t "")) (split_on "," value).

(** ** The document *)

Inductive tag_type : Type := theme | keyword.

(** A tag of a control: [data-value], the colour, the class [selected]. *)
Record tag : Type := mkTag {
  tag_value : string;
  tag_color : option string;
  tag_selected : bool
}.

(** An element of the entries container. *)
Record entry_el : Type := mkEntryEl {
  el_number : string;
  el_href : string;
  el_title : string;
  el_date : option string;
  el_themes : list (string * string);
  el_keywords : list string
}.

Record index_page : Type := mkIndexPage {
  diaryData : dataset;
  selectedThemes : list string;
  selectedKeywords : list string;
  theme_tags : list tag;
  keyword_tags : list tag;
  location : dict string;
  entries_container : list entry_el;
  visible_count : nat;
  total_count : nat
}.

(** What a handler leaves: it ran to its end, or it stopped on [null]. *)
Inductive result : Type :=
| Ok (p : index_page)
| Thrown (p : index_page).

Definition state_of (r : result) : index_page :=
  match r with
  | Ok p => p
  | Thrown p => p
  end.

Definition selected (ty : tag_type) (p : index_page) : list string :=
  match ty with
  | theme => selectedThemes p
  | keyword => selectedKeywords p
  end.

Definition tags (ty : tag_type) (p : index_page) : list tag :=
  match ty with
  | theme => theme_tags p
  | keyword => keyword_tags p
  end.

Definition names (ty : tag_type) (p : index_page) : list string :=
  match ty with
  | theme => meta_themes (meta (diaryData p))
  | keyword => meta_keywords (meta (diaryData p))
  end.

Definition with_selected (ty : tag_type) (s : list string) (p : index_page) : index_page :=
  match ty with
  | theme =>
      mkIndexPage (diaryData p) s (selectedKeywords p) (theme_tags p) (keyword_tags p)
        (location p) (entries_container p) (visible_count p) (total_count p)
  | keyword =>
      mkIndexPage (diaryData p) (selectedThemes p) s (theme_tags p) (keyword_tags p)
        (location p) (entries_container p) (visible_count p) (total_count p)
  end.

Definition with_tags (ty : tag_type) (ts : list tag) (p : index_page) : index_page :=
  match ty with
  | theme =>
      mkIndexPage (diaryData p) (selectedThemes p) (selectedKeywords p) ts (keyword_tags p)
        (location p) (entries_container p) (visible_count p) (total_count p)
  | keyword =>
      mkIndexPage (diaryData p) (selectedThemes p) (selectedKeywords p) (theme_tags p) ts
        (location p) (entries_container p) (visible_count p) (total_count p)
  end.

(** [themeColors[theme] || '#666']. *)
Definition color_of (t : string) : string :=
  match dget t theme_colors with
  | Some c => if String.eqb c "" then "#666" else c
  | None => "#666"
  end.

Definition createTag (name : string) (color : option string) : tag :=
  mkTag name color true.

(** [document.querySelector] for the tag of a value: the first one. *)
Definition find_tag (value : string) (ts : list tag) : option tag :=
  find (fun t => String.eqb (tag_value t) value) ts.

(** A change of the class list of the tag [querySelector] finds. *)
Fixpoint update_tag (value : string) (f : bool -> bool) (ts : list tag) : list tag :=
  match ts with
  | [] => []
  | t :: ts' =>
      if String.eqb (tag_value t) value
      then mkTag (tag_value t) (tag_color t) (f (tag_selected t)) :: ts'
      else t :: update_tag value f ts'
  end.

(** The loop of [updateFromURL] over the tags of a control. *)
Definition sync_tags (s : list string) (ts : list tag) : list tag :=
  map (fun t => mkTag (tag_value t) (tag_color t) (set_has (tag_value t) s)) ts.

(** ** Rendering *)

Definition createEntryElement (e : NewsEntry) : entry_el :=
  mkEntryEl ("#" ++ str_of_nat (id e)) (url e) (title e)
    (match date e with
     | Some d => if String.eqb d "" then None else Some d
     | None => None
     end)
    (map (fun t => (t, color_of t)) (themes e))
    (keywords e).

(** The test of [renderEntries]. *)
Definition matches (p : index_page) (e : NewsEntry) : bool :=
  let hasSelectedTheme := existsb (fun t => set_has t (selectedThemes p)) (themes e) in
  let hasSelectedKeyword :=
    (length (keywords e) =? 0)
    || existsb (fun k => set_has k (selectedKeywords p)) (keywords e) in
  hasSelectedTheme && hasSelectedKeyword.

Definition renderEntries (p : index_page) : index_page :=
  let visible := filter (matches p) (entries (diaryData p)) in
  mkIndexPage (diaryData p) (selectedThemes p) (selectedKeywords p)
    (theme_tags p) (keyword_tags p) (location p)
    (map createEntryElement visible) (length visible)
    (length (entries (diaryData p))).

(** ** The address *)

Definition params_of (p : index_page) : dict string :=
  let params := [] in
  let params :=
    if length (selectedThemes p) =? length (names theme p) then params
    else dset "themes" (join "," (selectedThemes p)) params in
  if length (selectedKeywords p) =? length (names keyword p) then params
  else dset "keywords" (join "," (selectedKeywords p)) params.

Definition updateURL (p : index_page) : index_page :=
  mkIndexPage (diaryData p) (selectedThemes p) (selectedKeywords p)
    (theme_tags p) (keyword_tags p) (params_of p)
    (entries_container p) (visible_count p) (total_count p).

Definition update_from (ty : tag_type) (param : string) (p : index_page) : index_page :=
  match dget param (location p) with
  | Some value =>
      let s := set_of (names_of value) in
      with_tags ty (sync_tags s (tags ty p)) (with_selected ty s p)
  | None => p
  end.

Definition updateFromURL (p : index_page) : index_page :=
  update_from keyword "keywords" (update_from theme "themes" p).

(** ** Loading *)

Definition initializeControls (d : dataset) (query : dict string) : index_page :=
  updateFromURL
    (mkIndexPage d
       (fold_left (fun s t => set_add t s) (meta_themes (meta d)) [])
       (fold_left (fun s k => set_add k s) (meta_keywords (meta d)) [])
       (map (fun t => createTag t (Some (color_of t))) (meta_themes (meta d)))
       (map (fun k => createTag k None) (meta_keywords (meta d)))
       query [] 0 0).

(** The answer to a [fetch]: it fails, or it is a response that is [ok] or
    not and whose body is the dataset or cannot be read as one. *)
Inductive fetched : Type :=
| FetchError
| Response (ok : bool) (body : option dataset).

(** [loadData]: the page, or the error message. *)
Definition loadData (gz plain : fetched) (query : dict string) : option index_page :=
  match gz with
  | FetchError => None
  | Response ok body =>
      let response := if ok then Response ok body else plain in
      match response with
      | Response _ (Some d) => Some (renderEntries (initializeControls d query))
      | _ => None
      end
  end.

(** ** The handlers *)

Definition toggleTag (value : string) (ty : tag_type) (p : index_page) : result :=
  let set := selected ty p in
  let p := with_selected ty
             (if set_has value set then set_delete value set else set_add value set) p in
  match find_tag value (tags ty p) with
  | None => Thrown p
  | Some _ =>
      Ok (renderEntries (updateURL (with_tags ty (update_tag value negb (tags ty p)) p)))
  end.

(** One turn of the loop of [selectAllThemes] and [selectAllKeywords]. *)
Definition select_one (ty : tag_type) (r : result) (name : string) : result :=
  match r with
  | Thrown p => Thrown p
  | Ok p =>
      let p := with_selected ty (set_add name (selected ty p)) p in
      match find_tag name (tags ty p) with
      | None => Thrown p
      | Some _ => Ok (with_tags ty (update_tag name (fun _ => true) (tags ty p)) p)
      end
  end.

Definition selectAll (ty : tag_type) (p : index_page) : result :=
  match fold_left (select_one ty) (names ty p) (Ok p) with
  | Ok p => Ok (renderEntries (updateURL p))
  | Thrown p => Thrown p
  end.

Definition deselectAll (ty : tag_type) (p : index_page) : result :=
  let p := with_selected ty [] p in
  let p := with_tags ty
             (map (fun t => mkTag (tag_value t) (tag_color t) false) (tags ty p)) p in
  Ok (renderEntries (updateURL p)).

Definition selectAllThemes : index_page -> result := selectAll theme.
Definition deselectAllThemes : index_page -> result := deselectAll theme.
Definition selectAllKeywords : index_page -> result := selectAll keyword.
Definition deselectAllKeywords : index_page -> result := deselectAll keyword.

(** ** Events *)

Inductive event : Type :=
| ClickTag (ty : tag_type) (value : string)
| ClickSelectAll (ty : tag_type)
| ClickDeselectAll (ty : tag_type).

Definition handle (ev : event) (p : index_page) : result :=
  match ev with
  | ClickTag ty value => toggleTag value ty p
  | ClickSelectAll ty => selectAll ty p
  | ClickDeselectAll ty => deselectAll ty p
  end.

(** The tags one can click: those of the controls and those of the entries
    shown. *)
Definition clickable (p : index_page) (ev : event) : Prop :=
  match ev with
  | ClickTag theme v =>
      In v (map tag_value (theme_tags p)) \/
      exists el, In el (entries_container p) /\ In v (map fst (el_themes el))
  | ClickTag keyword v =>
      In v (map tag_value (keyword_tags p)) \/
      exists el, In el (entries_container p) /\ In v (el_keywords el)
  | _ => True
  end.

(** The pages a visitor can reach from a loaded page. *)
Inductive reachable (p0 : index_page) : index_page -> Prop :=
| reach_load : reachable p0 p0
| reach_step (p : index_page) (ev : event) :
    reachable p0 p -> clickable p ev -> reachable p0 (state_of (handle ev p)).

(** ** Facts on sets *)

Lemma set_has_In (x : string) (s : list string) : set_has x s = true <-> In x s.
Proof. apply mem_str_In. Qed.

Lemma set_has_iff (x : string) (s s' : list string) :
  (In x s <-> In x s') -> set_has x s = set_has x s'.
Proof.
  intros H. destruct (set_has x s') eqn:E.
  - apply set_has_In, H, set_has_In, E.
  - apply mem_str_false. apply mem_str_false in E. now rewrite H.
Qed.

Lemma set_add_In (x y : string) (s : list string) :
  In y (set_add x s) <-> y = x \/ In y s.
Proof.
  unfold set_add. destruct (set_has x s) eqn:E.
  - apply set_has_In in E. split; [auto | now intros [->|]].
  - rewrite in_app_iff. simpl. intuition.
Qed.

Lemma set_add_NoDup (x : string) (s : list string) : NoDup s -> NoDup (set_add x s).
Proof.
  intros Hs. unfold set_add. destruct (set_has x s) eqn:E; [exact Hs|].
  apply mem_str_false in E. apply NoDup_app; [exact Hs | repeat constructor; easy |].
  intros y Hy [<-|[]]. contradiction.
Qed.

Lemma set_delete_In (x y : string) (s : list string) :
  In y (set_delete x s) <-> y <> x /\ In y s.
Proof.
  unfold set_delete. rewrite filter_In, Bool.negb_true_iff, String.eqb_neq. tauto.
Qed.

Lemma set_delete_NoDup (x : string) (s : list string) :
  NoDup s -> NoDup (set_delete x s).
Proof. apply NoDup_filter. Qed.

(** One click on a name: in or out. *)
Definition flip (x : string) (s : list string) : list string :=
  if set_has x s then set_delete x s else set_add x s.

Lemma flip_NoDup (x : string) (s : list string) : NoDup s -> NoDup (flip x s).
Proof.
  unfold flip. destruct (set_has x s); [apply set_delete_NoDup | apply set_add_NoDup].
Qed.

Lemma set_has_flip (x y : string) (s : list string) :
  set_has y (flip x s)
  = if String.eqb y x then negb (set_has x s) else set_has y s.
Proof.
  unfold flip. destruct (String.eqb_spec y x) as [->|Hne].
  - destruct (set_has x s) eqn:E; simpl.
    + apply mem_str_false. rewrite set_delete_In. tauto.
    + apply set_has_In, set_add_In. now left.
  - destruct (set_has x s) eqn:E; apply set_has_iff.
    + rewrite set_delete_In. tauto.
    + rewrite set_add_In. tauto.
Qed.

Lemma set_has_add (x y : string) (s : list string) :
  set_has y (set_add x s) = String.eqb y x || set_has y s.
Proof.
  destruct (String.eqb_spec y x) as [->|Hne]; simpl.
  - apply set_has_In, set_add_In. now left.
  - apply set_has_iff. rewrite set_add_In. tauto.
Qed.

Lemma fold_set_add_In (ns s : list string) (x : string) :
  In x (fold_left (fun s n => set_add n s) ns s) <-> In x ns \/ In x s.
Proof.
  revert s; induction ns as [|n ns IH]; intros s; simpl; [tauto|].
  rewrite IH, set_add_In. intuition.
Qed.

(** Adding the names of a list without repetition to the empty set gives
    the list. *)
Lemma fold_set_add_fresh (ns s : list string) :
  NoDup (s ++ ns) -> fold_left (fun s n => set_add n s) ns s = s ++ ns.
Proof.
  revert s; induction ns as [|n ns IH]; intros s Hnd; simpl.
  - now rewrite app_nil_r.
  - assert (set_has n s = false) as Hn.
    { apply mem_str_false. intros Hin. apply NoDup_remove_2 in Hnd.
      apply Hnd, in_or_app. now left. }
    unfold set_add at 2. rewrite Hn, IH; rewrite <- app_assoc; [reflexivity | exact Hnd].
Qed.

(** ** Facts on tags *)

Definition tags_in_sync (s : list string) (ts : list tag) : Prop :=
  Forall (fun t => tag_selected t = set_has (tag_value t) s) ts.

Lemma update_tag_values (v : string) (f : bool -> bool) (ts : list tag) :
  map tag_value (update_tag v f ts) = map tag_value ts.
Proof.
  induction ts as [|t ts IH]; simpl; [reflexivity|].
  destruct (String.eqb (tag_value t) v); simpl; [reflexivity | now rewrite IH].
Qed.

Lemma find_tag_None (v : string) (ts : list tag) :
  find_tag v ts = None <-> ~ In v (map tag_value ts).
Proof.
  unfold find_tag. induction ts as [|t ts IH]; simpl; [tauto|].
  destruct (String.eqb_spec (tag_value t) v) as [E|Hne].
  - split; [discriminate | tauto].
  - rewrite IH. tauto.
Qed.

Lemma find_tag_In (v : string) (ts : list tag) :
  In v (map tag_value ts) -> find_tag v ts <> None.
Proof. intros Hin Hn. now apply find_tag_None in Hn. Qed.

(** A change of the set at [v] and the same change of the class of the tag
    of [v] keep the tags in step with the set. *)
Lemma update_tag_sync (v : string) (f : bool -> bool) (s s' : list string)
    (ts : list tag) :
  NoDup (map tag_value ts) -> tags_in_sync s ts ->
  set_has v s' = f (set_has v s) ->
  (forall y, y <> v -> set_has y s' = set_has y s) ->
  tags_in_sync s' (update_tag v f ts).
Proof.
  intros Hnd Hs Hv Hy. induction Hs as [|t ts Ht Hs IH]; simpl; [constructor|].
  apply NoDup_cons_iff in Hnd as [Hnin Hnd].
  destruct (String.eqb_spec (tag_value t) v) as [E|Hne].
  - constructor; [simpl; now rewrite E, Hv, <- E, Ht|].
    apply Forall_forall. intros t' Hin. rewrite Forall_forall in Hs.
    rewrite (Hs t' Hin). symmetry. apply Hy. intros E'. apply Hnin.
    rewrite E, <- E'. now apply in_map.
  - constructor; [rewrite Ht; symmetry; now apply Hy | now apply IH].
Qed.

Lemma sync_tags_values (s : list string) (ts : list tag) :
  map tag_value (sync_tags s ts) = map tag_value ts.
Proof. unfold sync_tags. rewrite map_map. reflexivity. Qed.

Lemma sync_tags_sync (s : list string) (ts : list tag) :
  tags_in_sync s (sync_tags s ts).
Proof. apply Forall_map, Forall_forall. reflexivity. Qed.

(** ** The invariant of the page *)

(** What the script needs of the dataset: the two lists of names have no
    repetition, and the entries carry names of these lists. *)
Definition data_ok (d : dataset) : Prop :=
  NoDup (meta_themes (meta d)) /\ NoDup (meta_keywords (meta d)) /\
  Forall (fun e => incl (themes e) (meta_themes (meta d)) /\
                   incl (keywords e) (meta_keywords (meta d))) (entries d).

(** The control of a type: one tag per name, a set without repetition, the
    class [selected] on the tags of the set. *)
Definition control_ok (ty : tag_type) (p : index_page) : Prop :=
  map tag_value (tags ty p) = names ty p /\
  NoDup (selected ty p) /\
  tags_in_sync (selected ty p) (tags ty p).

(** The entries container and the counts show the entries that match. *)
Definition rendered (p : index_page) : Prop :=
  entries_container p
  = map createEntryElement (filter (matches p) (entries (diaryData p))) /\
  visible_count p = length (entries_container p) /\
  total_count p = length (entries (diaryData p)).

Definition page_ok (p : index_page) : Prop :=
  data_ok (diaryData p) /\ control_ok theme p /\ control_ok keyword p /\ rendered p.

Definition other (ty : tag_type) : tag_type :=
  match ty with
  | theme => keyword
  | keyword => theme
  end.

(** The control of the other type, which an update of [ty] leaves alone. *)
Definition same_control (ty : tag_type) (p p' : index_page) : Prop :=
  diaryData p' = diaryData p /\ selected ty p' = selected ty p /\
  tags ty p' = tags ty p.

Lemma same_control_ok (ty : tag_type) (p p' : index_page) :
  same_control ty p p' -> control_ok ty p -> control_ok ty p'.
Proof.
  unfold control_ok, names. intros (Hd & Hs & Ht). rewrite Hs, Ht.
  destruct ty; now rewrite Hd.
Qed.

Lemma renderEntries_rendered (p : index_page) : rendered (renderEntries p).
Proof.
  unfold rendered, renderEntries. simpl. rewrite length_map. repeat split.
Qed.

(** The end of every handler: the address and the entries are written from
    the sets. *)
Lemma finish_ok (p : index_page) :
  data_ok (diaryData p) -> control_ok theme p -> control_ok keyword p ->
  page_ok (renderEntries (updateURL p)) /\
  location (renderEntries (updateURL p)) = params_of (renderEntries (updateURL p)).
Proof.
  intros Hd Ht Hk. split; [|reflexivity]. split; [exact Hd|].
  split; [now apply (same_control_ok theme p)|].
  split; [now apply (same_control_ok keyword p) | apply renderEntries_rendered].
Qed.

(** ** The handlers keep the invariant *)

Lemma control_names (ty : tag_type) (p : index_page) (v : string) :
  control_ok ty p -> In v (names ty p) -> In v (map tag_value (tags ty p)).
Proof. intros (Hv & _) Hin. now rewrite Hv. Qed.

Lemma control_values_NoDup (ty : tag_type) (p : index_page) :
  data_ok (diaryData p) -> control_ok ty p -> NoDup (map tag_value (tags ty p)).
Proof. intros (H1 & H2 & _) (Hv & _). rewrite Hv. now destruct ty. Qed.

(** The control of [ty] after a change of the set at [v] and of the tag
    of [v]. *)
Lemma control_update (ty : tag_type) (p : index_page) (v : string)
    (f : bool -> bool) (s' : list string) :
  data_ok (diaryData p) -> control_ok ty p -> NoDup s' ->
  set_has v s' = f (set_has v (selected ty p)) ->
  (forall y, y <> v -> set_has y s' = set_has y (selected ty p)) ->
  control_ok ty (with_tags ty (update_tag v f (tags ty p)) (with_selected ty s' p)).
Proof.
  intros Hd Hc Hs' Hv Hy. pose proof (control_values_NoDup ty p Hd Hc) as Hnd.
  destruct Hc as (Hval & _ & Hsync).
  assert (tags_in_sync s' (update_tag v f (tags ty p))) as Hsync'
    by now apply (update_tag_sync v f (selected ty p)).
  destruct ty; (split; [|split]); simpl; try assumption;
    now rewrite update_tag_values.
Qed.

Lemma control_other (ty : tag_type) (p : index_page) (ts : list tag) (s : list string) :
  same_control (other ty) p (with_tags ty ts (with_selected ty s p)).
Proof. now destruct ty. Qed.

Lemma names_data (ty : tag_type) (p p' : index_page) :
  diaryData p' = diaryData p -> names ty p' = names ty p.
Proof. unfold names. now intros ->. Qed.

Lemma controls_of (ty : tag_type) (p : index_page) :
  control_ok ty p -> control_ok (other ty) p ->
  control_ok theme p /\ control_ok keyword p.
Proof. destruct ty; simpl; tauto. Qed.

Lemma controls_to (ty : tag_type) (p : index_page) :
  control_ok theme p -> control_ok keyword p ->
  control_ok ty p /\ control_ok (other ty) p.
Proof. destruct ty; simpl; tauto. Qed.

(** A handler that changed the control of [ty] and ends as every handler
    does. *)
Lemma finish_control (ty : tag_type) (p p1 : index_page) :
  data_ok (diaryData p) -> diaryData p1 = diaryData p ->
  control_ok ty p1 -> control_ok (other ty) p1 ->
  let p' := renderEntries (updateURL p1) in
  page_ok p' /\ location p' = params_of p' /\
  selected ty p' = selected ty p1 /\
  selected (other ty) p' = selected (other ty) p1 /\
  diaryData p' = diaryData p.
Proof.
  intros Hd Hd1 Hc Ho p'. destruct (controls_of ty p1 Hc Ho) as [Ht Hk].
  destruct (finish_ok p1) as [Hok Hloc]; [now rewrite Hd1 | exact Ht | exact Hk |].
  subst p'. split; [exact Hok|]. split; [exact Hloc|].
  split; [now destruct ty|]. split; [now destruct ty | exact Hd1].
Qed.

Lemma toggleTag_ok (v : string) (ty : tag_type) (p : index_page) :
  page_ok p -> In v (names ty p) ->
  exists p', toggleTag v ty p = Ok p' /\ page_ok p' /\
             location p' = params_of p' /\
             selected ty p' = flip v (selected ty p) /\
             selected (other ty) p' = selected (other ty) p /\
             diaryData p' = diaryData p.
Proof.
  intros (Hd & Ht & Hk & _) Hin. unfold toggleTag. fold (flip v (selected ty p)).
  destruct (controls_to ty p Ht Hk) as [Hc Ho].
  assert (tags ty (with_selected ty (flip v (selected ty p)) p) = tags ty p) as ->
    by now destruct ty.
  destruct (find_tag v (tags ty p)) eqn:Ef;
    [|now apply find_tag_In in Ef; [|apply control_names]].
  eexists. split; [reflexivity|].
  set (p1 := with_tags ty _ _).
  assert (control_ok ty p1) as Hc1.
  { apply control_update; try assumption; [now apply flip_NoDup; apply Hc | |].
    - now rewrite set_has_flip, String.eqb_refl.
    - intros y Hy. rewrite set_has_flip. now apply String.eqb_neq in Hy as ->. }
  assert (same_control (other ty) p p1) as Hs1 by apply control_other.
  assert (control_ok (other ty) p1) as Ho1 by (eapply same_control_ok; eauto).
  destruct (finish_control ty p p1 Hd (proj1 Hs1) Hc1 Ho1) as (H1 & H2 & H3 & H4 & H5).
  split; [exact H1|]. split; [exact H2|]. split.
  - rewrite H3. unfold p1. now destruct ty.
  - split; [rewrite H4; apply Hs1 | exact H5].
Qed.

Lemma deselectAll_ok (ty : tag_type) (p : index_page) :
  page_ok p ->
  exists p', deselectAll ty p = Ok p' /\ page_ok p' /\
             location p' = params_of p' /\
             selected ty p' = [] /\
             selected (other ty) p' = selected (other ty) p /\
             diaryData p' = diaryData p.
Proof.
  intros (Hd & Ht & Hk & _). unfold deselectAll. eexists. split; [reflexivity|].
  destruct (controls_to ty p Ht Hk) as [Hc Ho].
  set (p1 := with_tags ty _ _).
  assert (control_ok ty p1) as Hc1.
  { destruct Hc as (Hv & _).
    destruct ty; (split; [|split]); simpl; try constructor;
      try (now rewrite map_map);
      apply Forall_map, Forall_forall; reflexivity. }
  assert (same_control (other ty) p p1) as Hs1 by apply control_other.
  assert (control_ok (other ty) p1) as Ho1 by (eapply same_control_ok; eauto).
  destruct (finish_control ty p p1 Hd (proj1 Hs1) Hc1 Ho1) as (H1 & H2 & H3 & H4 & H5).
  split; [exact H1|]. split; [exact H2|]. split.
  - rewrite H3. unfold p1. now destruct ty.
  - split; [rewrite H4; apply Hs1 | exact H5].
Qed.

(** The loop of [selectAll]: it does not stop early, adds the names to the
    set and selects their tags. *)
Lemma select_fold (ty : tag_type) (ns : list string) (p : index_page) :
  data_ok (diaryData p) -> control_ok ty p -> incl ns (names ty p) ->
  exists p', fold_left (select_one ty) ns (Ok p) = Ok p' /\
             control_ok ty p' /\ same_control (other ty) p p' /\
             selected ty p'
             = fold_left (fun s n => set_add n s) ns (selected ty p).
Proof.
  revert p; induction ns as [|n ns IH]; intros p Hd Hc Hns.
  - exists p. split; [reflexivity|]. split; [exact Hc|].
    split; [repeat split | reflexivity].
  - cbn [fold_left]. unfold select_one at 2.
    assert (tags ty (with_selected ty (set_add n (selected ty p)) p) = tags ty p) as ->
      by now destruct ty.
    destruct (find_tag n (tags ty p)) eqn:Ef.
    2:{ apply find_tag_In in Ef; [easy|]. apply control_names; [exact Hc|].
        apply Hns. now left. }
    set (p1 := with_tags ty _ _).
    assert (control_ok ty p1) as Hc1.
    { apply control_update; try assumption.
      - now apply set_add_NoDup; apply Hc.
      - now rewrite set_has_add, String.eqb_refl.
      - intros y Hy. rewrite set_has_add. now apply String.eqb_neq in Hy as ->. }
    assert (same_control (other ty) p p1) as Hs1 by apply control_other.
    assert (diaryData p1 = diaryData p) as Hd1 by apply Hs1.
    destruct (IH p1) as (p' & Hf & Hc' & (Hd' & Hs' & Ht') & Hsel).
    + now rewrite Hd1.
    + exact Hc1.
    + intros x Hx. rewrite (names_data ty p p1 Hd1). apply Hns. now right.
    + exists p'. split; [exact Hf|]. split; [exact Hc'|]. split.
      * destruct Hs1 as (_ & Hs1 & Ht1). repeat split; congruence.
      * rewrite Hsel. now destruct ty.
Qed.

Lemma selectAll_ok (ty : tag_type) (p : index_page) :
  page_ok p ->
  exists p', selectAll ty p = Ok p' /\ page_ok p' /\
             location p' = params_of p' /\
             (forall x, In x (selected ty p') <-> In x (names ty p) \/ In x (selected ty p)) /\
             selected (other ty) p' = selected (other ty) p /\
             diaryData p' = diaryData p.
Proof.
  intros (Hd & Ht & Hk & _). unfold selectAll.
  destruct (controls_to ty p Ht Hk) as [Hc Ho].
  destruct (select_fold ty (names ty p) p Hd Hc (incl_refl _))
    as (p1 & -> & Hc1 & Hs1 & Hsel).
  eexists. split; [reflexivity|].
  assert (control_ok (other ty) p1) as Ho1 by (eapply same_control_ok; eauto).
  destruct (finish_control ty p p1 Hd (proj1 Hs1) Hc1 Ho1) as (H1 & H2 & H3 & H4 & H5).
  split; [exact H1|]. split; [exact H2|]. split.
  - intros x. rewrite H3, Hsel. apply fold_set_add_In.
  - split; [rewrite H4; apply Hs1 | exact H5].
Qed.

(** ** Loading establishes the invariant *)

Lemma render_ok (p : index_page) :
  data_ok (diaryData p) -> control_ok theme p -> control_ok keyword p ->
  page_ok (renderEntries p).
Proof.
  intros Hd Ht Hk. split; [exact Hd|].
  split; [exact Ht|]. split; [exact Hk | apply renderEntries_rendered].
Qed.

Lemma update_from_control (ty ty' : tag_type) (param : string) (p : index_page) :
  control_ok ty' p -> control_ok ty' (update_from ty param p).
Proof.
  intros Hc. unfold update_from. destruct (dget param (location p)) as [value|]; [|exact Hc].
  destruct Hc as (Hv & Hn & Hs).
  destruct ty, ty'; (split; [|split]); simpl; try assumption;
    try apply uniq_NoDup; try apply sync_tags_sync; now rewrite sync_tags_values.
Qed.

Lemma update_from_data (ty : tag_type) (param : string) (p : index_page) :
  diaryData (update_from ty param p) = diaryData p /\
  location (update_from ty param p) = location p.
Proof.
  unfold update_from. destruct (dget param (location p)); [|easy]. now destruct ty.
Qed.

Lemma all_selected_sync (ns : list string) (color : string -> option string) :
  tags_in_sync ns (map (fun n => createTag n (color n)) ns).
Proof.
  apply Forall_map, Forall_forall. intros n Hn. simpl.
  symmetry. now apply set_has_In.
Qed.

Lemma initializeControls_data (d : dataset) (query : dict string) :
  diaryData (initializeControls d query) = d.
Proof.
  unfold initializeControls, updateFromURL.
  now rewrite (proj1 (update_from_data _ _ _)), (proj1 (update_from_data _ _ _)).
Qed.

Lemma initializeControls_ok (d : dataset) (query : dict string) :
  data_ok d ->
  let p := initializeControls d query in
  diaryData p = d /\ control_ok theme p /\ control_ok keyword p.
Proof.
  intros (Ht & Hk & He) p. subst p. unfold initializeControls, updateFromURL.
  set (p0 := mkIndexPage _ _ _ _ _ _ _ _ _).
  assert (control_ok theme p0 /\ control_ok keyword p0) as [Ht0 Hk0].
  { unfold control_ok, p0. simpl. rewrite !map_map. simpl. rewrite !map_id.
    rewrite !(fold_set_add_fresh _ []) by assumption. simpl.
    repeat split; try assumption; apply all_selected_sync. }
  split; [apply initializeControls_data|].
  split; now apply update_from_control, update_from_control.
Qed.

Lemma loadData_Some (gz plain : fetched) (query : dict string) (p : index_page) :
  loadData gz plain query = Some p ->
  exists d, p = renderEntries (initializeControls d query).
Proof.
  unfold loadData. destruct gz as [|ok body]; [discriminate|].
  destruct ok; [destruct body as [d|] | destruct plain as [|ok' [d|]]];
    try discriminate; intros [= <-]; eauto.
Qed.

Lemma loadData_ok (gz plain : fetched) (query : dict string) (p : index_page) :
  loadData gz plain query = Some p -> data_ok (diaryData p) -> page_ok p.
Proof.
  intros (d & ->)%loadData_Some Hd.
  change (data_ok (diaryData (initializeControls d query))) in Hd.
  apply render_ok; [exact Hd | |];
    rewrite initializeControls_data in Hd; now apply initializeControls_ok.
Qed.

(** ** Every click runs to its end *)

Lemma rendered_entry (p : index_page) (el : entry_el) :
  rendered p -> In el (entries_container p) ->
  exists e, In e (entries (diaryData p)) /\ el = createEntryElement e.
Proof.
  intros (Hc & _) Hin. rewrite Hc in Hin.
  apply in_map_iff in Hin as (e & <- & [He _]%filter_In). eauto.
Qed.

Lemma createEntryElement_themes (e : NewsEntry) :
  map fst (el_themes (createEntryElement e)) = themes e.
Proof. simpl. rewrite map_map. apply map_id. Qed.

Lemma clickable_name (p : index_page) (ty : tag_type) (v : string) :
  page_ok p -> clickable p (ClickTag ty v) -> In v (names ty p).
Proof.
  intros ((_ & _ & Hd) & (Et & _) & (Ek & _) & Hr) Hc.
  rewrite Forall_forall in Hd.
  destruct ty; simpl in Hc; destruct Hc as [Hc | (el & Hel & Hv)].
  - now rewrite <- Et.
  - destruct (rendered_entry p el Hr Hel) as (e & He & ->).
    rewrite createEntryElement_themes in Hv. now apply (proj1 (Hd e He)).
  - now rewrite <- Ek.
  - destruct (rendered_entry p el Hr Hel) as (e & He & ->).
    now apply (proj2 (Hd e He)).
Qed.

Lemma handle_ok (ev : event) (p : index_page) :
  page_ok p -> clickable p ev ->
  exists p', handle ev p = Ok p' /\ page_ok p' /\ location p' = params_of p' /\
             diaryData p' = diaryData p.
Proof.
  intros Hp Hc. destruct ev as [ty v|ty|ty]; cbn [handle].
  - destruct (toggleTag_ok v ty p Hp (clickable_name p ty v Hp Hc))
      as (p' & ? & ? & ? & _ & _ & ?). eauto.
  - destruct (selectAll_ok ty p Hp) as (p' & ? & ? & ? & _ & _ & ?). eauto.
  - destruct (deselectAll_ok ty p Hp) as (p' & ? & ? & ? & _ & _ & ?). eauto.
Qed.

Lemma reachable_page_ok (p0 p : index_page) :
  page_ok p0 -> reachable p0 p -> page_ok p.
Proof.
  intros H0. induction 1 as [|p ev _ IH Hc]; [exact H0|].
  destruct (handle_ok ev p IH Hc) as (p' & -> & Hp' & _). exact Hp'.
Qed.

(** C11: on a page loaded from a dataset whose names have no repetition and
    whose entries carry names of the dataset, whatever the visitor clicks,
    in any order: each control has one tag per name, the tags that carry the
    class [selected] are those of the set, the entries shown and the two
    counts are those of the entries that match the sets, no handler stops on
    a missing tag, and after a click the address is the one written from
    the sets. *)
Theorem reachable_ok (gz plain : fetched) (query : dict string) (p0 p : index_page) :
  loadData gz plain query = Some p0 -> data_ok (diaryData p0) ->
  reachable p0 p ->
  page_ok p /\
  forall ev, clickable p ev ->
    exists p', handle ev p = Ok p' /\ page_ok p' /\ location p' = params_of p'.
Proof.
  intros Hl Hd Hr.
  assert (page_ok p) as Hp by (eapply reachable_page_ok; eauto using loadData_ok).
  split; [exact Hp|]. intros ev Hc.
  destruct (handle_ok ev p Hp Hc) as (p' & ? & ? & ? & _). eauto.
Qed.

(** ** What the page shows *)

Lemma matches_no_theme (p : index_page) (e : NewsEntry) :
  themes e = [] -> matches p e = false.
Proof. unfold matches. now intros ->. Qed.

Lemma existsb_all (s l : list string) :
  incl l s -> existsb (fun x => set_has x s) l = negb (length l =? 0).
Proof.
  destruct l as [|x l]; [reflexivity|]. intros Hl. simpl.
  replace (set_has x s) with true; [reflexivity|].
  symmetry. apply set_has_In, Hl. now left.
Qed.

(** With every name of the entry selected, the entry is shown when it has a
    theme. *)
Lemma matches_all (p : index_page) (e : NewsEntry) :
  incl (themes e) (selectedThemes p) -> incl (keywords e) (selectedKeywords p) ->
  matches p e = negb (length (themes e) =? 0).
Proof.
  intros Ht Hk. unfold matches. rewrite !existsb_all by assumption.
  destruct (length (keywords e) =? 0); simpl; now rewrite andb_true_r.
Qed.

Lemma matches_ext (p p' : index_page) (e : NewsEntry) :
  (forall ty x, set_has x (selected ty p') = set_has x (selected ty p)) ->
  matches p' e = matches p e.
Proof.
  intros H. unfold matches. f_equal; [|f_equal]; apply existsb_ext; intros x.
  - apply (H theme).
  - apply (H keyword).
Qed.

(** ** The address and the sets *)

Definition param (ty : tag_type) : string :=
  match ty with
  | theme => "themes"
  | keyword => "keywords"
  end.

Definition is_name (n : string) : bool :=
  negb (String.eqb n "") && all_chars (fun c => negb (Ascii.eqb c ",")) n.

(** The names of the dataset can be written in the address: none is empty
    and none has a comma. *)
Definition names_ok (d : dataset) : Prop :=
  Forall (fun n => is_name n = true) (meta_themes (meta d)) /\
  Forall (fun n => is_name n = true) (meta_keywords (meta d)).

Lemma split_on_plain (x : string) :
  all_chars (fun c => negb (Ascii.eqb c ",")) x = true -> split_on "," x = [x].
Proof.
  induction x as [|c x IH]; simpl; [reflexivity|].
  intros [Hc Hx]%andb_prop. apply Bool.negb_true_iff in Hc. rewrite Hc.
  now rewrite IH.
Qed.

Lemma split_on_append (x r : string) :
  all_chars (fun c => negb (Ascii.eqb c ",")) x = true ->
  split_on "," (x ++ String "," r) = x :: split_on "," r.
Proof.
  induction x as [|c x IH]; simpl; [reflexivity|].
  intros [Hc Hx]%andb_prop. apply Bool.negb_true_iff in Hc. rewrite Hc.
  now rewrite IH.
Qed.

(** Reading back what [join] wrote. *)
Lemma names_of_join (l : list string) :
  Forall (fun n => is_name n = true) l -> names_of (join "," l) = l.
Proof.
  unfold names_of. induction 1 as [|x l Hx Hl IH]; [reflexivity|].
  apply andb_prop in Hx as [Hne Hc].
  destruct l as [|y l].
  - cbn [join]. rewrite split_on_plain by assumption. cbn [filter]. now rewrite Hne.
  - rewrite join_cons by discriminate.
    change ("," ++ join "," (y :: l))%string with (String "," (join "," (y :: l))).
    rewrite split_on_append by assumption. cbn [filter]. rewrite Hne.
    f_equal. exact IH.
Qed.

Lemma update_from_selected (ty ty' : tag_type) (prm : string) (p : index_page) :
  selected ty' (update_from ty prm p)
  = match dget prm (location p) with
    | Some value =>
        if match ty, ty' with theme, theme | keyword, keyword => true | _, _ => false end
        then set_of (names_of value) else selected ty' p
    | None => selected ty' p
    end.
Proof.
  unfold update_from. destruct (dget prm (location p)); [|reflexivity].
  now destruct ty, ty'.
Qed.

(** The sets of a freshly loaded page: the names of the address where it has
    the parameter, all the names of the dataset otherwise. *)
Lemma initializeControls_selected (ty : tag_type) (d : dataset) (query : dict string) :
  data_ok d ->
  selected ty (initializeControls d query)
  = match dget (param ty) query with
    | Some value => set_of (names_of value)
    | None => match ty with
              | theme => meta_themes (meta d)
              | keyword => meta_keywords (meta d)
              end
    end.
Proof.
  intros (Ht & Hk & _). unfold initializeControls, updateFromURL.
  rewrite update_from_selected, (proj2 (update_from_data _ _ _)), update_from_selected.
  cbn [location selected selectedThemes selectedKeywords].
  rewrite !(fold_set_add_fresh _ []) by assumption. simpl app.
  destruct ty; simpl param;
    destruct (dget "keywords" query), (dget "themes" query); reflexivity.
Qed.

Lemma params_of_dget (ty : tag_type) (p : index_page) :
  dget (param ty) (params_of p)
  = if length (selected ty p) =? length (names ty p) then None
    else Some (join "," (selected ty p)).
Proof.
  unfold params_of.
  destruct ty; simpl param; simpl selected;
    destruct (length (selectedThemes p) =? length (names theme p));
    destruct (length (selectedKeywords p) =? length (names keyword p));
    reflexivity.
Qed.

(** The page after the address of [p] is loaded again. *)
Definition reload (p : index_page) : index_page :=
  renderEntries (initializeControls (diaryData p) (location p)).

Lemma known_names (ty : tag_type) (p : index_page) :
  names_ok (diaryData p) -> incl (selected ty p) (names ty p) ->
  Forall (fun n => is_name n = true) (selected ty p).
Proof.
  intros [Ht Hk] Hin. apply Forall_forall. intros n Hn. apply Hin in Hn.
  destruct ty; simpl in Hn; [rewrite Forall_forall in Ht | rewrite Forall_forall in Hk];
    auto.
Qed.

Lemma reload_selected (ty : tag_type) (p : index_page) (x : string) :
  data_ok (diaryData p) -> names_ok (diaryData p) ->
  NoDup (selected ty p) -> incl (selected ty p) (names ty p) ->
  location p = params_of p ->
  set_has x (selected ty (reload p)) = set_has x (selected ty p).
Proof.
  intros Hd Hn Hnd Hin Hloc. unfold reload.
  change (selected ty (renderEntries ?q)) with (selected ty q).
  rewrite initializeControls_selected, Hloc, params_of_dget by assumption.
  destruct (Nat.eqb_spec (length (selected ty p)) (length (names ty p))) as [E|_].
  - apply set_has_iff. fold (names ty p). split; [|apply Hin].
    apply NoDup_length_incl; [exact Hnd | lia | exact Hin].
  - rewrite names_of_join by now apply known_names.
    unfold set_of. now rewrite uniq_id.
Qed.

(** ** Selections of known names *)

(** Every selected name is a name of the dataset. *)
Definition known (p : index_page) : Prop :=
  forall ty, incl (selected ty p) (names ty p).

Lemma flip_incl (v : string) (s ns : list string) :
  In v ns -> incl s ns -> incl (flip v s) ns.
Proof.
  intros Hv Hs x. unfold flip. destruct (set_has v s).
  - intros [_ Hx]%set_delete_In. auto.
  - intros [->|Hx]%set_add_In; auto.
Qed.

(** The sets after a handler, for the type [ty'], given those of the type
    [ty] the handler works on and those of the other type. *)
Lemma known_after (ty : tag_type) (p p' : index_page) :
  diaryData p' = diaryData p -> known p ->
  incl (selected ty p') (names ty p) ->
  selected (other ty) p' = selected (other ty) p ->
  known p'.
Proof.
  intros Hd Hk Hty Ho ty'. rewrite (names_data ty' p p' Hd).
  destruct ty, ty'; simpl in *;
    [exact Hty | rewrite Ho; apply (Hk keyword) | rewrite Ho; apply (Hk theme)
    | exact Hty].
Qed.

Lemma handle_known (ev : event) (p : index_page) :
  page_ok p -> clickable p ev -> known p -> known (state_of (handle ev p)).
Proof.
  intros Hp Hc Hk. destruct ev as [ty v|ty|ty]; cbn [handle].
  - destruct (toggleTag_ok v ty p Hp (clickable_name p ty v Hp Hc))
      as (p' & -> & _ & _ & Hs & Ho & Hd).
    apply (known_after ty p p' Hd Hk); [|exact Ho].
    rewrite Hs. apply flip_incl; [now apply clickable_name | apply Hk].
  - destruct (selectAll_ok ty p Hp) as (p' & -> & _ & _ & Hs & Ho & Hd).
    apply (known_after ty p p' Hd Hk); [|exact Ho].
    intros x [Hx|Hx]%Hs; [exact Hx | now apply Hk].
  - destruct (deselectAll_ok ty p Hp) as (p' & -> & _ & _ & Hs & Ho & Hd).
    apply (known_after ty p p' Hd Hk); [|exact Ho].
    rewrite Hs. intros x [].
Qed.

Lemma reachable_known (p0 p : index_page) :
  page_ok p0 -> known p0 -> reachable p0 p -> known p.
Proof.
  intros H0 Hk. induction 1 as [|p ev Hr IH Hc]; [exact Hk|].
  apply handle_known; [eapply reachable_page_ok; eauto | exact Hc | exact IH].
Qed.

Lemma reachable_data (p0 p : index_page) :
  page_ok p0 -> reachable p0 p -> diaryData p = diaryData p0.
Proof.
  intros H0. induction 1 as [|p ev Hr IH Hc]; [reflexivity|].
  destruct (handle_ok ev p (reachable_page_ok p0 p H0 Hr) Hc)
    as (p' & -> & _ & _ & Hd).
  cbn [state_of]. congruence.
Qed.

(** The page shown after a reload of the address written from the sets. *)
Lemma reload_same (p : index_page) :
  page_ok p -> names_ok (diaryData p) -> known p -> location p = params_of p ->
  (forall ty x, set_has x (selected ty (reload p)) = set_has x (selected ty p)) /\
  entries_container (reload p) = entries_container p /\
  visible_count (reload p) = visible_count p.
Proof.
  intros (Hd & Ht & Hk & Hc & Hv & _) Hn Hkn Hloc.
  assert (forall ty x, set_has x (selected ty (reload p)) = set_has x (selected ty p))
    as Hsel.
  { intros ty x. apply reload_selected; try assumption; [|apply Hkn].
    destruct ty; [apply Ht | apply Hk]. }
  assert (entries_container (reload p) = entries_container p) as He.
  { rewrite Hc. unfold reload at 1. cbn [entries_container renderEntries diaryData].
    rewrite initializeControls_data. f_equal. apply filter_ext.
    intros e. apply (matches_ext p (reload p) e Hsel). }
  split; [exact Hsel|]. split; [exact He|].
  rewrite Hv, <- He. unfold reload. cbn. now rewrite length_map.
Qed.

(** C32: the address keeps the filter.  On a page loaded from a dataset
    whose names can be written in the address, with sets of names of the
    dataset, after any clicks and one more: loading the address again
    selects the same names and shows the same entries and the same count. *)
Theorem url_roundtrip (gz plain : fetched) (query : dict string)
    (p0 p : index_page) (ev : event) :
  loadData gz plain query = Some p0 ->
  data_ok (diaryData p0) -> names_ok (diaryData p0) -> known p0 ->
  reachable p0 p -> clickable p ev ->
  let p' := state_of (handle ev p) in
  (forall ty x, set_has x (selected ty (reload p')) = set_has x (selected ty p')) /\
  entries_container (reload p') = entries_container p' /\
  visible_count (reload p') = visible_count p'.
Proof.
  intros Hl Hd Hn Hk Hr Hc p'.
  pose proof (loadData_ok _ _ _ _ Hl Hd) as H0.
  assert (reachable p0 p') as Hr' by now apply reach_step.
  pose proof (reachable_page_ok p0 p H0 Hr) as Hp.
  destruct (handle_ok ev p Hp Hc) as (q & E & Hq & Hloc & _).
  assert (p' = q) as Hpq by (unfold p'; now rewrite E).
  clearbody p'. subst p'.
  apply reload_same;
    [exact Hq | | exact (reachable_known p0 q H0 Hk Hr') | exact Hloc].
  now rewrite (reachable_data p0 q H0 Hr').
Qed.

Definition has_theme (e : NewsEntry) : bool := negb (length (themes e) =? 0).

(** The page loaded without parameters. *)
Lemma initial_entries (d : dataset) :
  data_ok d ->
  let p := renderEntries (initializeControls d []) in
  entries_container p = map createEntryElement (filter has_theme (entries d)) /\
  visible_count p = length (filter has_theme (entries d)) /\
  total_count p = length (entries d).
Proof.
  intros Hd p.
  assert (entries_container p
          = map createEntryElement (filter has_theme (entries d))) as He.
  { unfold p. cbn [entries_container renderEntries].
    rewrite initializeControls_data. f_equal. apply filter_ext_in. intros e He.
    pose proof Hd as (_ & _ & Hd'). rewrite Forall_forall in Hd'.
    apply matches_all.
    - change (selectedThemes ?q) with (selected theme q).
      rewrite initializeControls_selected by exact Hd. apply (Hd' e He).
    - change (selectedKeywords ?q) with (selected keyword q).
      rewrite initializeControls_selected by exact Hd. apply (Hd' e He). }
  destruct (renderEntries_rendered (initializeControls d [])) as (_ & Hv & Htot).
  fold p in Hv, Htot. split; [exact He|]. split.
  - now rewrite Hv, He, length_map.
  - rewrite Htot. unfold p. cbn [diaryData renderEntries].
    now rewrite initializeControls_data.
Qed.

(** An entry without themes is never shown, whatever is selected; and
    the page loaded without parameters, which has every name selected,
    shows exactly the entries that have a theme. *)
Theorem index_hides_unthemed (d : dataset) (plain : fetched) :
  data_ok d ->
  (forall p e, themes e = [] -> matches p e = false) /\
  exists p, loadData (Response true (Some d)) plain [] = Some p /\
            entries_container p
            = map createEntryElement
                (filter (fun e => negb (length (themes e) =? 0)) (entries d)) /\
            visible_count p + length (filter (fun e => length (themes e) =? 0) (entries d))
            = total_count p.
Proof.
  intros Hd. split; [apply matches_no_theme|].
  eexists. split; [reflexivity|].
  destruct (initial_entries d Hd) as (He & Hv & Htot).
  split; [exact He|]. rewrite Hv, Htot.
  rewrite <- (filter_length_split has_theme (entries d)).
  f_equal. f_equal. apply filter_ext. intros e. unfold has_theme.
  now rewrite Bool.negb_involutive.
Qed.

(** ** The page opened with one theme as the filter *)

(** [e] carries the theme [k], at any position. *)
Definition carries (k : string) (e : NewsEntry) : bool := mem_str k (themes e).

Lemma set_has_single (t k : string) : set_has t [k] = String.eqb k t.
Proof. unfold set_has, mem_str. simpl. now rewrite Bool.orb_false_r, String.eqb_sym. Qed.

Lemma names_of_name (k : string) : is_name k = true -> names_of k = [k].
Proof.
  intros Hk. pose proof (names_of_join [k]) as Hj. simpl in Hj. apply Hj.
  now constructor.
Qed.

(** The page opened with one theme as the filter. *)
Lemma one_theme_page (d : dataset) (k : string) :
  data_ok d -> is_name k = true ->
  let p := renderEntries (initializeControls d [("themes", k)]) in
  selectedThemes p = [k] /\
  visible_count p = length (filter (carries k) (entries d)).
Proof.
  intros Hd Hk p.
  assert (selectedThemes (initializeControls d [("themes", k)]) = [k]) as Ht.
  { change (selectedThemes ?q) with (selected theme q).
    rewrite initializeControls_selected by exact Hd. cbn [param dget String.eqb Ascii.eqb Bool.eqb].
    now rewrite (names_of_name k Hk). }
  assert (selectedKeywords (initializeControls d [("themes", k)]) = meta_keywords (meta d))
    as Hkw.
  { change (selectedKeywords ?q) with (selected keyword q).
    now rewrite initializeControls_selected by exact Hd. }
  split; [exact Ht|].
  destruct (renderEntries_rendered (initializeControls d [("themes", k)])) as (He & Hv & _).
  fold p in He, Hv. rewrite Hv, He, length_map. unfold p.
  cbn [renderEntries diaryData]. rewrite initializeControls_data. f_equal.
  apply filter_ext_in. intros e Hin. unfold matches, carries.
  cbn [renderEntries selectedThemes selectedKeywords].
  rewrite Ht, Hkw. destruct Hd as (_ & _ & Hd). rewrite Forall_forall in Hd.
  rewrite (existsb_all _ _ (proj2 (Hd e Hin))).
  rewrite (existsb_ext _ (String.eqb k) (themes e)) by (intros t; apply set_has_single).
  unfold mem_str. now destruct (length (keywords e) =? 0); rewrite andb_true_r.
Qed.

(** The entries of a list that pass a test are among those that pass a
    weaker one. *)
Lemma filter_length_weaker {A : Type} (f g : A -> bool) (l : list A) :
  (forall a, f a = true -> g a = true) ->
  length (filter g l) = length (filter f l) + length (filter (fun a => g a && negb (f a)) l).
Proof.
  intros Hfg. induction l as [|a l IH]; [reflexivity|]. simpl.
  destruct (f a) eqn:Ef.
  - rewrite (Hfg a Ef). simpl. now rewrite IH.
  - destruct (g a); simpl; rewrite IH; lia.
Qed.

(** [updateURL] compares the size of a set with the number of names,
    so a set of that size drops out of the address whatever it holds: when
    it holds a name that is not a name of the dataset, loading the address
    again selects every name of the dataset, and not what was selected. *)
Theorem url_size_check (p : index_page) (x : string) :
  page_ok p -> location p = params_of p ->
  length (selected theme p) = length (names theme p) ->
  In x (selected theme p) -> ~ In x (names theme p) ->
  dget "themes" (location p) = None /\
  selected theme (reload p) = names theme p /\
  set_has x (selected theme (reload p)) <> set_has x (selected theme p).
Proof.
  intros (Hd & _) Hloc Hlen Hx Hnx.
  assert (dget "themes" (location p) = None) as Hnone.
  { rewrite Hloc. change "themes" with (param theme).
    rewrite params_of_dget, Hlen. now rewrite Nat.eqb_refl. }
  assert (selected theme (reload p) = names theme p) as Hsel.
  { unfold reload. change (selected theme (renderEntries ?q)) with (selected theme q).
    rewrite initializeControls_selected by assumption. simpl param. now rewrite Hnone. }
  split; [exact Hnone|]. split; [exact Hsel|]. rewrite Hsel.
  rewrite (proj2 (set_has_In x (selected theme p)) Hx).
  unfold set_has. rewrite (proj2 (mem_str_false x (names theme p)) Hnx).
  discriminate.
Qed.

(** ** The dataset of the pipeline fits the page *)

Lemma taxonomy_names_ok :
  Forall (fun n => is_name n = true) theme_names /\
  Forall (fun n => is_name n = true) keyword_names.
Proof. split; apply Forall_forall, forallb_forall; reflexivity. Qed.

(** The contract of the dataset gives what the script needs. *)
Lemma dataset_data_ok (d : dataset) : dataset_ok d -> data_ok d /\ names_ok d.
Proof.
  intros (_ & Ht & Hk & He & _). unfold data_ok, names_ok. rewrite Ht, Hk.
  split; [|exact taxonomy_names_ok].
  split; [apply theme_names_NoDup|]. split; [apply keyword_names_NoDup|].
  eapply Forall_impl; [|exact He].
  intros e (_ & (_ & _ & Hth & _ & _ & Hkw) & _). rewrite Forall_forall in Hth, Hkw.
  split; intros x Hx; auto.
Qed.

(** ** Witnesses *)

Definition demo_data : dataset :=
  mkDataset (mkMetadata "2025-08-09T10:00:00" 2 ["science"; "health"] ["nsf"])
    [ mkNewsEntry 1 "https://example.gov/2025/01/15/nsf-budget-cuts"
        "NSF budget cuts announced" (Some "2025-01-15") ["science"] ["nsf"] None;
      mkNewsEntry 3 "https://bsky.app/profile/a/post/1" "A post" None [] [] None ].

Lemma demo_data_ok : data_ok demo_data /\ names_ok demo_data.
Proof.
  split; [split; [|split] | split].
  - apply nodupb_NoDup. reflexivity.
  - apply nodupb_NoDup. reflexivity.
  - apply Forall_forall. intros e [<-|[<-|[]]]; split; intros x Hx; simpl in *; tauto.
  - apply Forall_forall, forallb_forall. reflexivity.
  - apply Forall_forall, forallb_forall. reflexivity.
Qed.

Definition demo_page : index_page := renderEntries (initializeControls demo_data []).

Lemma demo_known : known demo_page.
Proof. intros [] x Hx; exact Hx. Qed.

Lemma reachable_ok_witness :
  let p := state_of (handle (ClickTag theme "science") demo_page) in
  page_ok p /\
  forall ev, clickable p ev ->
    exists p', handle ev p = Ok p' /\ page_ok p' /\ location p' = params_of p'.
Proof.
  apply (reachable_ok (Response true (Some demo_data)) FetchError [] demo_page).
  - reflexivity.
  - apply demo_data_ok.
  - apply reach_step; [apply reach_load | left; simpl; tauto].
Defined.

Lemma url_roundtrip_witness :
  let p' := state_of (handle (ClickDeselectAll keyword)
                        (state_of (handle (ClickTag theme "health") demo_page))) in
  (forall ty x, set_has x (selected ty (reload p')) = set_has x (selected ty p')) /\
  entries_container (reload p') = entries_container p' /\
  visible_count (reload p') = visible_count p'.
Proof.
  apply (url_roundtrip (Response false None) (Response true (Some demo_data)) []
           demo_page).
  - reflexivity.
  - apply demo_data_ok.
  - apply demo_data_ok.
  - apply demo_known.
  - apply reach_step; [apply reach_load | left; simpl; tauto].
  - exact I.
Defined.

Lemma index_hides_unthemed_witness :
  (forall p e, themes e = [] -> matches p e = false) /\
  exists p, loadData (Response true (Some demo_data)) FetchError [] = Some p /\
            entries_container p
            = map createEntryElement
                (filter (fun e => negb (length (themes e) =? 0)) (entries demo_data)) /\
            visible_count p
            + length (filter (fun e => length (themes e) =? 0) (entries demo_data))
            = total_count p.
Proof. apply index_hides_unthemed, demo_data_ok. Defined.

(** A page loaded from an address that names a theme the dataset does not
    have, after one click on the other control. *)
Definition odd_page : index_page :=
  renderEntries (updateURL (initializeControls demo_data [("themes", "science,bogus")])).

Lemma url_size_check_witness :
  dget "themes" (location odd_page) = None /\
  selected theme (reload odd_page) = names theme odd_page /\
  set_has "bogus" (selected theme (reload odd_page))
  <> set_has "bogus" (selected theme odd_page).
Proof.
  apply url_size_check.
  - destruct (initializeControls_ok demo_data [("themes", "science,bogus")]
                (proj1 demo_data_ok)) as (Hd & Ht & Hk).
    apply finish_ok; [rewrite Hd; apply demo_data_ok | exact Ht | exact Hk].
  - reflexivity.
  - reflexivity.
  - vm_compute. tauto.
  - vm_compute. intuition discriminate.
Defined.
