(* ===== verification/SameView.v ===== *)
(** * SameView: the filter is a set

    The script keeps the selected names in two JavaScript [Set]s.  A [Set]
    remembers the order in which its members were added, and the script
    writes the members in that order into the address; everything else it
    does with a set is to ask whether a name is in it.  This file states
    that as an equivalence on the pages of [IndexFilter]:

    - [same_set]: two sets with the same members, in any order;
    - [same_view]: two pages over the same dataset that show the same tags,
      the same entries and the same counts and whose sets have the same
      members; the address is not compared;
    - [same_result]: two runs of a handler that both end or both stop, on
      pages with the same view.

    The operations on sets and the handlers of the script respect these
    equivalences ([Proper] instances), so that one page can be rewritten
    with another under them.  The theorems: pages with the same view keep
    the same view under every sequence of events, and two addresses that
    name the same themes and keywords, in any order and with repetitions,
    open pages with the same view. *)

From Stdlib Require Import Setoid Morphisms.
From S2P Require Import Prelude.
From S2P Require Import Text.
From S2P Require Import Dict.
From S2P Require Import EntryParser.
From S2P Require Import Classifier.
From S2P Require Import Dataset.
From S2P Require Import IndexFilter.

#[local] Open Scope string_scope.
#[local] Open Scope list_scope.
#[local] Open Scope nat_scope.

(** ** The equivalences *)

Definition same_set (s t : list string) : Prop := forall x, set_has x s = set_has x t.

Record same_view (p q : index_page) : Prop := SameView {
  sv_data : diaryData p = diaryData q;
  sv_sets : forall ty, same_set (selected ty p) (selected ty q);
  sv_tags : forall ty, tags ty p = tags ty q;
  sv_entries : entries_container p = entries_container q;
  sv_visible : visible_count p = visible_count q;
  sv_total : total_count p = total_count q
}.

Definition is_ok (r : result) : bool :=
  match r with
  | Ok _ => true
  | Thrown _ => false
  end.

Definition same_result (r r' : result) : Prop :=
  is_ok r = is_ok r' /\ same_view (state_of r) (state_of r').

(** The page after a sequence of events. *)
Definition play (evs : list event) (p : index_page) : index_page :=
  fold_left (fun p ev => state_of (handle ev p)) evs p.

(** Two queries that name the same themes and the same keywords. *)
Definition same_names (v v' : option string) : Prop :=
  match v, v' with
  | Some a, Some b => same_set (names_of a) (names_of b)
  | None, None => True
  | _, _ => False
  end.

Definition same_query (q q' : dict string) : Prop :=
  same_names (dget "themes" q) (dget "themes" q') /\
  same_names (dget "keywords" q) (dget "keywords" q').

(** ** Sets *)

#[export] Instance same_set_equiv : Equivalence same_set.
Proof.
  split.
  - intros s x. reflexivity.
  - intros s t H x. symmetry. apply H.
  - intros s t u H1 H2 x. now rewrite H1.
Qed.

#[export] Instance set_has_proper : Proper (eq ==> same_set ==> eq) set_has.
Proof. intros x ? <- s t H. apply H. Qed.

Lemma same_set_In (s t : list string) : same_set s t <-> forall x, In x s <-> In x t.
Proof.
  split.
  - intros H x. now rewrite <- !set_has_In, H.
  - intros H x. apply set_has_iff, H.
Qed.

#[export] Instance set_add_proper : Proper (eq ==> same_set ==> same_set) set_add.
Proof.
  intros x ? <- s t H. apply same_set_In. intros y. rewrite !set_add_In.
  pose proof (proj1 (same_set_In s t) H y). tauto.
Qed.

#[export] Instance set_delete_proper : Proper (eq ==> same_set ==> same_set) set_delete.
Proof.
  intros x ? <- s t H. apply same_set_In. intros y. rewrite !set_delete_In.
  pose proof (proj1 (same_set_In s t) H y). tauto.
Qed.

#[export] Instance flip_proper : Proper (eq ==> same_set ==> same_set) flip.
Proof. intros x ? <- s t H y. now rewrite !set_has_flip, (H x), (H y). Qed.

(** [new Set(l)] has the members of [l]. *)
Lemma set_of_same (l : list string) : same_set (set_of l) l.
Proof. apply same_set_In. intros x. apply uniq_In. Qed.

#[export] Instance set_of_proper : Proper (same_set ==> same_set) set_of.
Proof. intros s t H. now rewrite !set_of_same. Qed.

#[export] Instance sync_tags_proper : Proper (same_set ==> eq ==> eq) sync_tags.
Proof.
  intros s t H ts ? <-. unfold sync_tags. apply map_ext. intros tg. now rewrite H.
Qed.

(** ** Pages *)

Ltac by_control H :=
  let ty := fresh "ty" in
  intros ty; destruct ty; first [exact (H theme) | exact (H keyword)].

#[export] Instance same_view_equiv : Equivalence same_view.
Proof.
  split.
  - intros p. now split.
  - intros p q []. split; intros; symmetry; auto.
  - intros p q r [] []. split; intros; etransitivity; eauto.
Qed.

#[export] Instance same_result_equiv : Equivalence same_result.
Proof.
  split.
  - intros r. now split.
  - intros r r' [H1 H2]. now split.
  - intros r r' r'' [H1 H2] [H3 H4]. split; etransitivity; eauto.
Qed.

Lemma with_selected_same (ty : tag_type) (s t : list string) (p q : index_page) :
  same_set s t -> same_view p q ->
  same_view (with_selected ty s p) (with_selected ty t q).
Proof.
  intros Hs [Hd Hsel Ht He Hv Hn].
  split; try (destruct ty; assumption); intros ty'; destruct ty, ty';
    first [exact Hs | exact (Hsel theme) | exact (Hsel keyword)
          | exact (Ht theme) | exact (Ht keyword)].
Qed.

Lemma with_tags_same (ty : tag_type) (ts : list tag) (p q : index_page) :
  same_view p q -> same_view (with_tags ty ts p) (with_tags ty ts q).
Proof.
  intros [Hd Hsel Ht He Hv Hn].
  split; try (destruct ty; assumption); intros ty'; destruct ty, ty';
    first [reflexivity | exact (Hsel theme) | exact (Hsel keyword)
          | exact (Ht theme) | exact (Ht keyword)].
Qed.

#[export] Instance matches_proper : Proper (same_view ==> eq ==> eq) matches.
Proof.
  intros p q H e ? <-. apply matches_ext. intros ty x. apply (sv_sets _ _ H).
Qed.

#[export] Instance renderEntries_proper : Proper (same_view ==> same_view) renderEntries.
Proof.
  intros p q H.
  assert (filter (matches p) (entries (diaryData p))
          = filter (matches q) (entries (diaryData q))) as Hf.
  { rewrite (sv_data _ _ H). apply filter_ext. intros e. now rewrite H. }
  destruct H as [Hd Hsel Ht He Hv Hn].
  split; simpl; rewrite ?Hf, ?Hd; try reflexivity; [by_control Hsel | by_control Ht].
Qed.

#[export] Instance updateURL_proper : Proper (same_view ==> same_view) updateURL.
Proof.
  intros p q [Hd Hsel Ht He Hv Hn]. split; assumption.
Qed.

(** ** Handlers *)

Lemma same_result_Ok (p q : index_page) : same_view p q -> same_result (Ok p) (Ok q).
Proof. now split. Qed.

Lemma same_result_Thrown (p q : index_page) :
  same_view p q -> same_result (Thrown p) (Thrown q).
Proof. now split. Qed.

#[export] Hint Resolve same_result_Ok same_result_Thrown with_selected_same
  with_tags_same : newsy.

Lemma toggleTag_same (v : string) (ty : tag_type) (p q : index_page) :
  same_view p q -> same_result (toggleTag v ty p) (toggleTag v ty q).
Proof.
  intros H. unfold toggleTag. fold (flip v (selected ty p)) (flip v (selected ty q)).
  assert (same_view (with_selected ty (flip v (selected ty p)) p)
            (with_selected ty (flip v (selected ty q)) q)) as H'
    by (apply with_selected_same; [now rewrite (sv_sets _ _ H ty) | exact H]).
  rewrite (sv_tags _ _ H' ty). destruct (find_tag v _); [|auto with newsy].
  apply same_result_Ok. now rewrite (with_tags_same ty _ _ _ H').
Qed.

Lemma select_one_same (ty : tag_type) (name : string) (r r' : result) :
  same_result r r' -> same_result (select_one ty r name) (select_one ty r' name).
Proof.
  intros [Hok H]. destruct r as [p|p], r' as [q|q]; try discriminate; simpl in *;
    [|auto with newsy].
  assert (same_view (with_selected ty (set_add name (selected ty p)) p)
            (with_selected ty (set_add name (selected ty q)) q)) as H'
    by (apply with_selected_same; [now rewrite (sv_sets _ _ H ty) | exact H]).
  rewrite (sv_tags _ _ H' ty). destruct (find_tag name _); auto with newsy.
Qed.

Lemma select_fold_same (ty : tag_type) (ns : list string) (r r' : result) :
  same_result r r' ->
  same_result (fold_left (select_one ty) ns r) (fold_left (select_one ty) ns r').
Proof.
  revert r r'; induction ns as [|n ns IH]; intros r r' H; [exact H|].
  apply IH, select_one_same, H.
Qed.

Lemma selectAll_same (ty : tag_type) (p q : index_page) :
  same_view p q -> same_result (selectAll ty p) (selectAll ty q).
Proof.
  intros H. unfold selectAll.
  assert (names ty p = names ty q) as -> by (unfold names; now rewrite (sv_data _ _ H)).
  destruct (select_fold_same ty (names ty q) (Ok p) (Ok q) (same_result_Ok _ _ H))
    as [Hok H'].
  destruct (fold_left _ _ (Ok p)), (fold_left _ _ (Ok q)); try discriminate;
    simpl in H'; [|auto with newsy].
  apply same_result_Ok. now rewrite H'.
Qed.

Lemma deselectAll_same (ty : tag_type) (p q : index_page) :
  same_view p q -> same_result (deselectAll ty p) (deselectAll ty q).
Proof.
  intros H. unfold deselectAll. apply same_result_Ok.
  assert (same_view (with_selected ty [] p) (with_selected ty [] q)) as H'
    by now apply with_selected_same.
  rewrite (sv_tags _ _ H' ty). now rewrite (with_tags_same ty _ _ _ H').
Qed.

#[export] Instance handle_proper : Proper (eq ==> same_view ==> same_result) handle.
Proof.
  intros ev ? <- p q H.
  destruct ev; [apply toggleTag_same | apply selectAll_same | apply deselectAll_same];
    exact H.
Qed.

#[export] Instance state_of_proper : Proper (same_result ==> same_view) state_of.
Proof. intros r r' H. apply H. Qed.

#[export] Instance play_proper : Proper (eq ==> same_view ==> same_view) play.
Proof.
  intros evs ? <-. induction evs as [|ev evs IH]; intros p q H; [exact H|].
  apply IH. now rewrite H.
Qed.

(** ** Opening a page *)

Lemma update_from_same (ty : tag_type) (prm : string) (p q : index_page) :
  same_names (dget prm (location p)) (dget prm (location q)) ->
  same_view p q -> same_view (update_from ty prm p) (update_from ty prm q).
Proof.
  intros Hn H. unfold update_from.
  destruct (dget prm (location p)) as [a|], (dget prm (location q)) as [b|]; try easy.
  assert (same_set (set_of (names_of a)) (set_of (names_of b))) as Hs
    by (apply set_of_proper, Hn).
  assert (sync_tags (set_of (names_of a)) (tags ty p)
          = sync_tags (set_of (names_of b)) (tags ty q)) as ->
    by (apply sync_tags_proper; [exact Hs | apply H]).
  now apply with_tags_same, with_selected_same.
Qed.

Lemma initializeControls_same (d : dataset) (query query' : dict string) :
  same_query query query' ->
  same_view (initializeControls d query) (initializeControls d query').
Proof.
  intros [Ht Hk]. unfold initializeControls, updateFromURL. apply update_from_same.
  - rewrite !(proj2 (update_from_data _ _ _)). exact Hk.
  - apply update_from_same; [exact Ht | now split].
Qed.

(** Whether the page loads does not depend on the query. *)
Lemma loadData_query (gz plain : fetched) (query : dict string) (p : index_page) :
  loadData gz plain query = Some p ->
  exists d, forall query',
    loadData gz plain query' = Some (renderEntries (initializeControls d query')).
Proof.
  unfold loadData. destruct gz as [|ok body]; [discriminate|].
  destruct ok; [destruct body as [d|] | destruct plain as [|ok' [d|]]];
    try discriminate; intros _; now exists d.
Qed.

(** ** Theorems *)

(** C33: the filter is a set.  Two addresses that name the same themes and
    the same keywords, in any order and with repetitions, open pages with
    the same view: the same tags selected, the same entries shown, the same
    counts.  Whatever the visitor then clicks, the two pages keep the same
    view, and a handler stops on the one exactly when it stops on the
    other.  The order in which names were added to a set shows in the
    address and nowhere else. *)
Theorem same_view_bisimulation (gz plain : fetched) (query query' : dict string)
    (p : index_page) (evs : list event) :
  same_query query query' ->
  loadData gz plain query = Some p ->
  exists q, loadData gz plain query' = Some q /\
    same_view (play evs p) (play evs q) /\
    forall ev, same_result (handle ev (play evs p)) (handle ev (play evs q)).
Proof.
  intros Hq Hp. destruct (loadData_query _ _ _ _ Hp) as [d Hd].
  rewrite Hd in Hp. injection Hp as <-. eexists. split; [apply Hd|].
  assert (same_view (play evs (renderEntries (initializeControls d query)))
            (play evs (renderEntries (initializeControls d query')))) as H
    by now rewrite (initializeControls_same d _ _ Hq).
  split; [exact H|]. intros ev. now rewrite H.
Qed.

(** ** Examples *)

Definition three_themes : dataset :=
  mkDataset (mkMetadata "2025-08-09T10:00:00" 2 ["science"; "health"; "economy"] ["nsf"])
    [ mkNewsEntry 1 "https://example.gov/2025/01/15/nsf-budget-cuts"
        "NSF budget cuts announced" (Some "2025-01-15") ["science"] ["nsf"] None;
      mkNewsEntry 2 "https://example.gov/2025/02/01/clinics"
        "Clinics close" (Some "2025-02-01") ["health"; "economy"] [] None ].

Lemma same_view_bisimulation_witness :
  exists q,
    loadData (Response true (Some three_themes)) FetchError
      [("themes", "health,,science,health")] = Some q /\
    let evs := [ClickTag keyword "nsf"; ClickTag theme "economy"] in
    let p := renderEntries (initializeControls three_themes [("themes", "science,health")]) in
    same_view (play evs p) (play evs q) /\
    forall ev, same_result (handle ev (play evs p)) (handle ev (play evs q)).
Proof.
  apply (same_view_bisimulation (Response true (Some three_themes)) FetchError
           [("themes", "science,health")]); [|reflexivity].
  split; [|exact I]. apply same_set_In. intros x. vm_compute. tauto.
Defined.

(** The same clicks in another order: the same view under another address. *)
Example address_keeps_order :
  let p0 := renderEntries (initializeControls three_themes []) in
  let p := play [ClickDeselectAll theme; ClickTag theme "science"; ClickTag theme "health"] p0 in
  let q := play [ClickDeselectAll theme; ClickTag theme "health"; ClickTag theme "science"] p0 in
  same_view p q /\
  location p = [("themes", "science,health")] /\
  location q = [("themes", "health,science")] /\
  visible_count p = 2.
Proof.
  split; [|now vm_compute].
  split; try (vm_compute; reflexivity); intros []; try (vm_compute; reflexivity);
    apply same_set_In; intros x; vm_compute; tauto.
Qed.

(** The address does not respect the equivalence. *)
Example params_of_not_proper : ~ Proper (same_view ==> eq) params_of.
Proof.
  intros H. destruct address_keeps_order as (Hv & Hp & Hq & _).
  apply H in Hv. revert Hv. vm_compute. discriminate.
Qed.
