(* ===== verification/Query.v ===== *)
(** * Query: the query of an address, as text

    The script of the index page keeps its filter in the address: [updateURL]
    builds a [URLSearchParams], sets [themes] and [keywords] and writes
    [params.toString()] after a question mark; [updateFromURL] reads the
    address back with [new URLSearchParams(window.location.search)].  The
    summary page writes such an address by hand, [index.html?themes=key].
    [IndexFilter] takes the query as the list of pairs a [URLSearchParams]
    holds.  This file gives the text: the serializer and the parser of the
    form [application/x-www-form-urlencoded], as the URL standard defines
    them, on strings of bytes.

    - [form_encode], [form_decode]: a byte is written as it is when it is a
      letter, a digit or one of [*-._], a space as [+], any other byte as a
      percent sign and two hexadecimal digits.
    - [serialize], [parse]: pairs are written [name=value] and joined with
      [&].
    - [search_of], [URLSearchParams]: the search part of the address the
      script writes, and the pairs the script reads from a search part.
    - [href_query]: the query of a link.

    The theorems: parsing what the serializer wrote gives the pairs back,
    for all names and values; a name the encoder leaves as it is can be
    written into a link by hand. *)

From S2P Require Import Prelude.
From S2P Require Import Text.
From S2P Require Import Dict.
From S2P Require Import EntryParser.

#[local] Open Scope string_scope.
#[local] Open Scope list_scope.
#[local] Open Scope nat_scope.

(** ** Bytes *)

Definition is_lower (c : ascii) : bool := (97 <=? code c) && (code c <=? 122).

(** The bytes the encoder leaves as they are. *)
Definition form_safe (c : ascii) : bool :=
  is_digit c || is_upper c || is_lower c
  || Ascii.eqb c "*" || Ascii.eqb c "-" || Ascii.eqb c "." || Ascii.eqb c "_".

(** The digit of a number below 16, in upper case. *)
Definition hex_digit (n : nat) : ascii :=
  if n <? 10 then ascii_of_nat (48 + n) else ascii_of_nat (55 + n).

(** The value of a hexadecimal digit, in either case. *)
Definition unhex (c : ascii) : option nat :=
  let n := code c in
  if (48 <=? n) && (n <=? 57) then Some (n - 48)
  else if (65 <=? n) && (n <=? 70) then Some (n - 55)
  else if (97 <=? n) && (n <=? 102) then Some (n - 87)
  else None.

Definition encode_byte (c : ascii) : string :=
  if form_safe c then String c ""
  else if Ascii.eqb c " " then "+"
  else String "%" (String (hex_digit (code c / 16)) (String (hex_digit (code c mod 16)) "")).

Fixpoint form_encode (s : string) : string :=
  match s with
  | "" => ""
  | String c s' => encode_byte c ++ form_encode s'
  end.

Fixpoint plus_to_space (s : string) : string :=
  match s with
  | "" => ""
  | String c s' => String (if Ascii.eqb c "+" then " "%char else c) (plus_to_space s')
  end.

(** A percent sign and two hexadecimal digits are one byte; a percent sign
    before anything else stands for itself. *)
Fixpoint percent_decode (s : string) : string :=
  match s with
  | "" => ""
  | String c s' =>
      if Ascii.eqb c "%"
      then match s' with
           | String a (String b rest) =>
               match unhex a, unhex b with
               | Some x, Some y => String (ascii_of_nat (16 * x + y)) (percent_decode rest)
               | _, _ => String c (percent_decode s')
               end
           | _ => String c (percent_decode s')
           end
      else String c (percent_decode s')
  end.

Definition form_decode (s : string) : string := percent_decode (plus_to_space s).

(** ** Pairs *)

Definition pair_text (kv : string * string) : string :=
  form_encode (fst kv) ++ "=" ++ form_encode (snd kv).

(** [params.toString()]. *)
Definition serialize (params : dict string) : string := join "&" (map pair_text params).

(** One sequence between two [&]: the name ends at the first [=]. *)
Definition parse_pair (seq : string) : string * string :=
  let (name, rest) := span (not_char "=") seq in
  (form_decode name,
   form_decode (match rest with String _ value => value | "" => "" end)).

(** The parser: empty sequences are skipped. *)
Definition parse (s : string) : dict string :=
  map parse_pair (filter (fun seq => negb (String.eqb seq "")) (split_on "&" s)).

(** [new URLSearchParams(search)]: a leading question mark is dropped. *)
Definition URLSearchParams (search : string) : dict string :=
  parse (match search with
         | String c rest => if Ascii.eqb c "?" then rest else search
         | "" => ""
         end).

(** [window.location.search] after [replaceState] with
    [params.toString() ? `?${params.toString()}` : window.location.pathname]. *)
Definition search_of (params : dict string) : string :=
  match serialize params with
  | "" => ""
  | s => String "?" s
  end.

(** The search part of a link: from the first question mark on. *)
Definition href_query (href : string) : string := snd (span (not_char "?") href).

(** A query written by hand, without encoding. *)
Definition raw_query (params : dict string) : string :=
  join "&" (map (fun kv : string * string => (fst kv ++ "=" ++ snd kv)%string) params).

(** The strings the encoder leaves as they are. *)
Definition plain_text (s : string) : bool := all_chars form_safe s.

(** ** Bytes: facts *)

(** Decoding what the encoder wrote for a byte gives the byte, whatever
    follows. *)
Lemma decode_encode_byte (c : ascii) (rest : string) :
  form_decode (encode_byte c ++ rest) = String c (form_decode rest).
Proof. destruct c as [[] [] [] [] [] [] [] []]; reflexivity. Qed.

Lemma form_decode_encode (s : string) : form_decode (form_encode s) = s.
Proof.
  induction s as [|c s IH]; [reflexivity|]. cbn [form_encode].
  now rewrite decode_encode_byte, IH.
Qed.

(** The encoder writes neither [&] nor [=]. *)
Lemma encode_byte_plain (c : ascii) :
  all_chars (not_char "&") (encode_byte c) = true /\
  all_chars (not_char "=") (encode_byte c) = true.
Proof. destruct c as [[] [] [] [] [] [] [] []]; split; reflexivity. Qed.

Lemma form_encode_plain (s : string) :
  all_chars (not_char "&") (form_encode s) = true /\
  all_chars (not_char "=") (form_encode s) = true.
Proof.
  induction s as [|c s [IHa IHe]]; [split; reflexivity|]. cbn [form_encode].
  rewrite !all_chars_append, IHa, IHe. destruct (encode_byte_plain c) as [-> ->].
  split; reflexivity.
Qed.

Lemma form_encode_safe (s : string) : plain_text s = true -> form_encode s = s.
Proof.
  unfold plain_text. induction s as [|c s IH]; [reflexivity|]. cbn [all_chars form_encode].
  intros [Hc Hs]%andb_prop. unfold encode_byte. rewrite Hc, IH by exact Hs. reflexivity.
Qed.

(** ** Pairs: facts *)

Lemma parse_pair_text (kv : string * string) : parse_pair (pair_text kv) = kv.
Proof.
  destruct kv as [k v]. unfold parse_pair, pair_text. cbn [fst snd].
  change ("=" ++ form_encode v)%string with (String "=" (form_encode v)).
  rewrite span_exact by (apply form_encode_plain || apply not_char_same).
  now rewrite !form_decode_encode.
Qed.

Lemma pair_text_plain (kv : string * string) :
  all_chars (not_char "&") (pair_text kv) = true.
Proof.
  unfold pair_text. rewrite !all_chars_append.
  destruct (form_encode_plain (fst kv)) as [-> _].
  destruct (form_encode_plain (snd kv)) as [-> _]. reflexivity.
Qed.

Lemma pair_text_not_empty (kv : string * string) : String.eqb (pair_text kv) "" = false.
Proof.
  unfold pair_text. destruct (form_encode (fst kv)); reflexivity.
Qed.

Lemma parse_serialize (params : dict string) : parse (serialize params) = params.
Proof.
  destruct params as [|kv params]; [reflexivity|]. unfold parse, serialize.
  rewrite (split_on_join "&") by (discriminate || apply Forall_map, Forall_forall;
    intros; apply pair_text_plain).
  rewrite filter_all by (apply Forall_map, Forall_forall; intros x _;
    now rewrite pair_text_not_empty).
  rewrite map_map. rewrite <- (map_id (kv :: params)) at 2.
  apply map_ext, parse_pair_text.
Qed.

Lemma URLSearchParams_search_of (params : dict string) :
  URLSearchParams (search_of params) = parse (serialize params).
Proof.
  unfold URLSearchParams, search_of. now destruct (serialize params).
Qed.

(** A query written by hand is the serialized one when its names and
    values are plain. *)
Lemma raw_query_serialize (params : dict string) :
  Forall (fun kv => plain_text (fst kv) = true /\ plain_text (snd kv) = true) params ->
  raw_query params = serialize params.
Proof.
  intros H. unfold raw_query, serialize. f_equal. apply map_ext_in.
  intros kv Hin. rewrite Forall_forall in H. destruct (H kv Hin) as [Hk Hv].
  unfold pair_text. now rewrite !form_encode_safe.
Qed.

Lemma href_query_file (file query : string) :
  all_chars (not_char "?") file = true ->
  href_query (file ++ String "?" query) = String "?" query.
Proof.
  intros Hf. unfold href_query. now rewrite span_exact by (assumption || apply not_char_same).
Qed.

(** ** Theorems *)


(** ** Examples *)

(** The comma between two names, a plus sign, a space and an ampersand. *)
Example serialize_demo :
  serialize [("themes", "science,health"); ("keywords", "c++ a&b")]
  = "themes=science%2Chealth&keywords=c%2B%2B+a%26b".
Proof. reflexivity. Qed.

(** Lower-case digits, an empty sequence, a name without a value and a
    percent sign that is not an escape. *)
Example parse_demo :
  URLSearchParams "?themes=a%2cb&&x&y=100%"
  = [("themes", "a,b"); ("x", ""); ("y", "100%")].
Proof. reflexivity. Qed.
