(* ===== verification/Markup.v ===== *)
(** * Markup: documents, selectors and style sheets

    The two pages of the site are documents: a tree of elements with
    attributes, an inline style and children.  The script of the index page
    reads the document with [getElementById], [querySelector] and
    [querySelectorAll]; the style sheet of a page decides by its selectors
    how an element looks.  This file holds what the pages share:

    - [node]: the document tree.  An element has a tag name, attributes in
      the order of the markup, the declarations of its [style] property and
      children; the text between elements that is only white space is left
      out.  [Raw] is markup the program inserts as a string without reading
      it.
    - [elements]: the elements in document order; [places]: the elements
      with their ancestors and whether they are the last element child.
    - [simple], [compound], [selector]: the selectors the pages use (type,
      class, attribute, [:not(.c)], [:last-child], [:hover], the universal
      selector and the descendant combinator) and [selects], when a selector
      selects a place.
    - [getElementById], [querySelectorAll], [querySelector].
    - [rule], [cascaded]: the style sheet and the cascade by specificity and
      order of appearance; [declared_value] with the inline style first and
      [used_value] with [var()] resolved on the element and its ancestors.

    Inheritance, shorthand properties and the user agent's style sheet are
    not modelled: a property is the name the style sheet writes.  A place
    keeps of an ancestor its name, attributes and style, so [:last-child]
    is read on the subject of a selector, where the style sheets have it.

    Whole pages are walked once with an accumulator ([collect_acc],
    [sweep]): on a page given with any lists of children the walk computes
    to the lists it collects, and the tactics [walk_as] and
    [walk_places_as] state that result by conversion. *)

From S2P Require Import Prelude.
From S2P Require Import Text.
From S2P Require Import Dict.

#[local] Set Warnings "-register-all".
#[local] Open Scope string_scope.
#[local] Open Scope list_scope.
#[local] Open Scope nat_scope.

(** ** Documents *)

Inductive node : Type :=
| Element (name : string) (attrs : list (string * string))
          (style : list (string * string)) (children : list node)
| Text (s : string)
| Comment (s : string)
| Raw (html : string).

(** An element without inline style. *)
Definition el (name : string) (attrs : list (string * string)) (children : list node)
  : node :=
  Element name attrs [] children.

Definition is_element (n : node) : bool :=
  match n with
  | Element _ _ _ _ => true
  | _ => false
  end.

Definition tagName (n : node) : string :=
  match n with
  | Element name _ _ _ => name
  | _ => ""
  end.

(** [n.getAttribute(k)]. *)
Definition getAttribute (k : string) (n : node) : option string :=
  match n with
  | Element _ attrs _ _ => dget k attrs
  | _ => None
  end.

Definition inline_style (n : node) : list (string * string) :=
  match n with
  | Element _ _ style _ => style
  | _ => []
  end.

Definition childNodes (n : node) : list node :=
  match n with
  | Element _ _ _ children => children
  | _ => []
  end.

(** The tokens of a class attribute: the words between white space. *)
Fixpoint tokens_from (cur s : string) : list string :=
  match s with
  | EmptyString => if String.eqb cur "" then [] else [cur]
  | String c s' =>
      if is_space c
      then (if String.eqb cur "" then tokens_from "" s' else cur :: tokens_from "" s')
      else tokens_from (cur ++ String c "") s'
  end.

Definition tokens (s : string) : list string := tokens_from "" s.

(** [n.classList]. *)
Definition classList (n : node) : list string :=
  match getAttribute "class" n with
  | Some c => tokens c
  | None => []
  end.

(** The elements of a tree in document order, the root first. *)
Fixpoint elements (n : node) : list node :=
  match n with
  | Element _ _ _ children => n :: flat_map elements children
  | _ => []
  end.

(** [n.textContent]: the text of the tree. *)
Fixpoint textContent (n : node) : string :=
  match n with
  | Element _ _ _ children => String.concat "" (map textContent children)
  | Text s => s
  | Comment _ => ""
  | Raw html => html
  end.

Definition has_id (i : string) (n : node) : bool :=
  match getAttribute "id" n with
  | Some j => String.eqb j i
  | None => false
  end.

(** [document.getElementById(i)]: the first element with the identifier. *)
Definition getElementById (i : string) (doc : node) : option node :=
  find (has_id i) (elements doc).

(** The elements of a tree a test accepts, in document order; [select_among]
    for the children of an element. *)
Definition select (h : node -> bool) (n : node) : list node := filter h (elements n).

Definition select_among (h : node -> bool) (cs : list node) : list node :=
  flat_map (select h) cs.


(** An element without its children: what a selector sees of an ancestor. *)
Definition shallow (n : node) : node :=
  match n with
  | Element name attrs style _ => Element name attrs style []
  | _ => n
  end.

(** An element where it stands: whether it is the last element among its
    siblings, and its ancestors, the nearest first, each without its
    children. *)
Record place : Type := mkPlace {
  subject : node;
  last_child : bool;
  ancestors : list node
}.

(** The places of the children [cs] of an element with the ancestors [anc]
    (the element included), given the places of a child. *)
Fixpoint places_with (f : list node -> bool -> node -> list place)
    (anc : list node) (cs : list node) : list place :=
  match cs with
  | [] => []
  | c :: cs' => f anc (negb (existsb is_element cs')) c ++ places_with f anc cs'
  end.

Fixpoint places_from (anc : list node) (last : bool) (n : node) : list place :=
  match n with
  | Element _ _ _ children =>
      mkPlace n last anc
      :: (fix go (cs : list node) : list place :=
            match cs with
            | [] => []
            | c :: cs' =>
                places_from (shallow n :: anc) (negb (existsb is_element cs')) c
                ++ go cs'
            end) children
  | _ => []
  end.

Definition places_list (anc : list node) (cs : list node) : list place :=
  places_with places_from anc cs.

(** The places of a document: its root is the only child of the document. *)
Definition places (doc : node) : list place := places_from [] true doc.

(** What a function gives on the elements of a tree, in document order. *)
Definition collect {B : Type} (g : node -> list B) (n : node) : list B :=
  flat_map g (elements n).

Definition pick (h : node -> bool) (n : node) : list node := if h n then [n] else [].

(** The value of an attribute, when the element has it: its identifier, the
    code of its [onclick], the address of its link. *)
Definition attr_list (k : string) (n : node) : list string :=
  match getAttribute k n with
  | Some v => [v]
  | None => []
  end.

Definition id_list : node -> list string := attr_list "id".
Definition onclick_list : node -> list string := attr_list "onclick".
Definition href_list : node -> list string := attr_list "href".

Definition attr_names (n : node) : list string :=
  match n with
  | Element _ attrs _ _ => map fst attrs
  | _ => []
  end.

(** [window.location.href='file']: the file. *)
Definition navigation (code : string) : option string :=
  match drop_prefix "window.location.href='" code with
  | Some r => Some (rstrip_by (fun c => Ascii.eqb c "'") r)
  | None => None
  end.

(** The identifiers and the classes of a tree. *)
Definition ids (n : node) : list string := collect id_list n.

Definition classes (n : node) : list string := collect classList n.

Definition onclicks (doc : node) : list string := collect onclick_list doc.

(** The names of the attributes of a tree. *)
Definition attribute_names (n : node) : list string := collect attr_names n.

Definition links (doc : node) : list string := collect href_list doc.

(** The same in one pass over the tree, in front of what is already there:
    the form in which a document with parts that are not known computes. *)
Section Sweep.

Context {B : Type}.
Variable f : place -> list B.

Section Children.

Variable g : list node -> bool -> node -> list B -> list B.
Variable anc : list node.

Fixpoint sweep_with (cs : list node) (acc : list B) : list B :=
  match cs with
  | [] => acc
  | c :: cs' => g anc (negb (existsb is_element cs')) c (sweep_with cs' acc)
  end.

End Children.

Fixpoint sweep (anc : list node) (last : bool) (n : node) (acc : list B)
  : list B :=
  match n with
  | Element _ _ _ children =>
      f (mkPlace n last anc)
      ++ sweep_with (fun a l c k => sweep a l c k) (shallow n :: anc) children acc
  | _ => acc
  end.

Definition sweep_list (anc : list node) (cs : list node) (acc : list B)
  : list B :=
  sweep_with (fun a l c k => sweep a l c k) anc cs acc.

End Sweep.

(** For a function of the element alone. *)
Fixpoint collect_acc {B : Type} (g : node -> list B) (n : node) (acc : list B) : list B :=
  match n with
  | Element _ _ _ children => g n ++ fold_right (fun c k => collect_acc g c k) acc children
  | _ => acc
  end.

Definition among {B : Type} (g : node -> list B) (cs : list node) (acc : list B)
  : list B :=
  fold_right (fun c k => collect_acc g c k) acc cs.

(** ** Selectors *)

Inductive simple : Type :=
| Any
| Tag (name : string)
| Class (name : string)
| AttrEq (name value : string)
| NotClass (name : string)
| LastChild
| Hover
| AttrHas (name value : string).

(** A compound selector is a sequence of simple selectors on one element; a
    selector is a chain of compounds under the descendant combinator, the
    subject last. *)
Definition compound : Type := list simple.
Definition selector : Type := list compound.

Definition holds (hover last : bool) (n : node) (s : simple) : bool :=
  match s with
  | Any => true
  | Tag name => String.eqb (tagName n) name
  | Class c => mem_str c (classList n)
  | AttrEq k v =>
      match getAttribute k n with
      | Some v' => String.eqb v' v
      | None => false
      end
  | NotClass c => negb (mem_str c (classList n))
  | LastChild => last
  | Hover => hover
  | AttrHas k v =>
      match getAttribute k n with
      | Some v' => contains v v'
      | None => false
      end
  end.

Definition matches_compound (hover : bool) (c : compound) (e : node * bool) : bool :=
  is_element (fst e) && forallb (holds hover (snd e) (fst e)) c.

(** The compounds above the subject, the nearest first, along the
    ancestors.  Of an ancestor the selector sees its name, its attributes and
    its classes; [:last-child] on an ancestor, which the style sheets of the
    pages do not use, selects nothing. *)
Fixpoint up (hover : bool) (cs : list compound) (anc : list node) : bool :=
  match anc with
  | [] => match cs with [] => true | _ :: _ => false end
  | a :: anc' =>
      match cs with
      | [] => true
      | c :: cs' =>
          if matches_compound hover c (a, false)
          then match cs' with [] => true | _ :: _ => up hover cs' anc' end
          else up hover cs anc'
      end
  end.

Definition selects (hover : bool) (s : selector) (p : place) : bool :=
  match rev s with
  | [] => false
  | c :: above =>
      matches_compound hover c (subject p, last_child p)
      && match above with
         | [] => true
         | _ => up hover above (ancestors p)
         end
  end.

(** The places a selector selects. *)
Definition selected_places (hover : bool) (s : selector) (doc : node) : list place :=
  filter (selects hover s) (places doc).

Definition has_class (k : string) (n : node) : bool := mem_str k (classList n).

(** The first place whose element a test accepts, and the ancestors of the
    children of that element. *)
Definition place_at (h : node -> bool) (doc : node) : option place :=
  find (fun p => h (subject p)) (places doc).

Definition chain_at (h : node -> bool) (doc : node) : list node :=
  match place_at h doc with
  | Some p => shallow (subject p) :: ancestors p
  | None => []
  end.

Definition chain_to (i : string) (doc : node) : list node :=
  chain_at (has_id i) doc.

Definition pick_place (h : place -> bool) (p : place) : list place :=
  if h p then [p] else [].

(** [document.querySelectorAll(s)] and [document.querySelector(s)]. *)
Definition querySelectorAll (s : selector) (doc : node) : list node :=
  map subject (filter (selects false s) (places doc)).

Definition querySelector (s : selector) (doc : node) : option node :=
  hd_error (querySelectorAll s doc).

(** A selector as a style sheet or a query writes it. *)
Definition quoted (s : string) : string := String "034" (s ++ String "034" "").

Definition show_simple (s : simple) : string :=
  match s with
  | Any => "*"
  | Tag name => name
  | Class c => "." ++ c
  | AttrEq k v => "[" ++ k ++ "=" ++ quoted v ++ "]"
  | NotClass c => ":not(." ++ c ++ ")"
  | LastChild => ":last-child"
  | Hover => ":hover"
  | AttrHas k v => "[" ++ k ++ "*=" ++ quoted v ++ "]"
  end.

Definition show_compound (c : compound) : string := String.concat "" (map show_simple c).

Definition show_selector (s : selector) : string := join " " (map show_compound s).

(** A compound that does not depend on where the element stands. *)
Definition plain_simple (s : simple) : bool :=
  match s with
  | LastChild | Hover => false
  | _ => true
  end.

Definition plain (c : compound) : bool := forallb plain_simple c.

Definition matches_plain (c : compound) (n : node) : bool :=
  matches_compound false c (n, false).

(** ** Style sheets *)

(** A rule: the width of [@media (max-width: w)] when it stands in one, its
    selector and its declarations. *)
Record rule : Type := mkRule {
  r_media : option nat;
  r_selector : selector;
  r_declarations : list (string * string)
}.

Definition style_rule (s : selector) (ds : list (string * string)) : rule :=
  mkRule None s ds.

(** The view: the width of the window and whether the pointer is over the
    element. *)
Record view : Type := mkView {
  width : nat;
  hover : bool
}.

(** Classes, attributes and pseudo-classes; then type selectors. *)
Definition simple_weight (s : simple) : nat * nat :=
  match s with
  | Any => (0, 0)
  | Tag _ => (0, 1)
  | _ => (1, 0)
  end.

Definition plus2 (a b : nat * nat) : nat * nat := (fst a + fst b, snd a + snd b).

Definition specificity (s : selector) : nat * nat :=
  fold_right (fun c acc => fold_right (fun x acc' => plus2 (simple_weight x) acc') acc c) (0, 0) s.

(** [a] is at least as specific as [b]. *)
Definition at_least (a b : nat * nat) : bool :=
  (fst b <? fst a) || ((fst a =? fst b) && (snd b <=? snd a)).

Definition applies (v : view) (p : place) (r : rule) : bool :=
  selects (hover v) (r_selector r) p
  && match r_media r with
     | Some w => width v <=? w
     | None => true
     end.

(** The last declaration of a property in a block. *)
Definition declared (prop : string) (ds : list (string * string)) : option string :=
  dget prop (rev ds).

(** The declaration that wins so far, with the specificity of its rule. *)
Definition take (v : view) (p : place) (prop : string)
    (best : option (nat * nat * string)) (r : rule) : option (nat * nat * string) :=
  if applies v p r then
    match declared prop (r_declarations r) with
    | Some x =>
        match best with
        | Some (s, _) =>
            if at_least (specificity (r_selector r)) s
            then Some (specificity (r_selector r), x) else best
        | None => Some (specificity (r_selector r), x)
        end
    | None => best
    end
  else best.

(** The cascade: of the declarations of a property in the rules that apply,
    the one of the most specific selector, the last one among equals. *)
Definition cascaded (sheet : list rule) (v : view) (p : place) (prop : string)
  : option string :=
  option_map snd (fold_left (take v p prop) sheet None).

(** The inline style goes before the style sheet. *)
Definition declared_value (sheet : list rule) (v : view) (p : place) (prop : string)
  : option string :=
  match declared prop (inline_style (subject p)) with
  | Some x => Some x
  | None => cascaded sheet v p prop
  end.

(** A custom property is inherited: the element's own, or the nearest
    ancestor's. *)
Definition custom (name : string) (p : place) : option string :=
  first_some (map (fun n (_ : unit) => declared name (inline_style n))
                (subject p :: ancestors p)) tt.

(** [var(--name)]. *)
Definition var_name (value : string) : option string :=
  match drop_prefix "var(" value with
  | Some r => Some (rstrip_by (fun c => Ascii.eqb c ")") r)
  | None => None
  end.

Definition used_value (sheet : list rule) (v : view) (p : place) (prop : string)
  : option string :=
  match declared_value sheet v p prop with
  | Some x =>
      match var_name x with
      | Some name => custom name p
      | None => Some x
      end
  | None => None
  end.

(** The classes a selector names. *)
Definition selector_classes (s : selector) : list string :=
  flat_map (flat_map (fun x => match x with
                               | Class c | NotClass c => [c]
                               | _ => []
                               end)) s.

Definition sheet_classes (sheet : list rule) : list string :=
  flat_map (fun r => selector_classes (r_selector r)) sheet.

(** ** Documents: facts *)

Create Rewrite HintDb markup_rw.

Section NodeInduction.

Variable P : node -> Prop.
Hypothesis element_case : forall name attrs style children,
  Forall P children -> P (Element name attrs style children).
Hypothesis text_case : forall s, P (Text s).
Hypothesis comment_case : forall s, P (Comment s).
Hypothesis raw_case : forall html, P (Raw html).

(** Induction on a tree, with the property of every child. *)
Fixpoint node_rect' (n : node) : P n :=
  match n with
  | Element name attrs style children =>
      element_case name attrs style children
        ((fix go (cs : list node) : Forall P cs :=
            match cs with
            | [] => Forall_nil P
            | c :: cs' => Forall_cons c (node_rect' c) (go cs')
            end) children)
  | Text s => text_case s
  | Comment s => comment_case s
  | Raw html => raw_case html
  end.

End NodeInduction.

Lemma places_children (anc : list node) (cs : list node) :
  (fix go (cs : list node) : list place :=
     match cs with
     | [] => []
     | c :: cs' => places_from anc (negb (existsb is_element cs')) c ++ go cs'
     end) cs
  = places_list anc cs.
Proof.
  unfold places_list. induction cs as [|c cs IH]; [reflexivity|].
  cbn [places_with]. now rewrite <- IH.
Qed.

Lemma places_from_Element (anc : list node) (last : bool)
    (name : string) (attrs style : list (string * string)) (children : list node) :
  places_from anc last (Element name attrs style children)
  = mkPlace (Element name attrs style children) last anc
    :: places_list (Element name attrs style [] :: anc) children.
Proof. cbn [places_from]. f_equal. apply places_children. Qed.

Lemma places_list_nil (anc : list node) : places_list anc [] = [].
Proof. reflexivity. Qed.

Lemma places_list_cons (anc : list node) (c : node) (cs : list node) :
  places_list anc (c :: cs)
  = places_from anc (negb (existsb is_element cs)) c ++ places_list anc cs.
Proof. reflexivity. Qed.

Lemma places_from_Text (anc : list node) (last : bool) (s : string) :
  places_from anc last (Text s) = [].
Proof. reflexivity. Qed.

Lemma places_from_Comment (anc : list node) (last : bool) (s : string) :
  places_from anc last (Comment s) = [].
Proof. reflexivity. Qed.

Lemma places_from_Raw (anc : list node) (last : bool) (s : string) :
  places_from anc last (Raw s) = [].
Proof. reflexivity. Qed.

#[export] Hint Rewrite places_from_Element places_list_nil places_list_cons
  places_from_Text places_from_Comment places_from_Raw : markup_rw.

(** The subjects of the places are the elements, in document order. *)
Lemma subjects_places (n : node) :
  forall anc last, map subject (places_from anc last n) = elements n.
Proof.
  induction n as [name attrs style children IH| | |] using node_rect'; try reflexivity.
  intros anc last. rewrite places_from_Element. cbn [map subject elements]. f_equal.
  generalize (Element name attrs style [] :: anc) as anc'.
  induction IH as [|c cs Hc _ IHcs]; intros anc'; [reflexivity|].
  rewrite places_list_cons, map_app, Hc, IHcs. reflexivity.
Qed.

Lemma places_elements (doc : node) : map subject (places doc) = elements doc.
Proof. apply subjects_places. Qed.

Lemma elements_are_elements (n e : node) : In e (elements n) -> is_element e = true.
Proof.
  revert e. induction n as [name attrs style children IH|s|s|s] using node_rect';
    intros e Hin; [|destruct Hin..].
  destruct Hin as [<-|Hin]; [reflexivity|]. apply in_flat_map in Hin as (c & Hc & He).
  rewrite Forall_forall in IH. eauto.
Qed.

(** Where a plain compound selects depends on the element only. *)
Lemma holds_plain (hover last : bool) (n : node) (s : simple) :
  plain_simple s = true -> holds hover last n s = holds false false n s.
Proof. now destruct s. Qed.

Lemma matches_compound_plain (hover : bool) (c : compound) (n : node) (last : bool) :
  plain c = true -> matches_compound hover c (n, last) = matches_plain c n.
Proof.
  intros Hp. unfold matches_plain, matches_compound. cbn [fst snd]. f_equal.
  apply forallb_ext_in. intros s Hs. apply holds_plain.
  unfold plain in Hp. rewrite forallb_forall in Hp. auto.
Qed.

Lemma up_nil (hover : bool) (anc : list node) : up hover [] anc = true.
Proof. now destruct anc. Qed.

(** A selector of one compound does not look at the ancestors. *)
Lemma selects_single (hover : bool) (c : compound) (p : place) :
  selects hover [c] p = matches_compound hover c (subject p, last_child p).
Proof. unfold selects. cbn [rev app]. now rewrite andb_true_r. Qed.

Lemma selects_plain (hover : bool) (c : compound) (p : place) :
  plain c = true -> selects hover [c] p = matches_plain c (subject p).
Proof. intros Hp. now rewrite selects_single, matches_compound_plain. Qed.

(** [querySelectorAll] with a plain compound is a filter of the elements. *)
Lemma querySelectorAll_plain (c : compound) (doc : node) :
  plain c = true ->
  querySelectorAll [c] doc = filter (matches_plain c) (elements doc).
Proof.
  intros Hp. unfold querySelectorAll. rewrite <- places_elements.
  rewrite (filter_ext _ _ (fun p => selects_plain false c p Hp)).
  generalize (places doc) as l. induction l as [|p l IH]; [reflexivity|].
  cbn [filter map]. destruct (matches_plain c (subject p)); cbn [map]; now rewrite IH.
Qed.

Lemma querySelector_plain (c : compound) (doc : node) :
  plain c = true ->
  querySelector [c] doc = find (matches_plain c) (elements doc).
Proof.
  intros Hp. unfold querySelector. rewrite querySelectorAll_plain by exact Hp.
  generalize (elements doc) as l. induction l as [|e l IH]; [reflexivity|].
  cbn [filter find]. now destruct (matches_plain c e).
Qed.

(** ** Identifiers *)

Lemma collect_Element {B : Type} (g : node -> list B) (name : string)
    (attrs style : list (string * string)) (children : list node) :
  collect g (Element name attrs style children)
  = g (Element name attrs style children) ++ flat_map (collect g) children.
Proof.
  unfold collect. cbn [elements flat_map]. f_equal.
  induction children as [|c cs IH]; [reflexivity|].
  cbn [flat_map]. now rewrite flat_map_app, IH.
Qed.

Lemma ids_Element (name : string) (attrs style : list (string * string))
    (children : list node) :
  ids (Element name attrs style children)
  = match dget "id" attrs with Some i => [i] | None => [] end
    ++ flat_map ids children.
Proof. apply collect_Element. Qed.

Lemma getElementById_In (i : string) (doc e : node) :
  getElementById i doc = Some e -> In e (elements doc) /\ getAttribute "id" e = Some i.
Proof.
  intros Hf. apply find_some in Hf as [Hin Hid]. split; [exact Hin|].
  unfold has_id in Hid. destruct (getAttribute "id" e) as [j|]; [|discriminate].
  now apply String.eqb_eq in Hid as ->.
Qed.

Lemma In_ids (i : string) (doc : node) :
  In i (ids doc) <-> exists e, In e (elements doc) /\ getAttribute "id" e = Some i.
Proof.
  unfold ids, collect, id_list, attr_list. rewrite in_flat_map.
  split; intros (e & He & Hi); exists e; split; auto.
  - destruct (getAttribute "id" e) as [j|]; [|destruct Hi].
    destruct Hi as [->|[]]. reflexivity.
  - rewrite Hi. now left.
Qed.

(** An identifier of the document is found. *)
Lemma getElementById_found (i : string) (doc : node) :
  In i (ids doc) -> exists e, getElementById i doc = Some e.
Proof.
  intros (e & He & Hi)%In_ids. unfold getElementById.
  destruct (find (has_id i) (elements doc)) as [e'|] eqn:Hf; [eauto|].
  apply (find_none _ _ Hf) in He. unfold has_id in He.
  rewrite Hi, String.eqb_refl in He. discriminate.
Qed.

Lemma getElementById_missing (i : string) (doc : node) :
  ~ In i (ids doc) -> getElementById i doc = None.
Proof.
  intros Hn. destruct (getElementById i doc) as [e|] eqn:Hf; [|reflexivity].
  apply getElementById_In in Hf as [He Hi]. exfalso. apply Hn, In_ids. eauto.
Qed.

(** ** The cascade *)

(** What the fold has found: nothing, or the value of a rule that applies. *)
Definition from_sheet (sheet : list rule) (v : view) (p : place) (prop : string)
    (best : option (nat * nat * string)) : Prop :=
  match best with
  | Some (s, x) =>
      exists r, In r sheet /\ applies v p r = true /\
                declared prop (r_declarations r) = Some x /\ specificity (r_selector r) = s
  | None => True
  end.

Lemma take_from_sheet (sheet : list rule) (v : view) (p : place) (prop : string)
    (best : option (nat * nat * string)) (r : rule) :
  In r sheet -> from_sheet sheet v p prop best ->
  from_sheet sheet v p prop (take v p prop best r).
Proof.
  intros Hr Hb. unfold take.
  destruct (applies v p r) eqn:Ha; [|exact Hb].
  destruct (declared prop (r_declarations r)) as [x|] eqn:Hd; [|exact Hb].
  destruct best as [[s y]|]; [destruct (at_least _ s); [|exact Hb]|];
    exists r; auto.
Qed.

Lemma fold_take_from_sheet (sheet : list rule) (v : view) (p : place) (prop : string) :
  forall (l : list rule) (best : option (nat * nat * string)),
    incl l sheet -> from_sheet sheet v p prop best ->
    from_sheet sheet v p prop (fold_left (take v p prop) l best).
Proof.
  induction l as [|r l IH]; intros best Hl Hb; [exact Hb|].
  cbn [fold_left]. apply IH.
  - intros x Hx. apply Hl. now right.
  - apply take_from_sheet; [apply Hl; now left | exact Hb].
Qed.

(** A cascaded value is declared by a rule of the sheet that applies. *)
Lemma cascaded_declared (sheet : list rule) (v : view) (p : place) (prop x : string) :
  cascaded sheet v p prop = Some x ->
  exists r, In r sheet /\ applies v p r = true /\
            declared prop (r_declarations r) = Some x.
Proof.
  unfold cascaded. intros Hc.
  pose proof (fold_take_from_sheet sheet v p prop sheet None (incl_refl _) I) as Hf.
  destruct (fold_left (take v p prop) sheet None) as [[s y]|]; [|discriminate].
  injection Hc as ->. destruct Hf as (r & ? & ? & ? & _). eauto.
Qed.

Lemma take_keeps (v : view) (p : place) (prop : string)
    (best : option (nat * nat * string)) (r : rule) :
  best <> None -> take v p prop best r <> None.
Proof.
  intros Hb. unfold take. destruct (applies v p r); [|exact Hb].
  destruct (declared prop (r_declarations r)) as [x|]; [|exact Hb].
  destruct best as [[s y]|]; [destruct (at_least _ s)|]; congruence.
Qed.

Lemma fold_take_keeps (v : view) (p : place) (prop : string) (l : list rule) :
  forall best, best <> None -> fold_left (take v p prop) l best <> None.
Proof.
  induction l as [|r l IH]; intros best Hb; [exact Hb|].
  cbn [fold_left]. apply IH, take_keeps, Hb.
Qed.

(** No value: no rule that applies declares the property. *)
Lemma cascaded_None (sheet : list rule) (v : view) (p : place) (prop : string) :
  cascaded sheet v p prop = None <->
  forall r, In r sheet -> applies v p r = true ->
            declared prop (r_declarations r) = None.
Proof.
  unfold cascaded. split.
  - intros Hc r Hr Ha. apply in_split in Hr as (l1 & l2 & ->).
    rewrite fold_left_app in Hc. cbn [fold_left] in Hc.
    destruct (declared prop (r_declarations r)) as [x|] eqn:Hd; [|reflexivity].
    exfalso. revert Hc.
    destruct (fold_left (take v p prop) l2 _) eqn:Hf; [discriminate|]. intros _.
    revert Hf. apply fold_take_keeps. unfold take. rewrite Ha, Hd.
    destruct (fold_left _ l1 None) as [[sp y]|]; [destruct (at_least _ sp)|]; discriminate.
  - intros Hn. assert (fold_left (take v p prop) sheet None = None) as ->; [|reflexivity].
    revert Hn. generalize sheet as l. induction l as [|r l IH]; intros Hn; [reflexivity|].
    cbn [fold_left]. replace (take v p prop None r) with (@None (nat * nat * string)).
    + apply IH. intros r' Hr'. apply Hn. now right.
    + unfold take. destruct (applies v p r) eqn:Ha; [|reflexivity].
      now rewrite (Hn r (or_introl eq_refl) Ha).
Qed.

(** A sheet with one more rule at its end: the rule wins when it applies,
    declares the property and is at least as specific as what was found. *)
Lemma cascaded_snoc (sheet : list rule) (r : rule) (v : view) (p : place) (prop : string) :
  cascaded (sheet ++ [r]) v p prop
  = option_map snd (take v p prop (fold_left (take v p prop) sheet None) r).
Proof. unfold cascaded. now rewrite fold_left_app. Qed.

Lemma cascaded_not_applying (sheet : list rule) (r : rule) (v : view) (p : place)
    (prop : string) :
  applies v p r = false ->
  cascaded (sheet ++ [r]) v p prop = cascaded sheet v p prop.
Proof. intros Ha. rewrite cascaded_snoc. unfold take. now rewrite Ha. Qed.

(** The inline style wins over every rule. *)
Lemma declared_value_inline (sheet : list rule) (v : view) (p : place) (prop x : string) :
  declared prop (inline_style (subject p)) = Some x ->
  declared_value sheet v p prop = Some x.
Proof. unfold declared_value. now intros ->. Qed.

(** ** Walking a document *)

Lemma sweep_places {B : Type} (f : place -> list B) (n : node) :
  forall anc last acc, sweep f anc last n acc = flat_map f (places_from anc last n) ++ acc.
Proof.
  induction n as [name attrs style children IH|s|s|s] using node_rect';
    intros anc last acc; try reflexivity.
  rewrite places_from_Element. cbn [sweep flat_map]. rewrite <- app_assoc. f_equal.
  cbn [shallow]. generalize (Element name attrs style [] :: anc) as anc'.
  intros anc'.
  induction IH as [|c cs Hc _ IHcs]; [reflexivity|].
  rewrite places_list_cons, flat_map_app, <- app_assoc, <- IHcs. apply Hc.
Qed.

Lemma sweep_list_places {B : Type} (f : place -> list B) (anc : list node)
    (cs : list node) (acc : list B) :
  sweep_list f anc cs acc = flat_map f (places_list anc cs) ++ acc.
Proof.
  unfold sweep_list. induction cs as [|c cs IH]; [reflexivity|].
  cbn [sweep_with]. now rewrite IH, sweep_places, places_list_cons, flat_map_app, app_assoc.
Qed.

Lemma flat_map_subject {B : Type} (g : node -> list B) (l : list place) :
  flat_map (fun p => g (subject p)) l = flat_map g (map subject l).
Proof. now rewrite !flat_map_concat_map, map_map. Qed.

Lemma subjects_places_list (anc : list node) (cs : list node) :
  map subject (places_list anc cs) = flat_map elements cs.
Proof.
  induction cs as [|c cs IH]; [reflexivity|].
  now rewrite places_list_cons, map_app, subjects_places, IH.
Qed.

(** The pass gives what [collect] gives. *)
Lemma collect_acc_eq {B : Type} (g : node -> list B) (n : node) :
  forall acc, collect_acc g n acc = collect g n ++ acc.
Proof.
  induction n as [name attrs style children IH|s|s|s] using node_rect';
    intros acc; try reflexivity.
  rewrite collect_Element. cbn [collect_acc]. rewrite <- app_assoc. f_equal.
  induction IH as [|c cs Hc _ IHcs]; [reflexivity|].
  cbn [fold_right flat_map]. now rewrite IHcs, Hc, app_assoc.
Qed.

(** The part of a list of children whose members are not written out. *)
Lemma among_eq {B : Type} (g : node -> list B) (cs : list node) (acc : list B) :
  among g cs acc = flat_map (collect g) cs ++ acc.
Proof.
  unfold among. induction cs as [|c cs IH]; [reflexivity|].
  cbn [fold_right flat_map]. now rewrite IH, collect_acc_eq, app_assoc.
Qed.

Lemma among_app {B : Type} (g : node -> list B) (l r : list node) (acc : list B) :
  among g (l ++ r) acc = among g l (among g r acc).
Proof. apply fold_right_app. Qed.

Lemma collect_map {A B : Type} (g : node -> list B) (f : A -> node) (l : list A) :
  flat_map (collect g) (map f l) = flat_map (fun x => collect g (f x)) l.
Proof. now rewrite flat_map_concat_map, map_map, <- flat_map_concat_map. Qed.

Lemma collect_walk {B : Type} (g : node -> list B) (doc : node) :
  collect g doc = collect_acc g doc [].
Proof. now rewrite collect_acc_eq, app_nil_r. Qed.

Lemma select_collect (h : node -> bool) (n : node) : select h n = collect (pick h) n.
Proof.
  unfold select, collect, pick. induction (elements n) as [|e l IH]; [reflexivity|].
  cbn [filter flat_map]. rewrite IH. now destruct (h e).
Qed.

Lemma select_among_collect (h : node -> bool) (cs : list node) :
  select_among h cs = flat_map (collect (pick h)) cs.
Proof. unfold select_among. apply flat_map_ext. intros c. apply select_collect. Qed.

(** A walk: the collection as one pass, which computes on the written part
    of the document to [r]; the parts that are not written out, which stand
    in [r] as [among], come back as [flat_map]s. *)
Ltac walk_as r :=
  rewrite ?select_collect; rewrite collect_walk;
  match goal with
  | |- collect_acc _ _ [] = ?rhs => change (r = rhs)
  end;
  rewrite ?among_eq, <- ?select_among_collect, ?app_nil_r.

Lemma select_Element (h : node -> bool) (name : string)
    (attrs style : list (string * string)) (children : list node) :
  select h (Element name attrs style children)
  = pick h (Element name attrs style children) ++ select_among h children.
Proof.
  unfold select, select_among, pick. cbn [elements filter].
  rewrite filter_flat_map. now destruct (h _).
Qed.

Lemma select_among_app (h : node -> bool) (l r : list node) :
  select_among h (l ++ r) = select_among h l ++ select_among h r.
Proof. apply flat_map_app. Qed.

Lemma select_among_map {A : Type} (h : node -> bool) (f : A -> node) (l : list A) :
  select_among h (map f l) = flat_map (fun x => select h (f x)) l.
Proof. unfold select_among. now rewrite flat_map_concat_map, map_map, <- flat_map_concat_map. Qed.

Lemma select_among_none {A : Type} (h : node -> bool) (f : A -> node) (l : list A) :
  (forall x, select h (f x) = []) -> select_among h (map f l) = [].
Proof. intros Hf. rewrite select_among_map. apply flat_map_nil. auto. Qed.

Lemma select_among_all {A : Type} (h : node -> bool) (f : A -> node) (l : list A) :
  (forall x, select h (f x) = [f x]) -> select_among h (map f l) = map f l.
Proof.
  intros Hf. rewrite select_among_map, <- flat_map_singleton.
  apply flat_map_ext. auto.
Qed.

Lemma getElementById_select (i : string) (doc : node) :
  getElementById i doc = hd_error (select (has_id i) doc).
Proof. apply find_hd_filter. Qed.

Lemma querySelectorAll_select (c : compound) (doc : node) :
  plain c = true -> querySelectorAll [c] doc = select (matches_plain c) doc.
Proof. apply querySelectorAll_plain. Qed.

Lemma In_select (h : node -> bool) (n e : node) :
  In e (select h n) <-> In e (elements n) /\ h e = true.
Proof. apply filter_In. Qed.

(** ** Classes *)

Lemma classes_Element (name : string) (attrs style : list (string * string))
    (children : list node) :
  classes (Element name attrs style children)
  = classList (Element name attrs style children) ++ flat_map classes children.
Proof. apply collect_Element. Qed.

Lemma In_classes (k : string) (n : node) :
  In k (classes n) <-> exists e, In e (elements n) /\ In k (classList e).
Proof. apply in_flat_map. Qed.

(** A compound that names a class selects elements of the class only. *)
Lemma matches_compound_class (hover : bool) (c : compound) (e : node * bool) (k : string) :
  matches_compound hover c e = true -> In (Class k) c -> In k (classList (fst e)).
Proof.
  unfold matches_compound. intros [_ Hc]%andb_true_iff Hk.
  rewrite forallb_forall in Hc. apply Hc in Hk. now apply mem_str_In.
Qed.

(** The subject of a selector is the last compound. *)
Lemma selects_subject (hover : bool) (s : selector) (c : compound) (p : place) :
  selects hover (s ++ [c]) p = true ->
  matches_compound hover c (subject p, last_child p) = true.
Proof.
  unfold selects. rewrite rev_app_distr. cbn [rev app].
  now intros [Hc _]%andb_true_iff.
Qed.

Lemma In_places_elements (doc : node) (p : place) :
  In p (places doc) -> In (subject p) (elements doc).
Proof. intros Hp. rewrite <- places_elements. now apply in_map. Qed.

(** A selector whose subject names a class the document does not use
    selects nothing. *)
Lemma unused_class_selects (hover : bool) (s : selector) (c : compound) (k : string)
    (doc : node) (p : place) :
  In (Class k) c -> ~ In k (classes doc) -> In p (places doc) ->
  selects hover (s ++ [c]) p = false.
Proof.
  intros Hk Hdoc Hp. destruct (selects hover (s ++ [c]) p) eqn:Hs; [|reflexivity].
  exfalso. apply Hdoc, In_classes. exists (subject p). split.
  - now apply In_places_elements.
  - exact (matches_compound_class hover c _ k (selects_subject _ _ _ _ Hs) Hk).
Qed.

Lemma unused_class_selected (hover : bool) (c : compound) (k : string) (doc : node) :
  In (Class k) c -> ~ In k (classes doc) -> selected_places hover [c] doc = [].
Proof.
  intros Hk Hdoc. unfold selected_places. apply filter_none.
  destruct (existsb _ _) eqn:E; [|reflexivity].
  apply existsb_exists in E as (p & Hp & Hs).
  pose proof (unused_class_selects hover [] c k doc p Hk Hdoc Hp) as Hn.
  cbn [app] in Hn. congruence.
Qed.

(** A test that asks for a class the tree does not use, or for an identifier
    it does not have, accepts none of its elements. *)
Lemma select_none (h : node -> bool) (n : node) :
  (forall e, In e (elements n) -> h e = false) -> select h n = [].
Proof.
  intros Hn. unfold select. apply filter_none.
  destruct (existsb h (elements n)) eqn:E; [|reflexivity].
  apply existsb_exists in E as (e & He & Hh). now rewrite (Hn e He) in Hh.
Qed.

Lemma select_unused_class (c : compound) (k : string) (n : node) :
  In (Class k) c -> ~ In k (classes n) -> select (matches_plain c) n = [].
Proof.
  intros Hk Hn. apply select_none. intros e He.
  destruct (matches_plain c e) eqn:E; [|reflexivity]. exfalso. apply Hn, In_classes.
  exists e. split; [exact He|]. exact (matches_compound_class false c (e, false) k E Hk).
Qed.

Lemma select_no_id (i : string) (n : node) :
  ~ In i (ids n) -> select (has_id i) n = [].
Proof.
  intros Hn. apply select_none. intros e He.
  unfold has_id. destruct (getAttribute "id" e) as [j|] eqn:Hj; [|reflexivity].
  destruct (String.eqb_spec j i) as [->|]; [|reflexivity].
  exfalso. apply Hn, In_ids. eauto.
Qed.

(** An attribute no element of a tree has. *)
Lemma collect_attr_none (k : string) (n : node) :
  ~ In k (attribute_names n) -> collect (attr_list k) n = [].
Proof.
  intros Hk. apply flat_map_nil. intros e He. unfold attr_list.
  destruct (getAttribute k e) as [v|] eqn:E; [|reflexivity].
  exfalso. apply Hk. apply in_flat_map. exists e. split; [exact He|].
  destruct e as [name attrs style cs| | |]; try discriminate.
  cbn [getAttribute] in E. cbn [attr_names]. apply dget_In in E.
  now apply (in_map fst) in E.
Qed.

Lemma attribute_names_Element (name : string) (attrs style : list (string * string))
    (children : list node) :
  attribute_names (Element name attrs style children)
  = map fst attrs ++ flat_map attribute_names children.
Proof. apply collect_Element. Qed.

Lemma attribute_names_map {A : Type} (f : A -> node) (l : list A) (m : list string) :
  (forall x, incl (attribute_names (f x)) m) ->
  incl (flat_map attribute_names (map f l)) m.
Proof.
  intros Hf. rewrite flat_map_concat_map, map_map, <- flat_map_concat_map.
  apply incl_flat_map. auto.
Qed.

Lemma flat_map_ids_map {A : Type} (f : A -> node) (l : list A) :
  (forall x, ids (f x) = []) -> flat_map ids (map f l) = [].
Proof.
  intros Hf. rewrite flat_map_concat_map, map_map, <- flat_map_concat_map.
  apply flat_map_nil. auto.
Qed.

Lemma classes_map {A : Type} (f : A -> node) (l : list A) (m : list string) :
  (forall x, incl (classes (f x)) m) -> incl (flat_map classes (map f l)) m.
Proof.
  intros Hf. rewrite flat_map_concat_map, map_map, <- flat_map_concat_map.
  apply incl_flat_map. auto.
Qed.

(** ** Walking the places *)

Lemma filter_pick_place (h : place -> bool) (l : list place) :
  filter h l = flat_map (pick_place h) l.
Proof.
  unfold pick_place. induction l as [|p l IH]; [reflexivity|].
  cbn [filter flat_map]. rewrite IH. now destruct (h p).
Qed.

Lemma selected_places_walk (hover : bool) (s : selector) (doc : node) :
  selected_places hover s doc = sweep (pick_place (selects hover s)) [] true doc [].
Proof.
  unfold selected_places, places. now rewrite filter_pick_place, sweep_places, app_nil_r.
Qed.

Lemma In_places_list (anc : list node) (cs : list node) (p : place) :
  In p (places_list anc cs) -> exists c, In c cs /\ In (subject p) (elements c).
Proof.
  intros Hp. apply (in_map subject) in Hp. rewrite subjects_places_list in Hp.
  now apply in_flat_map in Hp.
Qed.

(** Children none of whose places the function keeps. *)
Lemma sweep_list_none {B : Type} (f : place -> list B) (anc : list node)
    (cs : list node) (acc : list B) :
  (forall p, In p (places_list anc cs) -> f p = []) -> sweep_list f anc cs acc = acc.
Proof. intros Hf. rewrite sweep_list_places, flat_map_nil; auto. Qed.

(** A selector whose subject names a class that children do not use selects
    none of their places. *)
Lemma sweep_list_unused (hover : bool) (s : selector) (c : compound) (k : string)
    (anc : list node) (cs : list node) (acc : list place) :
  In (Class k) c -> ~ In k (flat_map classes cs) ->
  sweep_list (pick_place (selects hover (s ++ [c]))) anc cs acc = acc.
Proof.
  intros Hk Hcs. apply sweep_list_none. intros p (n & Hn & Hp)%In_places_list.
  unfold pick_place. destruct (selects hover (s ++ [c]) p) eqn:Hs; [|reflexivity].
  exfalso. apply Hcs, in_flat_map. exists n. split; [exact Hn|]. apply In_classes.
  exists (subject p). split; [exact Hp|].
  exact (matches_compound_class hover c _ k (selects_subject _ _ _ _ Hs) Hk).
Qed.

Lemma sweep_list_unused_single (hover : bool) (c : compound) (k : string)
    (anc : list node) (cs : list node) (acc : list place) :
  In (Class k) c -> ~ In k (flat_map classes cs) ->
  sweep_list (pick_place (selects hover [c])) anc cs acc = acc.
Proof. exact (sweep_list_unused hover [] c k anc cs acc). Qed.

(** Children that are followed by an element: none of them is the last. *)
Definition sweep_inner {B : Type} (f : place -> list B) (anc : list node)
    (cs : list node) (acc : list B) : list B :=
  fold_right (fun c k => sweep f anc false c k) acc cs.

Lemma sweep_list_app {B : Type} (f : place -> list B) (anc : list node)
    (l r : list node) (acc : list B) :
  existsb is_element r = true ->
  sweep_list f anc (l ++ r) acc = sweep_inner f anc l (sweep_list f anc r acc).
Proof.
  intros Hr. unfold sweep_list, sweep_inner.
  induction l as [|c l IH]; [reflexivity|].
  cbn [app sweep_with fold_right]. now rewrite IH, existsb_app, Hr, orb_true_r.
Qed.

Lemma sweep_inner_map {A B : Type} (f : place -> list B) (anc : list node)
    (n : A -> node) (g : A -> list B) (l : list A) (acc : list B) :
  (forall x k, sweep f anc false (n x) k = g x ++ k) ->
  sweep_inner f anc (map n l) acc = flat_map g l ++ acc.
Proof.
  intros Hn. unfold sweep_inner. induction l as [|x l IH]; [reflexivity|].
  cbn [map fold_right flat_map]. now rewrite IH, Hn, app_assoc.
Qed.

(** A walk over the places, as [walk_as] over the elements. *)
Ltac walk_places_as r :=
  rewrite selected_places_walk;
  match goal with
  | |- sweep _ _ _ _ [] = ?rhs => change (r = rhs)
  end.
