(* ===== verification/IndexDom.v ===== *)
(** * IndexDom: the document of the index page

    [generate_index_html] returns one text: the markup of the page, its
    style sheet and its script.  [IndexFilter] models the script on a state
    that keeps, of the document, the tags of the two controls, the entries
    shown and the two counts.  This file gives the document itself:

    - [index_head], [index_body], [index_html]: the markup of the file, as a
      tree with the five places the script writes to as parameters;
      [index_static] is the page before the script has run.
    - [tag_node], [entry_node]: the elements [createTag] and
      [createEntryElement] build; [error_node] is the message [loadData]
      leaves when it fails.
    - [dom_of]: the document of a state of [IndexFilter] after
      [renderEntries].
    - [index_style]: the style sheet, rule by rule in the order of the file.

    The theorems show that the document is what the script takes it to be
    (every identifier it looks up names one element; its queries for tags
    return the tags of the controls the state keeps, never a tag of an
    entry), how a tag looks by the cascade, and which rules of the style
    sheet can never apply.

    White space between elements and the formatting of the text are not
    modelled; the script is the handlers of [IndexFilter]. *)

From S2P Require Import Prelude.
From S2P Require Import Text.
From S2P Require Import Dict.
From S2P Require Import Taxonomy.
From S2P Require Import EntryParser.
From S2P Require Import Classifier.
From S2P Require Import Dataset.
From S2P Require Import IndexFilter.
From S2P Require Import Markup.

#[local] Open Scope string_scope.
#[local] Open Scope list_scope.
#[local] Open Scope nat_scope.

(** ** The markup *)

Definition index_head : node :=
  el "head" []
    [ el "meta" [("charset", "UTF-8")] [];
      el "meta" [("name", "viewport");
                 ("content", "width=device-width, initial-scale=1.0")] [];
      el "title" [] [Text "Trump Administration Policy Tracker - Chronology"];
      el "style" [] [] ].

Definition index_header : node :=
  el "div" [("class", "header")]
    [ el "div" [("class", "container")]
        [ el "h1" [] [Text "Trump Administration Policy Tracker"];
          el "div" [("class", "subtitle")]
            [Text "Days 1-200: Comprehensive News Archive"] ] ].

Definition index_nav : node :=
  el "div" [("class", "nav-tabs")]
    [ el "div" [("class", "container")]
        [ el "div" [("class", "nav-tab");
                    ("onclick", "window.location.href='summary.html'")]
            [Text "Thematic Summary"];
          el "div" [("class", "nav-tab active")] [Text "Chronology"] ] ].

(** A control: its title, its two buttons and the container of its tags. *)
Definition control_section (title select deselect container : string)
    (tags : list node) : node :=
  el "div" [("class", "control-section")]
    [ el "h3" [] [Text title];
      el "div" [("class", "select-controls")]
        [ el "button" [("class", "select-btn"); ("onclick", select)] [Text "Select All"];
          el "button" [("class", "select-btn"); ("onclick", deselect)]
            [Text "Deselect All"] ];
      el "div" [("class", "tags-container"); ("id", container)] tags ].

Definition index_stats (visible total : string) : node :=
  el "div" [("class", "stats"); ("id", "stats")]
    [ Text "Showing ";
      el "span" [("id", "visible-count")] [Text visible];
      Text " of ";
      el "span" [("id", "total-count")] [Text total];
      Text " entries" ].

Definition index_controls (themes keywords : list node) (visible total : string)
  : node :=
  el "div" [("class", "controls")]
    [ control_section "Themes" "selectAllThemes()" "deselectAllThemes()"
        "themes-container" themes;
      control_section "Keywords" "selectAllKeywords()" "deselectAllKeywords()"
        "keywords-container" keywords;
      index_stats visible total ].

Definition index_body (themes keywords : list node) (visible total : string)
    (entries : list node) : node :=
  el "body" []
    [ index_header;
      index_nav;
      el "div" [("class", "container")]
        [ index_controls themes keywords visible total;
          el "div" [("class", "entries"); ("id", "entries-container")] entries ];
      el "script" [] [] ].

Definition index_html (themes keywords : list node) (visible total : string)
    (entries : list node) : node :=
  el "html" [("lang", "en")]
    [ index_head; index_body themes keywords visible total entries ].

(** The page of the file, before the script runs. *)
Definition index_static : node :=
  index_html [] [] "0" "0" [Comment " Entries will be populated by JavaScript "].

(** ** What the script builds *)

Definition type_name (ty : tag_type) : string :=
  match ty with
  | theme => "theme"
  | keyword => "keyword"
  end.

(** The class of a tag of a control: [`tag ${type} selected`], with
    [selected] taken away and put back by [classList]. *)
Definition tag_class (ty : tag_type) (selected : bool) : string :=
  "tag " ++ type_name ty ++ (if selected then " selected" else "").

(** [if (color) tag.style.setProperty('--color', color)]. *)
Definition color_style (color : option string) : list (string * string) :=
  match color with
  | Some c => if String.eqb c "" then [] else [("--color", c)]
  | None => []
  end.

Definition tag_node (ty : tag_type) (t : tag) : node :=
  Element "div" [("class", tag_class ty (tag_selected t)); ("data-value", tag_value t)]
    (color_style (tag_color t)) [Text (tag_value t)].

Definition entry_theme_node (tc : string * string) : node :=
  Element "span" [("class", "entry-tag theme")] [("--color", snd tc)] [Text (fst tc)].

Definition entry_keyword_node (k : string) : node :=
  el "span" [("class", "entry-tag keyword")] [Text k].

(** The header of an entry: its number, its title as a link and, when it
    has one, its date. *)
Definition entry_header (e : entry_el) : node :=
  el "div" [("class", "entry-header")]
    ([ el "span" [("class", "entry-number")] [Text (el_number e)];
       el "span" [("class", "entry-title")]
         [ el "a" [("href", el_href e); ("target", "_blank");
                   ("rel", "noopener noreferrer")] [Text (el_title e)] ] ]
     ++ match el_date e with
        | Some d => [el "span" [("class", "entry-date")] [Text d]]
        | None => []
        end).

(** The tags of an entry, when it has themes or keywords. *)
Definition entry_tags (e : entry_el) : list node :=
  match el_themes e, el_keywords e with
  | [], [] => []
  | ths, kws =>
      [ el "div" [("class", "entry-tags")]
          (map entry_theme_node ths ++ map entry_keyword_node kws) ]
  end.

Definition entry_node (e : entry_el) : node :=
  el "div" [("class", "entry")] (entry_header e :: entry_tags e).

(** The message of [loadData] when the data cannot be loaded. *)
Definition error_node : node :=
  Element "p" [] [("color", "red"); ("padding", "2rem")]
    [Text "Error loading data. Please ensure diary_data.json is available."].

Definition error_page : node := index_html [] [] "0" "0" [error_node].

(** The document of a state of the script. *)
Definition dom_of (p : index_page) : node :=
  index_html (map (tag_node theme) (theme_tags p))
    (map (tag_node keyword) (keyword_tags p))
    (str_of_nat (visible_count p)) (str_of_nat (total_count p))
    (map entry_node (entries_container p)).

(** The document [loadData] leaves. *)
Definition loaded (r : option index_page) : node :=
  match r with
  | Some p => dom_of p
  | None => error_page
  end.

(** The identifiers the script looks up. *)
Definition script_ids : list string :=
  ["entries-container"; "themes-container"; "keywords-container";
   "visible-count"; "total-count"].

(** The selector of the tag of a value in a control:
    [`.tag.${type}[data-value=...]`] with the value between quotes. *)
Definition tag_compound (ty : tag_type) (value : string) : compound :=
  [Class "tag"; Class (type_name ty); AttrEq "data-value" value].

Definition tag_selector (ty : tag_type) (value : string) : selector :=
  [tag_compound ty value].

(** [.tag.theme] and [.tag.keyword]. *)
Definition tags_compound (ty : tag_type) : compound :=
  [Class "tag"; Class (type_name ty)].

Definition tags_selector (ty : tag_type) : selector := [tags_compound ty].

(** ** The style sheet *)

(** The page, its header and the container. *)
Definition index_page_rules : list rule :=
  [
    style_rule [[Any]]
      [("margin", "0");
       ("padding", "0");
       ("box-sizing", "border-box")];
    style_rule [[Tag "body"]]
      [("font-family", "-apple-system, BlinkMacSystemFont, 'Segoe UI', Roboto, 'Helvetica Neue', Arial, sans-serif");
       ("line-height", "1.6");
       ("color", "#333");
       ("background", "#f8f9fa")];
    style_rule [[Class "header"]]
      [("background", "linear-gradient(135deg, #667eea 0%, #764ba2 100%)");
       ("color", "white");
       ("padding", "2rem 0");
       ("box-shadow", "0 2px 10px rgba(0,0,0,0.1)")];
    style_rule [[Class "container"]]
      [("max-width", "1400px");
       ("margin", "0 auto");
       ("padding", "0 20px")];
    style_rule [[Tag "h1"]]
      [("font-size", "2.5rem");
       ("font-weight", "700");
       ("margin-bottom", "0.5rem")];
    style_rule [[Class "subtitle"]]
      [("opacity", "0.9");
       ("font-size", "1.1rem")]
  ].

(** The two tabs. *)
Definition index_nav_rules : list rule :=
  [
    style_rule [[Class "nav-tabs"]]
      [("background", "white");
       ("padding", "0");
       ("box-shadow", "0 2px 4px rgba(0,0,0,0.1)");
       ("position", "sticky");
       ("top", "0");
       ("z-index", "100")];
    style_rule [[Class "nav-tabs"]; [Class "container"]]
      [("display", "flex");
       ("gap", "2rem");
       ("padding", "0 20px")];
    style_rule [[Class "nav-tab"]]
      [("padding", "1rem 0");
       ("cursor", "pointer");
       ("border-bottom", "3px solid transparent");
       ("transition", "all 0.3s");
       ("font-weight", "500");
       ("color", "#666")];
    style_rule [[Class "nav-tab"; Class "active"]]
      [("color", "#667eea");
       ("border-bottom-color", "#667eea")]
  ].

(** The controls and their sections. *)
Definition index_control_rules : list rule :=
  [
    style_rule [[Class "controls"]]
      [("background", "white");
       ("padding", "2rem");
       ("margin", "2rem 0");
       ("border-radius", "8px");
       ("box-shadow", "0 2px 4px rgba(0,0,0,0.05)")];
    style_rule [[Class "control-section"]]
      [("margin-bottom", "1.5rem")];
    style_rule [[Class "control-section"; LastChild]]
      [("margin-bottom", "0")];
    style_rule [[Class "control-section"]; [Tag "h3"]]
      [("font-size", "1rem");
       ("text-transform", "uppercase");
       ("letter-spacing", "0.05em");
       ("color", "#666");
       ("margin-bottom", "1rem");
       ("padding-bottom", "0.5rem");
       ("border-bottom", "1px solid #e0e0e0")];
    style_rule [[Class "tags-container"]]
      [("display", "flex");
       ("flex-wrap", "wrap");
       ("gap", "0.5rem")]
  ].

(** The tags of the controls. *)
Definition index_tag_rules : list rule :=
  [
    style_rule [[Class "tag"]]
      [("padding", "0.4rem 0.8rem");
       ("border-radius", "20px");
       ("cursor", "pointer");
       ("transition", "all 0.2s");
       ("font-size", "0.9rem");
       ("font-weight", "500");
       ("border", "2px solid transparent");
       ("user-select", "none")];
    style_rule [[Class "tag"; Class "theme"]]
      [("background", "var(--color)");
       ("color", "white");
       ("opacity", "0.9")];
    style_rule [[Class "tag"; Class "theme"; Class "selected"]]
      [("opacity", "1");
       ("transform", "scale(1.05)");
       ("box-shadow", "0 2px 8px rgba(0,0,0,0.2)")];
    style_rule [[Class "tag"; Class "theme"; NotClass "selected"]]
      [("opacity", "0.4")];
    style_rule [[Class "tag"; Class "keyword"]]
      [("background", "#f0f0f0");
       ("color", "#333");
       ("border-color", "#d0d0d0")];
    style_rule [[Class "tag"; Class "keyword"; Class "selected"]]
      [("background", "#333");
       ("color", "white");
       ("border-color", "#333")]
  ].

(** The counts and the list of entries. *)
Definition index_list_rules : list rule :=
  [
    style_rule [[Class "stats"]]
      [("margin-top", "1rem");
       ("padding-top", "1rem");
       ("border-top", "1px solid #e0e0e0");
       ("color", "#666");
       ("font-size", "0.9rem")];
    style_rule [[Class "entries"]]
      [("background", "white");
       ("border-radius", "8px");
       ("box-shadow", "0 2px 4px rgba(0,0,0,0.05)");
       ("padding", "1rem")];
    style_rule [[Class "entry"]]
      [("padding", "1rem");
       ("border-bottom", "1px solid #e0e0e0");
       ("transition", "all 0.2s")];
    style_rule [[Class "entry"; LastChild]]
      [("border-bottom", "none")];
    style_rule [[Class "entry"; Hover]]
      [("background", "#f8f9fa")];
    style_rule [[Class "entry"; Class "hidden"]]
      [("display", "none")]
  ].

(** The parts of an entry. *)
Definition index_entry_rules : list rule :=
  [
    style_rule [[Class "entry-header"]]
      [("display", "flex");
       ("align-items", "baseline");
       ("gap", "1rem");
       ("margin-bottom", "0.5rem")];
    style_rule [[Class "entry-number"]]
      [("color", "#999");
       ("font-size", "0.9rem");
       ("min-width", "50px")];
    style_rule [[Class "entry-title"]]
      [("flex", "1")];
    style_rule [[Class "entry-title"]; [Tag "a"]]
      [("color", "#2c3e50");
       ("text-decoration", "none");
       ("font-weight", "500");
       ("transition", "color 0.2s")];
    style_rule [[Class "entry-title"]; [Tag "a"; Hover]]
      [("color", "#667eea")];
    style_rule [[Class "entry-date"]]
      [("color", "#666");
       ("font-size", "0.85rem")];
    style_rule [[Class "entry-tags"]]
      [("margin-left", "60px");
       ("display", "flex");
       ("flex-wrap", "wrap");
       ("gap", "0.4rem");
       ("margin-top", "0.5rem")]
  ].

(** The tags of an entry. *)
Definition index_entry_tag_rules : list rule :=
  [
    style_rule [[Class "entry-tag"]]
      [("padding", "0.2rem 0.6rem");
       ("border-radius", "12px");
       ("font-size", "0.75rem");
       ("font-weight", "500");
       ("cursor", "pointer");
       ("transition", "all 0.2s")];
    style_rule [[Class "entry-tag"; Class "theme"]]
      [("background", "var(--color)");
       ("color", "white");
       ("opacity", "0.8")];
    style_rule [[Class "entry-tag"; Class "theme"; Hover]]
      [("opacity", "1")];
    style_rule [[Class "entry-tag"; Class "keyword"]]
      [("background", "#f0f0f0");
       ("color", "#666");
       ("border", "1px solid #d0d0d0")];
    style_rule [[Class "entry-tag"; Class "keyword"; Hover]]
      [("background", "#333");
       ("color", "white");
       ("border-color", "#333")]
  ].

(** The buttons of a control. *)
Definition index_select_rules : list rule :=
  [
    style_rule [[Class "select-controls"]]
      [("display", "flex");
       ("gap", "1rem");
       ("margin-bottom", "1rem")];
    style_rule [[Class "select-btn"]]
      [("padding", "0.4rem 1rem");
       ("background", "#667eea");
       ("color", "white");
       ("border", "none");
       ("border-radius", "4px");
       ("cursor", "pointer");
       ("font-size", "0.9rem");
       ("transition", "background 0.2s")];
    style_rule [[Class "select-btn"; Hover]]
      [("background", "#5a67d8")]
  ].

(** Windows of at most 768 pixels. *)
Definition index_narrow_rules : list rule :=
  [
    mkRule (Some 768) [[Tag "h1"]]
      [("font-size", "1.8rem")];
    mkRule (Some 768) [[Class "entry-header"]]
      [("flex-direction", "column");
       ("gap", "0.5rem")];
    mkRule (Some 768) [[Class "entry-tags"]]
      [("margin-left", "0")]
  ].

Definition index_style : list rule :=
  index_page_rules ++ index_nav_rules ++ index_control_rules ++ index_tag_rules
  ++ index_list_rules ++ index_entry_rules ++ index_entry_tag_rules
  ++ index_select_rules ++ index_narrow_rules.

(** ** The elements the script builds *)

Definition same_type (a b : tag_type) : bool :=
  match a, b with
  | theme, theme | keyword, keyword => true
  | _, _ => false
  end.

Lemma classList_tag_node (ty : tag_type) (t : tag) :
  classList (tag_node ty t)
  = "tag" :: type_name ty :: (if tag_selected t then ["selected"] else []).
Proof. unfold tag_node. now destruct ty, (tag_selected t). Qed.

(** A tag of a control is one element. *)
Lemma select_tag_node (h : node -> bool) (ty : tag_type) (t : tag) :
  select h (tag_node ty t) = pick h (tag_node ty t).
Proof. unfold tag_node. now rewrite select_Element, app_nil_r. Qed.

Lemma tag_node_matches (ty ty' : tag_type) (v : string) (t : tag) :
  matches_plain (tag_compound ty v) (tag_node ty' t)
  = same_type ty ty' && String.eqb (tag_value t) v.
Proof.
  unfold matches_plain, matches_compound, tag_compound.
  cbn [fst snd forallb holds is_element tag_node].
  fold (tag_node ty' t). rewrite classList_tag_node.
  destruct ty, ty', (tag_selected t); cbn; now rewrite ?andb_true_r.
Qed.

Lemma tag_node_is_tag (ty ty' : tag_type) (t : tag) :
  matches_plain (tags_compound ty) (tag_node ty' t) = same_type ty ty'.
Proof.
  unfold matches_plain, matches_compound, tags_compound.
  cbn [fst snd forallb holds is_element tag_node].
  fold (tag_node ty' t). rewrite classList_tag_node.
  now destruct ty, ty', (tag_selected t).
Qed.

(** The tags of a control among which [querySelector] looks for a value. *)
Lemma select_tag (ty ty' : tag_type) (v : string) (ts : list tag) :
  select_among (matches_plain (tag_compound ty v)) (map (tag_node ty') ts)
  = if same_type ty ty'
    then map (tag_node ty') (filter (fun t => String.eqb (tag_value t) v) ts)
    else [].
Proof.
  rewrite select_among_map.
  induction ts as [|t ts IH]; cbn [flat_map filter map]; [now destruct same_type|].
  rewrite IH, select_tag_node. unfold pick. rewrite tag_node_matches.
  destruct (same_type ty ty'); [|reflexivity]. now destruct (String.eqb _ v).
Qed.

Lemma select_tags (ty ty' : tag_type) (ts : list tag) :
  select_among (matches_plain (tags_compound ty)) (map (tag_node ty') ts)
  = if same_type ty ty' then map (tag_node ty') ts else [].
Proof.
  destruct (same_type ty ty') eqn:E;
    [apply select_among_all | apply select_among_none];
    intros t; rewrite select_tag_node; unfold pick; now rewrite tag_node_is_tag, E.
Qed.

Lemma select_id_tags (i : string) (ty : tag_type) (ts : list tag) :
  select_among (has_id i) (map (tag_node ty) ts) = [].
Proof. apply select_among_none. intros t. now rewrite select_tag_node. Qed.

(** ** The element of an entry *)

(** The classes [createEntryElement] gives. *)
Definition entry_class_names : list string :=
  ["entry"; "entry-header"; "entry-number"; "entry-title"; "entry-date";
   "entry-tags"; "entry-tag"; "theme"; "keyword"].

(** The attributes [createEntryElement] sets. *)
Definition entry_attr_names : list string := ["class"; "href"; "target"; "rel"].

Lemma entry_header_attributes (e : entry_el) :
  incl (attribute_names (entry_header e)) entry_attr_names.
Proof. unfold entry_header. destruct (el_date e); apply subset_str_incl; reflexivity. Qed.

Lemma entry_tag_nodes_attributes (ths : list (string * string)) (kws : list string) :
  incl (attribute_names (Element "div" [("class", "entry-tags")] []
                           (map entry_theme_node ths ++ map entry_keyword_node kws)))
    entry_attr_names.
Proof.
  rewrite attribute_names_Element, flat_map_app.
  apply incl_app; [|apply incl_app; apply attribute_names_map; intros x];
    apply subset_str_incl; reflexivity.
Qed.

Lemma entry_tags_attributes (e : entry_el) :
  incl (flat_map attribute_names (entry_tags e)) entry_attr_names.
Proof.
  unfold entry_tags, el.
  destruct (el_themes e), (el_keywords e); [intros x []|..];
    cbn [flat_map]; rewrite app_nil_r; apply entry_tag_nodes_attributes.
Qed.

Lemma entry_node_attributes (e : entry_el) :
  incl (attribute_names (entry_node e)) entry_attr_names.
Proof.
  unfold entry_node, el.
  rewrite (attribute_names_Element "div" [("class", "entry")] []
             (entry_header e :: entry_tags e)).
  cbn [flat_map]. apply incl_app; [apply subset_str_incl; reflexivity|].
  apply incl_app; [apply entry_header_attributes | apply entry_tags_attributes].
Qed.

(** An entry has no attribute but these: no identifier, no handler. *)
Lemma entry_node_attr (k : string) (e : entry_el) :
  mem_str k entry_attr_names = false -> collect (attr_list k) (entry_node e) = [].
Proof.
  intros Hk. apply collect_attr_none. intros Hin%entry_node_attributes.
  revert Hin. now apply mem_str_false.
Qed.

Lemma entry_node_ids (e : entry_el) : ids (entry_node e) = [].
Proof. now apply entry_node_attr. Qed.

Lemma entry_header_classes (e : entry_el) :
  incl (classes (entry_header e)) entry_class_names.
Proof. unfold entry_header. destruct (el_date e); apply subset_str_incl; reflexivity. Qed.

Lemma entry_tag_nodes_classes (ths : list (string * string)) (kws : list string) :
  incl (classes (Element "div" [("class", "entry-tags")] []
                   (map entry_theme_node ths ++ map entry_keyword_node kws)))
    entry_class_names.
Proof.
  rewrite classes_Element, flat_map_app.
  apply incl_app; [|apply incl_app; apply classes_map; intros x];
    apply subset_str_incl; reflexivity.
Qed.

Lemma entry_tags_classes (e : entry_el) :
  incl (flat_map classes (entry_tags e)) entry_class_names.
Proof.
  unfold entry_tags, el.
  destruct (el_themes e), (el_keywords e); [intros x []|..];
    cbn [flat_map]; rewrite app_nil_r; apply entry_tag_nodes_classes.
Qed.

Lemma entry_node_classes (e : entry_el) : incl (classes (entry_node e)) entry_class_names.
Proof.
  unfold entry_node, el.
  rewrite (classes_Element "div" [("class", "entry")] [] (entry_header e :: entry_tags e)).
  cbn [flat_map]. apply incl_app; [apply subset_str_incl; reflexivity|].
  apply incl_app; [apply entry_header_classes | apply entry_tags_classes].
Qed.

(** The script finds no tag of a control and no identifier in an entry. *)
Lemma select_tag_entries (c : compound) (es : list entry_el) :
  In (Class "tag") c -> select_among (matches_plain c) (map entry_node es) = [].
Proof.
  intros Hc. apply select_among_none. intros e.
  apply (select_unused_class c "tag"); [exact Hc|].
  intros Hin%entry_node_classes. revert Hin. apply mem_str_false. reflexivity.
Qed.

Lemma select_id_entries (i : string) (es : list entry_el) :
  select_among (has_id i) (map entry_node es) = [].
Proof.
  apply select_among_none. intros e. apply select_no_id. now rewrite entry_node_ids.
Qed.

(** ** The queries of the script *)

Section Queries.

Variables (ths kws : list tag) (visible total : string) (es : list node).

Let doc : node :=
  index_html (map (tag_node theme) ths) (map (tag_node keyword) kws) visible total es.

(** A query for tags finds the tags of the controls, and what the entries
    container holds of them. *)
Lemma select_tag_index (ty : tag_type) (v : string) :
  select (matches_plain (tag_compound ty v)) doc
  = map (tag_node ty)
      (filter (fun t => String.eqb (tag_value t) v)
         (match ty with theme => ths | keyword => kws end))
    ++ select_among (matches_plain (tag_compound ty v)) es.
Proof.
  subst doc.
  walk_as (among (pick (matches_plain (tag_compound ty v))) (map (tag_node theme) ths)
             (among (pick (matches_plain (tag_compound ty v))) (map (tag_node keyword) kws)
                (among (pick (matches_plain (tag_compound ty v))) es []))).
  rewrite !select_tag. destruct ty; cbn [same_type app]; now rewrite ?app_nil_r.
Qed.

Lemma select_tags_index (ty : tag_type) :
  select (matches_plain (tags_compound ty)) doc
  = map (tag_node ty) (match ty with theme => ths | keyword => kws end)
    ++ select_among (matches_plain (tags_compound ty)) es.
Proof.
  subst doc.
  walk_as (among (pick (matches_plain (tags_compound ty))) (map (tag_node theme) ths)
             (among (pick (matches_plain (tags_compound ty))) (map (tag_node keyword) kws)
                (among (pick (matches_plain (tags_compound ty))) es []))).
  rewrite !select_tags. destruct ty; cbn [same_type app]; now rewrite ?app_nil_r.
Qed.

(** The elements the script looks up by their identifier, when the entries
    container holds none. *)
Lemma select_id_index (i : string) :
  select_among (has_id i) es = [] ->
  select (has_id i) doc
  = pick (has_id i)
      (el "div" [("class", "tags-container"); ("id", "themes-container")]
         (map (tag_node theme) ths))
    ++ pick (has_id i)
         (el "div" [("class", "tags-container"); ("id", "keywords-container")]
            (map (tag_node keyword) kws))
    ++ pick (has_id i) (index_stats visible total)
    ++ pick (has_id i) (el "span" [("id", "visible-count")] [Text visible])
    ++ pick (has_id i) (el "span" [("id", "total-count")] [Text total])
    ++ pick (has_id i) (el "div" [("class", "entries"); ("id", "entries-container")] es).
Proof.
  intros Hes. subst doc.
  walk_as (pick (has_id i)
             (el "div" [("class", "tags-container"); ("id", "themes-container")]
                (map (tag_node theme) ths))
           ++ among (pick (has_id i)) (map (tag_node theme) ths)
                (pick (has_id i)
                   (el "div" [("class", "tags-container"); ("id", "keywords-container")]
                      (map (tag_node keyword) kws))
                 ++ among (pick (has_id i)) (map (tag_node keyword) kws)
                      (pick (has_id i) (index_stats visible total)
                       ++ pick (has_id i) (el "span" [("id", "visible-count")] [Text visible])
                       ++ pick (has_id i) (el "span" [("id", "total-count")] [Text total])
                       ++ pick (has_id i)
                            (el "div" [("class", "entries"); ("id", "entries-container")] es)
                       ++ among (pick (has_id i)) es []))).
  now rewrite !select_id_tags, Hes, ?app_nil_r.
Qed.

End Queries.

(** ** The document of a state *)

(** The documents a visitor can have: the file, a loaded page, the page with
    the error message. *)
Inductive served : node -> Prop :=
| served_static : served index_static
| served_loaded (p : index_page) : served (dom_of p)
| served_error : served error_page.

(** What the entries container can hold: nothing with an identifier, and
    no class but those of an entry. *)
Definition entries_part (es : list node) : Prop :=
  (forall i, select_among (has_id i) es = []) /\
  incl (flat_map classes es) entry_class_names.

Lemma entries_part_entries (es : list entry_el) : entries_part (map entry_node es).
Proof.
  split; [intros i; apply select_id_entries|].
  apply classes_map. intros e. apply entry_node_classes.
Qed.

(** Each of them is the markup with tags and entries of its own. *)
Lemma served_shape (doc : node) :
  served doc ->
  exists ths kws visible total es,
    doc = index_html (map (tag_node theme) ths) (map (tag_node keyword) kws)
            visible total es /\
    entries_part es.
Proof.
  intros [|p|].
  - exists [], [], "0", "0", [Comment " Entries will be populated by JavaScript "].
    repeat split. intros x [].
  - exists (theme_tags p), (keyword_tags p), (str_of_nat (visible_count p)),
      (str_of_nat (total_count p)), (map entry_node (entries_container p)).
    split; [reflexivity | apply entries_part_entries].
  - exists [], [], "0", "0", [error_node]. repeat split. intros x [].
Qed.

Lemma query_tag (p : index_page) (ty : tag_type) (v : string) :
  querySelector (tag_selector ty v) (dom_of p)
  = option_map (tag_node ty) (find_tag v (tags ty p)).
Proof.
  unfold querySelector, tag_selector, dom_of.
  rewrite querySelectorAll_select by reflexivity.
  rewrite select_tag_index, select_tag_entries, app_nil_r by (now left).
  rewrite hd_error_map_filter. now destruct ty.
Qed.

Lemma query_tags (p : index_page) (ty : tag_type) :
  querySelectorAll (tags_selector ty) (dom_of p) = map (tag_node ty) (tags ty p).
Proof.
  unfold tags_selector, dom_of. rewrite querySelectorAll_select by reflexivity.
  rewrite select_tags_index, select_tag_entries, app_nil_r by (now left).
  now destruct ty.
Qed.

Lemma toggleTag_Thrown (v : string) (ty : tag_type) (p : index_page) :
  (exists q, toggleTag v ty p = Thrown q) <-> find_tag v (tags ty p) = None.
Proof.
  unfold toggleTag. cbv zeta.
  replace (tags ty (with_selected ty _ p)) with (tags ty p) by now destruct ty.
  destruct (find_tag v (tags ty p)); split; try discriminate; eauto.
  now intros [q Hq].
Qed.

(** What the script reads of an element it has looked up. *)
Definition children_of (i : string) (doc : node) : option (list node) :=
  option_map childNodes (getElementById i doc).

Definition text_of (i : string) (doc : node) : option string :=
  option_map textContent (getElementById i doc).

Lemma lookup_index (i : string) (doc : node) :
  served doc -> In i script_ids ->
  exists e, select (has_id i) doc = [e] /\ getAttribute "id" e = Some i.
Proof.
  intros (ths & kws & visible & total & es & -> & Hes & _)%served_shape Hi.
  rewrite select_id_index by apply Hes.
  repeat (destruct Hi as [<-|Hi]; [eexists; split; reflexivity|]). destruct Hi.
Qed.

Lemma containers_of (p : index_page) :
  children_of "themes-container" (dom_of p) = Some (map (tag_node theme) (theme_tags p)) /\
  children_of "keywords-container" (dom_of p)
  = Some (map (tag_node keyword) (keyword_tags p)) /\
  children_of "entries-container" (dom_of p)
  = Some (map entry_node (entries_container p)) /\
  text_of "visible-count" (dom_of p) = Some (str_of_nat (visible_count p)) /\
  text_of "total-count" (dom_of p) = Some (str_of_nat (total_count p)).
Proof.
  unfold children_of, text_of, dom_of.
  rewrite !getElementById_select, !select_id_index by apply select_id_entries.
  repeat split; cbn [pick has_id getAttribute el dget String.eqb Ascii.eqb Bool.eqb
                     app hd_error option_map childNodes textContent map String.concat];
    now rewrite ?append_nil_r.
Qed.

(** ** The classes of the page *)

Lemma tag_node_classes (ty : tag_type) (t : tag) :
  incl (classes (tag_node ty t)) ["tag"; "theme"; "keyword"; "selected"].
Proof.
  unfold tag_node. rewrite classes_Element. cbn [flat_map]. rewrite app_nil_r.
  fold (tag_node ty t). rewrite classList_tag_node.
  destruct ty, (tag_selected t); apply subset_str_incl; reflexivity.
Qed.

(** The classes of the markup, in the order of the document. *)
Lemma index_classes (ths kws : list tag) (visible total : string) (es : list node) :
  classes (index_html (map (tag_node theme) ths) (map (tag_node keyword) kws)
             visible total es)
  = ["header"; "container"; "subtitle"; "nav-tabs"; "container"; "nav-tab"; "nav-tab";
     "active"; "container"; "controls"; "control-section"; "select-controls";
     "select-btn"; "select-btn"; "tags-container"]
    ++ flat_map classes (map (tag_node theme) ths)
    ++ ["control-section"; "select-controls"; "select-btn"; "select-btn"; "tags-container"]
    ++ flat_map classes (map (tag_node keyword) kws)
    ++ ["stats"; "entries"]
    ++ flat_map classes es.
Proof.
  unfold classes.
  walk_as (["header"; "container"; "subtitle"; "nav-tabs"; "container"; "nav-tab";
            "nav-tab"; "active"; "container"; "controls"; "control-section";
            "select-controls"; "select-btn"; "select-btn"; "tags-container"]
           ++ among classList (map (tag_node theme) ths)
                (["control-section"; "select-controls"; "select-btn"; "select-btn";
                  "tags-container"]
                 ++ among classList (map (tag_node keyword) kws)
                      (["stats"; "entries"] ++ among classList es []))).
  reflexivity.
Qed.

(** The classes the page can use. *)
Definition index_class_names : list string :=
  ["header"; "container"; "subtitle"; "nav-tabs"; "nav-tab"; "active"; "controls";
   "control-section"; "select-controls"; "select-btn"; "tags-container"; "stats";
   "entries"; "tag"; "theme"; "keyword"; "selected"] ++ entry_class_names.

Lemma served_classes (doc : node) : served doc -> incl (classes doc) index_class_names.
Proof.
  intros (ths & kws & visible & total & es & -> & _ & Hes)%served_shape.
  rewrite index_classes.
  repeat first
    [ apply incl_app
    | apply classes_map; intros t; eapply incl_tran; [apply tag_node_classes|]
    | eapply incl_tran; [exact Hes|] ];
    apply subset_str_incl; reflexivity.
Qed.

(** ** The style sheet on the page *)

Lemma class_not_used (doc : node) (k : string) :
  served doc -> mem_str k index_class_names = false -> ~ In k (classes doc).
Proof.
  intros Hd Hk Hin. apply served_classes in Hin; [|exact Hd].
  revert Hin. now apply mem_str_false.
Qed.

(** The ancestors of the tags of a control and of the entries. *)
Definition chain_of (i : string) : list node := chain_to i index_static.

(** The two selectors of the style sheet that select nothing. *)
Definition hidden_entry : selector := [[Class "entry"; Class "hidden"]].
Definition last_section : selector := [[Class "control-section"; LastChild]].

Lemma hidden_entry_nowhere (doc : node) (hover : bool) :
  served doc -> selected_places hover hidden_entry doc = [].
Proof.
  intros Hd. apply (unused_class_selected hover _ "hidden"); [now right; left|].
  now apply class_not_used.
Qed.

Lemma tags_not_sections (ty : tag_type) (ts : list tag) :
  ~ In "control-section" (flat_map classes (map (tag_node ty) ts)).
Proof.
  intros Hin. apply (classes_map _ _ _ (tag_node_classes ty)) in Hin.
  revert Hin. now apply mem_str_false.
Qed.

Lemma last_section_nowhere (doc : node) (hover : bool) :
  served doc -> selected_places hover last_section doc = [].
Proof.
  intros (ths & kws & visible & total & es & -> & _ & Hes)%served_shape.
  walk_places_as
    (sweep_list (pick_place (selects hover last_section)) (chain_of "themes-container")
       (map (tag_node theme) ths)
       (sweep_list (pick_place (selects hover last_section))
          (chain_of "keywords-container") (map (tag_node keyword) kws)
          (sweep_list (pick_place (selects hover last_section))
             (chain_of "entries-container") es []))).
  unfold last_section.
  rewrite !(sweep_list_unused_single hover _ "control-section");
    try apply tags_not_sections; try (now left); try reflexivity.
  intros Hin%Hes. revert Hin. now apply mem_str_false.
Qed.

(** A page with a tag that is selected, a tag that is not, and an entry
    with a date, a theme and a keyword. *)
Definition style_demo : node :=
  dom_of (state_of (handle (ClickTag theme "health") demo_page)).

Definition dead (r : rule) : bool :=
  match r_selector r with
  | [[Class "entry"; Class "hidden"]] | [[Class "control-section"; LastChild]] => true
  | _ => false
  end.

Lemma live_rules :
  forallb (fun r => dead r
                    || existsb (fun p => applies (mkView 600 true) p r) (places style_demo))
    index_style = true.
Proof. vm_compute. reflexivity. Qed.

(** ** How a tag looks *)

Ltac tag_cases t :=
  unfold tag_node, color_style;
  destruct (tag_selected t), (tag_color t) as [c|]; [destruct (String.eqb c "")| |destruct (String.eqb c "")|].

(** The opacity of a tag of the themes control, wherever it stands and
    whatever the view. *)
Lemma theme_tag_opacity (t : tag) (last : bool) (anc : list node) (vw : view) :
  used_value index_style vw (mkPlace (tag_node theme t) last anc) "opacity"
  = Some (if tag_selected t then "1" else "0.4").
Proof. tag_cases t; vm_compute; reflexivity. Qed.

(** Its background is the colour [createTag] was given. *)
Lemma theme_tag_background (t : tag) (c : string) (last : bool)
    (anc : list node) (vw : view) :
  tag_color t = Some c -> c <> "" ->
  used_value index_style vw (mkPlace (tag_node theme t) last anc) "background" = Some c.
Proof.
  intros Hc Hne. unfold tag_node, color_style. rewrite Hc.
  apply String.eqb_neq in Hne. rewrite Hne. destruct (tag_selected t); vm_compute; reflexivity.
Qed.

Lemma keyword_tag_colors (t : tag) (last : bool) (anc : list node) (vw : view) :
  used_value index_style vw (mkPlace (tag_node keyword t) last anc) "background"
  = Some (if tag_selected t then "#333" else "#f0f0f0") /\
  used_value index_style vw (mkPlace (tag_node keyword t) last anc) "color"
  = Some (if tag_selected t then "white" else "#333").
Proof. tag_cases t; split; vm_compute; reflexivity. Qed.

(** ** The handlers of the markup *)

(** The event a handler of the markup stands for. *)
Definition handler_of (code : string) : option event :=
  if String.eqb code "selectAllThemes()" then Some (ClickSelectAll theme)
  else if String.eqb code "deselectAllThemes()" then Some (ClickDeselectAll theme)
  else if String.eqb code "selectAllKeywords()" then Some (ClickSelectAll keyword)
  else if String.eqb code "deselectAllKeywords()" then Some (ClickDeselectAll keyword)
  else None.

Lemma entry_node_onclicks (e : entry_el) : collect onclick_list (entry_node e) = [].
Proof. now apply entry_node_attr. Qed.

(** The handlers the markup names, in the order of the document: the tab of
    the summary page and the four buttons. *)
Lemma index_onclicks (doc : node) :
  served doc ->
  onclicks doc
  = ["window.location.href='summary.html'"; "selectAllThemes()"; "deselectAllThemes()";
     "selectAllKeywords()"; "deselectAllKeywords()"].
Proof.
  intros [|p|]; [reflexivity| |reflexivity]. unfold onclicks, dom_of.
  walk_as ("window.location.href='summary.html'" :: "selectAllThemes()"
           :: "deselectAllThemes()"
           :: among onclick_list (map (tag_node theme) (theme_tags p))
                ("selectAllKeywords()" :: "deselectAllKeywords()"
                 :: among onclick_list (map (tag_node keyword) (keyword_tags p))
                      (among onclick_list (map entry_node (entries_container p)) []))).
  rewrite !collect_map.
  rewrite (flat_map_nil (fun x => collect onclick_list (entry_node x)))
    by (intros; apply entry_node_onclicks).
  now rewrite !flat_map_nil by reflexivity.
Qed.

(** ** Theorems *)

(** The places a plain compound selects are those of the elements
    [querySelectorAll] returns. *)
Lemma selected_places_query (hover : bool) (c : compound) (doc : node) (pl : place) :
  plain c = true -> In pl (selected_places hover [c] doc) ->
  In (subject pl) (querySelectorAll [c] doc).
Proof.
  intros Hc [Hp Hs]%filter_In. rewrite selects_plain in Hs by exact Hc.
  rewrite querySelectorAll_select by exact Hc.
  apply In_select. split; [now apply In_places_elements | exact Hs].
Qed.

Lemma tag_in_sync (p : index_page) (ty : tag_type) (t : tag) :
  page_ok p -> In t (tags ty p) ->
  tag_selected t = set_has (tag_value t) (selected ty p).
Proof.
  intros (_ & Hth & Hkw & _) Hin.
  assert (control_ok ty p) as (_ & _ & Hs) by now destruct ty.
  unfold tags_in_sync in Hs. rewrite Forall_forall in Hs. auto.
Qed.

(** The look of a tag by its type and whether it carries [selected]. *)
Definition tag_look (ty : tag_type) (selected : bool) (vw : view) (pl : place) : Prop :=
  match ty with
  | theme =>
      used_value index_style vw pl "opacity" = Some (if selected then "1" else "0.4")
  | keyword =>
      used_value index_style vw pl "background"
      = Some (if selected then "#333" else "#f0f0f0") /\
      used_value index_style vw pl "color" = Some (if selected then "white" else "#333")
  end.

Lemma tag_node_look (ty : tag_type) (t : tag) (vw : view) (pl : place) :
  subject pl = tag_node ty t -> tag_look ty (tag_selected t) vw pl.
Proof.
  destruct pl as [n last anc]. cbn [subject]. intros ->.
  destruct ty; [apply theme_tag_opacity | apply keyword_tag_colors].
Qed.

(** C25: the identifiers of the script.  On every document a visitor can
    have (the page of the file, the page of a state of the script, the page
    with the error message) each identifier the script looks up is the
    identifier of exactly one element, and [getElementById] returns it: no
    lookup of the script gives [null]. *)
Theorem script_lookups_found (doc : node) (i : string) :
  served doc -> In i script_ids ->
  exists e, getElementById i doc = Some e /\ select (has_id i) doc = [e] /\
            getAttribute "id" e = Some i.
Proof.
  intros Hd Hi. destruct (lookup_index i doc Hd Hi) as (e & He & Hid).
  exists e. rewrite getElementById_select, He. now repeat split.
Qed.

(** C10: the document is what the script takes it to be.  In the document
    of a state the containers hold the tags and the entries of the state and
    the two counts show its numbers; [querySelector] for the tag of a value
    returns the first tag of the control with that value and never a tag of
    an entry; [querySelectorAll] returns the tags of the control in their
    order; and [toggleTag] stops on [null] exactly when the query finds
    nothing. *)
Theorem document_reads (p : index_page) :
  (children_of "themes-container" (dom_of p) = Some (map (tag_node theme) (theme_tags p)) /\
   children_of "keywords-container" (dom_of p)
   = Some (map (tag_node keyword) (keyword_tags p)) /\
   children_of "entries-container" (dom_of p)
   = Some (map entry_node (entries_container p)) /\
   text_of "visible-count" (dom_of p) = Some (str_of_nat (visible_count p)) /\
   text_of "total-count" (dom_of p) = Some (str_of_nat (total_count p))) /\
  (forall ty v,
     querySelector (tag_selector ty v) (dom_of p)
     = option_map (tag_node ty) (find_tag v (tags ty p))) /\
  (forall ty,
     querySelectorAll (tags_selector ty) (dom_of p) = map (tag_node ty) (tags ty p)) /\
  (forall ty v,
     (exists q, toggleTag v ty p = Thrown q)
     <-> querySelector (tag_selector ty v) (dom_of p) = None).
Proof.
  split; [apply containers_of|]. split; [intros; apply query_tag|].
  split; [intros; apply query_tags|]. intros ty v.
  rewrite toggleTag_Thrown, query_tag. now destruct (find_tag v (tags ty p)).
Qed.

(** C26: the set and the look of the tags agree.  On a page that keeps the
    invariant of the script, an element the style sheet takes for a tag of a
    control is the tag of a name of that control, and it looks selected
    exactly when its name is in the set of the script: a theme at full
    opacity and otherwise at 0.4, a keyword white on dark and otherwise dark
    on light, in every view. *)
Theorem tag_looks (p : index_page) (ty : tag_type) (vw : view) (pl : place) :
  page_ok p -> In pl (selected_places (hover vw) (tags_selector ty) (dom_of p)) ->
  exists t, In t (tags ty p) /\ subject pl = tag_node ty t /\
            tag_look ty (set_has (tag_value t) (selected ty p)) vw pl.
Proof.
  intros Hok Hpl. apply selected_places_query in Hpl; [|reflexivity].
  fold (tags_selector ty) in Hpl. rewrite query_tags in Hpl. apply in_map_iff in Hpl as (t & Ht & Hin).
  exists t. split; [exact Hin|]. split; [now symmetry|].
  rewrite <- (tag_in_sync p ty t Hok Hin). now apply tag_node_look.
Qed.

(** C29: the style sheet and the page.  Every class an element of a
    document carries is named by a rule of the style sheet; the rules
    [.entry.hidden] and [.control-section:last-child] select no element of
    any document in any view (no element is given the class [hidden], and
    the last control section is followed by the counts); every other rule
    applies to an element of a page. *)
Theorem style_sheet_fits (doc : node) (hover : bool) :
  served doc ->
  incl (classes doc) (sheet_classes index_style) /\
  selected_places hover hidden_entry doc = [] /\
  selected_places hover last_section doc = [] /\
  In (style_rule hidden_entry [("display", "none")]) index_list_rules /\
  In (style_rule last_section [("margin-bottom", "0")]) index_control_rules /\
  forallb (fun r => dead r
                    || existsb (fun p => applies (mkView 600 true) p r) (places style_demo))
    index_style = true.
Proof.
  intros Hd. split; [|split; [|split; [|split; [|split]]]].
  - eapply incl_tran; [now apply served_classes | apply subset_str_incl; reflexivity].
  - now apply hidden_entry_nowhere.
  - now apply last_section_nowhere.
  - repeat first [left; reflexivity | right].
  - repeat first [left; reflexivity | right].
  - exact live_rules.
Qed.

(** ** Witnesses *)

Lemma script_lookups_found_witness :
  exists e, getElementById "entries-container" error_page = Some e /\
            select (has_id "entries-container") error_page = [e] /\
            getAttribute "id" e = Some "entries-container".
Proof.
  apply (script_lookups_found error_page "entries-container").
  - exact served_error.
  - now left.
Defined.

Lemma demo_page_ok : page_ok demo_page.
Proof.
  apply (loadData_ok (Response true (Some demo_data)) FetchError []);
    [reflexivity | apply demo_data_ok].
Qed.

(** The tag of health on the page of the demo data, where it stands. *)
Definition health_place : place :=
  mkPlace (tag_node theme (mkTag "health" (Some "#e74c3c") true)) true
    (chain_of "themes-container").

Lemma tag_looks_witness :
  exists t, In t (tags theme demo_page) /\ subject health_place = tag_node theme t /\
            tag_look theme (set_has (tag_value t) (selected theme demo_page))
              (mkView 1024 false) health_place.
Proof.
  apply (tag_looks demo_page theme (mkView 1024 false) health_place).
  - exact demo_page_ok.
  - vm_compute. right. left. reflexivity.
Defined.

Lemma style_sheet_fits_witness :
  incl (classes style_demo) (sheet_classes index_style) /\
  selected_places true hidden_entry style_demo = [] /\
  selected_places true last_section style_demo = [] /\
  In (style_rule hidden_entry [("display", "none")]) index_list_rules /\
  In (style_rule last_section [("margin-bottom", "0")]) index_control_rules /\
  forallb (fun r => dead r
                    || existsb (fun p => applies (mkView 600 true) p r) (places style_demo))
    index_style = true.
Proof. apply (style_sheet_fits style_demo true). apply served_loaded. Defined.
