(* ===== verification/SummaryDom.v ===== *)
(** * SummaryDom: the document of the summary page

    [generate_summary_html] returns the text of [summary.html]: fixed
    markup, a table of contents and one section for each theme with a
    summary, and the style sheet of the page.  [Summary] computes the parts
    that depend on the data (the total, the table of contents, the
    sections); this file gives the document they stand in:

    - [summary_page_head], [summary_header], [summary_nav], [summary_intro],
      [summary_toc], [section_node], [summary_footer], [summary_body],
      [summary_html]: the markup, as a tree; [summary_dom] is the document
      of a page of [Summary].  The summary of a section is inserted as the
      string it is ([Raw]): the generator does not read it.
    - [summary_style]: the style sheet, rule by rule in the order of the
      file.

    The theorems show that the links of the page lead somewhere (an entry
    of the table of contents to the one section of its theme, the link of a
    section to the index page with the theme as its filter), that the
    classes of the page are styled, and what the cascade makes of the link
    of a section.

    White space between elements is not modelled. *)

From S2P Require Import Prelude.
From S2P Require Import Text.
From S2P Require Import Dict.
From S2P Require Import Taxonomy.
From S2P Require Import EntryParser.
From S2P Require Import Summary.
From S2P Require Import Markup.

#[local] Open Scope string_scope.
#[local] Open Scope list_scope.
#[local] Open Scope nat_scope.

(** ** The markup *)

Definition summary_page_head : node :=
  el "head" []
    [ el "meta" [("charset", "UTF-8")] [];
      el "meta" [("name", "viewport");
                 ("content", "width=device-width, initial-scale=1.0")] [];
      el "title" [] [Text "Trump Administration Policy Tracker - Thematic Summary"];
      el "style" [] [] ].

Definition summary_header : node :=
  el "div" [("class", "header")]
    [ el "div" [("class", "container")]
        [ el "h1" [] [Text "Trump Administration Policy Tracker"];
          el "div" [("class", "subtitle")] [Text "Days 1-200: Thematic Analysis"] ] ].

Definition summary_nav : node :=
  el "div" [("class", "nav-tabs")]
    [ el "div" [("class", "container")]
        [ el "div" [("class", "nav-tab active")] [Text "Thematic Summary"];
          el "div" [("class", "nav-tab");
                    ("onclick", "window.location.href='index.html'")]
            [Text "Chronology"] ] ].

(** The introduction, with the number of entries of the dataset. *)
Definition summary_intro (total : nat) : node :=
  el "div" [("class", "intro")]
    [ el "p" []
        [ el "strong" []
            [Text "This archive tracks major policy developments, personnel changes, and institutional reforms during the first 200 days of the Trump-Vance administration,"];
          Text " compiled from daily observations and news reports from January through August 2025." ];
      el "p" []
        [Text ("The following thematic analysis organizes " ++ str_of_nat total
               ++ " news articles into key policy areas, documenting the scope and speed of changes across federal agencies, democratic institutions, and American society. Each section provides context and links to primary sources.")%string];
      el "p" []
        [ el "em" []
            [Text "Note: This is a historical record based on contemporary news reporting. All claims are linked to their original sources for verification."] ] ].

(** An entry of the table of contents: [<li><a href=#key>title</a></li>]. *)
Definition toc_item (kt : string * string) : node :=
  el "li" [] [el "a" [("href", ("#" ++ fst kt)%string)] [Text (snd kt)]].

Definition summary_toc (toc : list (string * string)) : node :=
  el "div" [("class", "toc")]
    [ el "h2" [] [Text "Contents"];
      el "ul" [] (map toc_item toc) ].

(** The two characters the file has after [category]: an arrow, read in
    another encoding and written back. *)
Definition arrow : string :=
  String "195" (String "162" (String "226" (String "128" (String "160"
    (String "226" (String "128" (String "153" ""))))))).

(** The address of the index page with a query. *)
Definition index_link (query : list (string * string)) : string :=
  ("index.html?" ++ join "&" (map (fun kv => fst kv ++ "=" ++ snd kv) query))%string.

(** The link at the end of a section. *)
Definition view_all_node (s : section) : node :=
  el "a" [("href", index_link [("themes", sec_theme s)]); ("class", "view-all")]
    [Text ("View all " ++ str_of_nat (sec_count s) ++ " articles in this category "
           ++ arrow)%string].

(** A section: its title, its summary as it is, its link. *)
Definition section_node (s : section) : node :=
  el "div" [("class", "theme-section"); ("id", sec_theme s)]
    [ el "h2" [] [Text (sec_title s)];
      Raw (sec_summary s);
      view_all_node s ].

(** The footer, with the date of the run. *)
Definition summary_footer (generated : string) : node :=
  el "div" [("class", "footer")]
    [ el "div" [("class", "container")]
        [ el "p" [] [Text ("Generated: " ++ generated)%string];
          el "p" [] [Text "Source: Contemporary news reporting from major outlets"] ] ].

Definition summary_body (generated : string) (total : nat)
    (toc : list (string * string)) (sections : list node) : node :=
  el "body" []
    [ summary_header;
      summary_nav;
      el "div" [("class", "container")]
        (summary_intro total :: summary_toc toc
         :: sections ++ [summary_footer generated]) ].

Definition summary_html (generated : string) (total : nat)
    (toc : list (string * string)) (sections : list node) : node :=
  el "html" [("lang", "en")]
    [ summary_page_head; summary_body generated total toc sections ].

(** The document of a page. *)
Definition summary_dom (generated : string) (page : summary_page) : node :=
  summary_html generated (page_total page) (page_toc page)
    (map section_node (page_sections page)).

(** ** The style sheet *)

(** The page, its header and the container. *)
Definition summary_page_rules : list rule :=
  [
    style_rule [[Any]]
      [("margin", "0");
       ("padding", "0");
       ("box-sizing", "border-box")];
    style_rule [[Tag "body"]]
      [("font-family", "'Georgia', 'Times New Roman', serif");
       ("line-height", "1.8");
       ("color", "#2c3e50");
       ("background", "#f8f9fa")];
    style_rule [[Class "header"]]
      [("background", "linear-gradient(135deg, #667eea 0%, #764ba2 100%)");
       ("color", "white");
       ("padding", "3rem 0");
       ("box-shadow", "0 2px 10px rgba(0,0,0,0.1)")];
    style_rule [[Class "container"]]
      [("max-width", "900px");
       ("margin", "0 auto");
       ("padding", "0 20px")];
    style_rule [[Tag "h1"]]
      [("font-size", "2.5rem");
       ("font-weight", "700");
       ("margin-bottom", "0.5rem");
       ("font-family", "-apple-system, BlinkMacSystemFont, 'Segoe UI', sans-serif")];
    style_rule [[Class "subtitle"]]
      [("opacity", "0.9");
       ("font-size", "1.1rem");
       ("font-family", "-apple-system, BlinkMacSystemFont, 'Segoe UI', sans-serif")]
  ].

(** The two tabs. *)
Definition summary_nav_rules : list rule :=
  [
    style_rule [[Class "nav-tabs"]]
      [("background", "white");
       ("padding", "0");
       ("box-shadow", "0 2px 4px rgba(0,0,0,0.1)");
       ("position", "sticky");
       ("top", "0");
       ("z-index", "100");
       ("font-family", "-apple-system, BlinkMacSystemFont, 'Segoe UI', sans-serif")];
    style_rule [[Class "nav-tabs"]; [Class "container"]]
      [("display", "flex");
       ("gap", "2rem");
       ("padding", "0 20px")];
    style_rule [[Class "nav-tab"]]
      [("padding", "1rem 0");
       ("cursor", "pointer");
       ("border-bottom", "3px solid transparent");
       ("transition", "all 0.3s");
       ("font-weight", "500");
       ("color", "#666")];
    style_rule [[Class "nav-tab"; Class "active"]]
      [("color", "#667eea");
       ("border-bottom-color", "#667eea")]
  ].

(** The introduction. *)
Definition summary_intro_rules : list rule :=
  [
    style_rule [[Class "intro"]]
      [("background", "#fff");
       ("padding", "2rem");
       ("margin", "2rem 0");
       ("border-radius", "8px");
       ("box-shadow", "0 2px 4px rgba(0,0,0,0.05)");
       ("border-left", "4px solid #667eea")];
    style_rule [[Class "intro"]; [Tag "p"]]
      [("margin-bottom", "1rem")];
    style_rule [[Class "intro"]; [Tag "p"; LastChild]]
      [("margin-bottom", "0")]
  ].

(** The table of contents. *)
Definition summary_toc_rules : list rule :=
  [
    style_rule [[Class "toc"]]
      [("background", "white");
       ("padding", "2rem");
       ("margin", "2rem 0");
       ("border-radius", "8px");
       ("box-shadow", "0 2px 4px rgba(0,0,0,0.05)")];
    style_rule [[Class "toc"]; [Tag "h2"]]
      [("font-size", "1.3rem");
       ("color", "#34495e");
       ("margin-bottom", "1rem");
       ("font-family", "-apple-system, BlinkMacSystemFont, 'Segoe UI', sans-serif")];
    style_rule [[Class "toc"]; [Tag "ul"]]
      [("list-style", "none")];
    style_rule [[Class "toc"]; [Tag "li"]]
      [("margin-bottom", "0.5rem")];
    style_rule [[Class "toc"]; [Tag "a"]]
      [("color", "#667eea");
       ("text-decoration", "none");
       ("transition", "color 0.2s")];
    style_rule [[Class "toc"]; [Tag "a"; Hover]]
      [("color", "#764ba2");
       ("text-decoration", "underline")]
  ].

(** A section and the markup of its summary. *)
Definition summary_section_rules : list rule :=
  [
    style_rule [[Class "theme-section"]]
      [("background", "white");
       ("padding", "2rem");
       ("margin", "2rem 0");
       ("border-radius", "8px");
       ("box-shadow", "0 2px 4px rgba(0,0,0,0.05)")];
    style_rule [[Class "theme-section"]; [Tag "h2"]]
      [("color", "#2c3e50");
       ("font-size", "1.8rem");
       ("margin-bottom", "0.5rem");
       ("padding-bottom", "0.5rem");
       ("border-bottom", "2px solid #667eea");
       ("font-family", "-apple-system, BlinkMacSystemFont, 'Segoe UI', sans-serif")];
    style_rule [[Class "theme-section"]; [Tag "h3"]]
      [("color", "#34495e");
       ("font-size", "1.3rem");
       ("margin-top", "1.5rem");
       ("margin-bottom", "1rem");
       ("font-family", "-apple-system, BlinkMacSystemFont, 'Segoe UI', sans-serif")];
    style_rule [[Class "theme-section"]; [Tag "p"]]
      [("margin-bottom", "1rem");
       ("text-align", "justify")];
    style_rule [[Class "theme-section"]; [Tag "a"]]
      [("color", "#2980b9");
       ("text-decoration", "none")];
    style_rule [[Class "theme-section"]; [Tag "a"; Hover]]
      [("text-decoration", "underline")]
  ].

(** The link at the end of a section. *)
Definition summary_link_rules : list rule :=
  [
    style_rule [[Class "view-all"]]
      [("display", "inline-block");
       ("margin-top", "1rem");
       ("padding", "0.5rem 1rem");
       ("background", "#667eea");
       ("color", "white");
       ("border-radius", "4px");
       ("text-decoration", "none");
       ("font-family", "-apple-system, BlinkMacSystemFont, 'Segoe UI', sans-serif");
       ("font-size", "0.9rem");
       ("transition", "background 0.2s")];
    style_rule [[Class "view-all"; Hover]]
      [("background", "#5a67d8");
       ("text-decoration", "none")]
  ].

(** The footer. *)
Definition summary_footer_rules : list rule :=
  [
    style_rule [[Class "footer"]]
      [("background", "#2c3e50");
       ("color", "white");
       ("padding", "2rem 0");
       ("margin-top", "4rem");
       ("text-align", "center");
       ("font-family", "-apple-system, BlinkMacSystemFont, 'Segoe UI', sans-serif")]
  ].

(** Windows of at most 768 pixels. *)
Definition summary_narrow_rules : list rule :=
  [
    mkRule (Some 768) [[Tag "h1"]]
      [("font-size", "1.8rem")];
    mkRule (Some 768) [[Class "theme-section"]; [Tag "h2"]]
      [("font-size", "1.4rem")]
  ].

Definition summary_style : list rule :=
  summary_page_rules ++ summary_nav_rules ++ summary_intro_rules ++ summary_toc_rules
  ++ summary_section_rules ++ summary_link_rules ++ summary_footer_rules
  ++ summary_narrow_rules.

(** ** The sections by their identifier *)

Lemma select_id_section (k : string) (s : section) :
  select (has_id k) (section_node s)
  = if String.eqb (sec_theme s) k then [section_node s] else [].
Proof.
  unfold section_node, view_all_node, el. rewrite select_Element.
  now rewrite app_nil_r.
Qed.

Lemma select_id_sections (k : string) (ss : list section) :
  select_among (has_id k) (map section_node ss)
  = map section_node (filter (fun s => String.eqb (sec_theme s) k) ss).
Proof.
  rewrite select_among_map. induction ss as [|s ss IH]; [reflexivity|].
  cbn [flat_map filter]. rewrite IH, select_id_section.
  now destruct (String.eqb (sec_theme s) k).
Qed.

(** The elements with an identifier are the sections. *)
Lemma select_id_summary (k generated : string) (total : nat)
    (toc : list (string * string)) (ss : list section) :
  select (has_id k) (summary_html generated total toc (map section_node ss))
  = map section_node (filter (fun s => String.eqb (sec_theme s) k) ss).
Proof.
  walk_as (among (pick (has_id k)) (map toc_item toc)
             (among (pick (has_id k))
                (map section_node ss ++ [summary_footer generated]) [])).
  rewrite select_among_app, select_id_sections.
  rewrite (select_among_none (has_id k) toc_item) by reflexivity.
  now rewrite app_nil_r.
Qed.

(** What the table of contents needs of the page: it lists the sections,
    and no two sections have one theme. *)
Definition toc_ok (page : summary_page) : Prop :=
  page_toc page = map (fun s => (sec_theme s, sec_title s)) (page_sections page) /\
  NoDup (map sec_theme (page_sections page)).

Lemma fragment_section (generated : string) (page : summary_page) (s : section) :
  toc_ok page -> In s (page_sections page) ->
  select (has_id (sec_theme s)) (summary_dom generated page) = [section_node s].
Proof.
  intros [_ Hnd] Hin. unfold summary_dom. rewrite select_id_summary.
  now rewrite (filter_unique_key sec_theme).
Qed.

(** ** The summary of a section is markup

    The local summary holds the title of the first entry of the theme as
    the input file gives it, and the page inserts the summary as markup:
    what a title holds of markup becomes markup of the page. *)
Lemma join_link_title (e : NewsEntry) (es : list NewsEntry) :
  exists pre post, join "; " (map link (e :: es)) = (pre ++ title e ++ post)%string.
Proof.
  exists (a_open ++ url e ++ a_mid)%string.
  destruct es as [|e' es].
  - exists a_close. cbn [map join]. unfold link. now rewrite !append_assoc.
  - exists (a_close ++ "; " ++ join "; " (map link (e' :: es)))%string.
    change (map link (e :: e' :: es)) with (link e :: map link (e' :: es)).
    rewrite join_cons by discriminate. unfold link. now rewrite !append_assoc.
Qed.

Lemma summary_raw_markup (theme : string) (info : theme_info) (e : NewsEntry)
    (es : list NewsEntry) (s : section) :
  dget theme THEME_INFO = Some info ->
  generate_fallback_summary theme (e :: es) = Some (sec_summary s) ->
  (exists pre post, sec_summary s = (pre ++ title e ++ post)%string) /\
  In (Raw (sec_summary s)) (childNodes (section_node s)).
Proof.
  intros Hi Hs. split; [|cbn; auto].
  rewrite (generate_fallback_summary_shape theme info) in Hs by (auto; discriminate).
  change (firstn 5 (e :: es)) with (e :: firstn 4 es) in Hs.
  destruct (join_link_title e (firstn 4 es)) as (pre & post & Hj).
  rewrite Hj in Hs. apply (f_equal (fun o => match o with Some x => x | None => "" end)) in Hs.
  cbv beta iota in Hs. rewrite <- Hs.
  exists (summary_head info (e :: es) ++ summary_focus (e :: es)
          ++ "<p>Notable developments included: " ++ pre)%string, (post ++ ".</p>")%string.
  now rewrite !append_assoc.
Qed.

(** ** The pages the generator writes *)

Section Generated.

Variable use_claude : bool.
Variable api_key : option string.
Variable claude : prompt -> api_answer.

Lemma generated_toc_ok (es : list NewsEntry) :
  toc_ok (generate_summary_html es (summaries_for use_claude api_key claude es)).
Proof.
  split.
  - unfold generate_summary_html. cbn [page_toc page_sections]. now rewrite map_map.
  - rewrite page_sections_eq, map_map. cbn [sec_theme section_of].
    apply NoDup_map_filter, THEME_INFO_ok.
Qed.

End Generated.

(** ** The link of a section, where it stands *)

(** The ancestors of a section and of an entry of the table of contents. *)
Definition section_chain : list node :=
  match place_at (has_class "intro") (summary_html "" 0 [] []) with
  | Some p => ancestors p
  | None => []
  end.

Definition toc_chain : list node :=
  chain_at (fun n => String.eqb (tagName n) "ul") (summary_html "" 0 [] []).

Definition link_place (s : section) : place :=
  mkPlace (view_all_node s) true (shallow (section_node s) :: section_chain).

Definition view_all_selector : selector := [[Class "view-all"]].

Lemma toc_no_class (toc : list (string * string)) (k : string) :
  ~ In k (flat_map classes (map toc_item toc)).
Proof. intros Hin. now apply (classes_map toc_item toc []) in Hin. Qed.

(** The places of the class [view-all] are the links of the sections. *)
Lemma view_all_places (hover : bool) (generated : string) (total : nat)
    (toc : list (string * string)) (ss : list section) :
  selected_places hover view_all_selector
    (summary_html generated total toc (map section_node ss))
  = map link_place ss.
Proof.
  walk_places_as
    (sweep_list (pick_place (selects hover view_all_selector)) toc_chain
       (map toc_item toc)
       (sweep_list (pick_place (selects hover view_all_selector)) section_chain
          (map section_node ss ++ [summary_footer generated]) [])).
  unfold view_all_selector.
  rewrite (sweep_list_unused_single hover _ "view-all")
    by (try apply toc_no_class; now left).
  rewrite sweep_list_app by reflexivity.
  rewrite (sweep_inner_map _ _ section_node (fun s => [link_place s]))
    by (intros; reflexivity).
  now rewrite flat_map_singleton, app_nil_r.
Qed.

(** ** The links and the classes of the page *)

(** The links of the page, in the order of the document: the table of
    contents, then one link in each section. *)
Lemma summary_links (generated : string) (page : summary_page) :
  links (summary_dom generated page)
  = map (fun kt => ("#" ++ fst kt)%string) (page_toc page)
    ++ map (fun s => index_link [("themes", sec_theme s)]) (page_sections page).
Proof.
  unfold links, summary_dom.
  walk_as (among href_list (map toc_item (page_toc page))
             (among href_list
                (map section_node (page_sections page) ++ [summary_footer generated]) [])).
  rewrite flat_map_app, !collect_map.
  change (flat_map (collect href_list) [summary_footer generated]) with (@nil string).
  rewrite app_nil_r, <- !flat_map_singleton. reflexivity.
Qed.

(** The one handler of the page leads to the index page. *)
Lemma summary_onclicks (generated : string) (page : summary_page) :
  onclicks (summary_dom generated page) = ["window.location.href='index.html'"].
Proof.
  unfold onclicks, summary_dom.
  walk_as ("window.location.href='index.html'"
           :: among onclick_list (map toc_item (page_toc page))
                (among onclick_list
                   (map section_node (page_sections page) ++ [summary_footer generated])
                   [])).
  rewrite flat_map_app, !collect_map.
  now rewrite !flat_map_nil by reflexivity.
Qed.

(** The classes of the page, in the order of the document. *)
Lemma summary_classes (generated : string) (page : summary_page) :
  classes (summary_dom generated page)
  = ["header"; "container"; "subtitle"; "nav-tabs"; "container"; "nav-tab"; "active";
     "nav-tab"; "container"; "intro"; "toc"]
    ++ flat_map (fun _ => ["theme-section"; "view-all"]) (page_sections page)
    ++ ["footer"; "container"].
Proof.
  unfold classes, summary_dom.
  walk_as (["header"; "container"; "subtitle"; "nav-tabs"; "container"; "nav-tab";
            "active"; "nav-tab"; "container"; "intro"; "toc"]
           ++ among classList (map toc_item (page_toc page))
                (among classList
                   (map section_node (page_sections page) ++ [summary_footer generated])
                   [])).
  rewrite flat_map_app, !collect_map.
  rewrite (flat_map_nil (fun x => collect classList (toc_item x))) by reflexivity.
  reflexivity.
Qed.

Lemma summary_classes_styled (generated : string) (page : summary_page) :
  incl (classes (summary_dom generated page)) (sheet_classes summary_style).
Proof.
  rewrite summary_classes.
  apply incl_app; [|apply incl_app; [apply incl_flat_map; intros s _|]];
    apply subset_str_incl; reflexivity.
Qed.

(** ** The look of the link of a section *)

Lemma link_place_style (s : section) (w : nat) (h : bool) :
  used_value summary_style (mkView w h) (link_place s) "color" = Some "#2980b9" /\
  cascaded summary_link_rules (mkView w h) (link_place s) "color" = Some "white" /\
  used_value summary_style (mkView w h) (link_place s) "background"
  = Some (if h then "#5a67d8" else "#667eea") /\
  used_value summary_style (mkView w h) (link_place s) "text-decoration"
  = Some (if h then "underline" else "none").
Proof. destruct h; repeat split; vm_compute; reflexivity. Qed.

(** ** Theorems *)

(** C27: the table of contents.  On a page whose table lists its sections
    and whose sections have distinct themes (every page the generator
    writes is one), an entry of the table links to the fragment of its
    theme, that fragment is the identifier of exactly one element, and the
    element is the section of the theme, with the title the entry shows. *)
Theorem toc_links_resolve (generated : string) (page : summary_page) (k title : string) :
  toc_ok page -> In (k, title) (page_toc page) ->
  In ("#" ++ k)%string (links (summary_dom generated page)) /\
  exists s, In s (page_sections page) /\ sec_theme s = k /\ sec_title s = title /\
            select (has_id k) (summary_dom generated page) = [section_node s] /\
            getElementById k (summary_dom generated page) = Some (section_node s).
Proof.
  intros Hok Hin. split.
  - rewrite summary_links. apply in_or_app. left.
    now apply (in_map (fun kt => ("#" ++ fst kt)%string)) in Hin.
  - pose proof Hok as [Htoc _]. rewrite Htoc in Hin.
    apply in_map_iff in Hin as (s & [= <- <-] & Hs).
    exists s. rewrite getElementById_select, (fragment_section generated page s Hok Hs).
    now repeat split.
Qed.

(** C28: the link of a section.  The elements of the class [view-all] are
    the links at the end of the sections; the link of a section leads to
    the index page with the theme of the section as the filter; its
    background is the one the rule [.view-all] declares, but its colour is
    the colour of [.theme-section a], whose selector is more specific, and
    not the white [.view-all] declares; under the pointer it is underlined
    for the same reason. *)
Theorem view_all_style (generated : string) (page : summary_page) (vw : view)
    (pl : place) :
  In pl (selected_places (hover vw) view_all_selector (summary_dom generated page)) ->
  exists s, In s (page_sections page) /\ pl = link_place s /\
            getAttribute "href" (subject pl)
            = Some (index_link [("themes", sec_theme s)]) /\
            used_value summary_style vw pl "color" = Some "#2980b9" /\
            cascaded summary_link_rules vw pl "color" = Some "white" /\
            used_value summary_style vw pl "background"
            = Some (if hover vw then "#5a67d8" else "#667eea") /\
            used_value summary_style vw pl "text-decoration"
            = Some (if hover vw then "underline" else "none").
Proof.
  unfold summary_dom. rewrite view_all_places. intros (s & <- & Hs)%in_map_iff.
  exists s. destruct vw as [w h]. cbn [hover].
  split; [exact Hs|]. split; [reflexivity|]. split; [reflexivity|].
  apply link_place_style.
Qed.

(** ** Witnesses *)

Definition summary_demo : summary_page :=
  generate_summary_html [nsf_entry; nasa_entry]
    (summaries_for false None (fun _ => ApiError) [nsf_entry; nasa_entry]).

Lemma toc_links_resolve_witness :
  In "#science" (links (summary_dom "August 09, 2025" summary_demo)) /\
  exists s, In s (page_sections summary_demo) /\ sec_theme s = "science" /\
            sec_title s = "Scientific Research and Space Programs" /\
            select (has_id "science") (summary_dom "August 09, 2025" summary_demo)
            = [section_node s] /\
            getElementById "science" (summary_dom "August 09, 2025" summary_demo)
            = Some (section_node s).
Proof.
  apply (toc_links_resolve "August 09, 2025" summary_demo "science"
           "Scientific Research and Space Programs").
  - apply generated_toc_ok.
  - vm_compute. left. reflexivity.
Defined.

Definition science_section : section :=
  nth 0 (page_sections summary_demo) (mkSection "" "" "" 0).

Lemma view_all_style_witness :
  exists s, In s (page_sections summary_demo) /\ link_place science_section = link_place s /\
            getAttribute "href" (subject (link_place science_section))
            = Some (index_link [("themes", sec_theme s)]) /\
            used_value summary_style (mkView 1024 true) (link_place science_section) "color"
            = Some "#2980b9" /\
            cascaded summary_link_rules (mkView 1024 true) (link_place science_section)
              "color" = Some "white" /\
            used_value summary_style (mkView 1024 true) (link_place science_section)
              "background" = Some "#5a67d8" /\
            used_value summary_style (mkView 1024 true) (link_place science_section)
              "text-decoration" = Some "underline".
Proof.
  apply (view_all_style "August 09, 2025" summary_demo (mkView 1024 true)
           (link_place science_section)).
  vm_compute. left. reflexivity.
Defined.
