(* ===== verification/Pipeline.v ===== *)
(** * Pipeline: [run_pipeline] and the site it produces

    [run_pipeline] of [src/master_pipeline.py] runs the processor, writes
    the index page and runs the summary generator on the dataset the
    processor wrote.  The index page is fixed text with the script of
    [IndexFilter]; what a visitor sees is that script run on the dataset, so
    the theorems here tie the three components together through the
    dataset: the contract of the dataset is what the script needs, and the
    two pages count the same entries. *)

From S2P Require Import Prelude.
From S2P Require Import Text.
From S2P Require Import Dict.
From S2P Require Import Taxonomy.
From S2P Require Import EntryParser.
From S2P Require Import Classifier.
From S2P Require Import Enricher.
From S2P Require Import Dataset.
From S2P Require Import Summary.
From S2P Require Import IndexFilter.

#[local] Open Scope string_scope.
#[local] Open Scope list_scope.
#[local] Open Scope nat_scope.

Section Pipeline.

Context `{SetOrder}.

(** The network of the enrichment step and the order of its answers, the
    time stamp, and the configuration of the summary step. *)
Variable net : nat -> response.
Variable order : list nat.
Variable now : string.
Variable use_claude : bool.
Variable api_key : option string.
Variable claude : prompt -> api_answer.

(** Step 1 and step 3; step 2 writes the text of the index page. *)
Definition run_pipeline (lines : list string)
  : outcome * option (summary_page * dict string) :=
  let out := process net order now lines in
  let summary := generate use_claude api_key claude (entries (data out)) in
  (out, summary).

(** The index page in the browser: the compressed file is served readable,
    or unreadable, or not at all; the plain file is served. *)
Definition open_index (gz : fetched) (d : dataset) (query : dict string)
  : option index_page :=
  loadData gz (Response true (Some d)) query.

(** ** The taxonomy tables agree *)

Lemma themes_have_info :
  forallb (fun t => mem_str t (dkeys THEME_INFO)) theme_names = true.
Proof. reflexivity. Qed.

Lemma filed_in_has_theme (e : NewsEntry) :
  tags_ok e -> filed_in (dkeys THEME_INFO) e = has_theme e.
Proof.
  intros (_ & _ & Hth & _). unfold filed_in, primary, has_theme.
  destruct (themes e) as [|t ts]; [reflexivity|]. simpl.
  apply Forall_inv in Hth.
  exact (proj1 (forallb_forall _ _) themes_have_info t Hth).
Qed.

Lemma counted_entries (es : list NewsEntry) :
  Forall tags_ok es ->
  filter (filed_in (dkeys THEME_INFO)) es = filter has_theme es.
Proof.
  intros Hes. apply filter_ext_in. intros e He.
  rewrite Forall_forall in Hes. now apply filed_in_has_theme, Hes.
Qed.

(** ** The site *)

Lemma open_index_Some (gz : fetched) (d : dataset) :
  gz = Response true (Some d) \/ (exists body, gz = Response false body) ->
  open_index gz d [] = Some (renderEntries (initializeControls d [])).
Proof. now intros [-> | (body & ->)]. Qed.

(** The site of a dataset that honours its contract: the index page loads,
    keeps its invariant under every click, and shows the entries the
    sections of the summary page count. *)
Lemma dataset_site (d : dataset) (gz : fetched) :
  dataset_ok d ->
  gz = Response true (Some d) \/ (exists body, gz = Response false body) ->
  exists p0,
    open_index gz d [] = Some p0 /\
    (forall p, reachable p0 p -> page_ok p) /\
    visible_count p0
    = list_sum (map sec_count
                  (page_sections
                     (generate_summary_html (entries d)
                        (summaries_for use_claude api_key claude (entries d))))) /\
    total_count p0 = length (entries d).
Proof.
  intros Hok Hgz. destruct (dataset_data_ok d Hok) as [Hd _].
  destruct (initial_entries d Hd) as (_ & Hv & Htot).
  pose proof Hok as (_ & _ & _ & He & _).
  eexists. split; [now apply open_index_Some|]. split; [|split].
  - intros p. apply reachable_page_ok.
    apply (loadData_ok (Response true (Some d)) FetchError []); [reflexivity | exact Hd].
  - rewrite Hv, section_counts_sum, counted_entries; [reflexivity|].
    eapply Forall_impl; [|exact He]. now intros e (_ & Ht & _).
  - exact Htot.
Qed.

(** C21: for every input, network, schedule and configuration, the pipeline
    yields a site whose parts agree: the summary page is generated; the
    index page loads from the dataset, when the compressed file is served
    readable and when it is not served; the invariant of the index page
    holds on every page a visitor can reach; and the index page shows, the
    sections of the summary page count, and the statistics leave out, the
    same entries: those that have a theme. *)
Theorem pipeline_site_ok (lines : list string) (gz : fetched) :
  let out := fst (run_pipeline lines) in
  let d := data out in
  gz = Response true (Some d) \/ (exists body, gz = Response false body) ->
  exists page summaries p0,
    snd (run_pipeline lines) = Some (page, summaries) /\
    open_index gz d [] = Some p0 /\
    (forall p, reachable p0 p -> page_ok p) /\
    visible_count p0 = list_sum (map sec_count (page_sections page)) /\
    total_count p0 = page_total page /\
    page_total page = total_entries (meta d).
Proof.
  intros out d Hgz. unfold run_pipeline. cbn [fst snd]. fold out. fold d.
  assert (dataset_ok d) as Hok by apply process_contract.
  destruct (dataset_site d gz Hok Hgz) as (p0 & Ho & Hr & Hv & Ht).
  eexists _, _, p0. split; [apply generate_eq|].
  split; [exact Ho|]. split; [exact Hr|]. split; [exact Hv|]. split; [exact Ht|].
  cbn [page_total generate_summary_html]. now destruct Hok as [-> _].
Qed.

(** The compressed file served as it is, which the script cannot read, ends
    in the error message: the plain file is not tried. *)
Lemma open_index_unreadable (d : dataset) (query : dict string) :
  open_index (Response true None) d query = None.
Proof. reflexivity. Qed.

End Pipeline.

(** ** Witness *)

Lemma pipeline_site_ok_witness :
  let lines := [spec_line; "junk"; post_line] in
  let out := fst (run_pipeline net_demo [0] "now" false None (fun _ => ApiError) lines) in
  let d := data out in
  exists page summaries p0,
    snd (run_pipeline net_demo [0] "now" false None (fun _ => ApiError) lines)
    = Some (page, summaries) /\
    open_index (Response false None) d [] = Some p0 /\
    (forall p, reachable p0 p -> page_ok p) /\
    visible_count p0 = list_sum (map sec_count (page_sections page)) /\
    total_count p0 = page_total page /\
    page_total page = total_entries (meta d).
Proof.
  apply (pipeline_site_ok net_demo [0] "now" false None (fun _ => ApiError)
           [spec_line; "junk"; post_line] (Response false None)).
  right. now exists None.
Defined.
