(* ===== verification/Files.v ===== *)
(** * Files: the programs on the file system

    The three programs and [run_pipeline] hand the dataset to each other
    through files: the processor writes [diary_data.json] and its compressed
    copy, the generators read one of them and write [index.html] and
    [summary.html].  This file models that layer.

    - The [world] is the directories, the files and what was printed.  A
      file holds a [content]: a text, a JSON text (by the value it parses
      to), its compressed form, the summary page (by its computed parts),
      or one of the fixed texts of the program.
    - [io] is the monad of the programs: a program changes the world and
      returns or raises, and the world an exception leaves is kept.
    - [mkdir], [write], [read], [path_exists] and [print] are the calls of
      the operating system the programs make, with their exceptions.
    - Then each constructor, method and [main] of the Python files, under
      its own name where the pure models have not taken it ([process_io],
      [generate_io] and [run_pipeline_io] are [DiaryProcessor.process],
      [SummaryGenerator.generate] and [run_pipeline] on files).

    Directory names are taken in the form pathlib prints them ([output],
    not [output/]), so that joining is concatenation with a slash; the
    empty name is the current directory, which exists.  Reading a JSON or
    HTML file as lines of text, and parsing a plain text as JSON, depend on
    the text itself, which the model does not have: they end in
    [OutsideModel]. *)

From stdpp Require Import gmap strings list.
#[local] Set Warnings "-clear-no-such-hyp".

From S2P Require Import Prelude.
From S2P Require Import Text.
From S2P Require Import Paths.
From S2P Require Import Dict.
From S2P Require Import EntryParser.
From S2P Require Import Classifier.
From S2P Require Import Enricher.
From S2P Require Import Dataset.
From S2P Require Import Summary.
From S2P Require Import Except.
From S2P Require Import Json.
From S2P Require Import Pipeline.

#[local] Open Scope string_scope.
#[local] Open Scope list_scope.
#[local] Open Scope nat_scope.

(** ** The world *)

Inductive fixed_text : Type :=
| IndexPage
| Readme.

Inductive content : Type :=
| Plain (text : string)
| JsonDoc (j : json)
| GzJsonDoc (j : json)
| SummaryHtml (p : summary_page)
| Fixed (t : fixed_text).

Inductive printed : Type :=
| Line (s : string)
| Report (s : statistics).

Record world : Type := World {
  dirs : gset string;
  files : gmap string content;
  out : list printed
}.

(** ** Programs *)

Definition io (A : Type) : Type := world -> world * res A.

#[export] Instance io_ret : MRet io := fun A a w => (w, Returns a).

#[export] Instance io_bind : MBind io := fun A B k m w =>
  match m w with
  | (w', Returns a) => k a w'
  | (w', Raises e) => (w', Raises e)
  end.

Definition raise {A : Type} (e : exn) : io A := fun w => (w, Raises e).

(** A computation that does not touch the world. *)
Definition lift {A : Type} (r : res A) : io A := fun w => (w, r).

(** ** What is there *)

Definition is_file (w : world) (p : string) : bool :=
  match files w !! p with Some _ => true | None => false end.

Definition is_dir (w : world) (p : string) : bool :=
  String.eqb p "" || bool_decide (p ∈ dirs w).

(** ** The calls of the operating system *)

(** [Path(d).mkdir(exist_ok=True)]. *)
Definition mkdir (d : string) : io unit := fun w =>
  if is_file w d then (w, Raises (FileExistsError d))
  else if is_dir w d then (w, Returns tt)
  else if is_file w (parent d) then (w, Raises (NotADirectoryError d))
  else if is_dir w (parent d)
       then (World ({[d]} ∪ dirs w) (files w) (out w), Returns tt)
       else (w, Raises (FileNotFoundError d)).

(** [with open(p, 'w') as f: f.write(c)], and the same through [gzip.open]
    or [json.dump]. *)
Definition write (p : string) (c : content) : io unit := fun w =>
  if is_dir w p then (w, Raises (IsADirectoryError p))
  else if is_file w (parent p) then (w, Raises (NotADirectoryError p))
  else if is_dir w (parent p)
       then (World (dirs w) (<[p := c]> (files w)) (out w), Returns tt)
       else (w, Raises (FileNotFoundError p)).

(** [open(p, 'r')] and reading to the end. *)
Definition read (p : string) : io content := fun w =>
  match files w !! p with
  | Some c => (w, Returns c)
  | None =>
      (w, Raises (if is_dir w p then IsADirectoryError p else FileNotFoundError p))
  end.

(** [os.path.exists(p)]. *)
Definition path_exists (p : string) : io bool := fun w =>
  (w, Returns (is_file w p || is_dir w p)).

Definition print (l : printed) : io unit := fun w =>
  (World (dirs w) (files w) (out w ++ [l]), Returns tt).

(** ** Decoding what was read *)

(** [f.readlines()] on a file opened as text. *)
Definition lines_of (c : content) : res (list string) :=
  match c with
  | Plain text => Returns (readlines text)
  | GzJsonDoc _ => Raises UnicodeDecodeError
  | _ => Raises OutsideModel
  end.

(** [json.load(f)] on a file opened as text. *)
Definition json_load (c : content) : res json :=
  match c with
  | JsonDoc j => Returns j
  | GzJsonDoc _ => Raises UnicodeDecodeError
  | Plain _ => Raises OutsideModel
  | SummaryHtml _ | Fixed _ => Raises JSONDecodeError
  end.

(** [json.load(f)] on a file opened with [gzip.open(p, 'rt')]. *)
Definition gzip_json_load (c : content) : res json :=
  match c with
  | GzJsonDoc j => Returns j
  | _ => Raises BadGzipFile
  end.

(** ** process_diary.py *)

Section Programs.

Context `{SetOrder}.

(** The network and the order of its answers, the clock, the environment
    variable and the remote generator. *)
Variable net : nat -> response.
Variable order : list nat.
Variable now : string.
Variable api_key : option string.
Variable claude : prompt -> api_answer.

(** [DiaryProcessor.__init__]. *)
Definition DiaryProcessor_init (output_dir : string) : io unit := mkdir output_dir.

(** [save_compressed_json]. *)
Definition save_compressed_json (output_dir : string) (data : json) (filename : string)
  : io unit :=
  write (path_join output_dir filename) (JsonDoc data);;
  write (path_join output_dir (filename ++ ".gz")) (GzJsonDoc data).

(** [DiaryProcessor(input_file, output_dir).process()]: the file is read
    by [parse_input_file], the dataset is saved, the statistics printed. *)
Definition process_io (input_file output_dir : string) : io dataset :=
  DiaryProcessor_init output_dir;;
  c ← read input_file;
  lines ← lift (lines_of c);
  let result := process net order now lines in
  save_compressed_json output_dir (document (data result)) "diary_data.json";;
  print (Report (stats result));;
  mret (data result).

Definition process_diary_usage : list string :=
  [ "Usage: python process_diary.py <input_file>";
    "Example: python process_diary.py 'Trump diary days 0001-0200.txt'" ].

(** [main] of [process_diary.py] on [sys.argv]. *)
Definition process_diary_main (argv : list string) : io unit :=
  match argv with
  | [_; input_file] =>
      found ← path_exists input_file;
      if found : bool
      then process_io input_file "output";; mret tt
      else print (Line ("Error: Input file '" ++ input_file ++ "' not found"));;
           raise (SystemExit 1)
  | _ => mapM (fun l => print (Line l)) process_diary_usage;; raise (SystemExit 1)
  end.

(** ** html_generator.py *)

(** [IndexPageGenerator.load_data]. *)
Definition load_data (data_file : string) : io json :=
  c ← read data_file;
  lift (if endswith ".gz" data_file then gzip_json_load c else json_load c).

(** [IndexPageGenerator.__init__]: the value is [self.data]. *)
Definition IndexPageGenerator_init (data_file output_dir : string) : io json :=
  mkdir output_dir;; load_data data_file.

(** [save_index_page]: the text does not depend on the data. *)
Definition save_index_page (output_dir : string) : io unit :=
  write (path_join output_dir "index.html") (Fixed IndexPage).

Definition generate_html_files (data_file output_dir : string) : io unit :=
  IndexPageGenerator_init data_file output_dir;; save_index_page output_dir.

Definition html_generator_usage : list string :=
  [ "Usage: python generate_html.py <data_file>";
    "Example: python generate_html.py output/diary_data.json" ].

Definition html_generator_main (argv : list string) : io unit :=
  match argv with
  | [_; data_file] => generate_html_files data_file "output"
  | _ => mapM (fun l => print (Line l)) html_generator_usage;; raise (SystemExit 1)
  end.

(** ** summary_generator.py *)

(** [SummaryGenerator.load_data]: no compressed branch. *)
Definition load_summary_data (data_file : string) : io json :=
  c ← read data_file; lift (json_load c).

(** [SummaryGenerator.__init__]: the value is [self.data]. *)
Definition SummaryGenerator_init (data_file output_dir : string) : io json :=
  mkdir output_dir;; load_summary_data data_file.

(** [SummaryGenerator.generate] on [self.data]: the generator is modelled
    on the documents [dataset_of] reads. *)
Definition generate_io (use_claude : bool) (data : json) (output_dir : string)
  : io (dict string) :=
  d ← lift (or_raise (dataset_of data) OutsideModel);
  r ← lift (or_raise (generate use_claude api_key claude (entries d))
             (KeyError "THEME_INFO"));
  write (path_join output_dir "summary.html") (SummaryHtml (fst r));;
  mret (snd r).

Definition summary_generator_usage : list string :=
  [ "Usage: python generate_summary.py <data_file> [--use-claude]";
    "Example: python generate_summary.py output/diary_data.json --use-claude" ].

Definition summary_generator_warning : list string :=
  [ "Warning: --use-claude specified but ANTHROPIC_API_KEY not found in environment";
    "Set it with: export ANTHROPIC_API_KEY='your-key-here'" ].

(** [main] of [summary_generator.py]: the flag may stand anywhere in
    [sys.argv], the data file is the first argument. *)
Definition summary_generator_main (argv : list string) : io unit :=
  match argv with
  | _ :: data_file :: _ =>
      let use_claude := mem_str "--use-claude" argv in
      (if use_claude && no_key api_key
       then mapM (fun l => print (Line l)) summary_generator_warning;; mret tt
       else mret tt);;
      data ← SummaryGenerator_init data_file "output";
      generate_io use_claude data "output";; mret tt
  | _ => mapM (fun l => print (Line l)) summary_generator_usage;; raise (SystemExit 1)
  end.

(** ** master_pipeline.py *)

(** [run_pipeline]. *)
Definition run_pipeline_io (input_file output_dir : string) (use_claude : bool)
  : io dataset :=
  mkdir output_dir;;
  data ← process_io input_file output_dir;
  IndexPageGenerator_init (path_join output_dir "diary_data.json") output_dir;;
  save_index_page output_dir;;
  loaded ← SummaryGenerator_init (path_join output_dir "diary_data.json") output_dir;
  generate_io use_claude loaded output_dir;;
  mret data.

End Programs.

Definition requirements : string :=
  join "" (map (fun l => l ++ nl)
    [ "# Requirements for Trump Administration Policy Tracker";
      "aiohttp>=3.8.0";
      "beautifulsoup4>=4.11.0";
      "anthropic>=0.18.0  # Optional: for Claude API integration" ])%string.

(** [create_requirements_file]. *)
Definition create_requirements_file : io unit := write "requirements.txt" (Plain requirements).

(** [create_readme]: the text is fixed. *)
Definition create_readme : io unit := write "README.md" (Fixed Readme).

(** ** Running programs *)

Lemma bind_returns {A B : Type} (m : io A) (k : A -> io B) (w w' : world) (a : A) :
  m w = (w', Returns a) -> (m ≫= k) w = k a w'.
Proof. intros E. unfold mbind, io_bind. now rewrite E. Qed.

Lemma bind_raises {A B : Type} (m : io A) (k : A -> io B) (w w' : world) (e : exn) :
  m w = (w', Raises e) -> (m ≫= k) w = (w', Raises e).
Proof. intros E. unfold mbind, io_bind. now rewrite E. Qed.

Lemma lift_returns {A : Type} (r : res A) (a : A) (w : world) :
  r = Returns a -> lift r w = (w, Returns a).
Proof. now intros ->. Qed.

(** ** The invariant of the file system *)

(** No path is a file and a directory, and what exists stands in a
    directory that exists. *)
Record fs_ok (w : world) : Prop := {
  ok_disjoint : forall p, is_file w p = true -> is_dir w p = false;
  ok_dirs : forall d, d ∈ dirs w -> is_dir w (parent d) = true;
  ok_files : forall p c, files w !! p = Some c -> is_dir w (parent p) = true
}.

Definition preserves {A : Type} (m : io A) : Prop :=
  forall w, fs_ok w -> fs_ok (m w).1.

Lemma is_dir_add (w : world) (d p : string) (f : gmap string content) (o : list printed) :
  is_dir (World ({[d]} ∪ dirs w) f o) p = String.eqb p d || is_dir w p.
Proof.
  unfold is_dir. simpl. destruct (String.eqb_spec p d) as [->|Hne].
  - rewrite bool_decide_eq_true_2 by set_solver. now rewrite orb_true_r.
  - destruct (String.eqb_spec p ""); [reflexivity|]. simpl.
    apply bool_decide_ext. set_solver.
Qed.

Lemma is_file_put (w : world) (p q : string) (c : content) (g : gset string)
    (o : list printed) :
  is_file (World g (<[p := c]> (files w)) o) q = String.eqb q p || is_file w q.
Proof.
  unfold is_file. simpl. destruct (String.eqb_spec q p) as [->|Hne].
  - now rewrite lookup_insert_eq.
  - now rewrite lookup_insert_ne.
Qed.

Lemma preserves_ret {A : Type} (a : A) : preserves (mret a).
Proof. now intros w Hw. Qed.

Lemma preserves_raise {A : Type} (e : exn) : preserves (@raise A e).
Proof. now intros w Hw. Qed.

Lemma preserves_lift {A : Type} (r : res A) : preserves (lift r).
Proof. now intros w Hw. Qed.

Lemma preserves_bind {A B : Type} (m : io A) (k : A -> io B) :
  preserves m -> (forall a, preserves (k a)) -> preserves (m ≫= k).
Proof.
  intros Hm Hk w Hw. specialize (Hm w Hw). unfold mbind, io_bind.
  destruct (m w) as [w' [a|e]]; simpl in *; [now apply Hk | exact Hm].
Qed.

Lemma preserves_print (l : printed) : preserves (print l).
Proof. intros w [H1 H2 H3]. now split. Qed.

Lemma preserves_read (p : string) : preserves (read p).
Proof. intros w Hw. unfold read. now destruct (files w !! p). Qed.

Lemma preserves_path_exists (p : string) : preserves (path_exists p).
Proof. now intros w Hw. Qed.

Lemma preserves_mkdir (d : string) : preserves (mkdir d).
Proof.
  intros w Hw. unfold mkdir.
  destruct (is_file w d) eqn:Ef; [done|]. destruct (is_dir w d) eqn:Ed; [done|].
  destruct (is_file w (parent d)) eqn:Epf; [done|].
  destruct (is_dir w (parent d)) eqn:Epd; [|done].
  destruct Hw as [H1 H2 H3]. split; simpl.
  - intros p Hp. change (is_file w p = true) in Hp. rewrite is_dir_add, (H1 p Hp).
    rewrite orb_false_r. apply String.eqb_neq. congruence.
  - intros d' Hd'. rewrite is_dir_add. apply elem_of_union in Hd' as [Hd'|Hd'].
    + apply elem_of_singleton in Hd' as ->. now rewrite Epd, orb_true_r.
    + now rewrite (H2 d' Hd'), orb_true_r.
  - intros p c Hp. rewrite is_dir_add, (H3 p c Hp). apply orb_true_r.
Qed.

Lemma preserves_write (p : string) (c : content) : preserves (write p c).
Proof.
  intros w Hw. unfold write.
  destruct (is_dir w p) eqn:Ed; [done|].
  destruct (is_file w (parent p)) eqn:Epf; [done|].
  destruct (is_dir w (parent p)) eqn:Epd; [|done].
  destruct Hw as [H1 H2 H3]. split; simpl.
  - intros q Hq. rewrite is_file_put in Hq. change (is_dir w q = false).
    destruct (decide (q = p)) as [->|Hne]; [exact Ed|]. apply H1.
    now rewrite (proj2 (String.eqb_neq q p) Hne) in Hq.
  - exact H2.
  - intros q c' Hq. change (is_dir w (parent q) = true).
    destruct (decide (q = p)) as [->|Hne]; [exact Epd|].
    rewrite lookup_insert_ne in Hq by done. eauto.
Qed.

Lemma preserves_mapM {A B : Type} (f : A -> io B) (l : list A) :
  (forall a, preserves (f a)) -> preserves (mapM f l).
Proof.
  intros Hf. induction l as [|a l IH]; simpl; [apply preserves_ret|].
  apply preserves_bind; [apply Hf|]. intros b.
  apply preserves_bind; [exact IH|]. intros bs. apply preserves_ret.
Qed.

Create HintDb io_ok.
#[export] Hint Resolve preserves_ret preserves_raise preserves_lift preserves_print
  preserves_read preserves_path_exists preserves_mkdir preserves_write : io_ok.

(** Proves [preserves] of a program built from the calls above. *)
Ltac preserve :=
  repeat first
    [ progress auto with io_ok
    | apply preserves_mapM; intros ?
    | match goal with
      | |- preserves (match ?x with _ => _ end) => destruct x
      | |- preserves (if ?b then _ else _) => destruct b
      end
    | progress unfold DiaryProcessor_init, save_compressed_json, load_data,
        IndexPageGenerator_init, save_index_page, load_summary_data, SummaryGenerator_init
    | apply preserves_bind; [|intros ?] ].

Section ProgramsPreserve.

Context `{SetOrder}.
Variable net : nat -> response.
Variable order : list nat.
Variable now : string.
Variable api_key : option string.
Variable claude : prompt -> api_answer.

Lemma process_io_preserves (input_file output_dir : string) :
  preserves (process_io net order now input_file output_dir).
Proof. unfold process_io. preserve. Qed.

Lemma generate_html_files_preserves (data_file output_dir : string) :
  preserves (generate_html_files data_file output_dir).
Proof. unfold generate_html_files. preserve. Qed.

Lemma generate_io_preserves (use_claude : bool) (data : json) (output_dir : string) :
  preserves (generate_io api_key claude use_claude data output_dir).
Proof. unfold generate_io. preserve. Qed.

#[local] Hint Resolve process_io_preserves generate_html_files_preserves
  generate_io_preserves : io_ok.

Lemma process_diary_main_preserves (argv : list string) :
  preserves (process_diary_main net order now argv).
Proof. unfold process_diary_main. preserve. Qed.

Lemma html_generator_main_preserves (argv : list string) :
  preserves (html_generator_main argv).
Proof. unfold html_generator_main. preserve. Qed.

Lemma summary_generator_main_preserves (argv : list string) :
  preserves (summary_generator_main api_key claude argv).
Proof. unfold summary_generator_main. preserve. Qed.

Lemma run_pipeline_io_preserves (input_file output_dir : string) (use_claude : bool) :
  preserves (run_pipeline_io net order now api_key claude input_file output_dir use_claude).
Proof. unfold run_pipeline_io. preserve. Qed.

End ProgramsPreserve.

(** ** The effect of the programs on a directory that is ready *)

(** The world after a file was written, and after a line was printed. *)
Definition put (p : string) (c : content) (w : world) : world :=
  World (dirs w) (<[p := c]> (files w)) (out w).

Definition say (l : printed) (w : world) : world :=
  World (dirs w) (files w) (out w ++ [l]).

(** The world after [mkdir] returned. *)
Definition with_dir (d : string) (w : world) : world :=
  if is_dir w d then w else World ({[d]} ∪ dirs w) (files w) (out w).

(** The files of the site. *)
Definition site_files : list string :=
  ["diary_data.json"; "diary_data.json.gz"; "index.html"; "summary.html"].

(** [mkdir d] can return: [d] is a directory, or it is nothing and stands in
    a directory. *)
Definition can_make (d : string) (w : world) : Prop :=
  is_file w d = false /\
  (is_dir w d = true \/ (is_file w (parent d) = false /\ is_dir w (parent d) = true)).

(** No file of the site is a directory. *)
Definition site_free (d : string) (w : world) : Prop :=
  forall n, In n site_files -> is_dir w (path_join d n) = false.

(** The directory is there and the files of the site can be written. *)
Definition site_ready (d : string) (w : world) : Prop :=
  is_dir w d = true /\ is_file w d = false /\ site_free d w.

Lemma site_file_parent (d n : string) : In n site_files -> parent (path_join d n) = d.
Proof.
  intros Hn. apply parent_join. simpl in Hn.
  destruct Hn as [<-|[<-|[<-|[<-|[]]]]]; reflexivity.
Qed.

Lemma mkdir_makes (d : string) (w : world) :
  can_make d w -> mkdir d w = (with_dir d w, Returns tt).
Proof.
  intros [Hf [Hd | [Hpf Hpd]]]; unfold mkdir, with_dir; rewrite Hf.
  - now rewrite Hd.
  - rewrite Hpf, Hpd. now destruct (is_dir w d).
Qed.

Lemma with_dir_ready (d : string) (w : world) :
  can_make d w -> site_free d w -> site_ready d (with_dir d w).
Proof.
  intros [Hf _] Hfree. unfold with_dir. destruct (is_dir w d) eqn:Ed; [done|].
  split; [|split].
  - rewrite is_dir_add, String.eqb_refl. reflexivity.
  - exact Hf.
  - intros n Hn. rewrite is_dir_add, (Hfree n Hn), orb_false_r.
    apply String.eqb_neq, path_join_ne_dir.
Qed.

Lemma mkdir_ready (d : string) (w : world) : site_ready d w -> mkdir d w = (w, Returns tt).
Proof. intros (Hd & Hf & _). unfold mkdir. now rewrite Hf, Hd. Qed.

Lemma write_ready (d n : string) (c : content) (w : world) :
  site_ready d w -> In n site_files ->
  write (path_join d n) c w = (put (path_join d n) c w, Returns tt).
Proof.
  intros (Hd & Hf & Hfree) Hn. unfold write.
  now rewrite (Hfree n Hn), (site_file_parent d n Hn), Hf, Hd.
Qed.

Lemma put_ready (d n : string) (c : content) (w : world) :
  site_ready d w -> site_ready d (put (path_join d n) c w).
Proof.
  intros (Hd & Hf & Hfree). split; [exact Hd|]. split; [|exact Hfree].
  unfold put. rewrite is_file_put, Hf, orb_false_r.
  apply String.eqb_neq. intros E. symmetry in E. now apply path_join_ne_dir in E.
Qed.

Lemma say_ready (d : string) (l : printed) (w : world) : site_ready d w -> site_ready d (say l w).
Proof. done. Qed.

Lemma read_file (p : string) (c : content) (w : world) :
  files w !! p = Some c -> read p w = (w, Returns c).
Proof. intros E. unfold read. now rewrite E. Qed.

Lemma read_missing (p : string) (w : world) :
  files w !! p = None -> is_dir w p = false -> read p w = (w, Raises (FileNotFoundError p)).
Proof. intros E Hd. unfold read. now rewrite E, Hd. Qed.

#[local] Hint Resolve put_ready say_ready : io_ok.
#[local] Hint Extern 1 (In _ site_files) => simpl; tauto : io_ok.

Section Effects.

Context `{SetOrder}.
Variable net : nat -> response.
Variable order : list nat.
Variable now : string.
Variable api_key : option string.
Variable claude : prompt -> api_answer.

(** The world the processor leaves. *)
Definition processed (d : string) (r : outcome) (w : world) : world :=
  say (Report (stats r))
    (put (path_join d "diary_data.json.gz") (GzJsonDoc (document (data r)))
      (put (path_join d "diary_data.json") (JsonDoc (document (data r))) w)).

(** The world [run_pipeline] leaves. *)
Definition site (d : string) (use_claude : bool) (r : outcome) (w : world) : world :=
  put (path_join d "summary.html")
    (SummaryHtml (generate_summary_html (entries (data r))
                    (summaries_for use_claude api_key claude (entries (data r)))))
    (put (path_join d "index.html") (Fixed IndexPage) (processed d r w)).

Lemma save_compressed_json_ready (d : string) (j : json) (w : world) :
  site_ready d w ->
  save_compressed_json d j "diary_data.json" w
  = (put (path_join d "diary_data.json.gz") (GzJsonDoc j)
      (put (path_join d "diary_data.json") (JsonDoc j) w), Returns tt).
Proof.
  intros Hw. unfold save_compressed_json.
  erewrite bind_returns by (apply write_ready; auto with io_ok).
  apply (write_ready d "diary_data.json.gz"); auto with io_ok.
Qed.

Lemma process_io_ready (input_file d text : string) (w : world) :
  site_ready d w -> files w !! input_file = Some (Plain text) ->
  process_io net order now input_file d w
  = (processed d (process net order now (readlines text)) w,
     Returns (data (process net order now (readlines text)))).
Proof.
  intros Hw Hin. unfold process_io, DiaryProcessor_init.
  erewrite bind_returns by (now apply mkdir_ready).
  erewrite bind_returns by (exact (read_file _ _ _ Hin)).
  erewrite bind_returns by reflexivity.
  erewrite bind_returns by (now apply save_compressed_json_ready).
  reflexivity.
Qed.

Lemma processed_ready (d : string) (r : outcome) (w : world) :
  site_ready d w -> site_ready d (processed d r w).
Proof. intros Hw. unfold processed. auto with io_ok. Qed.

Lemma processed_data (d : string) (r : outcome) (w : world) :
  files (processed d r w) !! path_join d "diary_data.json"
  = Some (JsonDoc (document (data r))).
Proof.
  unfold processed. simpl. rewrite lookup_insert_ne, lookup_insert_eq; [done|].
  intros E. apply path_join_inj in E. discriminate.
Qed.

Lemma load_data_plain (d : string) (j : json) (w : world) :
  files w !! path_join d "diary_data.json" = Some (JsonDoc j) ->
  load_data (path_join d "diary_data.json") w = (w, Returns j).
Proof.
  intros E. unfold load_data. rewrite (bind_returns _ _ _ _ _ (read_file _ _ _ E)).
  rewrite endswith_join by (simpl; lia). reflexivity.
Qed.

Lemma IndexPageGenerator_init_ready (d : string) (j : json) (w : world) :
  site_ready d w -> files w !! path_join d "diary_data.json" = Some (JsonDoc j) ->
  IndexPageGenerator_init (path_join d "diary_data.json") d w = (w, Returns j).
Proof.
  intros Hw E. unfold IndexPageGenerator_init.
  erewrite bind_returns by (now apply mkdir_ready). now apply load_data_plain.
Qed.

Lemma SummaryGenerator_init_ready (d : string) (j : json) (w : world) :
  site_ready d w -> files w !! path_join d "diary_data.json" = Some (JsonDoc j) ->
  SummaryGenerator_init (path_join d "diary_data.json") d w = (w, Returns j).
Proof.
  intros Hw E. unfold SummaryGenerator_init, load_summary_data.
  erewrite bind_returns by (now apply mkdir_ready).
  now rewrite (bind_returns _ _ _ _ _ (read_file _ _ _ E)).
Qed.

Lemma save_index_page_ready (d : string) (w : world) :
  site_ready d w ->
  save_index_page d w = (put (path_join d "index.html") (Fixed IndexPage) w, Returns tt).
Proof. intros Hw. apply write_ready; auto with io_ok. Qed.

Lemma generate_io_ready (use_claude : bool) (d : string) (ds : dataset) (w : world) :
  site_ready d w ->
  generate_io api_key claude use_claude (document ds) d w
  = (put (path_join d "summary.html")
       (SummaryHtml (generate_summary_html (entries ds)
                       (summaries_for use_claude api_key claude (entries ds)))) w,
     Returns (summaries_for use_claude api_key claude (entries ds))).
Proof.
  intros Hw. unfold generate_io.
  erewrite bind_returns by (apply lift_returns; now rewrite dataset_of_document_eq).
  erewrite bind_returns by (apply lift_returns; now rewrite generate_eq).
  erewrite bind_returns by (apply write_ready; auto with io_ok).
  reflexivity.
Qed.

Lemma indexed_data (d : string) (r : outcome) (w : world) :
  files (put (path_join d "index.html") (Fixed IndexPage) (processed d r w))
    !! path_join d "diary_data.json"
  = Some (JsonDoc (document (data r))).
Proof.
  unfold put at 1. simpl files. rewrite lookup_insert_ne; [apply processed_data|].
  intros E. apply path_join_inj in E. discriminate.
Qed.

Lemma run_pipeline_io_ready (input_file d text : string) (use_claude : bool) (w : world) :
  site_ready d w -> files w !! input_file = Some (Plain text) ->
  run_pipeline_io net order now api_key claude input_file d use_claude w
  = (site d use_claude (process net order now (readlines text)) w,
     Returns (data (process net order now (readlines text)))).
Proof.
  intros Hw Hin. unfold run_pipeline_io.
  pose proof (processed_ready d (process net order now (readlines text)) w Hw) as H1.
  pose proof (put_ready d "index.html" (Fixed IndexPage) _ H1) as H2.
  erewrite bind_returns by (now apply mkdir_ready).
  erewrite bind_returns by (exact (process_io_ready _ _ _ _ Hw Hin)).
  erewrite bind_returns
    by (apply (IndexPageGenerator_init_ready d _ _ H1), processed_data).
  erewrite bind_returns by (exact (save_index_page_ready _ _ H1)).
  erewrite bind_returns
    by (apply (SummaryGenerator_init_ready d _ _ H2), indexed_data).
  erewrite bind_returns by (exact (generate_io_ready _ _ _ _ H2)).
  reflexivity.
Qed.

End Effects.

(** Printing lines. *)
Lemma mapM_print (ls : list string) (w : world) :
  mapM (fun l => print (Line l)) ls w
  = (World (dirs w) (files w) (out w ++ map Line ls), Returns (map (fun _ => tt) ls)).
Proof.
  revert w; induction ls as [|l ls IH]; intros w.
  - simpl. rewrite app_nil_r. now destruct w.
  - cbn [mapM]. erewrite bind_returns by reflexivity.
    erewrite bind_returns by apply IH. simpl. now rewrite <- app_assoc.
Qed.

(** ** From any world in which the directory can be made *)

Lemma with_dir_files (d : string) (w : world) : files (with_dir d w) = files w.
Proof. unfold with_dir. now destruct (is_dir w d). Qed.

Lemma with_dir_out (d : string) (w : world) : out (with_dir d w) = out w.
Proof. unfold with_dir. now destruct (is_dir w d). Qed.

Lemma with_dir_is_dir (d p : string) (w : world) :
  is_dir (with_dir d w) p = String.eqb p d || is_dir w p.
Proof.
  unfold with_dir. destruct (is_dir w d) eqn:Ed; [|apply is_dir_add].
  destruct (String.eqb_spec p d) as [->|_]; [now rewrite Ed | reflexivity].
Qed.

Lemma with_dir_is_file (d p : string) (w : world) : is_file (with_dir d w) p = is_file w p.
Proof. unfold is_file. now rewrite with_dir_files. Qed.

Lemma mkdir_again (d : string) (w : world) :
  can_make d w -> mkdir d (with_dir d w) = (with_dir d w, Returns tt).
Proof.
  intros [Hf _]. unfold mkdir.
  now rewrite with_dir_is_file, Hf, with_dir_is_dir, String.eqb_refl.
Qed.

Section Pipeline.

Context `{SetOrder}.
Variable net : nat -> response.
Variable order : list nat.
Variable now : string.
Variable api_key : option string.
Variable claude : prompt -> api_answer.

Lemma run_pipeline_io_makes (input_file d : string) (use_claude : bool) (w : world) :
  can_make d w ->
  run_pipeline_io net order now api_key claude input_file d use_claude w
  = run_pipeline_io net order now api_key claude input_file d use_claude (with_dir d w).
Proof.
  intros Hd. unfold run_pipeline_io.
  erewrite bind_returns by (exact (mkdir_makes _ _ Hd)).
  now erewrite (bind_returns (mkdir d) _ (with_dir d w)) by (exact (mkdir_again _ _ Hd)).
Qed.

Lemma run_pipeline_io_eq (input_file d text : string) (use_claude : bool) (w : world) :
  can_make d w -> site_free d w -> files w !! input_file = Some (Plain text) ->
  run_pipeline_io net order now api_key claude input_file d use_claude w
  = (site api_key claude d use_claude (process net order now (readlines text)) (with_dir d w),
     Returns (data (process net order now (readlines text)))).
Proof.
  intros Hd Hfree Hin. rewrite run_pipeline_io_makes by done.
  apply run_pipeline_io_ready; [now apply with_dir_ready | now rewrite with_dir_files].
Qed.

(** What the site leaves of the files that were there. *)
Lemma site_frame (d : string) (use_claude : bool) (r : outcome) (w : world) (p : string) :
  (forall n, In n site_files -> p <> path_join d n) ->
  files (site api_key claude d use_claude r w) !! p = files w !! p.
Proof.
  intros Hp. unfold site, processed, put, say. simpl.
  rewrite !lookup_insert_ne; [reflexivity | | | |];
    intros E; symmetry in E; revert E; apply Hp; simpl; tauto.
Qed.

(** The input file is missing: the directory is made and the processor
    raises. *)
Lemma run_pipeline_io_missing (input_file d : string) (use_claude : bool) (w : world) :
  can_make d w -> files w !! input_file = None -> is_dir w input_file = false ->
  input_file <> d ->
  run_pipeline_io net order now api_key claude input_file d use_claude w
  = (with_dir d w, Raises (FileNotFoundError input_file)).
Proof.
  intros Hd Hin Hnd Hne. unfold run_pipeline_io, process_io, DiaryProcessor_init.
  erewrite bind_returns by (exact (mkdir_makes _ _ Hd)).
  erewrite bind_raises; [reflexivity|].
  erewrite bind_returns by (exact (mkdir_again _ _ Hd)).
  erewrite bind_raises; [reflexivity|]. apply read_missing.
  - now rewrite with_dir_files.
  - rewrite with_dir_is_dir, Hnd, orb_false_r. now apply String.eqb_neq.
Qed.

(** [main] of the processor on a missing file, and on a wrong number of
    arguments: nothing is made. *)
Lemma process_diary_main_missing (prog input_file : string) (w : world) :
  is_file w input_file = false -> is_dir w input_file = false ->
  process_diary_main net order now [prog; input_file] w
  = (say (Line ("Error: Input file '" ++ input_file ++ "' not found")) w,
     Raises (SystemExit 1)).
Proof.
  intros Hf Hd. unfold process_diary_main, path_exists.
  unfold mbind at 1, io_bind. now rewrite Hf, Hd.
Qed.

Lemma process_diary_main_usage (argv : list string) (w : world) :
  length argv <> 2 ->
  process_diary_main net order now argv w
  = (World (dirs w) (files w) (out w ++ map Line process_diary_usage),
     Raises (SystemExit 1)).
Proof.
  intros Hl. destruct argv as [|a [|b [|c argv]]]; simpl in Hl; try lia;
    unfold process_diary_main; now erewrite bind_returns by apply mapM_print.
Qed.

End Pipeline.

(** ** Theorems *)

(** Two files of one directory with different names. *)
Ltac path_ne := let E := fresh in intros E; apply path_join_inj in E; discriminate.

Section Claims.

Context `{SetOrder}.
Variable net : nat -> response.
Variable order : list nat.
Variable now : string.
Variable api_key : option string.
Variable claude : prompt -> api_answer.

Lemma site_written (d : string) (use_claude : bool) (r : outcome) (w : world) :
  let w' := site api_key claude d use_claude r w in
  files w' !! path_join d "diary_data.json" = Some (JsonDoc (document (data r))) /\
  files w' !! path_join d "diary_data.json.gz" = Some (GzJsonDoc (document (data r))) /\
  files w' !! path_join d "index.html" = Some (Fixed IndexPage) /\
  files w' !! path_join d "summary.html"
  = Some (SummaryHtml (generate_summary_html (entries (data r))
                         (summaries_for use_claude api_key claude (entries (data r))))).
Proof.
  unfold site, processed, put, say. simpl. split; [|split; [|split]].
  - rewrite !lookup_insert_ne by path_ne. apply lookup_insert_eq.
  - rewrite !lookup_insert_ne by path_ne. apply lookup_insert_eq.
  - rewrite lookup_insert_ne by path_ne. apply lookup_insert_eq.
  - apply lookup_insert_eq.
Qed.

(** C3: [run_pipeline] on files implements the pipeline on values.  From a
    world in which the output directory can be made, no file of the site is
    a directory and the input file is a text, it returns the dataset the
    pure pipeline computes from the lines of the text; it leaves that
    dataset as a document in [diary_data.json] and, compressed, in
    [diary_data.json.gz], the index page, and the summary page the pure
    pipeline computes; it prints the statistics; and it leaves every other
    file as it was. *)
Theorem run_pipeline_io_refines (input_file d text : string) (use_claude : bool)
    (w : world) :
  can_make d w -> site_free d w -> files w !! input_file = Some (Plain text) ->
  let pure := run_pipeline net order now use_claude api_key claude (readlines text) in
  let ran := run_pipeline_io net order now api_key claude input_file d use_claude w in
  exists page summaries,
    snd pure = Some (page, summaries) /\
    ran.2 = Returns (data (fst pure)) /\
    files ran.1 !! path_join d "diary_data.json"
    = Some (JsonDoc (document (data (fst pure)))) /\
    files ran.1 !! path_join d "diary_data.json.gz"
    = Some (GzJsonDoc (document (data (fst pure)))) /\
    files ran.1 !! path_join d "index.html" = Some (Fixed IndexPage) /\
    files ran.1 !! path_join d "summary.html" = Some (SummaryHtml page) /\
    (forall p, (forall n, In n site_files -> p <> path_join d n) ->
               files ran.1 !! p = files w !! p) /\
    dirs ran.1 = dirs (with_dir d w) /\
    out ran.1 = out w ++ [Report (stats (fst pure))].
Proof.
  intros Hd Hfree Hin pure ran. subst ran.
  rewrite (run_pipeline_io_eq net order now api_key claude _ _ text _ _ Hd Hfree Hin).
  unfold pure, run_pipeline. cbn [fst snd]. rewrite generate_eq.
  destruct (site_written d use_claude (process net order now (readlines text))
              (with_dir d w)) as (W1 & W2 & W3 & W4).
  eexists _, _. split; [reflexivity|]. split; [reflexivity|].
  split; [exact W1|]. split; [exact W2|]. split; [exact W3|]. split; [exact W4|].
  split; [|split].
  - intros p Hp. rewrite site_frame by done. now rewrite with_dir_files.
  - reflexivity.
  - simpl. now rewrite with_dir_out.
Qed.


(** C36: a missing input file.  [main] of the processor tests for the file
    first: it prints the error, exits with status 1 and makes nothing; with
    a wrong number of arguments it prints the usage and exits with status 1.
    [run_pipeline] does not test: it makes the output directory and then
    raises [FileNotFoundError] from the processor. *)
Theorem missing_input_file (prog input_file d : string) (use_claude : bool)
    (argv : list string) (w : world) :
  files w !! input_file = None -> is_dir w input_file = false ->
  can_make d w -> input_file <> d -> length argv <> 2 ->
  process_diary_main net order now [prog; input_file] w
  = (say (Line ("Error: Input file '" ++ input_file ++ "' not found")) w,
     Raises (SystemExit 1)) /\
  process_diary_main net order now argv w
  = (World (dirs w) (files w) (out w ++ map Line process_diary_usage),
     Raises (SystemExit 1)) /\
  run_pipeline_io net order now api_key claude input_file d use_claude w
  = (with_dir d w, Raises (FileNotFoundError input_file)).
Proof.
  intros Hin Hnd Hd Hne Hl. split; [|split].
  - apply process_diary_main_missing; [|done]. unfold is_file. now rewrite Hin.
  - now apply process_diary_main_usage.
  - now apply run_pipeline_io_missing.
Qed.

(** The world after the warning of the summary generator, when it prints
    one. *)
Definition warned (argv : list string) (w : world) : world :=
  if mem_str "--use-claude" argv && no_key api_key
  then World (dirs w) (files w) (out w ++ map Line summary_generator_warning)
  else w.

Lemma summary_generator_main_eq (prog data_file : string) (rest : list string) (w : world) :
  summary_generator_main api_key claude (prog :: data_file :: rest) w
  = (data ← SummaryGenerator_init data_file "output";
     generate_io api_key claude (mem_str "--use-claude" (prog :: data_file :: rest))
       data "output";; mret tt) (warned (prog :: data_file :: rest) w).
Proof.
  unfold summary_generator_main, warned.
  destruct (mem_str "--use-claude" (prog :: data_file :: rest) && no_key api_key).
  - erewrite bind_returns; [reflexivity|].
    now erewrite bind_returns by apply mapM_print.
  - now erewrite bind_returns by reflexivity.
Qed.

Lemma warned_ready (d : string) (argv : list string) (w : world) :
  site_ready d w -> site_ready d (warned argv w).
Proof. unfold warned. now destruct (_ && _). Qed.

Lemma warned_files (argv : list string) (w : world) : files (warned argv w) = files w.
Proof. unfold warned. now destruct (_ && _). Qed.

(** The compressed dataset as the data file of the generators.  The
    index generator opens a name that ends in [.gz] through [gzip] and
    writes the index page; the summary generator has no such branch, reads
    the compressed bytes as text and raises [UnicodeDecodeError] without
    writing a page. *)
Theorem compressed_data_file (prog prog' : string) (rest : list string) (j : json)
    (w : world) :
  site_ready "output" w ->
  files w !! "output/diary_data.json.gz" = Some (GzJsonDoc j) ->
  html_generator_main [prog; "output/diary_data.json.gz"] w
  = (put "output/index.html" (Fixed IndexPage) w, Returns tt) /\
  summary_generator_main api_key claude (prog' :: "output/diary_data.json.gz" :: rest) w
  = (warned (prog' :: "output/diary_data.json.gz" :: rest) w, Raises UnicodeDecodeError).
Proof.
  intros Hw E. split.
  - unfold html_generator_main, generate_html_files, IndexPageGenerator_init, load_data.
    erewrite bind_returns.
    + apply (save_index_page_ready "output" w Hw).
    + erewrite bind_returns by (exact (mkdir_ready _ _ Hw)).
      now rewrite (bind_returns _ _ _ _ _ (read_file _ _ _ E)).
  - rewrite summary_generator_main_eq. unfold SummaryGenerator_init, load_summary_data.
    erewrite bind_raises; [reflexivity|].
    erewrite bind_returns by (exact (mkdir_ready _ _ (warned_ready _ _ _ Hw))).
    rewrite <- (warned_files (prog' :: "output/diary_data.json.gz" :: rest)) in E.
    now rewrite (bind_returns _ _ _ _ _ (read_file _ _ _ E)).
Qed.

End Claims.

(** ** Witnesses *)

(** A diary of three lines in the current directory, and nothing else. *)
Definition diary_text : string :=
  (spec_line ++ nl ++ "junk" ++ nl ++ post_line ++ nl)%string.

Definition diary_world : world := World ∅ {["diary.txt" := Plain diary_text]} [].

(** A world whose files all stand in the current directory. *)
Lemma fs_ok_flat (w : world) :
  dirs w = ∅ ->
  (forall p c, files w !! p = Some c -> parent p = "" /\ p <> "") -> fs_ok w.
Proof.
  intros Hd Hf. split.
  - intros p Hp. unfold is_file in Hp. destruct (files w !! p) as [c|] eqn:E; [|done].
    destruct (Hf p c E) as [_ Hne]. unfold is_dir. rewrite Hd.
    now rewrite (proj2 (String.eqb_neq p "") Hne).
  - intros d. rewrite Hd. set_solver.
  - intros p c E. now rewrite (proj1 (Hf p c E)).
Qed.

Lemma diary_world_ok : fs_ok diary_world.
Proof.
  apply fs_ok_flat; [reflexivity|]. intros p c E. cbn [diary_world files] in E.
  apply lookup_singleton_Some in E as [<- _]. now split.
Qed.

Lemma diary_world_free : site_free "output" diary_world.
Proof.
  intros n Hn. simpl in Hn. destruct Hn as [<-|[<-|[<-|[<-|[]]]]]; reflexivity.
Qed.

Lemma run_pipeline_io_refines_witness :
  let pure := run_pipeline net_demo [0] "now" false None (fun _ => ApiError)
                (readlines diary_text) in
  let ran := run_pipeline_io net_demo [0] "now" None (fun _ => ApiError)
               "diary.txt" "output" false diary_world in
  exists page summaries,
    snd pure = Some (page, summaries) /\
    ran.2 = Returns (data (fst pure)) /\
    files ran.1 !! path_join "output" "diary_data.json"
    = Some (JsonDoc (document (data (fst pure)))) /\
    files ran.1 !! path_join "output" "diary_data.json.gz"
    = Some (GzJsonDoc (document (data (fst pure)))) /\
    files ran.1 !! path_join "output" "index.html" = Some (Fixed IndexPage) /\
    files ran.1 !! path_join "output" "summary.html" = Some (SummaryHtml page) /\
    (forall p, (forall n, In n site_files -> p <> path_join "output" n) ->
               files ran.1 !! p = files diary_world !! p) /\
    dirs ran.1 = dirs (with_dir "output" diary_world) /\
    out ran.1 = out diary_world ++ [Report (stats (fst pure))].
Proof.
  apply (run_pipeline_io_refines net_demo [0] "now" None (fun _ => ApiError)
           "diary.txt" "output" diary_text false diary_world).
  - split; [reflexivity|]. right. split; reflexivity.
  - exact diary_world_free.
  - reflexivity.
Defined.


Lemma missing_input_file_witness :
  process_diary_main net_demo [0] "now" ["process_diary.py"; "nothing.txt"] diary_world
  = (say (Line "Error: Input file 'nothing.txt' not found") diary_world,
     Raises (SystemExit 1)) /\
  process_diary_main net_demo [0] "now" ["process_diary.py"] diary_world
  = (World (dirs diary_world) (files diary_world)
       (out diary_world ++ map Line process_diary_usage),
     Raises (SystemExit 1)) /\
  run_pipeline_io net_demo [0] "now" None (fun _ => ApiError)
    "nothing.txt" "output" false diary_world
  = (with_dir "output" diary_world, Raises (FileNotFoundError "nothing.txt")).
Proof.
  apply (missing_input_file net_demo [0] "now" None (fun _ => ApiError)
           "process_diary.py" "nothing.txt" "output" false ["process_diary.py"]
           diary_world).
  - reflexivity.
  - reflexivity.
  - split; [reflexivity|]. right. split; reflexivity.
  - discriminate.
  - simpl. lia.
Defined.

(** The world after the processor ran on the diary. *)
Definition processed_world : world :=
  (process_io net_demo [0] "now" "diary.txt" "output" diary_world).1.

Lemma processed_world_ready : site_ready "output" processed_world.
Proof.
  split; [reflexivity|]. split; [reflexivity|].
  intros n Hn. simpl in Hn. destruct Hn as [<-|[<-|[<-|[<-|[]]]]]; reflexivity.
Qed.

Lemma compressed_data_file_witness :
  html_generator_main ["generate_html.py"; "output/diary_data.json.gz"] processed_world
  = (put "output/index.html" (Fixed IndexPage) processed_world, Returns tt) /\
  summary_generator_main None (fun _ => ApiError)
    ["generate_summary.py"; "output/diary_data.json.gz"] processed_world
  = (warned None ["generate_summary.py"; "output/diary_data.json.gz"] processed_world,
     Raises UnicodeDecodeError).
Proof.
  apply (compressed_data_file None (fun _ => ApiError) "generate_html.py"
           "generate_summary.py" []
           (document (data (process net_demo [0] "now" (readlines diary_text))))
           processed_world).
  - exact processed_world_ready.
  - reflexivity.
Defined.
