(* ===== verification/Readme.v ===== *)
(** * Readme: the text [create_readme] writes

    [create_readme] of [src/master_pipeline.py] writes [README.md], a fixed
    text that tells a user how to run the programs and what they produce.
    This file holds the text, line by line and section by section
    ([readme_head] to [readme_license], [readme] together), and reads from
    it what it says of the programs:

    - [readme_theme_names]: the themes of the section Themes;
    - [readme_keyword_names]: the keywords of the section Keywords;
    - [readme_output_paths]: the files of the section Output Files;
    - [readme_input_lines]: the example lines of the section Input Format;
    - [readme_scripts]: the scripts the commands of the section Usage run.

    The theorem compares them with the taxonomy, the files [run_pipeline]
    writes, the parser and the files of the repository. *)

From S2P Require Import Prelude.
From S2P Require Import Text.
From S2P Require Import Paths.
From S2P Require Import Dict.
From S2P Require Import Taxonomy.
From S2P Require Import EntryParser.
From S2P Require Import Classifier.
From S2P Require Import IndexFilter.

#[local] Open Scope string_scope.
#[local] Open Scope list_scope.
#[local] Open Scope nat_scope.

(** ** The text *)

(** The double quote. *)
Definition dq : string := String dquote "".

Definition readme_head : list string :=
  [ "# Trump Administration Policy Tracker";
    "";
    "A comprehensive system for processing, tagging, and presenting news articles about the Trump administration's policies and actions.";
    "" ].

Definition readme_features : list string :=
  [ "## Features";
    "";
    "- **Automatic Tagging**: Categorizes articles into themes (broad categories) and keywords (specific topics)";
    "- **Interactive Filtering**: Web interface with dual-level filtering by themes and keywords";
    "- **Thematic Summaries**: Organized summary pages for each policy area";
    "- **URL-based State**: Filter selections are preserved in URLs for easy sharing";
    "- **Bluesky Support**: Special handling for Bluesky posts to fetch actual content";
    "- **Compressed Data**: Supports gzipped JSON for efficient loading";
    "" ].

Definition readme_installation : list string :=
  [ "## Installation";
    "";
    "1. Install Python 3.8 or higher";
    "2. Install dependencies:";
    "   ```bash";
    "   pip install -r requirements.txt";
    "   ```";
    "";
    "3. (Optional) For enhanced summaries using Claude API:";
    "   ```bash";
    "   export ANTHROPIC_API_KEY='your-api-key-here'";
    "   ```";
    "" ].

Definition readme_usage : list string :=
  [ "## Usage";
    "";
    "### Basic Processing";
    "";
    "Process your diary file and generate the website:";
    "";
    "```bash";
    ("python run_pipeline.py " ++ dq ++ "Trump diary days 0001-0200.txt" ++ dq)%string;
    "```";
    "";
    "### With Claude API for Better Summaries";
    "";
    "```bash";
    ("python run_pipeline.py " ++ dq ++ "Trump diary days 0001-0200.txt" ++ dq ++ " --use-claude")%string;
    "```";
    "";
    "### Individual Components";
    "";
    "You can also run components separately:";
    "";
    "```bash";
    "# Process and tag entries";
    ("python process_diary.py " ++ dq ++ "Trump diary days 0001-0200.txt" ++ dq)%string;
    "";
    "# Generate HTML pages";
    "python generate_html.py output/diary_data.json";
    "python generate_summary.py output/diary_data.json --use-claude";
    "```";
    "" ].

Definition readme_input_format : list string :=
  [ "## Input Format";
    "";
    "The input file should contain numbered entries with links:";
    "```";
    ("1. <a href=" ++ dq ++ "URL" ++ dq ++ ">Article Title</a>")%string;
    ("2. <a href=" ++ dq ++ "URL" ++ dq ++ ">Another Article</a>")%string;
    "...";
    "```";
    "" ].

Definition readme_output_files : list string :=
  [ "## Output Files";
    "";
    "- `output/diary_data.json` - Tagged entry data";
    "- `output/diary_data.json.gz` - Compressed version for production";
    "- `output/index.html` - Interactive chronological view";
    "- `output/summary.html` - Thematic summary page";
    "" ].

Definition readme_themes : list string :=
  [ "## Themes";
    "";
    "Articles are categorized into these themes:";
    "- **science**: NSF, NASA, research, climate";
    "- **health**: CDC, FDA, NIH, vaccines, public health";
    "- **education**: Universities, schools, students, academic freedom";
    "- **environment**: EPA, pollution, climate policy";
    "- **civil-society**: DEI, diversity, civil rights, democracy";
    "- **human-rights**: LGBTQ+, discrimination, religious freedom";
    "- **government**: Federal workforce, DOGE, efficiency initiatives";
    "- **justice**: FBI, DOJ, courts, investigations";
    "- **immigration**: ICE, deportations, refugees, visas";
    "- **trade**: Tariffs, trade agreements, imports/exports";
    "- **economy**: Taxes, budget, crypto, financial markets";
    "- **foreign-affairs**: Ukraine, Russia, NATO, international relations";
    "" ].

Definition readme_keywords : list string :=
  [ "## Keywords";
    "";
    "Specific entities and programs for granular filtering:";
    "- Agencies: doge, fbi, ice, epa, cdc, nasa, nsf, nih";
    "- Courts: supreme-court";
    "- People: musk, rfk-jr, hegseth";
    "- Universities: harvard, columbia";
    "- Programs: voice-of-america, peace-corps, social-security, veterans";
    "- Topics: tariffs, ukraine, russia, israel, lgbt, dei, climate, covid, abortion, crypto";
    "" ].

Definition readme_automation_with_claude_api : list string :=
  [ "## Automation with Claude API";
    "";
    "For repeatable processing of future batches, create a script:";
    "";
    "```python";
    "import os";
    "from anthropic import Anthropic";
    "";
    "client = Anthropic(api_key=os.environ['ANTHROPIC_API_KEY'])";
    "";
    "# Read your new entries";
    "with open('new_entries.txt', 'r') as f:";
    "    entries = f.read()";
    "";
    "# Have Claude process and tag them";
    "response = client.messages.create(";
    ("    model=" ++ dq ++ "claude-3-opus-20241022" ++ dq ++ ",")%string;
    "    max_tokens=4096,";
    "    messages=[{";
    ("        " ++ dq ++ "role" ++ dq ++ ": " ++ dq ++ "user" ++ dq ++ ",")%string;
    ("        " ++ dq ++ "content" ++ dq ++ ": f'''Please tag these news entries using the theme and keyword system.")%string;
    "        ";
    "        Themes: {themes_list}";
    "        Keywords: {keywords_list}";
    "        ";
    "        For each entry, assign 1-2 themes and up to 3 keywords.";
    "        ";
    "        Entries:";
    "        {entries}";
    "        ";
    ("        Return as JSON with structure: {{" ++ dq ++ "entries" ++ dq ++ ": [...]}}'''")%string;
    "    }]";
    ")";
    "```";
    "" ].

Definition readme_deployment : list string :=
  [ "## Deployment";
    "";
    "1. Upload all files in the `output/` directory to your web server";
    "2. Ensure your server supports gzip compression for .json.gz files";
    "3. No server-side processing needed - everything runs in the browser";
    "" ].

Definition readme_future_enhancements : list string :=
  [ "## Future Enhancements";
    "";
    "- [ ] Article archiving system";
    "- [ ] Automated daily processing";
    "- [ ] RSS feed generation";
    "- [ ] Search functionality";
    "- [ ] Data visualization charts";
    "- [ ] Mobile app version";
    "" ].

Definition readme_important_notes : list string :=
  [ "## Important Notes";
    "";
    "- **Accuracy**: All summaries should be factual and cite sources";
    "- **Bluesky**: Content fetching may require authentication in the future";
    "- **Rate Limiting**: Be mindful of API limits when fetching content";
    "- **Copyright**: Respect content licensing and fair use";
    "" ].

Definition readme_license : list string :=
  [ "## License";
    "";
    "This project is for historical documentation and research purposes." ].

Definition readme : list string :=
  readme_head
  ++ readme_features
  ++ readme_installation
  ++ readme_usage
  ++ readme_input_format
  ++ readme_output_files
  ++ readme_themes
  ++ readme_keywords
  ++ readme_automation_with_claude_api
  ++ readme_deployment
  ++ readme_future_enhancements
  ++ readme_important_notes
  ++ readme_license.

(** ** Reading the text *)

(** The text between the first two occurrences of a mark. *)
Definition between (mark : ascii) (s : string) : option string :=
  match span (not_char mark) s with
  | (_, String _ rest) =>
      match span (not_char mark) rest with
      | (inner, String _ _) => Some inner
      | _ => None
      end
  | _ => None
  end.

(** The lines of a list that are items ([- ...]), without the dash. *)
Definition items (lines : list string) : list string :=
  flat_map (fun l => match drop_prefix "- " l with Some r => [r] | None => [] end) lines.

(** [**name**: ...]: the name. *)
Definition bold_name (item : string) : list string :=
  match drop_prefix "**" item with
  | Some r => [fst (span (not_char "*") r)]
  | None => []
  end.

(** [Group: a, b, c]: the names after the colon. *)
Definition group_names (item : string) : list string :=
  match snd (span (not_char ":") item) with
  | String _ rest => map strip (split_on "," rest)
  | EmptyString => []
  end.

(** An item with a path between backquotes. *)
Definition code_path (item : string) : list string :=
  match between "`" item with
  | Some p => [p]
  | None => []
  end.

(** [python script arguments]: the script. *)
Definition script_of (line : string) : list string :=
  match drop_prefix "python " line with
  | Some r => [fst (span (not_char " ") r)]
  | None => []
  end.

Definition readme_theme_names : list string := flat_map bold_name (items readme_themes).

Definition readme_keyword_names : list string :=
  flat_map group_names (items readme_keywords).

Definition readme_output_paths : list string :=
  flat_map code_path (items readme_output_files).

(** The lines of the example that start with a number. *)
Definition readme_input_lines : list string :=
  filter (fun l => match l with
                   | String c _ => is_digit c
                   | EmptyString => false
                   end) readme_input_format.

Definition readme_scripts : list string := flat_map script_of readme_usage.

(** The programs of the repository. *)
Definition source_files : list string :=
  ["process_diary.py"; "master_pipeline.py"; "summary_generator.py"; "html_generator.py"].

(** The files [run_pipeline] writes, in the default output directory. *)
Definition default_site : list string :=
  map (path_join "output")
    ["diary_data.json"; "diary_data.json.gz"; "index.html"; "summary.html"].

(** ** Theorems *)

