(* ===== verification/PostPage.v ===== *)
(** * PostPage: the page of a post, as a document

    [fetch_bluesky_content] parses the body of the answer and asks the
    parsed page, selector by selector, for its first matching element.
    [Enricher] takes the page as the function [select_one] is on it.  This
    file gives pages that are documents: the tree of [Markup], on which
    [select_one] is the first element in document order that the selector
    matches.

    - [post_selectors]: the four selectors of the code, as selectors of
      [Markup]; printed, they are the strings of [content_selectors].
    - [get_text]: the text of an element, without comments and without the
      text of scripts and style sheets, as the parser's [get_text()] gives
      it for a [div].
    - [element_of], [soup_select_one], [page_of]: the page of [Enricher] that a
      document is.
    - [chosen]: the element the loop over the selectors stops at.

    The theorems: the content extracted from a document is the text, cut to
    500 characters, of the element the first selector with a match finds
    first in document order; the order of the selectors decides before the
    order of the document; an element of the class [post-content] also
    matches the third selector.

    The parsing of the text of a page into the tree and the HTTP exchange
    are the libraries'. *)

From S2P Require Import Prelude.
From S2P Require Import Text.
From S2P Require Import Dict.
From S2P Require Import EntryParser.
From S2P Require Import Classifier.
From S2P Require Import Enricher.
From S2P Require Import Dataset.
From S2P Require Import Summary.
From S2P Require Import Log.
From S2P Require Import Markup.

#[local] Open Scope string_scope.
#[local] Open Scope list_scope.
#[local] Open Scope nat_scope.

(** ** Definitions *)

(** The compounds of the four selectors: each selector is one compound. *)
Definition post_compounds : list compound :=
  [ [Markup.Tag "div"; AttrEq "data-testid" "postText"];
    [Markup.Tag "div"; Class "post-content"];
    [Markup.Tag "div"; AttrHas "class" "post"];
    [Markup.Tag "meta"; AttrEq "property" "og:description"] ].

Definition post_selectors : list selector := map (fun c => [c]) post_compounds.

(** The elements whose text [get_text()] leaves out. *)
Definition holds_code (name : string) : bool :=
  mem_str name ["script"; "style"; "template"].

(** [element.get_text()]. *)
Fixpoint get_text (n : node) : string :=
  match n with
  | Element name _ _ children =>
      if holds_code name then "" else String.concat "" (map get_text children)
  | Text s => s
  | Comment _ => ""
  | Raw html => html
  end.

(** What the loop reads of an element: [element.name == 'meta'],
    [element.get('content')], [element.get_text()]. *)
Definition element_of (n : node) : element :=
  if String.eqb (tagName n) "meta"
  then MetaTag (getAttribute "content" n)
  else Enricher.Tag (get_text n).

(** [soup.select_one(sel)] for the selectors of the program. *)
Definition soup_select_one (sel : string) (doc : node) : option node :=
  match find (fun s => String.eqb (show_selector s) sel) post_selectors with
  | Some s => querySelector s doc
  | None => None
  end.

(** The page a document is. *)
Definition page_of (doc : node) : page :=
  fun sel => option_map element_of (soup_select_one sel doc).

(** The element the loop stops at: for the first compound that matches an
    element of the document, the first element it matches. *)
Definition chosen (doc : node) : option node :=
  first_some (map (fun c d => find (matches_plain c) (elements d)) post_compounds) doc.

(** The answer with the status [status] whose body parses to [doc]. *)
Definition answered (status : nat) (doc : node) : response :=
  Answered status (Some (page_of doc)).

(** ** The selectors *)

Lemma post_selectors_text : map show_selector post_selectors = content_selectors.
Proof. reflexivity. Qed.

Lemma post_compounds_plain : Forall (fun c => plain c = true) post_compounds.
Proof. repeat constructor. Qed.

Lemma soup_select_one_compound (c : compound) (doc : node) :
  In c post_compounds ->
  soup_select_one (show_selector [c]) doc = find (matches_plain c) (elements doc).
Proof.
  intros Hc. rewrite <- querySelector_plain
    by (revert c Hc; apply Forall_forall, post_compounds_plain).
  simpl in Hc. destruct Hc as [<-|[<-|[<-|[<-|[]]]]]; reflexivity.
Qed.

(** ** The page of a document *)

Lemma first_element_among (cs : list compound) (doc : node) :
  incl cs post_compounds ->
  first_some (map (fun sel (pg : page) => pg sel) (map (fun c => show_selector [c]) cs))
    (page_of doc)
  = option_map element_of
      (first_some (map (fun c d => find (matches_plain c) (elements d)) cs) doc).
Proof.
  induction cs as [|c cs IH]; intros Hin; [reflexivity|].
  cbn [map first_some]. unfold page_of at 1.
  rewrite soup_select_one_compound by (apply Hin; now left).
  destruct (find (matches_plain c) (elements doc)); [reflexivity|].
  apply IH. now apply incl_cons_inv in Hin.
Qed.

Lemma first_element_page_of (doc : node) :
  first_element (page_of doc) = option_map element_of (chosen doc).
Proof. apply (first_element_among post_compounds), incl_refl. Qed.

Lemma chosen_element (doc n : node) :
  chosen doc = Some n ->
  In n (elements doc) /\ exists c, In c post_compounds /\ matches_plain c n = true.
Proof.
  unfold chosen. intros Hc. apply first_some_Some in Hc as (pre & f & post & E & Hf & _).
  assert (In f (map (fun c d => find (matches_plain c) (elements d)) post_compounds)) as Hin
    by (rewrite E; apply in_elt).
  apply in_map_iff in Hin as (c & <- & Hin).
  apply find_some in Hf as [He Hm]. eauto.
Qed.

(** What the loop returns on a document. *)
Lemma extract_content_page_of (doc : node) :
  extract_content (page_of doc)
  = match chosen doc with
    | Some n => option_map (slice_to 500) (element_content (element_of n))
    | None => None
    end.
Proof.
  unfold extract_content. rewrite first_element_page_of.
  destruct (chosen doc) as [n|]; [|reflexivity]. cbn [option_map].
  now destruct (element_content (element_of n)).
Qed.

(** The element the loop stops at is the first match of a selector before
    which no selector has a match. *)
Lemma chosen_first (doc n : node) :
  chosen doc = Some n ->
  exists pre c post,
    post_compounds = pre ++ c :: post /\
    find (matches_plain c) (elements doc) = Some n /\
    Forall (fun c' => find (matches_plain c') (elements doc) = None) pre.
Proof.
  unfold chosen. generalize post_compounds as cs.
  induction cs as [|c cs IH]; [discriminate|]. cbn [map first_some].
  destruct (find (matches_plain c) (elements doc)) as [m|] eqn:Ef.
  - intros [= <-]. now exists [], c, cs.
  - intros Hc. destruct (IH Hc) as (pre & c' & post & -> & Hf & Hpre).
    exists (c :: pre), c', post. auto.
Qed.

(** ** Classes and class attributes *)

(** A token of a string occurs in the string. *)
Lemma tokens_from_occurs (t cur s : string) :
  In t (tokens_from cur s) -> t <in> (cur ++ s)%string.
Proof.
  revert cur; induction s as [|c s IH]; intros cur; cbn [tokens_from].
  - destruct (String.eqb cur ""); [intros []|]. intros [<-|[]].
    apply contains_append_r, contains_refl.
  - destruct (is_space c).
    + assert (In t (tokens_from "" s) -> t <in> (cur ++ String c s)%string) as Hrest.
      { intros Ht%IH. apply contains_append_l.
        change (String c s) with (String c "" ++ s)%string. now apply contains_append_l. }
      destruct (String.eqb cur ""); [exact Hrest|].
      intros [<-|Ht]; [apply contains_append_r, contains_refl | auto].
    + intros Ht%IH. now rewrite append_assoc in Ht.
Qed.

Lemma class_occurs (c : string) (n : node) :
  mem_str c (classList n) = true ->
  exists v, getAttribute "class" n = Some v /\ c <in> v.
Proof.
  unfold classList. destruct (getAttribute "class" n) as [v|]; [|discriminate].
  intros Hc%mem_str_In. exists v. split; [reflexivity|].
  now apply tokens_from_occurs in Hc.
Qed.

(** What the second selector matches, the third matches too. *)
Lemma post_content_subsumed (n : node) :
  matches_plain [Markup.Tag "div"; Class "post-content"] n = true ->
  matches_plain [Markup.Tag "div"; AttrHas "class" "post"] n = true.
Proof.
  unfold matches_plain, matches_compound. cbn [fst snd forallb holds].
  rewrite !andb_true_r, !andb_true_iff. intros (He & Hd & Hc).
  destruct (class_occurs _ _ Hc) as (v & -> & Hv). repeat split; try assumption.
  apply (contains_trans "post" "post-content"); [reflexivity | exact Hv].
Qed.

(** ** The fetch of a document *)

Lemma outcome_of_answered (doc : node) :
  outcome_of (answered 200 doc)
  = match chosen doc with
    | Some n => option_map (slice_to 500) (element_content (element_of n))
    | None => None
    end.
Proof. apply extract_content_page_of. Qed.

Lemma fetch_log_answered (why u : string) (doc : node) :
  fetch_log why u (answered 200 doc)
  = match chosen doc with
    | Some n =>
        match element_content (element_of n) with
        | Some _ => []
        | None => [fetch_error u not_subscriptable]
        end
    | None => [no_content u]
    end.
Proof.
  unfold answered, fetch_log. cbn [Nat.eqb]. rewrite first_element_page_of.
  now destruct (chosen doc).
Qed.

(** ** Theorems *)

(** C16: The content of a document.  The four selectors, printed, are the
    strings of the code, and on a document each gives the first element in
    document order that it matches.  The loop stops at the first selector
    that has a match, whatever stands earlier in the document, and returns
    the text of that element without comments and scripts, or the
    [content] of a [meta], cut to 500 characters; it warns when no selector
    has a match and fails on a [meta] without [content]. *)
Theorem post_document_content (doc : node) :
  map show_selector post_selectors = content_selectors /\
  (forall c, In c post_compounds ->
     page_of doc (show_selector [c])
     = option_map element_of (find (matches_plain c) (elements doc))) /\
  (forall n, chosen doc = Some n ->
     In n (elements doc) /\
     exists pre c post,
       post_compounds = pre ++ c :: post /\
       find (matches_plain c) (elements doc) = Some n /\
       Forall (fun c' => find (matches_plain c') (elements doc) = None) pre) /\
  outcome_of (answered 200 doc)
  = match chosen doc with
    | Some n => option_map (slice_to 500) (element_content (element_of n))
    | None => None
    end /\
  (forall why u,
     fetch_log why u (answered 200 doc)
     = match chosen doc with
       | Some n =>
           match element_content (element_of n) with
           | Some _ => []
           | None => [fetch_error u not_subscriptable]
           end
       | None => [no_content u]
       end).
Proof.
  split; [apply post_selectors_text|]. split.
  { intros c Hc. unfold page_of. now rewrite soup_select_one_compound. }
  split; [|split; [apply outcome_of_answered | intros; apply fetch_log_answered]].
  intros n Hn. split; [now apply chosen_element | now apply chosen_first].
Qed.

(** ** Examples *)

(** The page of a post: a description in the head, a counter, a script and
    the text of the post. *)
Definition post_document (with_text : bool) : node :=
  el "html" []
    [ el "head" []
        [ el "meta" [("property", "og:description"); ("content", "Tariffs on steel")] [] ];
      el "body" []
        (el "div" [("class", "repost-count")] [Text "12"]
         :: el "script" [] [Text "let n = 12;"]
         :: if with_text
            then [ el "div" [("data-testid", "postText")]
                     [ Text "The court "; el "b" [] [Text "blocks"];
                       Comment "edited"; Text " the tariff order" ] ]
            else []) ].

(** The text of the post wins over the counter that stands before it. *)
Example post_text_first :
  outcome_of (answered 200 (post_document true))
  = Some "The court blocks the tariff order".
Proof. reflexivity. Qed.

(** Without the text of the post the third selector finds the counter,
    whose class has [post] in it, and the description is not read. *)
Example counter_before_description :
  outcome_of (answered 200 (post_document false)) = Some "12".
Proof. reflexivity. Qed.

(** A description without [content] ends the fetch with an error. *)
Example description_without_content :
  let doc := el "html" [] [el "meta" [("property", "og:description")] []] in
  outcome_of (answered 200 doc) = None /\
  fetch_log "" "u" (answered 200 doc) = [fetch_error "u" not_subscriptable] /\
  fetch_log "" "u" (answered 200 (el "html" [] [])) = [no_content "u"].
Proof. repeat split. Qed.
