(* ===== verification/Site.v ===== *)
(** * Site: the pages in the browser, on the files the pipeline wrote

    The site is the output directory behind a static server.  The script of
    the index page fetches [diary_data.json.gz] and, when the answer is not
    ok, [diary_data.json], both relative to the page; the summary page links
    each section to the index page with the theme of the section as the
    filter.  This file puts the server between [Files] and [IndexFilter]:

    - [serve]: the answer of a static server for a file of the world.  The
      README asks for a server that decompresses [.json.gz] files; whether
      it does is the parameter [decompress].
    - [open_site]: [loadData] on the answers of the server.
    - [view_all]: the query of the link a section of the summary page ends
      with.
    - [document_of]: the document a browser makes of a file of the site.

    The theorems: after [run_pipeline] the index page opens from the files
    and agrees with the summary page that was written; and the page the
    link of a section opens shows the entries that carry the theme at any
    position, which are at least the entries the section counts; and every
    handler and link of the two pages leads to a handler of the script, to
    a file of the site or to a section of the page; the query of a link is
    read from its text by the parser of [Query], and a reload of the index
    page reads the address the script wrote. *)

From stdpp Require Import gmap strings list.
#[local] Set Warnings "-clear-no-such-hyp".

From S2P Require Import Prelude.
From S2P Require Import Text.
From S2P Require Import Dict.
From S2P Require Import Taxonomy.
From S2P Require Import EntryParser.
From S2P Require Import Classifier.
From S2P Require Import Enricher.
From S2P Require Import Dataset.
From S2P Require Import Summary.
From S2P Require Import IndexFilter.
From S2P Require Import Pipeline.
From S2P Require Import Paths.
From S2P Require Import Except.
From S2P Require Import Json.
From S2P Require Import Files.
From S2P Require Import Markup.
From S2P Require Import IndexDom.
From S2P Require Import SummaryDom.
From S2P Require Import Readme.
From S2P Require Import Query.

#[local] Open Scope string_scope.
#[local] Open Scope list_scope.
#[local] Open Scope nat_scope.

(** ** Definitions *)

(** The answer to [fetch(p)] and what [response.json()] makes of its body:
    a file that is not there is answered with a status that is not ok; a
    JSON text is read; a compressed JSON text is read when the server
    decompresses it; any other body cannot be read. *)
Definition serve (decompress : bool) (w : world) (p : string) : fetched :=
  match files w !! p with
  | Some (JsonDoc j) => Response true (dataset_of j)
  | Some (GzJsonDoc j) => Response true (if decompress then dataset_of j else None)
  | Some _ => Response true None
  | None => Response false None
  end.

(** The index page of the directory [d], opened with a query. *)
Definition open_site (decompress : bool) (w : world) (d : string) (query : dict string)
  : option index_page :=
  loadData (serve decompress w (path_join d "diary_data.json.gz"))
           (serve decompress w (path_join d "diary_data.json")) query.

(** [index.html?themes={theme_key}]. *)
Definition view_all (s : section) : dict string := [("themes", sec_theme s)].

(** The document of a file: the index page as the file has it, the summary
    page with the date of the run. *)
Definition document_of (generated : string) (c : content) : option node :=
  match c with
  | Fixed IndexPage => Some index_static
  | SummaryHtml page => Some (summary_dom generated page)
  | _ => None
  end.

(** The lines of a text of the program: the README is the text [Readme]
    holds. *)
Definition fixed_lines (c : content) : option (list string) :=
  match c with
  | Fixed Readme => Some readme
  | _ => None
  end.

(** Where a link of the summary page leads: to the section of a theme on
    the page, or to the index page with a query that the script reads as
    the theme of a section, on which the page opens from the files of [w]
    in [d] and shows the entries the section counts among others. *)
Definition leads (w : world) (d generated : string) (page : summary_page) (h : string)
  : Prop :=
  exists s, In s (page_sections page) /\
    ((h = String.append "#" (sec_theme s) /\
      getElementById (sec_theme s) (summary_dom generated page) = Some (section_node s)) \/
     (h = index_link (view_all s) /\
      URLSearchParams (href_query h) = view_all s /\
      exists p, open_site true w d (URLSearchParams (href_query h)) = Some p /\
                selectedThemes p = [sec_theme s] /\ sec_count s <= visible_count p)).

(** ** The README

    [create_readme] writes into the current directory, and what it writes
    is the text [Readme] compares with the programs. *)
Lemma create_readme_writes (w : world) :
  is_dir w "README.md" = false -> is_file w "" = false ->
  create_readme w = (put "README.md" (Fixed Readme) w, Returns tt) /\
  files (create_readme w).1 !! "README.md" ≫= fixed_lines = Some readme.
Proof.
  intros Hd Hf. unfold create_readme, write.
  change (parent "README.md") with "". rewrite Hd, Hf.
  split; [reflexivity|]. cbn. now rewrite lookup_insert_eq.
Qed.

(** ** The page a link opens *)

Lemma theme_info_names : Forall (fun kv => is_name (fst kv) = true) THEME_INFO.
Proof.
  apply Forall_forall. intros kv Hin.
  repeat (destruct Hin as [<-|Hin]; [reflexivity|]). destruct Hin.
Qed.

Lemma filed_under_carries (k : string) (e : NewsEntry) :
  filed_under k e = true -> carries k e = true.
Proof.
  unfold filed_under, primary, carries. destruct (themes e) as [|t ts]; [done|].
  simpl. intros ->%String.eqb_eq. unfold mem_str. simpl. now rewrite String.eqb_refl.
Qed.

Section Served.

Context `{SetOrder}.
Variable net : nat -> response.
Variable order : list nat.
Variable now : string.
Variable api_key : option string.
Variable claude : prompt -> api_answer.

(** The answers of the server on the site [run_pipeline] wrote. *)
Lemma serve_site (decompress : bool) (d : string) (use_claude : bool) (r : outcome)
    (w : world) :
  let w' := site api_key claude d use_claude r w in
  serve decompress w' (path_join d "diary_data.json") = Response true (Some (data r)) /\
  serve decompress w' (path_join d "diary_data.json.gz")
  = Response true (if decompress then Some (data r) else None).
Proof.
  intros w'. subst w'.
  destruct (site_written api_key claude d use_claude r w) as (W1 & W2 & _).
  cbv zeta in W1, W2. unfold serve.
  rewrite W1, W2, dataset_of_document_eq. now destruct decompress.
Qed.

Lemma open_site_eq (d : string) (use_claude : bool) (r : outcome) (w : world)
    (query : dict string) :
  open_site true (site api_key claude d use_claude r w) d query
  = open_index (Response true (Some (data r))) (data r) query /\
  open_site false (site api_key claude d use_claude r w) d query = None.
Proof.
  unfold open_site.
  destruct (serve_site true d use_claude r w) as [-> ->].
  destruct (serve_site false d use_claude r w) as [-> ->]. now split.
Qed.

(** The page the link of a section opens. *)
Lemma view_all_opens (use_claude : bool) (d : dataset) (plain : fetched) (s : section) :
  dataset_ok d ->
  In s (page_sections (generate_summary_html (entries d)
                         (summaries_for use_claude api_key claude (entries d)))) ->
  exists p,
    loadData (Response true (Some d)) plain (view_all s) = Some p /\
    selectedThemes p = [sec_theme s] /\
    visible_count p = length (filter (carries (sec_theme s)) (entries d)) /\
    visible_count p
    = sec_count s
      + length (filter (fun e => carries (sec_theme s) e && negb (filed_under (sec_theme s) e))
                  (entries d)).
Proof.
  intros Hok Hs. destruct (dataset_data_ok d Hok) as [Hd _].
  rewrite page_sections_eq in Hs. apply in_map_iff in Hs as (kv & <- & Hkv).
  apply filter_In in Hkv as [Hin _]. rewrite section_count. cbn [sec_theme section_of].
  pose proof theme_info_names as Hn. rewrite Forall_forall in Hn.
  destruct (one_theme_page d (fst kv) Hd (Hn kv Hin)) as [Hsel Hv].
  exists (renderEntries (initializeControls d [("themes", fst kv)])).
  split; [reflexivity|]. split; [exact Hsel|]. split; [exact Hv|].
  rewrite Hv. apply filter_length_weaker, filed_under_carries.
Qed.

(** Reading the address the script wrote gives its query back: a reload
    of the page is a reload on the query. *)
Lemma reload_address (p : index_page) :
  renderEntries (initializeControls (diaryData p) (URLSearchParams (search_of (location p))))
  = reload p.
Proof. now rewrite URLSearchParams_search_of, parse_serialize. Qed.

(** The themes of the summary page can be written into a link as they
    are, and the script reads the link of a section as its theme. *)
Lemma theme_info_plain : Forall (fun kv => plain_text (fst kv) = true) THEME_INFO.
Proof. repeat constructor. Qed.

Lemma link_query (k : string) :
  plain_text k = true ->
  URLSearchParams (href_query (index_link [("themes", k)])) = [("themes", k)].
Proof.
  intros Hk. change (index_link [("themes", k)])
    with (String.append "index.html" (String "?" (raw_query [("themes", k)]))).
  rewrite href_query_file by reflexivity.
  rewrite raw_query_serialize by (repeat constructor; exact Hk).
  change (URLSearchParams (String "?" ?q)) with (parse q). apply parse_serialize.
Qed.

Lemma section_theme_plain (use_claude : bool) (es : list NewsEntry) (s : section) :
  In s (page_sections (generate_summary_html es
                         (summaries_for use_claude api_key claude es))) ->
  plain_text (sec_theme s) = true.
Proof.
  rewrite page_sections_eq. intros (kv & <- & Hkv)%in_map_iff.
  apply filter_In in Hkv as [Hin _]. cbn [sec_theme section_of].
  pose proof theme_info_plain as Hp. rewrite Forall_forall in Hp. auto.
Qed.

(** Every link of the summary page of the site leads somewhere. *)
Lemma summary_leads (d generated : string) (use_claude : bool) (r : outcome) (w : world) :
  dataset_ok (data r) ->
  Forall (leads (site api_key claude d use_claude r w) d generated
            (generate_summary_html (entries (data r))
               (summaries_for use_claude api_key claude (entries (data r)))))
    (links (summary_dom generated
              (generate_summary_html (entries (data r))
                 (summaries_for use_claude api_key claude (entries (data r)))))).
Proof.
  intros Hok. set (page := generate_summary_html _ _).
  assert (toc_ok page) as Htoc by apply generated_toc_ok.
  rewrite summary_links, (proj1 Htoc), map_map. cbn [fst].
  apply Forall_app. split; apply Forall_map, Forall_forall; intros s Hs; exists s;
    (split; [exact Hs|]).
  - left. split; [reflexivity|].
    now rewrite getElementById_select, (fragment_section generated page s Htoc Hs).
  - right. split; [reflexivity|].
    rewrite (link_query (sec_theme s))
      by apply (section_theme_plain use_claude (entries (data r))), Hs.
    split; [reflexivity|]. fold (view_all s).
    destruct (view_all_opens use_claude (data r) (Response true (Some (data r))) s Hok Hs)
      as (p & Hp & Hsel & _ & Hv).
    exists p. rewrite (proj1 (open_site_eq d use_claude r w (view_all s))).
    split; [exact Hp|]. split; [exact Hsel | lia].
Qed.

End Served.

(** ** Theorems *)

Section Claims.

Context `{SetOrder}.
Variable net : nat -> response.
Variable order : list nat.
Variable now : string.
Variable api_key : option string.
Variable claude : prompt -> api_answer.

(** C4: The site, end to end.  After [run_pipeline] on a text file, the
    index page served from the output directory loads the dataset when the
    server decompresses the compressed file, keeps its invariant on every
    page a visitor can reach, shows as many entries as the sections of the
    summary page that was written count, and gives the number of entries
    the summary page announces; when the server does not decompress, the
    page ends in its error message although the plain file is there. *)
Theorem site_opens (input_file d text : string) (use_claude : bool) (w : world) :
  can_make d w -> site_free d w -> files w !! input_file = Some (Plain text) ->
  let w' := (run_pipeline_io net order now api_key claude input_file d use_claude w).1 in
  exists page p0,
    files w' !! path_join d "summary.html" = Some (SummaryHtml page) /\
    open_site true w' d [] = Some p0 /\
    (forall p, reachable p0 p -> page_ok p) /\
    visible_count p0 = list_sum (map sec_count (page_sections page)) /\
    total_count p0 = page_total page /\
    open_site false w' d [] = None.
Proof.
  intros Hd Hfree Hin w'. subst w'.
  rewrite (run_pipeline_io_eq net order now api_key claude _ _ text _ _ Hd Hfree Hin).
  cbn [fst]. set (r := process net order now (readlines text)).
  destruct (site_written api_key claude d use_claude r (with_dir d w)) as (_ & _ & _ & W).
  destruct (open_site_eq api_key claude d use_claude r (with_dir d w) []) as [-> ->].
  destruct (dataset_site use_claude api_key claude (data r) (Response true (Some (data r))))
    as (p0 & Ho & Hr & Hv & Ht); [apply process_contract | now left |].
  eexists _, p0. split; [exact W|]. split; [exact Ho|]. split; [exact Hr|].
  split; [exact Hv|]. split; [exact Ht | reflexivity].
Qed.

(** The link of a section.  For a dataset that honours its contract,
    the link at the end of a section of the summary page opens the index
    page with the theme of the section as the only selected theme; the page
    shows the entries that carry the theme at any position, which are the
    entries the section counts, filed under the theme as their first, and
    those that carry it as their second theme. *)
Theorem view_all_link (use_claude : bool) (d : dataset) (plain : fetched) (s : section) :
  dataset_ok d ->
  In s (page_sections (generate_summary_html (entries d)
                         (summaries_for use_claude api_key claude (entries d)))) ->
  exists p,
    loadData (Response true (Some d)) plain (view_all s) = Some p /\
    selectedThemes p = [sec_theme s] /\
    visible_count p = length (filter (carries (sec_theme s)) (entries d)) /\
    visible_count p
    = sec_count s
      + length (filter (fun e => carries (sec_theme s) e && negb (filed_under (sec_theme s) e))
                  (entries d)).
Proof. apply view_all_opens. Qed.

(** C12: the links of the site.  After [run_pipeline] on a text file the
    output directory holds the two pages; the handlers of the index page
    are the four buttons, which call handlers of the script, and the tab
    that leads to [summary.html]; the one handler of the summary page leads
    to [index.html]; and every link of the summary page leads to the
    section of its theme on the page or to the index page with a query
    that the script reads, from the text of the link, as the theme of a
    section; on that query the page opens from the files that were written
    and shows at least the entries the section counts. *)
Theorem site_navigation (input_file d text generated : string) (use_claude : bool)
    (w : world) :
  can_make d w -> site_free d w -> files w !! input_file = Some (Plain text) ->
  let w' := (run_pipeline_io net order now api_key claude input_file d use_claude w).1 in
  exists page,
    (files w' !! path_join d "index.html" ≫= document_of generated) = Some index_static /\
    (files w' !! path_join d "summary.html" ≫= document_of generated)
    = Some (summary_dom generated page) /\
    Forall (fun c => (exists ev, handler_of c = Some ev) \/
                     navigation c = Some "summary.html") (onclicks index_static) /\
    Forall (fun c => navigation c = Some "index.html")
      (onclicks (summary_dom generated page)) /\
    Forall (leads w' d generated page) (links (summary_dom generated page)).
Proof.
  intros Hd Hfree Hin w'. subst w'.
  rewrite (run_pipeline_io_eq net order now api_key claude _ _ text _ _ Hd Hfree Hin).
  cbn [fst]. set (r := process net order now (readlines text)).
  destruct (site_written api_key claude d use_claude r (with_dir d w)) as (_ & _ & Wi & Ws).
  cbv zeta in Wi, Ws. eexists. rewrite Wi, Ws. split; [reflexivity|].
  split; [reflexivity|]. split; [|split].
  - rewrite index_onclicks by constructor. apply Forall_cons; [now right|].
    repeat (apply Forall_cons; [left; eexists; reflexivity|]). apply Forall_nil.
  - rewrite summary_onclicks. apply Forall_cons; [reflexivity | apply Forall_nil].
  - apply summary_leads, process_contract.
Qed.

End Claims.

(** ** Witnesses *)

(** An entry on trade filed under justice, its first theme. *)
Definition court_entry : NewsEntry :=
  mkNewsEntry 1 "https://news.example/1" "Court blocks tariff" None ["justice"; "trade"] [] None.

Definition tariff_entry : NewsEntry :=
  mkNewsEntry 2 "https://news.example/2" "Tariff on steel" None ["trade"] ["tariffs"] None.

Definition trade_data : dataset := generate_json_data "now" [court_entry; tariff_entry].

Ltac tags_from_tables :=
  repeat (constructor; [apply mem_str_In; reflexivity|]); constructor.

Ltac entry_by_parts e :=
  split; [|split]; [| |exact I];
  [ split; [cbn; lia|]; split; [discriminate|]; split; [discriminate | exact I]
  | apply tags_ok_intro; cbn [themes keywords e];
    (split; [cbn; lia|]; split; [apply nodupb_NoDup; reflexivity | tags_from_tables]) ].

Lemma court_entry_ok : entry_ok court_entry.
Proof. entry_by_parts court_entry. Qed.

Lemma tariff_entry_ok : entry_ok tariff_entry.
Proof. entry_by_parts tariff_entry. Qed.

Lemma trade_data_ok : dataset_ok trade_data.
Proof.
  split; [reflexivity|]. split; [reflexivity|]. split; [reflexivity|]. split.
  - constructor; [exact court_entry_ok | constructor; [exact tariff_entry_ok | constructor]].
  - cbn [trade_data generate_json_data entries map id court_entry tariff_entry].
    repeat constructor.
Qed.

(** The section on trade of the summary page of [trade_data]. *)
Definition trade_section : section :=
  nth 1 (page_sections (generate_summary_html (entries trade_data)
                          (summaries_for false None (fun _ => ApiError) (entries trade_data))))
    (mkSection "" "" "" 0).

Lemma site_opens_witness :
  let w' := (run_pipeline_io net_demo [0] "now" None (fun _ => ApiError)
               "diary.txt" "output" false diary_world).1 in
  exists page p0,
    files w' !! path_join "output" "summary.html" = Some (SummaryHtml page) /\
    open_site true w' "output" [] = Some p0 /\
    (forall p, reachable p0 p -> page_ok p) /\
    visible_count p0 = list_sum (map sec_count (page_sections page)) /\
    total_count p0 = page_total page /\
    open_site false w' "output" [] = None.
Proof.
  apply (site_opens net_demo [0] "now" None (fun _ => ApiError)
           "diary.txt" "output" diary_text false diary_world).
  - split; [reflexivity|]. right. split; reflexivity.
  - exact diary_world_free.
  - reflexivity.
Defined.

Lemma site_navigation_witness :
  let w' := (run_pipeline_io net_demo [0] "now" None (fun _ => ApiError)
               "diary.txt" "output" false diary_world).1 in
  exists page,
    (files w' !! path_join "output" "index.html" ≫= document_of "August 09, 2025")
    = Some index_static /\
    (files w' !! path_join "output" "summary.html" ≫= document_of "August 09, 2025")
    = Some (summary_dom "August 09, 2025" page) /\
    Forall (fun c => (exists ev, handler_of c = Some ev) \/
                     navigation c = Some "summary.html") (onclicks index_static) /\
    Forall (fun c => navigation c = Some "index.html")
      (onclicks (summary_dom "August 09, 2025" page)) /\
    Forall (leads w' "output" "August 09, 2025" page)
      (links (summary_dom "August 09, 2025" page)).
Proof.
  apply (site_navigation net_demo [0] "now" None (fun _ => ApiError)
           "diary.txt" "output" diary_text "August 09, 2025" false diary_world).
  - split; [reflexivity|]. right. split; reflexivity.
  - exact diary_world_free.
  - reflexivity.
Defined.

Lemma view_all_link_witness :
  exists p,
    loadData (Response true (Some trade_data)) FetchError (view_all trade_section) = Some p /\
    selectedThemes p = [sec_theme trade_section] /\
    visible_count p = length (filter (carries (sec_theme trade_section)) (entries trade_data)) /\
    visible_count p
    = sec_count trade_section
      + length (filter (fun e => carries (sec_theme trade_section) e
                                 && negb (filed_under (sec_theme trade_section) e))
                  (entries trade_data)).
Proof.
  apply (view_all_link None (fun _ => ApiError) false trade_data FetchError trade_section).
  - exact trade_data_ok.
  - right. left. reflexivity.
Defined.

(** The link of that section says one article and opens a page of two. *)
Lemma view_all_more :
  sec_theme trade_section = "trade" /\ sec_count trade_section = 1 /\
  option_map visible_count
    (loadData (Response true (Some trade_data)) FetchError (view_all trade_section))
  = Some 2.
Proof. vm_compute. auto. Qed.
